(** * Google charging policy manager and MAX77779 scratch space

    Shallow embedding of [google_cpm.c] (source registry, selection policy,
    PPS negotiation step, direct-charge session controller, property
    interface) and of [max77779_sp.c] (scratch-space storage by tag),
    followed by the properties established about them.

    Driver state is the record [gcpm_drv]; everything outside the driver
    (charger devices, the charger-mode election, the DC enable line, the
    work queue, the PPS negotiator) lives in the record [world].  What a
    collaborator answers is not decided by the driver: the answers are
    read, call after call, from a script carried by the world, so that a
    statement quantified over all worlds covers every behaviour of the
    collaborators. *)

From Stdlib Require Import ZArith List Bool Lia.
Import ListNotations.
Local Open Scope Z_scope.

(** ** C integers *)

(** Value of a 32-bit pattern read as [int] and as [u32]. *)
Definition to_int (z : Z) : Z := (z + 2 ^ 31) mod 2 ^ 32 - 2 ^ 31.
Definition to_u32 (z : Z) : Z := z mod 2 ^ 32.
Definition to_size_t (z : Z) : Z := z mod 2 ^ 64.

(** ** errno values used by the two drivers *)

Definition ENOENT : Z := 2.
Definition EIO : Z := 5.
Definition EAGAIN : Z := 11.
Definition EBUSY : Z := 16.
Definition ENODEV : Z := 19.
Definition EINVAL : Z := 22.
Definition ERANGE : Z := 34.

(** ** Constants of google_cpm.c *)

Definition GCPM_DEFAULT_CHARGER : Z := 0.
Definition GCPM_INDEX_DC_ENABLE : Z := 1.
Definition GCPM_MAX_CHARGERS : Z := 4.

(** [enum gcpm_dc_state_t] *)
Definition DC_DISABLED : Z := -1.
Definition DC_IDLE : Z := 0.
Definition DC_ENABLE : Z := 1.
Definition DC_RUNNING : Z := 2.
Definition DC_ENABLE_PASSTHROUGH : Z := 3.
Definition DC_PASSTHROUGH : Z := 4.

Definition DC_ENABLE_DELAY_MS : Z := 5000.
Definition DC_RUN_DELAY_MS : Z := 9000.
Definition PPS_PROG_TIMEOUT_S : Z := 10.
Definition PPS_PROG_RETRY_MS : Z := 5000.
Definition PPS_ACTIVE_RETRY_MS : Z := 1500.
Definition PPS_ACTIVE_TIMEOUT_S : Z := 25.
Definition PPS_ERROR_RETRY_MS : Z := 1000.
Definition DC_ERROR_RETRY_MS : Z := PPS_ERROR_RETRY_MS.

Definition PPS_INDEX_NOT_SUPP : Z := -1.
Definition PPS_INDEX_TCPM : Z := 1.
Definition PPS_INDEX_WLC : Z := 2.
Definition PPS_INDEX_MAX : Z := 2.

(** ** Power supplies and their properties *)

(** A [struct power_supply *] that is not NULL; NULL is [None]. *)
Definition psy : Type := nat.

(** The property keys the driver names, and all the others. *)
Inductive psp : Type :=
| POWER_SUPPLY_PROP_ONLINE
| POWER_SUPPLY_PROP_VOLTAGE_MAX
| POWER_SUPPLY_PROP_VOLTAGE_NOW
| POWER_SUPPLY_PROP_CURRENT_MAX
| POWER_SUPPLY_PROP_CONSTANT_CHARGE_CURRENT_MAX
| POWER_SUPPLY_PROP_CONSTANT_CHARGE_VOLTAGE_MAX
| GBMS_PROP_CHARGING_ENABLED
| GBMS_PROP_CHARGE_DISABLE
| GBMS_PROP_TAPER_CONTROL
| GBMS_PROP_CHARGE_CHARGER_STATE
| POWER_SUPPLY_PROP_other (key : Z).

Definition psp_eq_dec (a b : psp) : {a = b} + {a <> b}.
Proof. decide equality. apply Z.eq_dec. Defined.

(** ** PPS negotiator sessions *)

(** [enum pd_pps_stage] of google_dc_pps.h, by name. *)
Inductive pps_stage : Type :=
| PPS_NOTSUPP
| PPS_DISABLED
| PPS_NONE
| PPS_AVAILABLE
| PPS_ACTIVE.

Definition pps_stage_eqb (a b : pps_stage) : bool :=
  match a, b with
  | PPS_NOTSUPP, PPS_NOTSUPP
  | PPS_DISABLED, PPS_DISABLED
  | PPS_NONE, PPS_NONE
  | PPS_AVAILABLE, PPS_AVAILABLE
  | PPS_ACTIVE, PPS_ACTIVE => true
  | _, _ => false
  end.

Definition pps_stage_eq_dec (a b : pps_stage) : {a = b} + {a <> b}.
Proof. decide equality. Defined.

(** The members of [struct pd_pps_data] that google_cpm.c reads. *)
Record pd_pps_data : Type := {
  stage : pps_stage;
  pd_online : Z;
  pps_psy : option psy
}.

(** The two sessions embedded in the driver state. *)
Inductive pps_source : Type := TCPM | WLC.

(** What one call into the PPS negotiator answers: the value it returns
    and the stage and online level it leaves in the session. *)
Record pps_answer : Type := {
  pa_ret : Z;
  pa_stage : pps_stage;
  pa_online : Z
}.

Inductive pps_call : Type :=
| CALL_pps_work
| CALL_pps_update_adapter
| CALL_pps_prog_offline.

(** ** The world outside the driver *)

(** Calls that reach a collaborator, as recorded in the trace. *)
Inductive event : Type :=
| EvSetProp (d : psy) (p : psp) (v : Z) (rc : Z)
| EvGetProp (d : psy) (p : psp) (v : Z)
| EvGetHandle (rc : Z)
| EvVote (enabled : bool) (rc : Z)
| EvGpio (line : Z) (v : Z)
| EvPps (c : pps_call) (s : pps_source) (a : pps_answer)
| EvPpsOnline (s : pps_source) (v : Z)
| EvChargerState (d : psy) (rc : Z) (v : Z).

(** [props]: last value written to each property of each supply;
    [dc_vote]: the vote of this driver for direct charge in the
    charger-mode election; [gpio]: level of each output line; [script]:
    the values the next collaborator calls return, in call order (0 once
    exhausted); [pps_script]: the same for calls into the PPS negotiator
    (returns 0 and leaves the session alone once exhausted); [trace]:
    calls made so far, newest first; [now]: boot time in seconds;
    [wq_select], [wq_pps]: delay in ms of the pending run of each delayed
    work, [None] when not queued; [pm_usage]: runtime-PM usage count. *)
Record world : Type := {
  props : psy -> psp -> Z;
  dc_vote : bool;
  gpio : Z -> Z;
  script : list Z;
  pps_script : list pps_answer;
  trace : list event;
  now : Z;
  wq_select : option Z;
  wq_pps : option Z;
  pm_usage : Z
}.

Definition set_props (w : world) (v : psy -> psp -> Z) : world :=
  {| props := v; dc_vote := dc_vote w; gpio := gpio w; script := script w;
     pps_script := pps_script w; trace := trace w; now := now w;
     wq_select := wq_select w; wq_pps := wq_pps w; pm_usage := pm_usage w |}.

Definition set_dc_vote (w : world) (v : bool) : world :=
  {| props := props w; dc_vote := v; gpio := gpio w; script := script w;
     pps_script := pps_script w; trace := trace w; now := now w;
     wq_select := wq_select w; wq_pps := wq_pps w; pm_usage := pm_usage w |}.

Definition set_gpio (w : world) (v : Z -> Z) : world :=
  {| props := props w; dc_vote := dc_vote w; gpio := v; script := script w;
     pps_script := pps_script w; trace := trace w; now := now w;
     wq_select := wq_select w; wq_pps := wq_pps w; pm_usage := pm_usage w |}.

Definition set_script (w : world) (v : list Z) : world :=
  {| props := props w; dc_vote := dc_vote w; gpio := gpio w; script := v;
     pps_script := pps_script w; trace := trace w; now := now w;
     wq_select := wq_select w; wq_pps := wq_pps w; pm_usage := pm_usage w |}.

Definition set_pps_script (w : world) (v : list pps_answer) : world :=
  {| props := props w; dc_vote := dc_vote w; gpio := gpio w;
     script := script w; pps_script := v; trace := trace w; now := now w;
     wq_select := wq_select w; wq_pps := wq_pps w; pm_usage := pm_usage w |}.

Definition set_trace (w : world) (v : list event) : world :=
  {| props := props w; dc_vote := dc_vote w; gpio := gpio w;
     script := script w; pps_script := pps_script w; trace := v;
     now := now w; wq_select := wq_select w; wq_pps := wq_pps w;
     pm_usage := pm_usage w |}.

Definition set_wq_select (w : world) (v : option Z) : world :=
  {| props := props w; dc_vote := dc_vote w; gpio := gpio w;
     script := script w; pps_script := pps_script w; trace := trace w;
     now := now w; wq_select := v; wq_pps := wq_pps w;
     pm_usage := pm_usage w |}.

Definition set_wq_pps (w : world) (v : option Z) : world :=
  {| props := props w; dc_vote := dc_vote w; gpio := gpio w;
     script := script w; pps_script := pps_script w; trace := trace w;
     now := now w; wq_select := wq_select w; wq_pps := v;
     pm_usage := pm_usage w |}.

Definition set_pm_usage (w : world) (v : Z) : world :=
  {| props := props w; dc_vote := dc_vote w; gpio := gpio w;
     script := script w; pps_script := pps_script w; trace := trace w;
     now := now w; wq_select := wq_select w; wq_pps := wq_pps w;
     pm_usage := v |}.


(** ** The driver state: [struct gcpm_drv]

    [gbms_mode] is [true] once the handle of the charger-mode election has
    been obtained.  The [u32] members hold their unsigned value. *)
Record gcpm_drv : Type := {
  chg_psy_avail : list (option psy);
  chg_psy_active : Z;
  chg_psy_count : Z;
  force_active : Z;
  tcpm_pps_data : pd_pps_data;
  wlc_pps_data : pd_pps_data;
  out_ua : Z;
  out_uv : Z;
  dcen_gpio : Z;
  dcen_gpio_default : Z;
  pps_index : Z;
  dc_index : Z;
  dc_state : Z;
  dc_start_time : Z;
  new_dc_limit : bool;
  taper_control : bool;
  dc_limit_vbatt_low : Z;
  dc_limit_vbatt_min : Z;
  dc_limit_vbatt_high : Z;
  dc_limit_vbatt_max : Z;
  dc_limit_demand : Z;
  cc_max : Z;
  fv_uv : Z;
  dc_init_complete : bool;
  init_complete : bool;
  resume_complete : bool;
  gbms_mode : bool
}.

Definition set_chg_psy_active (g : gcpm_drv) (v : Z) : gcpm_drv :=
  {| chg_psy_avail := chg_psy_avail g; chg_psy_active := v;
     chg_psy_count := chg_psy_count g; force_active := force_active g;
     tcpm_pps_data := tcpm_pps_data g; wlc_pps_data := wlc_pps_data g;
     out_ua := out_ua g; out_uv := out_uv g; dcen_gpio := dcen_gpio g;
     dcen_gpio_default := dcen_gpio_default g; pps_index := pps_index g;
     dc_index := dc_index g; dc_state := dc_state g;
     dc_start_time := dc_start_time g; new_dc_limit := new_dc_limit g;
     taper_control := taper_control g;
     dc_limit_vbatt_low := dc_limit_vbatt_low g;
     dc_limit_vbatt_min := dc_limit_vbatt_min g;
     dc_limit_vbatt_high := dc_limit_vbatt_high g;
     dc_limit_vbatt_max := dc_limit_vbatt_max g;
     dc_limit_demand := dc_limit_demand g; cc_max := cc_max g;
     fv_uv := fv_uv g; dc_init_complete := dc_init_complete g;
     init_complete := init_complete g; resume_complete := resume_complete g;
     gbms_mode := gbms_mode g |}.

Definition set_tcpm_pps_data (g : gcpm_drv) (v : pd_pps_data) : gcpm_drv :=
  {| chg_psy_avail := chg_psy_avail g; chg_psy_active := chg_psy_active g;
     chg_psy_count := chg_psy_count g; force_active := force_active g;
     tcpm_pps_data := v; wlc_pps_data := wlc_pps_data g; out_ua := out_ua g;
     out_uv := out_uv g; dcen_gpio := dcen_gpio g;
     dcen_gpio_default := dcen_gpio_default g; pps_index := pps_index g;
     dc_index := dc_index g; dc_state := dc_state g;
     dc_start_time := dc_start_time g; new_dc_limit := new_dc_limit g;
     taper_control := taper_control g;
     dc_limit_vbatt_low := dc_limit_vbatt_low g;
     dc_limit_vbatt_min := dc_limit_vbatt_min g;
     dc_limit_vbatt_high := dc_limit_vbatt_high g;
     dc_limit_vbatt_max := dc_limit_vbatt_max g;
     dc_limit_demand := dc_limit_demand g; cc_max := cc_max g;
     fv_uv := fv_uv g; dc_init_complete := dc_init_complete g;
     init_complete := init_complete g; resume_complete := resume_complete g;
     gbms_mode := gbms_mode g |}.

Definition set_wlc_pps_data (g : gcpm_drv) (v : pd_pps_data) : gcpm_drv :=
  {| chg_psy_avail := chg_psy_avail g; chg_psy_active := chg_psy_active g;
     chg_psy_count := chg_psy_count g; force_active := force_active g;
     tcpm_pps_data := tcpm_pps_data g; wlc_pps_data := v;
     out_ua := out_ua g; out_uv := out_uv g; dcen_gpio := dcen_gpio g;
     dcen_gpio_default := dcen_gpio_default g; pps_index := pps_index g;
     dc_index := dc_index g; dc_state := dc_state g;
     dc_start_time := dc_start_time g; new_dc_limit := new_dc_limit g;
     taper_control := taper_control g;
     dc_limit_vbatt_low := dc_limit_vbatt_low g;
     dc_limit_vbatt_min := dc_limit_vbatt_min g;
     dc_limit_vbatt_high := dc_limit_vbatt_high g;
     dc_limit_vbatt_max := dc_limit_vbatt_max g;
     dc_limit_demand := dc_limit_demand g; cc_max := cc_max g;
     fv_uv := fv_uv g; dc_init_complete := dc_init_complete g;
     init_complete := init_complete g; resume_complete := resume_complete g;
     gbms_mode := gbms_mode g |}.

Definition set_out_ua (g : gcpm_drv) (v : Z) : gcpm_drv :=
  {| chg_psy_avail := chg_psy_avail g; chg_psy_active := chg_psy_active g;
     chg_psy_count := chg_psy_count g; force_active := force_active g;
     tcpm_pps_data := tcpm_pps_data g; wlc_pps_data := wlc_pps_data g;
     out_ua := v; out_uv := out_uv g; dcen_gpio := dcen_gpio g;
     dcen_gpio_default := dcen_gpio_default g; pps_index := pps_index g;
     dc_index := dc_index g; dc_state := dc_state g;
     dc_start_time := dc_start_time g; new_dc_limit := new_dc_limit g;
     taper_control := taper_control g;
     dc_limit_vbatt_low := dc_limit_vbatt_low g;
     dc_limit_vbatt_min := dc_limit_vbatt_min g;
     dc_limit_vbatt_high := dc_limit_vbatt_high g;
     dc_limit_vbatt_max := dc_limit_vbatt_max g;
     dc_limit_demand := dc_limit_demand g; cc_max := cc_max g;
     fv_uv := fv_uv g; dc_init_complete := dc_init_complete g;
     init_complete := init_complete g; resume_complete := resume_complete g;
     gbms_mode := gbms_mode g |}.

Definition set_out_uv (g : gcpm_drv) (v : Z) : gcpm_drv :=
  {| chg_psy_avail := chg_psy_avail g; chg_psy_active := chg_psy_active g;
     chg_psy_count := chg_psy_count g; force_active := force_active g;
     tcpm_pps_data := tcpm_pps_data g; wlc_pps_data := wlc_pps_data g;
     out_ua := out_ua g; out_uv := v; dcen_gpio := dcen_gpio g;
     dcen_gpio_default := dcen_gpio_default g; pps_index := pps_index g;
     dc_index := dc_index g; dc_state := dc_state g;
     dc_start_time := dc_start_time g; new_dc_limit := new_dc_limit g;
     taper_control := taper_control g;
     dc_limit_vbatt_low := dc_limit_vbatt_low g;
     dc_limit_vbatt_min := dc_limit_vbatt_min g;
     dc_limit_vbatt_high := dc_limit_vbatt_high g;
     dc_limit_vbatt_max := dc_limit_vbatt_max g;
     dc_limit_demand := dc_limit_demand g; cc_max := cc_max g;
     fv_uv := fv_uv g; dc_init_complete := dc_init_complete g;
     init_complete := init_complete g; resume_complete := resume_complete g;
     gbms_mode := gbms_mode g |}.

Definition set_pps_index (g : gcpm_drv) (v : Z) : gcpm_drv :=
  {| chg_psy_avail := chg_psy_avail g; chg_psy_active := chg_psy_active g;
     chg_psy_count := chg_psy_count g; force_active := force_active g;
     tcpm_pps_data := tcpm_pps_data g; wlc_pps_data := wlc_pps_data g;
     out_ua := out_ua g; out_uv := out_uv g; dcen_gpio := dcen_gpio g;
     dcen_gpio_default := dcen_gpio_default g; pps_index := v;
     dc_index := dc_index g; dc_state := dc_state g;
     dc_start_time := dc_start_time g; new_dc_limit := new_dc_limit g;
     taper_control := taper_control g;
     dc_limit_vbatt_low := dc_limit_vbatt_low g;
     dc_limit_vbatt_min := dc_limit_vbatt_min g;
     dc_limit_vbatt_high := dc_limit_vbatt_high g;
     dc_limit_vbatt_max := dc_limit_vbatt_max g;
     dc_limit_demand := dc_limit_demand g; cc_max := cc_max g;
     fv_uv := fv_uv g; dc_init_complete := dc_init_complete g;
     init_complete := init_complete g; resume_complete := resume_complete g;
     gbms_mode := gbms_mode g |}.

Definition set_dc_index (g : gcpm_drv) (v : Z) : gcpm_drv :=
  {| chg_psy_avail := chg_psy_avail g; chg_psy_active := chg_psy_active g;
     chg_psy_count := chg_psy_count g; force_active := force_active g;
     tcpm_pps_data := tcpm_pps_data g; wlc_pps_data := wlc_pps_data g;
     out_ua := out_ua g; out_uv := out_uv g; dcen_gpio := dcen_gpio g;
     dcen_gpio_default := dcen_gpio_default g; pps_index := pps_index g;
     dc_index := v; dc_state := dc_state g;
     dc_start_time := dc_start_time g; new_dc_limit := new_dc_limit g;
     taper_control := taper_control g;
     dc_limit_vbatt_low := dc_limit_vbatt_low g;
     dc_limit_vbatt_min := dc_limit_vbatt_min g;
     dc_limit_vbatt_high := dc_limit_vbatt_high g;
     dc_limit_vbatt_max := dc_limit_vbatt_max g;
     dc_limit_demand := dc_limit_demand g; cc_max := cc_max g;
     fv_uv := fv_uv g; dc_init_complete := dc_init_complete g;
     init_complete := init_complete g; resume_complete := resume_complete g;
     gbms_mode := gbms_mode g |}.

Definition set_dc_state (g : gcpm_drv) (v : Z) : gcpm_drv :=
  {| chg_psy_avail := chg_psy_avail g; chg_psy_active := chg_psy_active g;
     chg_psy_count := chg_psy_count g; force_active := force_active g;
     tcpm_pps_data := tcpm_pps_data g; wlc_pps_data := wlc_pps_data g;
     out_ua := out_ua g; out_uv := out_uv g; dcen_gpio := dcen_gpio g;
     dcen_gpio_default := dcen_gpio_default g; pps_index := pps_index g;
     dc_index := dc_index g; dc_state := v;
     dc_start_time := dc_start_time g; new_dc_limit := new_dc_limit g;
     taper_control := taper_control g;
     dc_limit_vbatt_low := dc_limit_vbatt_low g;
     dc_limit_vbatt_min := dc_limit_vbatt_min g;
     dc_limit_vbatt_high := dc_limit_vbatt_high g;
     dc_limit_vbatt_max := dc_limit_vbatt_max g;
     dc_limit_demand := dc_limit_demand g; cc_max := cc_max g;
     fv_uv := fv_uv g; dc_init_complete := dc_init_complete g;
     init_complete := init_complete g; resume_complete := resume_complete g;
     gbms_mode := gbms_mode g |}.

Definition set_dc_start_time (g : gcpm_drv) (v : Z) : gcpm_drv :=
  {| chg_psy_avail := chg_psy_avail g; chg_psy_active := chg_psy_active g;
     chg_psy_count := chg_psy_count g; force_active := force_active g;
     tcpm_pps_data := tcpm_pps_data g; wlc_pps_data := wlc_pps_data g;
     out_ua := out_ua g; out_uv := out_uv g; dcen_gpio := dcen_gpio g;
     dcen_gpio_default := dcen_gpio_default g; pps_index := pps_index g;
     dc_index := dc_index g; dc_state := dc_state g; dc_start_time := v;
     new_dc_limit := new_dc_limit g; taper_control := taper_control g;
     dc_limit_vbatt_low := dc_limit_vbatt_low g;
     dc_limit_vbatt_min := dc_limit_vbatt_min g;
     dc_limit_vbatt_high := dc_limit_vbatt_high g;
     dc_limit_vbatt_max := dc_limit_vbatt_max g;
     dc_limit_demand := dc_limit_demand g; cc_max := cc_max g;
     fv_uv := fv_uv g; dc_init_complete := dc_init_complete g;
     init_complete := init_complete g; resume_complete := resume_complete g;
     gbms_mode := gbms_mode g |}.

Definition set_new_dc_limit (g : gcpm_drv) (v : bool) : gcpm_drv :=
  {| chg_psy_avail := chg_psy_avail g; chg_psy_active := chg_psy_active g;
     chg_psy_count := chg_psy_count g; force_active := force_active g;
     tcpm_pps_data := tcpm_pps_data g; wlc_pps_data := wlc_pps_data g;
     out_ua := out_ua g; out_uv := out_uv g; dcen_gpio := dcen_gpio g;
     dcen_gpio_default := dcen_gpio_default g; pps_index := pps_index g;
     dc_index := dc_index g; dc_state := dc_state g;
     dc_start_time := dc_start_time g; new_dc_limit := v;
     taper_control := taper_control g;
     dc_limit_vbatt_low := dc_limit_vbatt_low g;
     dc_limit_vbatt_min := dc_limit_vbatt_min g;
     dc_limit_vbatt_high := dc_limit_vbatt_high g;
     dc_limit_vbatt_max := dc_limit_vbatt_max g;
     dc_limit_demand := dc_limit_demand g; cc_max := cc_max g;
     fv_uv := fv_uv g; dc_init_complete := dc_init_complete g;
     init_complete := init_complete g; resume_complete := resume_complete g;
     gbms_mode := gbms_mode g |}.

Definition set_taper_control (g : gcpm_drv) (v : bool) : gcpm_drv :=
  {| chg_psy_avail := chg_psy_avail g; chg_psy_active := chg_psy_active g;
     chg_psy_count := chg_psy_count g; force_active := force_active g;
     tcpm_pps_data := tcpm_pps_data g; wlc_pps_data := wlc_pps_data g;
     out_ua := out_ua g; out_uv := out_uv g; dcen_gpio := dcen_gpio g;
     dcen_gpio_default := dcen_gpio_default g; pps_index := pps_index g;
     dc_index := dc_index g; dc_state := dc_state g;
     dc_start_time := dc_start_time g; new_dc_limit := new_dc_limit g;
     taper_control := v; dc_limit_vbatt_low := dc_limit_vbatt_low g;
     dc_limit_vbatt_min := dc_limit_vbatt_min g;
     dc_limit_vbatt_high := dc_limit_vbatt_high g;
     dc_limit_vbatt_max := dc_limit_vbatt_max g;
     dc_limit_demand := dc_limit_demand g; cc_max := cc_max g;
     fv_uv := fv_uv g; dc_init_complete := dc_init_complete g;
     init_complete := init_complete g; resume_complete := resume_complete g;
     gbms_mode := gbms_mode g |}.

Definition set_cc_max (g : gcpm_drv) (v : Z) : gcpm_drv :=
  {| chg_psy_avail := chg_psy_avail g; chg_psy_active := chg_psy_active g;
     chg_psy_count := chg_psy_count g; force_active := force_active g;
     tcpm_pps_data := tcpm_pps_data g; wlc_pps_data := wlc_pps_data g;
     out_ua := out_ua g; out_uv := out_uv g; dcen_gpio := dcen_gpio g;
     dcen_gpio_default := dcen_gpio_default g; pps_index := pps_index g;
     dc_index := dc_index g; dc_state := dc_state g;
     dc_start_time := dc_start_time g; new_dc_limit := new_dc_limit g;
     taper_control := taper_control g;
     dc_limit_vbatt_low := dc_limit_vbatt_low g;
     dc_limit_vbatt_min := dc_limit_vbatt_min g;
     dc_limit_vbatt_high := dc_limit_vbatt_high g;
     dc_limit_vbatt_max := dc_limit_vbatt_max g;
     dc_limit_demand := dc_limit_demand g; cc_max := v; fv_uv := fv_uv g;
     dc_init_complete := dc_init_complete g;
     init_complete := init_complete g; resume_complete := resume_complete g;
     gbms_mode := gbms_mode g |}.

Definition set_fv_uv (g : gcpm_drv) (v : Z) : gcpm_drv :=
  {| chg_psy_avail := chg_psy_avail g; chg_psy_active := chg_psy_active g;
     chg_psy_count := chg_psy_count g; force_active := force_active g;
     tcpm_pps_data := tcpm_pps_data g; wlc_pps_data := wlc_pps_data g;
     out_ua := out_ua g; out_uv := out_uv g; dcen_gpio := dcen_gpio g;
     dcen_gpio_default := dcen_gpio_default g; pps_index := pps_index g;
     dc_index := dc_index g; dc_state := dc_state g;
     dc_start_time := dc_start_time g; new_dc_limit := new_dc_limit g;
     taper_control := taper_control g;
     dc_limit_vbatt_low := dc_limit_vbatt_low g;
     dc_limit_vbatt_min := dc_limit_vbatt_min g;
     dc_limit_vbatt_high := dc_limit_vbatt_high g;
     dc_limit_vbatt_max := dc_limit_vbatt_max g;
     dc_limit_demand := dc_limit_demand g; cc_max := cc_max g; fv_uv := v;
     dc_init_complete := dc_init_complete g;
     init_complete := init_complete g; resume_complete := resume_complete g;
     gbms_mode := gbms_mode g |}.

Definition set_gbms_mode (g : gcpm_drv) (v : bool) : gcpm_drv :=
  {| chg_psy_avail := chg_psy_avail g; chg_psy_active := chg_psy_active g;
     chg_psy_count := chg_psy_count g; force_active := force_active g;
     tcpm_pps_data := tcpm_pps_data g; wlc_pps_data := wlc_pps_data g;
     out_ua := out_ua g; out_uv := out_uv g; dcen_gpio := dcen_gpio g;
     dcen_gpio_default := dcen_gpio_default g; pps_index := pps_index g;
     dc_index := dc_index g; dc_state := dc_state g;
     dc_start_time := dc_start_time g; new_dc_limit := new_dc_limit g;
     taper_control := taper_control g;
     dc_limit_vbatt_low := dc_limit_vbatt_low g;
     dc_limit_vbatt_min := dc_limit_vbatt_min g;
     dc_limit_vbatt_high := dc_limit_vbatt_high g;
     dc_limit_vbatt_max := dc_limit_vbatt_max g;
     dc_limit_demand := dc_limit_demand g; cc_max := cc_max g;
     fv_uv := fv_uv g; dc_init_complete := dc_init_complete g;
     init_complete := init_complete g; resume_complete := resume_complete g;
     gbms_mode := v |}.

Definition set_pps_data (g : gcpm_drv) (s : pps_source) (v : pd_pps_data)
  : gcpm_drv :=
  match s with
  | TCPM => set_tcpm_pps_data g v
  | WLC => set_wlc_pps_data g v
  end.

Definition get_pps_data (g : gcpm_drv) (s : pps_source) : pd_pps_data :=
  match s with
  | TCPM => tcpm_pps_data g
  | WLC => wlc_pps_data g
  end.

(** ** Collaborator calls *)

Definition record (e : event) (w : world) : world :=
  set_trace w (e :: trace w).

(** Next scripted answer. *)
Definition next_answer (w : world) : Z * world :=
  match script w with
  | [] => (0, w)
  | r :: rest => (r, set_script w rest)
  end.

Definition next_pps_answer (pps : pd_pps_data) (w : world)
  : pps_answer * world :=
  match pps_script w with
  | [] => ({| pa_ret := 0; pa_stage := stage pps; pa_online := pd_online pps |},
           w)
  | a :: rest => (a, set_pps_script w rest)
  end.

Definition write_prop (st : psy -> psp -> Z) (d : psy) (p : psp) (v : Z)
  : psy -> psp -> Z :=
  fun d' p' =>
    if Nat.eqb d' d then (if psp_eq_dec p' p then v else st d' p')
    else st d' p'.

(** [power_supply_set_property]: the supply accepts the value (and holds
    it from then on) or refuses it with a negative code. *)
Definition power_supply_set_property (w : world) (d : psy) (p : psp) (v : Z)
  : Z * world :=
  let (rc, w1) := next_answer w in
  let w2 := if rc <? 0 then w1 else set_props w1 (write_prop (props w1) d p v) in
  (rc, record (EvSetProp d p v rc) w2).

(** [power_supply_get_property]: return code, then the value read. *)
Definition power_supply_get_property (w : world) (d : psy) (p : psp) (pval : Z)
  : Z * Z * world :=
  let (rc, w1) := next_answer w in
  if rc <? 0 then (rc, pval, record (EvGetProp d p rc) w1)
  else
    let (v, w2) := next_answer w1 in
    (rc, v, record (EvGetProp d p v) w2).

(** Modelled from the spec: google_psy.h is not among the sources.
    [GPSY_SET_PROP] is the source collaborator's
    [set_property(key, value) -> ok | error]: 0, or the negative code of
    [power_supply_set_property]. *)
Definition GPSY_SET_PROP (w : world) (d : psy) (p : psp) (v : Z) : Z * world :=
  let (rc, w1) := power_supply_set_property w d p v in
  (if rc <? 0 then rc else 0, w1).

(** Modelled from the spec: google_psy.h is not among the sources.
    [GPSY_GET_PROP] is the source collaborator's
    [get_property(key) -> value | error]: the value, or a negative code. *)
Definition GPSY_GET_PROP (w : world) (d : psy) (p : psp) : Z * world :=
  let (v, w1) := next_answer w in
  (v, record (EvGetProp d p v) w1).

(** [gvotable_election_get_handle]: a negative answer stands for an error
    pointer or NULL. *)
Definition gvotable_election_get_handle (w : world) : Z * world :=
  let (rc, w1) := next_answer w in
  (rc, record (EvGetHandle rc) w1).

(** [gvotable_cast_vote] of "GCPM" for [GBMS_CHGR_MODE_CHGR_DC]. *)
Definition gvotable_cast_vote (w : world) (enabled : bool) : Z * world :=
  let (rc, w1) := next_answer w in
  let w2 := if rc <? 0 then w1 else set_dc_vote w1 enabled in
  (rc, record (EvVote enabled rc) w2).

Definition gpio_set_value (w : world) (line : Z) (v : Z) : world :=
  record (EvGpio line v)
         (set_gpio w (fun l => if l =? line then v else gpio w l)).

(** The two delayed works of the driver. *)
Inductive delayed_work : Type := select_work | pps_work_item.

Definition pending (w : world) (k : delayed_work) : option Z :=
  match k with
  | select_work => wq_select w
  | pps_work_item => wq_pps w
  end.

Definition set_pending (w : world) (k : delayed_work) (v : option Z) : world :=
  match k with
  | select_work => set_wq_select w v
  | pps_work_item => set_wq_pps w v
  end.

(** [schedule_delayed_work]: queues the work unless it is already pending. *)
Definition schedule_delayed_work (w : world) (k : delayed_work) (ms : Z)
  : world :=
  match pending w k with
  | Some _ => w
  | None => set_pending w k (Some ms)
  end.

(** [mod_delayed_work]: queues the work, or changes the delay of the
    pending run. *)
Definition mod_delayed_work (w : world) (k : delayed_work) (ms : Z) : world :=
  set_pending w k (Some ms).

Definition pm_runtime_get_sync (w : world) : world :=
  set_pm_usage w (pm_usage w + 1).

Definition pm_runtime_put_sync (w : world) : world :=
  set_pm_usage w (pm_usage w - 1).

Definition get_boot_sec (w : world) : Z := now w.

(** *** The PPS negotiator (google_dc_pps.c, not among the sources) *)

(** Modelled from the spec: the functions of google_dc_pps.c are not
    among the sources.  A call into the negotiator is the PPS
    collaborator's [negotiate_step() -> next_poll_ms | error] (and its
    likes): it returns a next-poll interval or a negative value, and may
    move the session to any stage; both are read from [pps_script]. *)
Definition pps_call_step (c : pps_call) (g : gcpm_drv) (w : world)
  (s : pps_source) : Z * gcpm_drv * world :=
  let pps := get_pps_data g s in
  let (a, w1) := next_pps_answer pps w in
  let pps' := {| stage := pa_stage a; pd_online := pa_online a;
                 pps_psy := pps_psy pps |} in
  (pa_ret a, set_pps_data g s pps', record (EvPps c s a) w1).

(** [pps_work]: one negotiation step of a session. *)
Definition pps_work := pps_call_step CALL_pps_work.

(** [pps_update_adapter (pps, -1, -1, psy)]: keep-alive of the contract
    ([update_request]). *)
Definition pps_update_adapter := pps_call_step CALL_pps_update_adapter.

(** [pps_prog_offline]: asks the source to return to its passive state
    ([go_offline]). *)
Definition pps_prog_offline := pps_call_step CALL_pps_prog_offline.

(** Modelled from the spec: [pps_check_online] of google_dc_pps.c is not
    among the sources; [is_online() -> bool], answered by the source. *)
Definition pps_check_online (g : gcpm_drv) (w : world) (s : pps_source)
  : bool * world :=
  let (v, w1) := next_answer w in
  (negb (v =? 0), record (EvPpsOnline s v) w1).

(** Modelled from the spec: [pps_init_state] of google_dc_pps.c is not
    among the sources; "resets both negotiator sessions to [None]". *)
Definition pps_init_state (pps : pd_pps_data) : pd_pps_data :=
  {| stage := PPS_NONE; pd_online := pd_online pps; pps_psy := pps_psy pps |}.

(** ** Source registry *)

(** [gcpm->chg_psy_avail[index]]; the array has [GCPM_MAX_CHARGERS]
    entries, an entry outside the list reads as NULL. *)
Definition chg_psy_at (g : gcpm_drv) (index : Z) : option psy :=
  if index <? 0 then None
  else nth (Z.to_nat index) (chg_psy_avail g) None.

Definition gcpm_chg_get_default (g : gcpm_drv) : option psy :=
  chg_psy_at g GCPM_DEFAULT_CHARGER.

Definition gcpm_chg_get_active (g : gcpm_drv) : option psy :=
  if chg_psy_active g =? -1 then None
  else chg_psy_at g (chg_psy_active g).

Definition gcpm_chg_ping (g : gcpm_drv) (w : world) (index : Z) (online : bool)
  : Z * gcpm_drv * world :=
  match chg_psy_at g index with
  | None => (0, g, w)
  | Some chg_psy =>
      let (ret, w1) := GPSY_SET_PROP w chg_psy POWER_SUPPLY_PROP_ONLINE 0 in
      (0, g, w1)
  end.

Definition gcpm_chg_offline (g : gcpm_drv) (w : world) : Z * gcpm_drv * world :=
  match gcpm_chg_get_active g with
  | None => (0, g, w)
  | Some chg_psy =>
      let (ret, w1) := GPSY_SET_PROP w chg_psy GBMS_PROP_CHARGING_ENABLED 0 in
      let (ret, w2) :=
        if ret =? 0 then GPSY_SET_PROP w1 chg_psy POWER_SUPPLY_PROP_ONLINE 0
        else (ret, w1) in
      let g1 := if ret =? 0 then set_chg_psy_active g (-1) else g in
      (ret, g1, w2)
  end.

Definition gcpm_chg_set_online (g : gcpm_drv) (w : world) (index : Z)
  : Z * gcpm_drv * world :=
  let index_old := chg_psy_active g in
  if (index <? 0) || (chg_psy_count g <=? index) then (- ERANGE, g, w)
  else if index =? index_old then (0, g, w)
  else
    match chg_psy_at g index with
    | None => (- EINVAL, g, w)
    | Some active =>
        let '(ret, g1, w1) := gcpm_chg_offline g w in
        if ret <? 0 then (- EIO, g1, w1)
        else
          let (ret, w2) := GPSY_SET_PROP w1 active POWER_SUPPLY_PROP_ONLINE 1 in
          if ret <? 0 then (ret, g1, w2)
          else (ret, set_chg_psy_active g1 index, w2)
    end.

(** ** Direct-charge hardware *)

Definition gcpm_dc_enable (g : gcpm_drv) (w : world) (enabled : bool)
  : Z * gcpm_drv * world :=
  if gbms_mode g then
    let (ret, w1) := gvotable_cast_vote w enabled in (ret, g, w1)
  else
    let (v, w1) := gvotable_election_get_handle w in
    if v <? 0 then (- ENODEV, g, w1)
    else
      let (ret, w2) := gvotable_cast_vote w1 enabled in
      (ret, set_gbms_mode g true, w2).

Definition dcen_gpio_set (g : gcpm_drv) (w : world) (v : Z) : world :=
  if (0 <=? dcen_gpio g) && (dcen_gpio_default g =? 0)
  then gpio_set_value w (dcen_gpio g) v
  else w.

(** The [DC_ENABLE]/[DC_ENABLE_PASSTHROUGH] label of the switch in
    [gcpm_dc_stop] and the [default] label it falls into. *)
Definition gcpm_dc_stop_default_online (g : gcpm_drv) (w : world)
  (final_state : Z) : Z * gcpm_drv * world :=
  let '(ret, g1, w1) := gcpm_chg_set_online g w 0 in
  if ret <? 0 then (ret, g1, w1)
  else (0, set_dc_state g1 final_state, w1).

Definition gcpm_dc_stop (g : gcpm_drv) (w : world) (final_state : Z)
  : Z * gcpm_drv * world :=
  let w0 := dcen_gpio_set g w 0 in
  let st := dc_state g in
  if (st =? DC_RUNNING) || (st =? DC_PASSTHROUGH) then
    let '(ret, g1, w1) := gcpm_dc_enable g w0 false in
    if ret <? 0 then (ret, g1, w1)
    else gcpm_dc_stop_default_online (set_dc_state g1 DC_ENABLE) w1 final_state
  else if (st =? DC_ENABLE) || (st =? DC_ENABLE_PASSTHROUGH) then
    gcpm_dc_stop_default_online g w0 final_state
  else (0, set_dc_state g final_state, w0).

Definition gcpm_dc_start (g : gcpm_drv) (w : world) (index : Z)
  : Z * gcpm_drv * world :=
  let '(ret, g1, w1) := gcpm_chg_set_online g w index in
  if ret <? 0 then (ret, g1, w1)
  else
    match gcpm_chg_get_active g1 with
    | None => (- ENODEV, g1, w1)
    | Some dc_psy =>
        let (ret, w2) :=
          GPSY_SET_PROP w1 dc_psy
            POWER_SUPPLY_PROP_CONSTANT_CHARGE_VOLTAGE_MAX (fv_uv g1) in
        if ret <? 0 then (ret, g1, w2)
        else
          let (ret, w3) :=
            GPSY_SET_PROP w2 dc_psy
              POWER_SUPPLY_PROP_CONSTANT_CHARGE_CURRENT_MAX (cc_max g1) in
          if ret <? 0 then (ret, g1, w3)
          else
            let (ret, w4) :=
              GPSY_SET_PROP w3 dc_psy POWER_SUPPLY_PROP_CURRENT_MAX
                (out_ua g1) in
            if ret <? 0 then (ret, g1, w4)
            else
              let w5 := dcen_gpio_set g1 w4 1 in
              let '(ret, g2, w6) := gcpm_dc_enable g1 w5 true in
              if ret <? 0 then (ret, g2, w6)
              else (0, g2, w6)
    end.

(** ** Selection policy *)

(** The locals [vbatt_min], [vbatt_max], [vbatt_high], [vbatt_low] of
    [gcpm_chg_select]: the [u32] thresholds read into [const int]. *)
Definition vbatt_min (g : gcpm_drv) : Z := to_int (dc_limit_vbatt_min g).
Definition vbatt_max (g : gcpm_drv) : Z := to_int (dc_limit_vbatt_max g).
Definition vbatt_high (g : gcpm_drv) : Z := to_int (dc_limit_vbatt_high g).
Definition vbatt_low (g : gcpm_drv) : Z := to_int (dc_limit_vbatt_low g).

(** The chain of hard limits of [gcpm_chg_select], applied to the index
    chosen from the demand. *)
Definition gcpm_chg_select_limits (g : gcpm_drv) (vbatt index : Z) : Z :=
  if negb (vbatt_min g =? 0) && (vbatt <? vbatt_min g) then
    (if dc_index g =? GCPM_DEFAULT_CHARGER then - EAGAIN else dc_index g)
  else if negb (vbatt_high g =? 0) && (vbatt_high g <? vbatt) then
    dc_index g
  else if negb (vbatt_max g =? 0) && (vbatt_max g <? vbatt) then
    GCPM_DEFAULT_CHARGER
  else if negb (vbatt_min g =? 0) && (vbatt_min g <? vbatt) then
    GCPM_INDEX_DC_ENABLE
  else index.

(** The bound check that ends [gcpm_chg_select]. *)
Definition gcpm_chg_select_bound (g : gcpm_drv) (index : Z) : Z :=
  if chg_psy_count g <=? index then GCPM_DEFAULT_CHARGER else index.

Definition gcpm_chg_select (g : gcpm_drv) (w : world) : Z * world :=
  if 0 <=? force_active g then (force_active g, w)
  else if (cc_max g <=? 0) || (fv_uv g <=? 0) then (GCPM_DEFAULT_CHARGER, w)
  else
    let batt_demand :=
      to_int (Z.quot (cc_max g) 1000 * Z.quot (fv_uv g) 1000) in
    let index :=
      if dc_limit_demand g <? to_u32 batt_demand
      then GCPM_INDEX_DC_ENABLE else GCPM_DEFAULT_CHARGER in
    match gcpm_chg_get_default g with
    | Some chg_psy =>
        if negb (vbatt_max g =? 0) || negb (vbatt_min g =? 0) then
          let (vbatt, w1) :=
            GPSY_GET_PROP w chg_psy POWER_SUPPLY_PROP_VOLTAGE_NOW in
          if vbatt <? 0 then (dc_index g, w1)
          else if negb (vbatt_low g =? 0) && (vbatt <? vbatt_low g)
          then (- EAGAIN, w1)
          else
            (gcpm_chg_select_bound g (gcpm_chg_select_limits g vbatt index),
             w1)
        else (gcpm_chg_select_bound g index, w)
    | None => (gcpm_chg_select_bound g index, w)
    end.

Definition gcpm_chg_dc_check_source (g : gcpm_drv) (index : Z) : bool :=
  if taper_control g then false
  else if pps_stage_eqb (stage (tcpm_pps_data g)) PPS_NOTSUPP
          && pps_stage_eqb (stage (wlc_pps_data g)) PPS_NOTSUPP
  then false
  else index =? GCPM_INDEX_DC_ENABLE.

(** ** PPS sessions of the driver *)

Definition pps_init_state_if_psy (pps : pd_pps_data) : pd_pps_data :=
  match pps_psy pps with
  | Some _ => pps_init_state pps
  | None => pps
  end.

Definition gcpm_pps_online (g : gcpm_drv) : gcpm_drv :=
  let g1 := set_out_ua g (-1) in
  let g2 := set_out_uv g1 (-1) in
  let g3 := set_tcpm_pps_data g2 (pps_init_state_if_psy (tcpm_pps_data g2)) in
  let g4 := set_wlc_pps_data g3 (pps_init_state_if_psy (wlc_pps_data g3)) in
  set_pps_index g4 0.

Definition gcpm_pps_data (g : gcpm_drv) : option pps_source :=
  if pps_index g =? PPS_INDEX_TCPM then Some TCPM
  else if pps_index g =? PPS_INDEX_WLC then Some WLC
  else None.

(** One of the two blocks of [gcpm_pps_work]: steps session [s] unless it
    is not supported; returns the updated [pps_index] and [not_supported]
    locals. *)
Definition gcpm_pps_work_source (g : gcpm_drv) (w : world) (s : pps_source)
  (index_s : Z) (pps_index not_supported : Z) : Z * Z * gcpm_drv * world :=
  if negb (pps_stage_eqb (stage (get_pps_data g s)) PPS_NOTSUPP) then
    let '(pps_ui, g1, w1) := pps_work g w s in
    let pps_index1 :=
      if (0 <=? pps_ui) && pps_stage_eqb (stage (get_pps_data g1 s)) PPS_ACTIVE
      then index_s else pps_index in
    (pps_index1, not_supported, g1, w1)
  else (pps_index, not_supported + 1, g, w).

Definition gcpm_pps_work (g : gcpm_drv) (w : world) : Z * gcpm_drv * world :=
  let '(pps_index1, not_supported1, g1, w1) :=
    gcpm_pps_work_source g w TCPM PPS_INDEX_TCPM 0 0 in
  let '(pps_index2, not_supported2, g2, w2) :=
    gcpm_pps_work_source g1 w1 WLC PPS_INDEX_WLC pps_index1 not_supported1 in
  if not_supported2 =? PPS_INDEX_MAX then (- ENODEV, g2, w2)
  else
    let ret :=
      if negb (pps_index g2 =? 0) && (pps_index2 =? 0) then - ENODEV else 0 in
    (ret, set_pps_index g2 pps_index2, w2).

Definition gcpm_pps_offline_source (g : gcpm_drv) (w : world) (s : pps_source)
  : gcpm_drv * world :=
  match pps_psy (get_pps_data g s) with
  | Some _ =>
      let '(ret, g1, w1) := pps_prog_offline g w s in (g1, w1)
  | None => (g, w)
  end.

Definition gcpm_pps_offline (g : gcpm_drv) (w : world)
  : Z * gcpm_drv * world :=
  let (g1, w1) := gcpm_pps_offline_source g w TCPM in
  let (g2, w2) := gcpm_pps_offline_source g1 w1 WLC in
  (0, set_pps_index g2 0, w2).

(** ** The selection task *)

Definition gcpm_chg_select_work (g : gcpm_drv) (w : world) : gcpm_drv * world :=
  let (index, w1) := gcpm_chg_select g w in
  if negb (taper_control g) && (index <? 0) then
    (g, schedule_delayed_work w1 select_work (5 * 1000))
  else
    let index := if taper_control g then GCPM_DEFAULT_CHARGER else index in
    let dc_done := taper_control g in
    let dc_ena := gcpm_chg_dc_check_source g index in
    let '(g1, schedule_pps_interval) :=
      if negb dc_ena then
        if (DC_IDLE <? dc_state g) && (0 <? dc_index g) then
          (set_dc_index g (if dc_done then -1 else GCPM_DEFAULT_CHARGER), 0)
        else (g, -1)
      else if dc_state g =? DC_DISABLED then (g, -1)
      else if dc_state g =? DC_IDLE then
        let g1 := gcpm_pps_online g in
        let g2 := set_dc_state g1 DC_ENABLE_PASSTHROUGH in
        let g3 := set_dc_index g2 index in
        (set_dc_start_time g3 (get_boot_sec w1), 5000)
      else (g, -1) in
    let w2 :=
      if 0 <=? schedule_pps_interval
      then mod_delayed_work w1 pps_work_item schedule_pps_interval
      else w1 in
    (g1, w2).

(** ** The negotiation task

    Each block of [gcpm_pps_wlc_dc_work] yields [Some pps_ui] when it
    leaves through [pps_dc_reschedule] and [None] when it leaves through
    [pps_dc_done]. *)

(** [gcpm->dc_index <= 0]: disable DC, then PPS. *)
Definition gcpm_pps_wlc_dc_work_stop (g : gcpm_drv) (w : world)
  : option Z * gcpm_drv * world :=
  if dc_state g <=? DC_IDLE then (None, g, w)
  else
    let '(ret, g1, w1) := gcpm_dc_stop g w DC_DISABLED in
    if ret <? 0 then (Some DC_ERROR_RETRY_MS, g1, w1)
    else
      let '(ret, g2, w2) := gcpm_pps_offline g1 w1 in
      if ret <? 0 then (Some PPS_ERROR_RETRY_MS, g2, w2)
      else
        let g3 :=
          if dc_index g2 =? GCPM_DEFAULT_CHARGER
          then set_dc_state g2 DC_IDLE else g2 in
        (None, g3, w2).

(** [gcpm->dc_state == DC_PASSTHROUGH]: monitor the DC driver. *)
Definition gcpm_pps_wlc_dc_work_passthrough (g : gcpm_drv) (w : world)
  : option Z * gcpm_drv * world :=
  let (prog_online, w1) :=
    match gcpm_pps_data g with
    | Some s => pps_check_online g w s
    | None => (false, w)
    end in
  if negb prog_online then (Some DC_ERROR_RETRY_MS, set_dc_index g 0, w1)
  else
    match gcpm_chg_get_active g with
    | None => (Some DC_ERROR_RETRY_MS, g, w1)
    | Some dc_psy =>
        let (index, w2) := gcpm_chg_select g w1 in
        let w3 :=
          if negb (index =? dc_index g)
          then mod_delayed_work w2 select_work 0 else w2 in
        let (ret, w4) :=
          GPSY_SET_PROP w3 dc_psy GBMS_PROP_CHARGING_ENABLED (pps_index g) in
        if ret =? 0 then
          let '(ret, g1, w5) :=
            gcpm_chg_ping g w4 GCPM_DEFAULT_CHARGER false in
          (Some DC_RUN_DELAY_MS, g1, w5)
        else if (ret =? - EBUSY) || (ret =? - EAGAIN) then
          (Some DC_ERROR_RETRY_MS, g, w4)
        else
          let '(ret, g1, w5) :=
            gcpm_chg_set_online g w4 GCPM_DEFAULT_CHARGER in
          if ret <? 0 then (Some DC_ERROR_RETRY_MS, g1, w5)
          else (Some 0, g1, w5)
    end.

(** [gcpm->dc_state == DC_ENABLE_PASSTHROUGH] with session [s] active:
    offline the current adapter and start the new one. *)
Definition gcpm_pps_wlc_dc_work_enable_passthrough (g : gcpm_drv) (w : world)
  (s : pps_source) : option Z * gcpm_drv * world :=
  let '(pps_ui, g1, w1) := pps_update_adapter g w s in
  let pps_ui := if pps_ui <? 0 then PPS_ERROR_RETRY_MS else pps_ui in
  let '(ret, g2, w2) := gcpm_chg_offline g1 w1 in
  let '(ret, g3, w3) :=
    if ret =? 0 then gcpm_dc_start g2 w2 (dc_index g2) else (ret, g2, w2) in
  if ret =? 0 then
    (Some DC_ENABLE_DELAY_MS, set_dc_state g3 DC_PASSTHROUGH, w3)
  else if DC_ERROR_RETRY_MS <? pps_ui then (Some DC_ERROR_RETRY_MS, g3, w3)
  else (Some pps_ui, g3, w3).

(** Steady on PPS in [DC_ENABLE] or [DC_RUNNING]. *)
Definition gcpm_pps_wlc_dc_work_steady (g : gcpm_drv) (w : world)
  (s : pps_source) : option Z * gcpm_drv * world :=
  let '(pps_ui, g1, w1) := pps_update_adapter g w s in
  (Some (if pps_ui <? 0 then PPS_ERROR_RETRY_MS else pps_ui), g1, w1).

(** Detection: wait until one of the sources comes online. *)
Definition gcpm_pps_wlc_dc_work_detect (g : gcpm_drv) (w : world) (elap : Z)
  : option Z * gcpm_drv * world :=
  let '(ret, g1, w1) := gcpm_pps_work g w in
  if ret <? 0 then
    if elap <? PPS_PROG_TIMEOUT_S
    then (Some PPS_PROG_RETRY_MS, gcpm_pps_online g1, w1)
    else (Some PPS_ERROR_RETRY_MS, set_dc_index g1 0, w1)
  else
    match gcpm_pps_data g1 with
    | None =>
        if elap <? PPS_ACTIVE_TIMEOUT_S
        then (Some PPS_ACTIVE_RETRY_MS, g1, w1)
        else (Some PPS_ERROR_RETRY_MS, set_dc_index g1 0, w1)
    | Some s =>
        if dc_state g1 =? DC_ENABLE_PASSTHROUGH
        then gcpm_pps_wlc_dc_work_enable_passthrough g1 w1 s
        else gcpm_pps_wlc_dc_work_steady g1 w1 s
    end.

(** The label [pps_dc_reschedule]. *)
Definition pps_dc_reschedule (r : option Z * gcpm_drv * world)
  : gcpm_drv * world :=
  match r with
  | (Some pps_ui, g, w) =>
      if pps_ui <=? 0 then (g, w)
      else (g, schedule_delayed_work w pps_work_item pps_ui)
  | (None, g, w) => (g, w)
  end.

Definition gcpm_pps_wlc_dc_work (g : gcpm_drv) (w : world) : gcpm_drv * world :=
  let elap := get_boot_sec w - dc_start_time g in
  if negb (resume_complete g) || negb (init_complete g) then (g, w)
  else if dc_index g <=? 0 then
    pps_dc_reschedule (gcpm_pps_wlc_dc_work_stop g w)
  else if dc_state g =? DC_PASSTHROUGH then
    pps_dc_reschedule (gcpm_pps_wlc_dc_work_passthrough g w)
  else
    pps_dc_reschedule (gcpm_pps_wlc_dc_work_detect g w elap).

(** ** The property interface *)

Section PropertyInterface.

(** The value of [GBMS_TAPER_CONTROL_OFF] in gbms_power_supply.h, which is
    not among the sources. *)
Variable GBMS_TAPER_CONTROL_OFF : Z.

(** The [switch] of [gcpm_psy_set_property]: new driver state, [ta_check],
    [route] and the key routed to the active charger. *)
Definition gcpm_psy_set_property_switch (g : gcpm_drv) (prop : psp) (intval : Z)
  : gcpm_drv * bool * bool * psp :=
  match prop with
  | GBMS_PROP_TAPER_CONTROL =>
      let taper := negb (intval =? GBMS_TAPER_CONTROL_OFF) in
      (set_taper_control g taper, negb (Bool.eqb taper (taper_control g)),
       false, prop)
  | GBMS_PROP_CHARGE_DISABLE => (g, true, true, prop)
  | POWER_SUPPLY_PROP_ONLINE => (g, true, true, prop)
  | POWER_SUPPLY_PROP_VOLTAGE_MAX
  | POWER_SUPPLY_PROP_CONSTANT_CHARGE_VOLTAGE_MAX =>
      (set_fv_uv g intval, negb (fv_uv g =? intval), true,
       POWER_SUPPLY_PROP_CONSTANT_CHARGE_VOLTAGE_MAX)
  | POWER_SUPPLY_PROP_CONSTANT_CHARGE_CURRENT_MAX =>
      (set_cc_max g intval, negb (cc_max g =? intval), true, prop)
  | _ => (g, false, true, prop)
  end.

Definition gcpm_psy_set_property (g : gcpm_drv) (w : world) (prop : psp)
  (intval : Z) : Z * gcpm_drv * world :=
  let w0 := pm_runtime_get_sync w in
  if negb (init_complete g) || negb (resume_complete g) then
    (- EAGAIN, g, pm_runtime_put_sync w0)
  else
    let w1 := pm_runtime_put_sync w0 in
    let '(g1, ta_check, route, prop1) :=
      gcpm_psy_set_property_switch g prop intval in
    let (g2, ta_check) :=
      if new_dc_limit g1 then (set_new_dc_limit g1 false, true)
      else (g1, ta_check) in
    let w2 :=
      if dc_init_complete g2 && ta_check
      then mod_delayed_work w1 select_work 0 else w1 in
    if negb route then (0, g2, w2)
    else
      match gcpm_chg_get_active g2 with
      | Some chg_psy =>
          let (ret, w3) := power_supply_set_property w2 chg_psy prop1 intval in
          (ret, g2, w3)
      | None => (0, g2, w2)
      end.

End PropertyInterface.

(** [gbms_read_charger_state] answers a code, then the packed state. *)
Definition gcpm_get_charger_state (g : gcpm_drv) (w : world) (chg_psy : psy)
  : Z * world :=
  let (rc, w1) := next_answer w in
  if rc <? 0 then (0, record (EvChargerState chg_psy rc 0) w1)
  else
    let (v, w2) := next_answer w1 in
    (v, record (EvChargerState chg_psy rc v) w2).

(** Returns the code and the contents of [*pval]. *)
Definition gcpm_psy_get_property (g : gcpm_drv) (w : world) (prop : psp)
  (pval : Z) : Z * Z * gcpm_drv * world :=
  let w0 := pm_runtime_get_sync w in
  if negb (init_complete g) || negb (resume_complete g) then
    (- EAGAIN, pval, g, pm_runtime_put_sync w0)
  else
    let w1 := pm_runtime_put_sync w0 in
    match gcpm_chg_get_active g with
    | None => (- ENODEV, pval, g, w1)
    | Some chg_psy =>
        match prop with
        | GBMS_PROP_CHARGE_CHARGER_STATE =>
            let (v, w2) := gcpm_get_charger_state g w1 chg_psy in
            (0, v, g, w2)
        | _ =>
            let '(ret, v, w2) :=
              power_supply_get_property w1 chg_psy prop pval in
            (ret, v, g, w2)
        end
    end.

(** * MAX77779 scratch space (max77779_sp.c) *)

Definition RSBM_ADDR : Z := 0.
Definition RSBR_ADDR : Z := 4.
Definition SUFG_ADDR : Z := 8.
Definition RS_TAG_LENGTH : Z := 4.
Definition SU_TAG_LENGTH : Z := 1.
Definition OPCODE_USER_SPACE_R_RES_LEN : Z := 32.
Definition MAX77779_SP_DATA : Z := 128.

(** The tags of [gbms_tag_t] that the driver names, and all the others. *)
Inductive gbms_tag_t : Type :=
| GBMS_TAG_RS32
| GBMS_TAG_RSBM
| GBMS_TAG_RSBR
| GBMS_TAG_SUFG
| GBMS_TAG_other (code : Z).

(** Register accesses, as recorded in the trace of the register map. *)
Inductive reg_event : Type :=
| RegWrite (reg val rc : Z)
| RegRead (reg rc : Z)
| RegBulkRead (reg count rc : Z)
| RegBulkWrite (reg count rc : Z).

(** The device behind [struct regmap]: 16-bit registers, the codes the
    next accesses return (0 once exhausted) and the accesses made so far,
    newest first. *)
Record regmap : Type := {
  regs : Z -> Z;
  reg_script : list Z;
  reg_trace : list reg_event
}.

Definition reg_next (m : regmap) : Z * regmap :=
  match reg_script m with
  | [] => (0, m)
  | r :: rest =>
      (r, {| regs := regs m; reg_script := rest; reg_trace := reg_trace m |})
  end.

Definition reg_record (e : reg_event) (m : regmap) : regmap :=
  {| regs := regs m; reg_script := reg_script m;
     reg_trace := e :: reg_trace m |}.

Definition reg_store (m : regmap) (reg val : Z) : regmap :=
  {| regs := fun r => if r =? reg then val mod 2 ^ 16 else regs m r;
     reg_script := reg_script m; reg_trace := reg_trace m |}.

Definition regmap_write (m : regmap) (reg val : Z) : Z * regmap :=
  let (rc, m1) := reg_next m in
  let m2 := if rc <? 0 then m1 else reg_store m1 reg val in
  (rc, reg_record (RegWrite reg val rc) m2).

(** Returns the code and the contents of [*val]. *)
Definition regmap_read (m : regmap) (reg : Z) (val : Z) : Z * Z * regmap :=
  let (rc, m1) := reg_next m in
  (rc, if rc <? 0 then val else regs m1 reg, reg_record (RegRead reg rc) m1).

(** A buffer is the list of its bytes; a byte outside the list reads as 0
    and a store outside the list is dropped. *)
Definition buf_get (buff : list Z) (i : nat) : Z := nth i buff 0.

Fixpoint buf_set (buff : list Z) (i : nat) (v : Z) : list Z :=
  match buff, i with
  | [], _ => []
  | _ :: tl, O => v mod 256 :: tl
  | b :: tl, S j => b :: buf_set tl j v
  end.

(** Store and load of the [i]-th 16-bit word of a buffer, in native
    (little endian) byte order. *)
Definition buf_set16 (buff : list Z) (i : nat) (v : Z) : list Z :=
  buf_set (buf_set buff (2 * i) (Z.land v 255)) (2 * i + 1)
          (Z.land (Z.shiftr v 8) 255).

Definition buf_get16 (buff : list Z) (i : nat) : Z :=
  Z.lor (buf_get buff (2 * i)) (Z.shiftl (buf_get buff (2 * i + 1)) 8).

Fixpoint bulk_read_regs (m : regmap) (reg : Z) (buff : list Z) (i n : nat)
  : list Z :=
  match n with
  | O => buff
  | S k => bulk_read_regs m (reg + 1) (buf_set16 buff i (regs m reg)) (S i) k
  end.

Fixpoint bulk_write_regs (m : regmap) (reg : Z) (buff : list Z) (i n : nat)
  : regmap :=
  match n with
  | O => m
  | S k => bulk_write_regs (reg_store m reg (buf_get16 buff i)) (reg + 1)
                           buff (S i) k
  end.

(** [regmap_bulk_read] and [regmap_bulk_write] move [count] registers. *)
Definition regmap_bulk_read (m : regmap) (reg : Z) (buff : list Z) (count : Z)
  : Z * list Z * regmap :=
  let (rc, m1) := reg_next m in
  (rc,
   if rc <? 0 then buff else bulk_read_regs m1 reg buff 0 (Z.to_nat count),
   reg_record (RegBulkRead reg count rc) m1).

Definition regmap_bulk_write (m : regmap) (reg : Z) (buff : list Z) (count : Z)
  : Z * regmap :=
  let (rc, m1) := reg_next m in
  let m2 :=
    if rc <? 0 then m1 else bulk_write_regs m1 reg buff 0 (Z.to_nat count) in
  (rc, reg_record (RegBulkWrite reg count rc) m2).

Section ScratchSpace.

(** The page-control register of max77779_regs.h, which is not among the
    sources. *)
Variable MAX77779_SP_PAGE_CTRL : Z.

(** [(count > 2 && (count & 1)) || ((offset + count) > 0x7f)], the sum
    being computed in [size_t]. *)
Definition sp_out_of_range (offset count : Z) : bool :=
  ((2 <? count) && negb (Z.land count 1 =? 0))
  || (127 <? to_size_t (offset + count)).

Definition max77779_sp_rd (buff : list Z) (addr count : Z) (m : regmap)
  : Z * list Z * regmap :=
  let page := Z.quot addr 256 in
  let offset := Z.rem addr 256 in
  let base := MAX77779_SP_DATA + Z.land offset (Z.lnot 1) in
  if sp_out_of_range offset count then (- ERANGE, buff, m)
  else
    let (ret, m1) := regmap_write m MAX77779_SP_PAGE_CTRL page in
    if ret <? 0 then (ret, buff, m1)
    else if 2 <? count then regmap_bulk_read m1 base buff count
    else if negb (count =? 0) then
      let '(ret, tmp, m2) := regmap_read m1 base 0 in
      if ret <? 0 then (ret, buff, m2)
      else if count =? 1 then
        if negb (Z.land offset 1 =? 0)
        then (ret, buf_set buff 0 (Z.land (Z.shiftr tmp 8) 255), m2)
        else (ret, buf_set buff 0 (Z.land 255 tmp), m2)
      else (ret, buf_set16 buff 0 (Z.land 65535 tmp), m2)
    else (ret, buff, m1).

Definition max77779_sp_wr (buff : list Z) (addr count : Z) (m : regmap)
  : Z * regmap :=
  let page := Z.quot addr 256 in
  let offset := Z.rem addr 256 in
  let base := MAX77779_SP_DATA + Z.land offset (Z.lnot 1) in
  if sp_out_of_range offset count then (- ERANGE, m)
  else
    let (ret, m1) := regmap_write m MAX77779_SP_PAGE_CTRL page in
    if ret <? 0 then (ret, m1)
    else if 2 <? count then regmap_bulk_write m1 base buff count
    else if count =? 1 then
      let '(ret, tmp, m2) := regmap_read m1 base 0 in
      if ret <? 0 then (ret, m2)
      else
        let sh := Z.land offset 1 * 8 in
        let tmp1 := Z.land tmp (to_u32 (Z.lnot (Z.shiftl 255 sh))) in
        let tmp2 := Z.lor tmp1 (Z.shiftl (buf_get buff 0) sh) in
        regmap_write m2 base tmp2
    else regmap_write m1 base (buf_get16 buff 0).

(** Returns the code and the contents of [*addr]. *)
Definition max77779_sp_info (tag : gbms_tag_t) (addr : Z) (size : Z) : Z * Z :=
  match tag with
  | GBMS_TAG_RS32 =>
      if negb (size =? 0) && (OPCODE_USER_SPACE_R_RES_LEN <? size)
      then (- EINVAL, addr) else (0, RSBM_ADDR)
  | GBMS_TAG_RSBM =>
      if negb (size =? 0) && (RS_TAG_LENGTH <? size)
      then (- EINVAL, addr) else (0, RSBM_ADDR)
  | GBMS_TAG_RSBR =>
      if negb (size =? 0) && (RS_TAG_LENGTH <? size)
      then (- EINVAL, addr) else (0, RSBR_ADDR)
  | GBMS_TAG_SUFG =>
      if negb (size =? 0) && (SU_TAG_LENGTH <? size)
      then (- EINVAL, addr) else (0, SUFG_ADDR)
  | GBMS_TAG_other _ => (- ENOENT, addr)
  end.

(** [addr] is the value the uninitialised local happens to hold. *)
Definition max77779_sp_read (tag : gbms_tag_t) (buff : list Z) (size : Z)
  (m : regmap) (addr : Z) : Z * list Z * regmap :=
  let (ret, addr1) := max77779_sp_info tag addr size in
  if ret <? 0 then (ret, buff, m)
  else max77779_sp_rd buff (to_int addr1) size m.

Definition max77779_sp_write (tag : gbms_tag_t) (buff : list Z) (size : Z)
  (m : regmap) (addr : Z) : Z * regmap :=
  let (ret, addr1) := max77779_sp_info tag addr size in
  if ret <? 0 then (ret, m)
  else max77779_sp_wr buff (to_int addr1) size m.

End ScratchSpace.

(** * Further code of the two drivers *)

(** ** Registers of the scratch space *)

(** [MAX77779_SP_SIZE], written [0x255] in the source. *)
Definition MAX77779_SP_SIZE : Z := 597.

Section ScratchSpaceRegisters.

(** The page-control register of max77779_regs.h, which is not among the
    sources. *)
Variable MAX77779_SP_PAGE_CTRL : Z.

(** [max77779_sp_is_reg], the [readable_reg] and [volatile_reg] test of
    the register map. *)
Definition max77779_sp_is_reg (reg : Z) : bool :=
  (reg =? MAX77779_SP_PAGE_CTRL)
  || ((MAX77779_SP_DATA <=? reg) && (reg <? MAX77779_SP_SIZE)).

End ScratchSpaceRegisters.

(** ** Writeable properties, debug files and the combined PPS supply *)

(** Value of a 64-bit pattern read as [u64]. *)
Definition to_u64 (z : Z) : Z := z mod 2 ^ 64.

Definition set_force_active (g : gcpm_drv) (v : Z) : gcpm_drv :=
  {| chg_psy_avail := chg_psy_avail g; chg_psy_active := chg_psy_active g;
     chg_psy_count := chg_psy_count g; force_active := v;
     tcpm_pps_data := tcpm_pps_data g; wlc_pps_data := wlc_pps_data g;
     out_ua := out_ua g; out_uv := out_uv g; dcen_gpio := dcen_gpio g;
     dcen_gpio_default := dcen_gpio_default g; pps_index := pps_index g;
     dc_index := dc_index g; dc_state := dc_state g;
     dc_start_time := dc_start_time g; new_dc_limit := new_dc_limit g;
     taper_control := taper_control g;
     dc_limit_vbatt_low := dc_limit_vbatt_low g;
     dc_limit_vbatt_min := dc_limit_vbatt_min g;
     dc_limit_vbatt_high := dc_limit_vbatt_high g;
     dc_limit_vbatt_max := dc_limit_vbatt_max g;
     dc_limit_demand := dc_limit_demand g; cc_max := cc_max g;
     fv_uv := fv_uv g; dc_init_complete := dc_init_complete g;
     init_complete := init_complete g; resume_complete := resume_complete g;
     gbms_mode := gbms_mode g |}.

Definition set_dc_limit_demand (g : gcpm_drv) (v : Z) : gcpm_drv :=
  {| chg_psy_avail := chg_psy_avail g; chg_psy_active := chg_psy_active g;
     chg_psy_count := chg_psy_count g; force_active := force_active g;
     tcpm_pps_data := tcpm_pps_data g; wlc_pps_data := wlc_pps_data g;
     out_ua := out_ua g; out_uv := out_uv g; dcen_gpio := dcen_gpio g;
     dcen_gpio_default := dcen_gpio_default g; pps_index := pps_index g;
     dc_index := dc_index g; dc_state := dc_state g;
     dc_start_time := dc_start_time g; new_dc_limit := new_dc_limit g;
     taper_control := taper_control g;
     dc_limit_vbatt_low := dc_limit_vbatt_low g;
     dc_limit_vbatt_min := dc_limit_vbatt_min g;
     dc_limit_vbatt_high := dc_limit_vbatt_high g;
     dc_limit_vbatt_max := dc_limit_vbatt_max g; dc_limit_demand := v;
     cc_max := cc_max g; fv_uv := fv_uv g;
     dc_init_complete := dc_init_complete g;
     init_complete := init_complete g; resume_complete := resume_complete g;
     gbms_mode := gbms_mode g |}.

Definition gcpm_psy_is_writeable (prop : psp) : Z :=
  match prop with
  | POWER_SUPPLY_PROP_CONSTANT_CHARGE_CURRENT_MAX
  | POWER_SUPPLY_PROP_VOLTAGE_MAX
  | POWER_SUPPLY_PROP_CONSTANT_CHARGE_VOLTAGE_MAX
  | POWER_SUPPLY_PROP_CURRENT_MAX
  | GBMS_PROP_CHARGE_DISABLE
  | GBMS_PROP_TAPER_CONTROL => 1
  | _ => 0
  end.

(** The debug file [active]: returns the code and the contents of
    [*val]. *)
Definition gcpm_debug_get_active (g : gcpm_drv) : Z * Z :=
  (0, to_u64 (dc_index g)).

Definition gcpm_debug_set_active (g : gcpm_drv) (w : world) (val : Z)
  : Z * gcpm_drv * world :=
  let intval := to_int val in
  if negb (intval =? -1) && ((intval <? 0) || (chg_psy_count g <=? intval))
  then (- ERANGE, g, w)
  else if negb (intval =? -1)
          && match chg_psy_at g intval with None => true | Some _ => false end
  then (- EINVAL, g, w)
  else (0, set_force_active g (to_int val), mod_delayed_work w select_work 0).

(** The debug file [dc_limit_demand]. *)
Definition gcpm_debug_dc_limit_demand_show (g : gcpm_drv) : Z * Z :=
  (0, dc_limit_demand g).

Definition gcpm_debug_dc_limit_demand_set (g : gcpm_drv) (val : Z)
  : Z * gcpm_drv :=
  let intval := to_int val in
  if negb (dc_limit_demand g =? to_u32 intval)
  then (0, set_new_dc_limit (set_dc_limit_demand g (to_u32 intval)) true)
  else (0, g).

(** The debug file [dc_state]. *)
Definition gcpm_debug_dc_state_get (g : gcpm_drv) : Z * Z :=
  (0, to_u64 (dc_state g)).

Definition gcpm_debug_dc_state_set (g : gcpm_drv) (w : world) (val : Z)
  : Z * gcpm_drv * world :=
  let intval := to_int val in
  if (intval <? DC_DISABLED) || (DC_PASSTHROUGH <? intval)
  then (- EINVAL, g, w)
  else (0, set_dc_state g intval, mod_delayed_work w select_work 0).

(** [pps_data && pps_data->pps_psy]: the supply of the selected PPS
    session. *)
Definition gcpm_pps_psy_target (g : gcpm_drv) : option psy :=
  match gcpm_pps_data g with
  | Some s => pps_psy (get_pps_data g s)
  | None => None
  end.

Definition gcpm_pps_psy_set_property (g : gcpm_drv) (w : world) (prop : psp)
  (intval : Z) : Z * world :=
  match gcpm_pps_psy_target g with
  | None => (- EAGAIN, w)
  | Some d => power_supply_set_property w d prop intval
  end.

Section CombinedPpsSupply.

(** The key [POWER_SUPPLY_PROP_USB_TYPE] and the value
    [POWER_SUPPLY_USB_TYPE_UNKNOWN] of linux/power_supply.h. *)
Variable POWER_SUPPLY_PROP_USB_TYPE : Z.
Variable POWER_SUPPLY_USB_TYPE_UNKNOWN : Z.

(** Returns the code and the contents of [val->intval]. *)
Definition gcpm_pps_psy_get_property (g : gcpm_drv) (w : world) (prop : psp)
  (pval : Z) : Z * Z * world :=
  match gcpm_pps_psy_target g with
  | Some d => power_supply_get_property w d prop pval
  | None =>
      match prop with
      | POWER_SUPPLY_PROP_other key =>
          if key =? POWER_SUPPLY_PROP_USB_TYPE
          then (0, POWER_SUPPLY_USB_TYPE_UNKNOWN, w)
          else (0, 0, w)
      | _ => (0, 0, w)
      end
  end.

End CombinedPpsSupply.

(** ** Start-up: the probe and the detection of the supplies *)

Definition ENOMEM : Z := 12.
Definition EPROBE_DEFER : Z := 517.

Definition GCPM_DEFAULT_DC_LIMIT_DEMAND : Z := 0.
Definition GCPM_DEFAULT_DC_LIMIT_VBATT_MIN : Z := 3600000.
Definition GCPM_DEFAULT_DC_LIMIT_DELTA_LOW : Z := 200000.
Definition GCPM_DEFAULT_DC_LIMIT_VBATT_MAX : Z := 4400000.
Definition GCPM_DEFAULT_DC_LIMIT_DELTA_HIGH : Z := 50000.

Definition INIT_DELAY_MS : Z := 100.
Definition INIT_RETRY_DELAY_MS : Z := 1000.
Definition LOG_PSY_RATELIMIT_CNT : Z := 200.

(** [struct gcpm_drv] with the members that only start-up uses:
    [init_work] is the delay in ms of the pending run of the delayed
    work ([None] when not queued), [wlc_dc_name] and [debug_entry] tell
    whether the pointer is set.  The names of the supplies, which serve
    the notifier and the log, are left out: a charger is looked up by
    its index in [chg_psy_names]. *)
Record gcpm_startup : Type := {
  drv : gcpm_drv;
  init_work : option Z;
  chg_psy_retries : Z;
  log_psy_ratelimit : Z;
  tcpm_phandle : Z;
  tcpm_psy : option psy;
  wlc_dc_name : bool;
  wlc_dc_psy : option psy;
  debug_entry : bool
}.

Definition set_drv (s : gcpm_startup) (v : gcpm_drv) : gcpm_startup :=
  {| drv := v; init_work := init_work s;
     chg_psy_retries := chg_psy_retries s;
     log_psy_ratelimit := log_psy_ratelimit s;
     tcpm_phandle := tcpm_phandle s; tcpm_psy := tcpm_psy s;
     wlc_dc_name := wlc_dc_name s; wlc_dc_psy := wlc_dc_psy s;
     debug_entry := debug_entry s |}.

Definition set_init_work (s : gcpm_startup) (v : option Z) : gcpm_startup :=
  {| drv := drv s; init_work := v;
     chg_psy_retries := chg_psy_retries s;
     log_psy_ratelimit := log_psy_ratelimit s;
     tcpm_phandle := tcpm_phandle s; tcpm_psy := tcpm_psy s;
     wlc_dc_name := wlc_dc_name s; wlc_dc_psy := wlc_dc_psy s;
     debug_entry := debug_entry s |}.

Definition set_chg_psy_retries (s : gcpm_startup) (v : Z) : gcpm_startup :=
  {| drv := drv s; init_work := init_work s; chg_psy_retries := v;
     log_psy_ratelimit := log_psy_ratelimit s;
     tcpm_phandle := tcpm_phandle s; tcpm_psy := tcpm_psy s;
     wlc_dc_name := wlc_dc_name s; wlc_dc_psy := wlc_dc_psy s;
     debug_entry := debug_entry s |}.

Definition set_log_psy_ratelimit (s : gcpm_startup) (v : Z) : gcpm_startup :=
  {| drv := drv s; init_work := init_work s;
     chg_psy_retries := chg_psy_retries s; log_psy_ratelimit := v;
     tcpm_phandle := tcpm_phandle s; tcpm_psy := tcpm_psy s;
     wlc_dc_name := wlc_dc_name s; wlc_dc_psy := wlc_dc_psy s;
     debug_entry := debug_entry s |}.

Definition set_tcpm_phandle (s : gcpm_startup) (v : Z) : gcpm_startup :=
  {| drv := drv s; init_work := init_work s;
     chg_psy_retries := chg_psy_retries s;
     log_psy_ratelimit := log_psy_ratelimit s;
     tcpm_phandle := v; tcpm_psy := tcpm_psy s;
     wlc_dc_name := wlc_dc_name s; wlc_dc_psy := wlc_dc_psy s;
     debug_entry := debug_entry s |}.

Definition set_tcpm_psy (s : gcpm_startup) (v : option psy) : gcpm_startup :=
  {| drv := drv s; init_work := init_work s;
     chg_psy_retries := chg_psy_retries s;
     log_psy_ratelimit := log_psy_ratelimit s;
     tcpm_phandle := tcpm_phandle s; tcpm_psy := v;
     wlc_dc_name := wlc_dc_name s; wlc_dc_psy := wlc_dc_psy s;
     debug_entry := debug_entry s |}.

Definition set_wlc_dc_name (s : gcpm_startup) (v : bool) : gcpm_startup :=
  {| drv := drv s; init_work := init_work s;
     chg_psy_retries := chg_psy_retries s;
     log_psy_ratelimit := log_psy_ratelimit s;
     tcpm_phandle := tcpm_phandle s; tcpm_psy := tcpm_psy s;
     wlc_dc_name := v; wlc_dc_psy := wlc_dc_psy s;
     debug_entry := debug_entry s |}.

Definition set_wlc_dc_psy (s : gcpm_startup) (v : option psy) : gcpm_startup :=
  {| drv := drv s; init_work := init_work s;
     chg_psy_retries := chg_psy_retries s;
     log_psy_ratelimit := log_psy_ratelimit s;
     tcpm_phandle := tcpm_phandle s; tcpm_psy := tcpm_psy s;
     wlc_dc_name := wlc_dc_name s; wlc_dc_psy := v;
     debug_entry := debug_entry s |}.

Definition set_chg_psy_avail (g : gcpm_drv) (v : list (option psy))
  : gcpm_drv :=
  {| chg_psy_avail := v; chg_psy_active := chg_psy_active g;
     chg_psy_count := chg_psy_count g; force_active := force_active g;
     tcpm_pps_data := tcpm_pps_data g; wlc_pps_data := wlc_pps_data g;
     out_ua := out_ua g; out_uv := out_uv g; dcen_gpio := dcen_gpio g;
     dcen_gpio_default := dcen_gpio_default g; pps_index := pps_index g;
     dc_index := dc_index g; dc_state := dc_state g;
     dc_start_time := dc_start_time g; new_dc_limit := new_dc_limit g;
     taper_control := taper_control g;
     dc_limit_vbatt_low := dc_limit_vbatt_low g;
     dc_limit_vbatt_min := dc_limit_vbatt_min g;
     dc_limit_vbatt_high := dc_limit_vbatt_high g;
     dc_limit_vbatt_max := dc_limit_vbatt_max g;
     dc_limit_demand := dc_limit_demand g; cc_max := cc_max g;
     fv_uv := fv_uv g; dc_init_complete := dc_init_complete g;
     init_complete := init_complete g; resume_complete := resume_complete g;
     gbms_mode := gbms_mode g |}.

Definition set_init_complete (g : gcpm_drv) (v : bool) : gcpm_drv :=
  {| chg_psy_avail := chg_psy_avail g; chg_psy_active := chg_psy_active g;
     chg_psy_count := chg_psy_count g; force_active := force_active g;
     tcpm_pps_data := tcpm_pps_data g; wlc_pps_data := wlc_pps_data g;
     out_ua := out_ua g; out_uv := out_uv g; dcen_gpio := dcen_gpio g;
     dcen_gpio_default := dcen_gpio_default g; pps_index := pps_index g;
     dc_index := dc_index g; dc_state := dc_state g;
     dc_start_time := dc_start_time g; new_dc_limit := new_dc_limit g;
     taper_control := taper_control g;
     dc_limit_vbatt_low := dc_limit_vbatt_low g;
     dc_limit_vbatt_min := dc_limit_vbatt_min g;
     dc_limit_vbatt_high := dc_limit_vbatt_high g;
     dc_limit_vbatt_max := dc_limit_vbatt_max g;
     dc_limit_demand := dc_limit_demand g; cc_max := cc_max g;
     fv_uv := fv_uv g; dc_init_complete := dc_init_complete g;
     init_complete := v; resume_complete := resume_complete g;
     gbms_mode := gbms_mode g |}.

Definition set_resume_complete (g : gcpm_drv) (v : bool) : gcpm_drv :=
  {| chg_psy_avail := chg_psy_avail g; chg_psy_active := chg_psy_active g;
     chg_psy_count := chg_psy_count g; force_active := force_active g;
     tcpm_pps_data := tcpm_pps_data g; wlc_pps_data := wlc_pps_data g;
     out_ua := out_ua g; out_uv := out_uv g; dcen_gpio := dcen_gpio g;
     dcen_gpio_default := dcen_gpio_default g; pps_index := pps_index g;
     dc_index := dc_index g; dc_state := dc_state g;
     dc_start_time := dc_start_time g; new_dc_limit := new_dc_limit g;
     taper_control := taper_control g;
     dc_limit_vbatt_low := dc_limit_vbatt_low g;
     dc_limit_vbatt_min := dc_limit_vbatt_min g;
     dc_limit_vbatt_high := dc_limit_vbatt_high g;
     dc_limit_vbatt_max := dc_limit_vbatt_max g;
     dc_limit_demand := dc_limit_demand g; cc_max := cc_max g;
     fv_uv := fv_uv g; dc_init_complete := dc_init_complete g;
     init_complete := init_complete g; resume_complete := v;
     gbms_mode := gbms_mode g |}.

Definition set_dc_init_complete (g : gcpm_drv) (v : bool) : gcpm_drv :=
  {| chg_psy_avail := chg_psy_avail g; chg_psy_active := chg_psy_active g;
     chg_psy_count := chg_psy_count g; force_active := force_active g;
     tcpm_pps_data := tcpm_pps_data g; wlc_pps_data := wlc_pps_data g;
     out_ua := out_ua g; out_uv := out_uv g; dcen_gpio := dcen_gpio g;
     dcen_gpio_default := dcen_gpio_default g; pps_index := pps_index g;
     dc_index := dc_index g; dc_state := dc_state g;
     dc_start_time := dc_start_time g; new_dc_limit := new_dc_limit g;
     taper_control := taper_control g;
     dc_limit_vbatt_low := dc_limit_vbatt_low g;
     dc_limit_vbatt_min := dc_limit_vbatt_min g;
     dc_limit_vbatt_high := dc_limit_vbatt_high g;
     dc_limit_vbatt_max := dc_limit_vbatt_max g;
     dc_limit_demand := dc_limit_demand g; cc_max := cc_max g;
     fv_uv := fv_uv g; dc_init_complete := v;
     init_complete := init_complete g; resume_complete := resume_complete g;
     gbms_mode := gbms_mode g |}.

Definition is_null {A : Type} (p : option A) : bool :=
  match p with
  | Some _ => false
  | None => true
  end.

(** *** The probe *)

(** What the device tree and the kernel answer to [google_cpm_probe]:
    whether the allocations succeed, the properties of the node ([None]
    when a property is absent; for a string, whether its copy could be
    allocated), the count of [google,chg-power-supplies] and the number
    of its strings read, the line of [google,dc-en] (negative when
    there is none), whether the debug directory is created, and the
    codes of the registration of the two supplies (negative for an
    error pointer). *)
Record device_tree : Type := {
  dt_alloc : bool;
  dt_psy_name : option bool;
  dt_chg_count : Z;
  dt_chg_read : Z;
  dt_tcpm_phandle : option Z;
  dt_wlc_dc_name : option bool;
  dt_dc_en : Z;
  dt_dc_en_value : option Z;
  dt_gpio_direction_output : Z;
  dt_dc_limit_demand : option Z;
  dt_dc_limit_vbatt_min : option Z;
  dt_dc_limit_vbatt_low : option Z;
  dt_dc_limit_vbatt_max : option Z;
  dt_dc_limit_vbatt_high : option Z;
  dt_init_fs : bool;
  dt_register : Z;
  dt_register_pps : Z
}.

(** [of_property_read_u32 (node, name, &out)]: the contents of [out]
    afterwards. *)
Definition of_property_read_u32 (prop : option Z) (out : Z) : Z :=
  match prop with
  | Some v => to_u32 v
  | None => out
  end.

Definition gcpm_probe_psy_names (dt : device_tree) (device : bool) : Z :=
  if negb device then - EINVAL
  else
    let count := dt_chg_count dt in
    if (count <=? 0) || (GCPM_MAX_CHARGERS <? count) then - ERANGE
    else if negb (dt_chg_read dt =? count) then - ERANGE
    else count.

(** The thresholds of the selection as the probe sets them: demand,
    [vbatt_min], [vbatt_low], [vbatt_max], [vbatt_high]. *)
Definition google_cpm_probe_limits (dt : device_tree) : Z * Z * Z * Z * Z :=
  let demand :=
    match dt_dc_limit_demand dt with
    | Some v => to_u32 v
    | None => GCPM_DEFAULT_DC_LIMIT_DEMAND
    end in
  let vmin :=
    match dt_dc_limit_vbatt_min dt with
    | Some v => to_u32 v
    | None => GCPM_DEFAULT_DC_LIMIT_VBATT_MIN
    end in
  let vlow :=
    match dt_dc_limit_vbatt_low dt with
    | Some v => to_u32 v
    | None => to_u32 (vmin - GCPM_DEFAULT_DC_LIMIT_DELTA_LOW)
    end in
  let vlow := if vmin <? vlow then vmin else vlow in
  let vmax :=
    match dt_dc_limit_vbatt_max dt with
    | Some v => to_u32 v
    | None => GCPM_DEFAULT_DC_LIMIT_VBATT_MAX
    end in
  let vhigh :=
    match dt_dc_limit_vbatt_high dt with
    | Some v => to_u32 v
    | None => to_u32 (vmax - GCPM_DEFAULT_DC_LIMIT_DELTA_HIGH)
    end in
  let vhigh := if vmax <? vhigh then vmax else vhigh in
  (demand, vmin, vlow, vmax, vhigh).

(** [gpio_direction_output]: on success the line is an output at the
    given level. *)
Definition gpio_direction_output (w : world) (line value ret : Z) : world :=
  if ret <? 0 then w
  else set_gpio w (fun l => if l =? line then value else gpio w l).

(** The code of a failed registration. *)
Definition probe_register_error (ret : Z) : Z :=
  if ret =? - EPROBE_DEFER then - EPROBE_DEFER else - ENODEV.

Section Probe.

(** A [struct pd_pps_data] of google_dc_pps.h with every byte zero, as
    [devm_kzalloc] leaves it. *)
Variable zeroed_pps_data : pd_pps_data.

(** Returns the code, the driver data when the probe succeeds, and the
    world.  The name of the supply, which [google,psy-name] replaces,
    is not modelled, only the failure to copy it. *)
Definition google_cpm_probe (dt : device_tree) (w : world)
  : Z * option gcpm_startup * world :=
  if negb (dt_alloc dt) then (- ENOMEM, None, w)
  else if match dt_psy_name dt with Some false => true | _ => false end
  then (- ENOMEM, None, w)
  else
    let chg_psy_count := gcpm_probe_psy_names dt true in
    if chg_psy_count <=? 0 then (- ENODEV, None, w)
    else
      let tcpm_phandle := of_property_read_u32 (dt_tcpm_phandle dt) 0 in
      if match dt_wlc_dc_name dt with Some false => true | _ => false end
      then (- ENOMEM, None, w)
      else
        let wlc_dc_name := negb (is_null (dt_wlc_dc_name dt)) in
        let dcen_gpio := to_int (dt_dc_en dt) in
        let dcen_gpio_default :=
          if 0 <=? dcen_gpio
          then of_property_read_u32 (dt_dc_en_value dt) 0 else 0 in
        let w1 :=
          if 0 <=? dcen_gpio
          then gpio_direction_output w dcen_gpio dcen_gpio_default
                 (dt_gpio_direction_output dt)
          else w in
        let '(demand, vmin, vlow, vmax, vhigh) := google_cpm_probe_limits dt in
        if dt_register dt <? 0
        then (probe_register_error (dt_register dt), None, w1)
        else if dt_register_pps dt <? 0
        then (probe_register_error (dt_register_pps dt), None, w1)
        else
          (0,
           Some
             {| drv :=
                  {| chg_psy_avail := [None; None; None; None];
                     chg_psy_active := 0;
                     chg_psy_count := chg_psy_count;
                     force_active := -1;
                     tcpm_pps_data := zeroed_pps_data;
                     wlc_pps_data := zeroed_pps_data;
                     out_ua := -1; out_uv := -1;
                     dcen_gpio := dcen_gpio;
                     dcen_gpio_default := dcen_gpio_default;
                     pps_index := 0; dc_index := 0; dc_state := 0;
                     dc_start_time := 0;
                     new_dc_limit := false; taper_control := false;
                     dc_limit_vbatt_low := vlow;
                     dc_limit_vbatt_min := vmin;
                     dc_limit_vbatt_high := vhigh;
                     dc_limit_vbatt_max := vmax;
                     dc_limit_demand := demand;
                     cc_max := 0; fv_uv := 0;
                     dc_init_complete := false; init_complete := false;
                     resume_complete := false; gbms_mode := false |};
                init_work := Some INIT_DELAY_MS;
                chg_psy_retries := 10;
                log_psy_ratelimit := LOG_PSY_RATELIMIT_CNT;
                tcpm_phandle := tcpm_phandle;
                tcpm_psy := None;
                wlc_dc_name := wlc_dc_name;
                wlc_dc_psy := None;
                debug_entry := dt_init_fs dt |},
           w1).

End Probe.

(** *** The detection of the supplies *)

(** What the kernel answers during one run of [gcpm_init_work]:
    [pps_get_tcpm_psy] ([None] for an error pointer, [Some None] for
    NULL), [pps_init] on each session (its code and the session as it
    leaves it), [power_supply_get_by_name] for the wireless supply and
    for the charger of each index. *)
Record init_answers : Type := {
  ia_tcpm_psy : option (option psy);
  ia_tcpm_pps_init : Z * pd_pps_data;
  ia_wlc_dc_psy : option psy;
  ia_wlc_pps_init : Z * pd_pps_data;
  ia_chg_psy : Z -> option psy
}.

(** The session after [pps_init] and, when that succeeded,
    [pps_init_state]; [port_data] and the debug files of [pps_init_fs]
    are not members of the model. *)
Definition gcpm_init_work_pps (r : Z * pd_pps_data) : pd_pps_data :=
  let (ret, pps) := r in
  if ret <? 0 then pps else pps_init_state pps.

(** The block of [gcpm_init_work] on the wired PPS source. *)
Definition gcpm_init_work_tcpm (s : gcpm_startup) (a : init_answers)
  : gcpm_startup :=
  if negb (tcpm_phandle s =? 0) && is_null (tcpm_psy s) then
    match ia_tcpm_psy a with
    | Some (Some tcpm) =>
        set_drv (set_tcpm_psy s (Some tcpm))
          (set_tcpm_pps_data (drv s)
             (gcpm_init_work_pps (ia_tcpm_pps_init a)))
    | found =>
        if match found with Some None => true | _ => false end
           || (log_psy_ratelimit s =? 0)
        then set_tcpm_phandle s 0
        else set_log_psy_ratelimit s (log_psy_ratelimit s - 1)
    end
  else s.

(** The block of [gcpm_init_work] on the wireless PPS source. *)
Definition gcpm_init_work_wlc (s : gcpm_startup) (a : init_answers)
  : gcpm_startup :=
  if wlc_dc_name s && is_null (wlc_dc_psy s) then
    match ia_wlc_dc_psy a with
    | Some wlc =>
        set_drv (set_wlc_dc_psy s (Some wlc))
          (set_wlc_pps_data (drv s)
             (gcpm_init_work_pps (ia_wlc_pps_init a)))
    | None =>
        if log_psy_ratelimit s =? 0
        then set_wlc_dc_name s false
        else set_log_psy_ratelimit s (log_psy_ratelimit s - 1)
    end
  else s.

(** The loop of [gcpm_init_work] over the chargers, from index [i] for
    [n] entries: the array afterwards and the count of those found. *)
Fixpoint gcpm_init_work_chargers (lookup : Z -> option psy)
  (avail : list (option psy)) (i : Z) (n : nat) : list (option psy) * Z :=
  match n, avail with
  | O, _ => (avail, 0)
  | S _, [] => ([], 0)
  | S k, e :: rest =>
      let e1 := match e with Some _ => e | None => lookup i end in
      let (rest1, found) := gcpm_init_work_chargers lookup rest (i + 1) k in
      (e1 :: rest1, (if is_null e1 then 0 else 1) + found)
  end.

(** One run of the delayed work, under [chg_psy_lock].  The
    registration of the notifier, whose failure is only logged, and the
    log lines are left out; [schedule_delayed_work] queues the next run
    unless one is pending. *)
Definition gcpm_init_work (s : gcpm_startup) (a : init_answers)
  : gcpm_startup :=
  let s1 := gcpm_init_work_tcpm s a in
  let s2 := gcpm_init_work_wlc s1 a in
  let g := drv s2 in
  let (avail, found) :=
    gcpm_init_work_chargers (ia_chg_psy a) (chg_psy_avail g) 0
      (Z.to_nat (chg_psy_count g)) in
  let g1 := set_chg_psy_avail g avail in
  let g2 :=
    match chg_psy_at g1 0 with
    | Some _ => set_init_complete (set_resume_complete g1 true) true
    | None => g1
    end in
  let retries :=
    if found =? chg_psy_count g2 then 0
    else if negb (chg_psy_retries s2 =? 0) then chg_psy_retries s2 - 1
    else chg_psy_retries s2 in
  let s3 := set_chg_psy_retries s2 retries in
  let dc_not_done :=
    (negb (tcpm_phandle s3 =? 0) && is_null (tcpm_psy s3))
    || (wlc_dc_name s3 && is_null (wlc_dc_psy s3)) in
  if negb (retries =? 0) || dc_not_done then
    set_init_work (set_drv s3 g2)
      (match init_work s3 with
       | Some ms => Some ms
       | None => Some INIT_RETRY_DELAY_MS
       end)
  else set_drv s3 (set_dc_init_complete g2 true).

(** * Statements *)

(** A supply is online when the last value written to its
    [POWER_SUPPLY_PROP_ONLINE] is not 0. *)
Definition online (w : world) (d : psy) : Prop :=
  props w d POWER_SUPPLY_PROP_ONLINE <> 0.

Definition at_most_one_online (w : world) : Prop :=
  forall d1 d2, online w d1 -> online w d2 -> d1 = d2.

Definition none_online (w : world) : Prop :=
  forall d, props w d POWER_SUPPLY_PROP_ONLINE = 0.

(** Only the supply the registry calls active can be online. *)
Definition only_active_online (g : gcpm_drv) (w : world) : Prop :=
  forall d, online w d -> gcpm_chg_get_active g = Some d.

(** Online level of a supply after a history of calls (newest first)
    that started with every supply offline. *)
Fixpoint online_after (tr : list event) (d : psy) : Z :=
  match tr with
  | [] => 0
  | EvSetProp d' p v rc :: rest =>
      if psp_eq_dec p POWER_SUPPLY_PROP_ONLINE then
        if rc <? 0 then online_after rest d
        else if Nat.eqb d d' then v else online_after rest d
      else online_after rest d
  | _ :: rest => online_after rest d
  end.

(** The call [e], made after the history [rest], marks a supply online
    only when every other supply is offline at that moment. *)
Definition switch_is_exclusive (e : event) (rest : list event) : Prop :=
  match e with
  | EvSetProp d POWER_SUPPLY_PROP_ONLINE v rc =>
      0 <= rc -> v <> 0 -> forall d', d' <> d -> online_after rest d' = 0
  | _ => True
  end.

Fixpoint exclusive_switches (tr : list event) : Prop :=
  match tr with
  | [] => True
  | e :: rest => switch_is_exclusive e rest /\ exclusive_switches rest
  end.

(** The property store agrees with the history, and the history never
    switched a supply on next to another online supply. *)
Definition history_ok (w : world) : Prop :=
  (forall d, props w d POWER_SUPPLY_PROP_ONLINE = online_after (trace w) d)
  /\ exclusive_switches (trace w).

(** The operations of the arbiter that touch the online state, each run
    under the controller lock. *)
Inductive arbiter_op : Type :=
| OP_set_online (index : Z)
| OP_offline
| OP_dc_start (index : Z)
| OP_dc_stop (final_state : Z)
| OP_ping (index : Z).

Definition run_op (op : arbiter_op) (g : gcpm_drv) (w : world)
  : gcpm_drv * world :=
  match op with
  | OP_set_online index =>
      let '(_, g1, w1) := gcpm_chg_set_online g w index in (g1, w1)
  | OP_offline => let '(_, g1, w1) := gcpm_chg_offline g w in (g1, w1)
  | OP_dc_start index =>
      let '(_, g1, w1) := gcpm_dc_start g w index in (g1, w1)
  | OP_dc_stop final_state =>
      let '(_, g1, w1) := gcpm_dc_stop g w final_state in (g1, w1)
  | OP_ping index =>
      let '(_, g1, w1) := gcpm_chg_ping g w index false in (g1, w1)
  end.

Fixpoint run_ops (ops : list arbiter_op) (g : gcpm_drv) (w : world)
  : gcpm_drv * world :=
  match ops with
  | [] => (g, w)
  | op :: rest => let (g1, w1) := run_op op g w in run_ops rest g1 w1
  end.

(** ** Steps of a handover, read off the trace *)

(** What a successful call does to the charging path. *)
Inductive path_step : Type :=
| STEP_stop_charging (d : psy)
| STEP_offline (d : psy)
| STEP_online (d : psy)
| STEP_voltage (d : psy) (uv : Z)
| STEP_current (d : psy) (ua : Z)
| STEP_input_limit (d : psy) (ua : Z)
| STEP_vote_dc (enabled : bool).

(** Calls that failed, and calls that do not touch the path, are no
    step. *)
Definition step_of (e : event) : list path_step :=
  match e with
  | EvSetProp d p v rc =>
      if rc <? 0 then []
      else
        match p with
        | POWER_SUPPLY_PROP_ONLINE =>
            if v =? 0 then [STEP_offline d] else [STEP_online d]
        | GBMS_PROP_CHARGING_ENABLED =>
            if v =? 0 then [STEP_stop_charging d] else []
        | POWER_SUPPLY_PROP_CONSTANT_CHARGE_VOLTAGE_MAX => [STEP_voltage d v]
        | POWER_SUPPLY_PROP_CONSTANT_CHARGE_CURRENT_MAX => [STEP_current d v]
        | POWER_SUPPLY_PROP_CURRENT_MAX => [STEP_input_limit d v]
        | _ => []
        end
  | EvVote enabled rc => if rc <? 0 then [] else [STEP_vote_dc enabled]
  | _ => []
  end.

(** The steps of a piece of trace (newest call first), oldest first. *)
Fixpoint steps_of (evs : list event) : list path_step :=
  match evs with
  | [] => []
  | e :: rest => steps_of rest ++ step_of e
  end.




(** The steps that take the active source offline. *)
Definition offline_steps (g : gcpm_drv) : list path_step :=
  match gcpm_chg_get_active g with
  | Some c => [STEP_stop_charging c; STEP_offline c]
  | None => []
  end.

(** The steps by which [gcpm_dc_start] brings up the DC source [dc]. *)
Definition start_steps (g : gcpm_drv) (dc : psy) : list path_step :=
  [STEP_online dc; STEP_voltage dc (fv_uv g); STEP_current dc (cc_max g);
   STEP_input_limit dc (out_ua g); STEP_vote_dc true].

(** The whole handover from the active source to the source at
    [dc_index]. *)
Definition handover_steps (g : gcpm_drv) : list path_step :=
  offline_steps g
  ++ match chg_psy_at g (dc_index g) with
     | Some dc => start_steps g dc
     | None => []
     end.





(** ** Conditions on the state and on the collaborators *)

(** The selection gets as far as the voltage rules and the default source
    reports the battery voltage [vbatt]: no override is set, the demand
    is positive, the default source is registered and answers the read of
    the voltage with [vbatt], which is not an error code. *)
Definition select_reads_vbatt (g : gcpm_drv) (w : world) (vbatt : Z) : Prop :=
  force_active g < 0
  /\ 0 < cc_max g /\ 0 < fv_uv g
  /\ gcpm_chg_get_default g <> None
  /\ hd_error (script w) = Some vbatt
  /\ 0 <= vbatt.

(** The index [gcpm_chg_select] chooses from the demand alone. *)
Definition demand_index (g : gcpm_drv) : Z :=
  if dc_limit_demand g
     <? to_u32 (to_int (Z.quot (cc_max g) 1000 * Z.quot (fv_uv g) 1000))
  then GCPM_INDEX_DC_ENABLE else GCPM_DEFAULT_CHARGER.

(** Every call into a charger or into the election succeeds from now
    on. *)
Definition collaborators_succeed (w : world) : Prop :=
  Forall (fun rc => 0 <= rc) (script w).

(** The active designation of the registry is none, or is the index of
    a registered source.  The probe leaves [chg_psy_active] at 0 with no
    source registered; [gcpm_init_work] sets [init_complete] once the
    source of index 0 is found, the callers of [gcpm_chg_set_online] run
    behind [init_complete], and [chg_psy_active] is only written after
    the source has been looked up: the registry is in such a state at
    every call of [gcpm_chg_set_online]. *)
Definition active_registered (g : gcpm_drv) : Prop :=
  chg_psy_active g = -1 \/ chg_psy_at g (chg_psy_active g) <> None.

(** The condition under which the registry is kept from the probe on:
    the active designation is that of the probe until the driver is
    ready, and names a registered source, or none, from then on. *)
Definition registry_started (g : gcpm_drv) : Prop :=
  if init_complete g then active_registered g else chg_psy_active g = 0.

(** [gcpm_chg_set_online] turns the index down by itself, before any
    call: out of range, or no device registered at an index that is not
    the active one. *)
Definition set_online_refuses (g : gcpm_drv) (index : Z) : Prop :=
  (index < 0 \/ chg_psy_count g <= index)
  \/ (index <> chg_psy_active g /\ chg_psy_at g index = None).

(** Capacity in bytes of the tags the scratch space supports. *)
Definition tag_capacity (tag : gbms_tag_t) : option Z :=
  match tag with
  | GBMS_TAG_RS32 => Some 32
  | GBMS_TAG_RSBM => Some 4
  | GBMS_TAG_RSBR => Some 4
  | GBMS_TAG_SUFG => Some 1
  | GBMS_TAG_other _ => None
  end.

(** ** Sample states *)

(** A world in which nothing has happened yet: every property reads 0,
    nothing is queued, and the collaborators will answer [answers] and
    [pps_answers]. *)
Definition world0 (answers : list Z) (pps_answers : list pps_answer) : world :=
  {| props := fun _ _ => 0; dc_vote := false; gpio := fun _ => 0;
     script := answers; pps_script := pps_answers; trace := [];
     now := 0; wq_select := None; wq_pps := None; pm_usage := 0 |}.

(** A PPS session in stage [st] on supply [d]. *)
Definition pps_session (st : pps_stage) (d : option psy) : pd_pps_data :=
  {| stage := st; pd_online := 0; pps_psy := d |}.

(** The driver right after [google_cpm_probe] with two charger names and
    the default thresholds: the state is zeroed, no supply is found yet. *)
Definition gcpm_probed : gcpm_drv :=
  {| chg_psy_avail := [None; None; None; None]; chg_psy_active := 0;
     chg_psy_count := 2; force_active := -1;
     tcpm_pps_data := pps_session PPS_DISABLED None;
     wlc_pps_data := pps_session PPS_DISABLED None;
     out_ua := -1; out_uv := -1; dcen_gpio := -1; dcen_gpio_default := 0;
     pps_index := 0; dc_index := 0; dc_state := DC_IDLE; dc_start_time := 0;
     new_dc_limit := false; taper_control := false;
     dc_limit_vbatt_low := 3400000; dc_limit_vbatt_min := 3600000;
     dc_limit_vbatt_high := 4350000; dc_limit_vbatt_max := 4400000;
     dc_limit_demand := 0; cc_max := 0; fv_uv := 0;
     dc_init_complete := false; init_complete := false;
     resume_complete := false; gbms_mode := false |}.

(** The driver once start-up is complete: the default charger is supply
    0, the DC charger supply 1, the wired and wireless PPS sources
    supplies 2 and 3; the demand is 3 A at 4.4 V. *)
Definition gcpm_ready : gcpm_drv :=
  {| chg_psy_avail := [Some 0%nat; Some 1%nat; None; None];
     chg_psy_active := 0; chg_psy_count := 2; force_active := -1;
     tcpm_pps_data := pps_session PPS_NONE (Some 2%nat);
     wlc_pps_data := pps_session PPS_NONE (Some 3%nat);
     out_ua := -1; out_uv := -1; dcen_gpio := -1; dcen_gpio_default := 0;
     pps_index := 0; dc_index := 0; dc_state := DC_IDLE; dc_start_time := 0;
     new_dc_limit := false; taper_control := false;
     dc_limit_vbatt_low := 3400000; dc_limit_vbatt_min := 3600000;
     dc_limit_vbatt_high := 4350000; dc_limit_vbatt_max := 4400000;
     dc_limit_demand := 0; cc_max := 3000000; fv_uv := 4400000;
     dc_init_complete := true; init_complete := true;
     resume_complete := true; gbms_mode := false |}.

(** The sample state when only the default charger has been found. *)
Definition gcpm_default_only : gcpm_drv :=
  set_chg_psy_avail gcpm_ready [Some 0%nat; None; None; None].

(** The sample state with both PPS sessions not supported. *)
Definition gcpm_no_pps : gcpm_drv :=
  set_wlc_pps_data
    (set_tcpm_pps_data gcpm_ready (pps_session PPS_NOTSUPP (Some 2%nat)))
    (pps_session PPS_NOTSUPP (Some 3%nat)).

(** The sample state while the PPS sources are detected: the controller
    is in [EnablePassthrough] and has chosen the DC charger. *)
Definition gcpm_negotiating : gcpm_drv :=
  set_dc_index (set_dc_state gcpm_ready DC_ENABLE_PASSTHROUGH)
               GCPM_INDEX_DC_ENABLE.

(** An answer of the PPS negotiator: return value [r], stage [st] left
    in the session. *)
Definition pps_answers (r : Z) (st : pps_stage) : pps_answer :=
  {| pa_ret := r; pa_stage := st; pa_online := 2 |}.

(** The wired session turns active, the wireless one does not, and the
    keep-alive asks to be called again in 2 s. *)
Definition tcpm_turns_active : list pps_answer :=
  [pps_answers 0 PPS_ACTIVE; pps_answers 0 PPS_NONE;
   pps_answers 2000 PPS_ACTIVE].

(** The sample state in which the wired session was the first to turn
    active and is the selected one, while the wireless session is still
    only available. *)
Definition gcpm_wired_selected : gcpm_drv :=
  set_pps_index
    (set_wlc_pps_data
       (set_tcpm_pps_data gcpm_negotiating
          (pps_session PPS_ACTIVE (Some 2%nat)))
       (pps_session PPS_AVAILABLE (Some 3%nat)))
    PPS_INDEX_TCPM.

(** The sample state in steady direct charge from the wired PPS source,
    after the selection asked to go back to the default charger. *)
Definition gcpm_leaving_dc : gcpm_drv :=
  set_dc_index
    (set_chg_psy_active (set_dc_state gcpm_wired_selected DC_PASSTHROUGH)
       GCPM_INDEX_DC_ENABLE)
    GCPM_DEFAULT_CHARGER.

(** A register map that has not been accessed yet. *)
Definition regmap0 (answers : list Z) : regmap :=
  {| regs := fun _ => 0; reg_script := answers; reg_trace := [] |}.

(** ** Claims as the specification words them, where the driver differs *)


(** C3: the rules near the ceiling, with [vbatt_high < vbatt_max]:
    above [vbatt_high] a previous DC selection is kept, above [vbatt_max]
    the default index is forced whatever the previous selection, and any
    other voltage above [vbatt_min], such as one in
    [(vbatt_high, vbatt_max]] after a default selection, gives the DC
    index. *)
Definition select_ceiling_as_stated (g : gcpm_drv) (w : world) (vbatt : Z)
  : Prop :=
  select_reads_vbatt g w vbatt ->
  vbatt_low g <= vbatt_min g <= vbatt_high g ->
  vbatt_high g < vbatt_max g ->
  (vbatt_high g < vbatt -> dc_index g = GCPM_INDEX_DC_ENABLE ->
   fst (gcpm_chg_select g w) = GCPM_INDEX_DC_ENABLE)
  /\ (vbatt_max g < vbatt ->
      fst (gcpm_chg_select g w) = GCPM_DEFAULT_CHARGER)
  /\ (vbatt_min g < vbatt <= vbatt_max g ->
      ~ (vbatt_high g < vbatt /\ dc_index g = GCPM_INDEX_DC_ENABLE) ->
      fst (gcpm_chg_select g w) = GCPM_INDEX_DC_ENABLE).

(** C4: with both sessions not supported, the selection task takes the
    controller from [Idle] to [Disabled], without resetting a session,
    assigning [dc_index] or scheduling the negotiation task. *)
Definition select_work_notsupp_as_stated (g : gcpm_drv) (w : world) : Prop :=
  stage (tcpm_pps_data g) = PPS_NOTSUPP ->
  stage (wlc_pps_data g) = PPS_NOTSUPP ->
  dc_state g = DC_IDLE ->
  let (g1, w1) := gcpm_chg_select_work g w in
  dc_state g1 = DC_DISABLED
  /\ tcpm_pps_data g1 = tcpm_pps_data g
  /\ wlc_pps_data g1 = wlc_pps_data g
  /\ dc_index g1 = dc_index g
  /\ wq_pps w1 = wq_pps w.

(** C7: tearing down twice leaves the DC state, the active source and
    the stage of both PPS sessions as tearing down once does.  The
    tear-down is the run of the negotiation task with [dc_index <= 0]. *)
Definition teardown_idempotent_as_stated (g : gcpm_drv) (w : world) : Prop :=
  dc_index g <= 0 ->
  let once := gcpm_pps_wlc_dc_work g w in
  let twice := gcpm_pps_wlc_dc_work (fst once) (snd once) in
  dc_state (fst twice) = dc_state (fst once)
  /\ chg_psy_active (fst twice) = chg_psy_active (fst once)
  /\ stage (tcpm_pps_data (fst twice)) = stage (tcpm_pps_data (fst once))
  /\ stage (wlc_pps_data (fst twice)) = stage (wlc_pps_data (fst once)).

(** ** Statements on the further code *)

(** ** Scratch space: accesses and their outcome *)

(** The registers an access touches. *)
Definition reg_event_regs (e : reg_event) : list Z :=
  match e with
  | RegWrite reg _ _ => [reg]
  | RegRead reg _ => [reg]
  | RegBulkRead reg count _ | RegBulkWrite reg count _ =>
      map (fun i => reg + Z.of_nat i) (seq 0 (Z.to_nat count))
  end.

(** Every access to the register map succeeds from now on. *)
Definition regmap_succeeds (m : regmap) : Prop :=
  Forall (fun rc => 0 <= rc) (reg_script m).

Definition is_byte (b : Z) : Prop := 0 <= b < 256.

(** The address [max77779_sp_info] gives to a tag. *)
Definition tag_addr (tag : gbms_tag_t) : Z :=
  snd (max77779_sp_info tag 0 0).

(** The data register behind a byte address of page 0, and the position
    of the byte in its 16-bit word. *)
Definition sp_base (addr : Z) : Z :=
  MAX77779_SP_DATA + Z.land (Z.rem addr 256) (Z.lnot 1).

Definition sp_shift (addr : Z) : Z := Z.land (Z.rem addr 256) 1 * 8.

(** The accesses [evs] stay within the page-control register and the
    data registers [MAX77779_SP_DATA .. MAX77779_SP_DATA + 0x7e]. *)
Definition sp_accesses_within (page_ctrl : Z) (evs : list reg_event) : Prop :=
  Forall (fun e =>
            Forall (fun r => r = page_ctrl
                             \/ MAX77779_SP_DATA <= r < MAX77779_SP_DATA + 127)
                   (reg_event_regs e)) evs.

Definition set_now (w : world) (v : Z) : world :=
  {| props := props w; dc_vote := dc_vote w; gpio := gpio w;
     script := script w; pps_script := pps_script w; trace := trace w;
     now := v; wq_select := wq_select w; wq_pps := wq_pps w;
     pm_usage := pm_usage w |}.

(** ** Calls into the driver *)

(** What can happen to a driver that has been probed: a run of one of
    its two tasks, a write or a read through its property interface or
    through the combined PPS supply, a write to one of its debug files
    [active], [dc_limit_demand] and [dc_state], or time passing. *)
Inductive gcpm_call : Type :=
| RUN_select_work
| RUN_pps_work
| RUN_set_property (prop : psp) (intval : Z)
| RUN_get_property (prop : psp)
| RUN_pps_set_property (prop : psp) (intval : Z)
| RUN_pps_get_property (prop : psp)
| RUN_debug_set_active (val : Z)
| RUN_debug_dc_limit_demand_set (val : Z)
| RUN_debug_dc_state_set (val : Z)
| RUN_elapse (sec : Z).

(** One call; [taper_off], [usb_type_key] and [usb_type_unknown] are
    the constants [GBMS_TAPER_CONTROL_OFF], [POWER_SUPPLY_PROP_USB_TYPE]
    and [POWER_SUPPLY_USB_TYPE_UNKNOWN] of the headers. *)
Definition run_call (taper_off usb_type_key usb_type_unknown : Z)
  (c : gcpm_call) (g : gcpm_drv) (w : world) : gcpm_drv * world :=
  match c with
  | RUN_select_work => gcpm_chg_select_work g w
  | RUN_pps_work => gcpm_pps_wlc_dc_work g w
  | RUN_set_property prop intval =>
      let '(_, g1, w1) := gcpm_psy_set_property taper_off g w prop intval in
      (g1, w1)
  | RUN_get_property prop =>
      let '(_, _, g1, w1) := gcpm_psy_get_property g w prop 0 in (g1, w1)
  | RUN_pps_set_property prop intval =>
      (g, snd (gcpm_pps_psy_set_property g w prop intval))
  | RUN_pps_get_property prop =>
      (g, snd (gcpm_pps_psy_get_property usb_type_key usb_type_unknown
                 g w prop 0))
  | RUN_debug_set_active val =>
      let '(_, g1, w1) := gcpm_debug_set_active g w val in (g1, w1)
  | RUN_debug_dc_limit_demand_set val =>
      (snd (gcpm_debug_dc_limit_demand_set g val), w)
  | RUN_debug_dc_state_set val =>
      let '(_, g1, w1) := gcpm_debug_dc_state_set g w val in (g1, w1)
  | RUN_elapse sec => (g, set_now w (now w + sec))
  end.

Fixpoint run_calls (taper_off usb_type_key usb_type_unknown : Z)
  (cs : list gcpm_call) (g : gcpm_drv) (w : world) : gcpm_drv * world :=
  match cs with
  | [] => (g, w)
  | c :: rest =>
      let (g1, w1) :=
        run_call taper_off usb_type_key usb_type_unknown c g w in
      run_calls taper_off usb_type_key usb_type_unknown rest g1 w1
  end.

(** The call is a write to the debug file [dc_state]. *)
Definition writes_dc_state (c : gcpm_call) : Prop :=
  match c with
  | RUN_debug_dc_state_set _ => True
  | _ => False
  end.

(** Start-up is complete. *)
Definition gcpm_is_ready (g : gcpm_drv) : Prop :=
  init_complete g = true /\ resume_complete g = true.

(** The default charger is registered. *)
Definition default_registered (g : gcpm_drv) : Prop :=
  0 < chg_psy_count g /\ gcpm_chg_get_default g <> None.

(** The key under which [gcpm_psy_set_property] passes a write on to the
    active charger. *)
Definition routed_key (prop : psp) : psp :=
  match prop with
  | POWER_SUPPLY_PROP_VOLTAGE_MAX =>
      POWER_SUPPLY_PROP_CONSTANT_CHARGE_VOLTAGE_MAX
  | _ => prop
  end.

(** The driver state without the members the registry and the election
    write ([chg_psy_active], [gbms_mode]), and without the members of the
    PPS sessions ([tcpm_pps_data], [wlc_pps_data], [pps_index]): two
    states that agree on the one agree on every other member. *)
Definition forget_registry (g : gcpm_drv) : gcpm_drv :=
  set_gbms_mode (set_chg_psy_active g 0) false.

Definition forget_pps (g : gcpm_drv) : gcpm_drv :=
  set_pps_index
    (set_wlc_pps_data
       (set_tcpm_pps_data g (pps_session PPS_NONE None))
       (pps_session PPS_NONE None)) 0.

(** The step of the negotiator in this run leaves no session selected:
    [gcpm_pps_work] fails, or succeeds with none active. *)
Definition no_session_after_step (g : gcpm_drv) (w : world) : Prop :=
  let '(ret, gp, wp) := gcpm_pps_work g w in
  ret < 0 \/ gcpm_pps_data gp = None.

(** The deadline that applies to the run, in seconds since the start of
    the session. *)
Definition detection_deadline (g : gcpm_drv) (w : world) : Z :=
  if fst (fst (gcpm_pps_work g w)) <? 0
  then PPS_PROG_TIMEOUT_S else PPS_ACTIVE_TIMEOUT_S.

(** ** Start-up *)

(** The runs of [gcpm_init_work] as the work queue makes them, one
    answer of the kernel per run: a run happens while the work is
    queued, and takes it off the queue. *)
Fixpoint gcpm_init_runs (s : gcpm_startup) (answers : list init_answers)
  : gcpm_startup :=
  match answers with
  | [] => s
  | a :: rest =>
      match init_work s with
      | None => s
      | Some _ =>
          gcpm_init_runs (gcpm_init_work (set_init_work s None) a) rest
      end
  end.

(** The wired, and the wireless, PPS source is configured and not yet
    found. *)
Definition tcpm_not_done (s : gcpm_startup) : bool :=
  negb (tcpm_phandle s =? 0) && is_null (tcpm_psy s).

Definition wlc_not_done (s : gcpm_startup) : bool :=
  wlc_dc_name s && is_null (wlc_dc_psy s).

(** The entry of index [i] after a run that looks up the missing
    chargers below [count]. *)
Definition chg_psy_looked_up (lookup : Z -> option psy) (g : gcpm_drv)
  (i : Z) : option psy :=
  if (0 <=? i) && (i <? chg_psy_count g) then
    match chg_psy_at g i with
    | Some d => Some d
    | None => lookup i
    end
  else chg_psy_at g i.

(** The conditions of a probe: the driver data is allocated and the
    name of the supply, when the device tree gives one, is copied; the
    list of chargers has between 1 and [GCPM_MAX_CHARGERS] names and all
    are read; the name of the wireless supply, when given, is copied. *)
Definition probe_alloc_ok (dt : device_tree) : Prop :=
  dt_alloc dt = true /\ dt_psy_name dt <> Some false.

Definition probe_names_ok (dt : device_tree) : Prop :=
  0 < dt_chg_count dt <= GCPM_MAX_CHARGERS
  /\ dt_chg_read dt = dt_chg_count dt.

Definition probe_wlc_ok (dt : device_tree) : Prop :=
  dt_wlc_dc_name dt <> Some false.

(** The registration answered the error [rc], and [ret] is the code the
    probe makes of it. *)
Definition probe_not_registered (rc ret : Z) : Prop :=
  rc < 0
  /\ ((rc = - EPROBE_DEFER /\ ret = - EPROBE_DEFER)
      \/ (rc <> - EPROBE_DEFER /\ ret = - ENODEV)).

(** A device tree with two chargers, a wired PPS source, the defaults
    for the thresholds and no line for direct charge. *)
Definition device_tree0 : device_tree :=
  {| dt_alloc := true; dt_psy_name := None;
     dt_chg_count := 2; dt_chg_read := 2;
     dt_tcpm_phandle := Some 7; dt_wlc_dc_name := None;
     dt_dc_en := -1; dt_dc_en_value := None;
     dt_gpio_direction_output := 0;
     dt_dc_limit_demand := None;
     dt_dc_limit_vbatt_min := None; dt_dc_limit_vbatt_low := None;
     dt_dc_limit_vbatt_max := None; dt_dc_limit_vbatt_high := None;
     dt_init_fs := true; dt_register := 0; dt_register_pps := 0 |}.

(** A run in which no supply is there yet. *)
Definition init_nothing : init_answers :=
  {| ia_tcpm_psy := None;
     ia_tcpm_pps_init := (0, pps_session PPS_NONE None);
     ia_wlc_dc_psy := None;
     ia_wlc_pps_init := (0, pps_session PPS_NONE None);
     ia_chg_psy := fun _ => None |}.

(** A run in which the default charger is there. *)
Definition init_default_only : init_answers :=
  {| ia_tcpm_psy := None;
     ia_tcpm_pps_init := (0, pps_session PPS_NONE None);
     ia_wlc_dc_psy := None;
     ia_wlc_pps_init := (0, pps_session PPS_NONE None);
     ia_chg_psy := fun i => if i =? 0 then Some 0%nat else None |}.

(** The driver data of [gcpm_probed] as the probe of [device_tree0]
    hands it out. *)
Definition startup_probed : gcpm_startup :=
  {| drv := gcpm_probed; init_work := Some INIT_DELAY_MS;
     chg_psy_retries := 10; log_psy_ratelimit := LOG_PSY_RATELIMIT_CNT;
     tcpm_phandle := 7; tcpm_psy := None;
     wlc_dc_name := false; wlc_dc_psy := None; debug_entry := true |}.

(** * Proofs *)

(** Case analysis on the next test of the goal. *)
Ltac destr :=
  match goal with
  | |- context [match ?x with _ => _ end] =>
      let E := fresh "E" in destruct x eqn:E
  end.

(** Comparisons between closed integer expressions. *)
Ltac closed_arith :=
  vm_compute; repeat split; solve [reflexivity | discriminate].

(** ** Collaborator calls and the property store *)

Lemma next_answer_frame w :
  let (r, w1) := next_answer w in
  props w1 = props w /\ trace w1 = trace w /\ dc_vote w1 = dc_vote w
  /\ gpio w1 = gpio w /\ wq_select w1 = wq_select w /\ wq_pps w1 = wq_pps w
  /\ pm_usage w1 = pm_usage w /\ now w1 = now w
  /\ pps_script w1 = pps_script w.
Proof.
  unfold next_answer. destruct (script w); cbn; repeat split; reflexivity.
Qed.

Lemma GPSY_SET_PROP_props w d p v :
  let (ret, w1) := GPSY_SET_PROP w d p v in
  (ret < 0 /\ props w1 = props w)
  \/ (ret = 0 /\ props w1 = write_prop (props w) d p v).
Proof.
  unfold GPSY_SET_PROP, power_supply_set_property.
  pose proof (next_answer_frame w) as F.
  destruct (next_answer w) as [rc w1]. destruct F as (F & _).
  destruct (Z.ltb_spec rc 0); cbn.
  - left. split; [assumption | exact F].
  - right. split; [reflexivity | rewrite F; reflexivity].
Qed.

Lemma write_prop_same st d p v : write_prop st d p v d p = v.
Proof.
  unfold write_prop. rewrite Nat.eqb_refl.
  destruct (psp_eq_dec p p); [reflexivity | contradiction].
Qed.

Lemma write_prop_other_psy st d p v d' p' :
  d' <> d -> write_prop st d p v d' p' = st d' p'.
Proof.
  intros H. unfold write_prop.
  destruct (Nat.eqb_spec d' d); [contradiction | reflexivity].
Qed.

Lemma write_prop_other_key st d p v d' p' :
  p' <> p -> write_prop st d p v d' p' = st d' p'.
Proof.
  intros H. unfold write_prop.
  destruct (Nat.eqb d' d); [| reflexivity].
  destruct (psp_eq_dec p' p); [contradiction | reflexivity].
Qed.

(** A write to another key leaves the online state of every supply. *)
Lemma GPSY_SET_PROP_other_key w d p v :
  p <> POWER_SUPPLY_PROP_ONLINE ->
  forall d', props (snd (GPSY_SET_PROP w d p v)) d' POWER_SUPPLY_PROP_ONLINE
             = props w d' POWER_SUPPLY_PROP_ONLINE.
Proof.
  intros Hp d'. pose proof (GPSY_SET_PROP_props w d p v) as H.
  destruct (GPSY_SET_PROP w d p v) as [ret w1]; cbn.
  destruct H as [[_ ->] | [_ ->]]; [reflexivity |].
  apply write_prop_other_key. congruence.
Qed.

(** Marking a supply offline can only shrink the set of online supplies;
    when the call succeeds the supply is offline. *)
Lemma GPSY_SET_PROP_offline w d :
  let (ret, w1) := GPSY_SET_PROP w d POWER_SUPPLY_PROP_ONLINE 0 in
  (forall d', online w1 d' -> online w d')
  /\ (ret = 0 -> ~ online w1 d).
Proof.
  pose proof (GPSY_SET_PROP_props w d POWER_SUPPLY_PROP_ONLINE 0) as H.
  destruct (GPSY_SET_PROP w d POWER_SUPPLY_PROP_ONLINE 0) as [ret w1].
  unfold online. destruct H as [[Hr ->] | [Hr ->]].
  - split; [auto | lia].
  - split.
    + intros d' Hd'. destruct (Nat.eq_dec d' d) as [-> | Hne].
      * rewrite write_prop_same in Hd'. contradiction.
      * rewrite write_prop_other_psy in Hd' by assumption. assumption.
    + intros _. rewrite write_prop_same. auto.
Qed.

Lemma gvotable_cast_vote_props w enabled :
  props (snd (gvotable_cast_vote w enabled)) = props w.
Proof.
  unfold gvotable_cast_vote. pose proof (next_answer_frame w) as F.
  destruct (next_answer w) as [rc w1]. destruct F as (F & _).
  destruct (rc <? 0); cbn; exact F.
Qed.

Lemma gcpm_dc_enable_props g w enabled :
  let '(ret, g1, w1) := gcpm_dc_enable g w enabled in
  props w1 = props w /\ gcpm_chg_get_active g1 = gcpm_chg_get_active g.
Proof.
  unfold gcpm_dc_enable. destruct (gbms_mode g).
  - pose proof (gvotable_cast_vote_props w enabled) as V.
    destruct (gvotable_cast_vote w enabled); cbn in V. auto.
  - unfold gvotable_election_get_handle.
    pose proof (next_answer_frame w) as F.
    destruct (next_answer w) as [rc w1]. destruct F as (F & _).
    destruct (rc <? 0).
    + split; [exact F | reflexivity].
    + pose proof (gvotable_cast_vote_props
                    (record (EvGetHandle rc) w1) enabled) as V.
      destruct (gvotable_cast_vote _ enabled); cbn in V.
      split; [rewrite V; exact F | reflexivity].
Qed.

Lemma dcen_gpio_set_props g w v : props (dcen_gpio_set g w v) = props w.
Proof.
  unfold dcen_gpio_set.
  destruct ((0 <=? dcen_gpio g) && (dcen_gpio_default g =? 0)); reflexivity.
Qed.

(** ** The registry keeps the online supply unique *)

Lemma chg_psy_at_set_active g v index :
  chg_psy_at (set_chg_psy_active g v) index = chg_psy_at g index.
Proof. reflexivity. Qed.

Lemma gcpm_chg_offline_inv g w :
  only_active_online g w ->
  let '(ret, g1, w1) := gcpm_chg_offline g w in
  only_active_online g1 w1
  /\ (ret = 0 -> none_online w1)
  /\ ret <= 0
  /\ chg_psy_avail g1 = chg_psy_avail g
  /\ chg_psy_count g1 = chg_psy_count g.
Proof.
  intros Inv. unfold gcpm_chg_offline.
  destruct (gcpm_chg_get_active g) as [c |] eqn:A.
  - pose proof (GPSY_SET_PROP_other_key w c GBMS_PROP_CHARGING_ENABLED 0) as K.
    pose proof (GPSY_SET_PROP_props w c GBMS_PROP_CHARGING_ENABLED 0) as P1.
    destruct (GPSY_SET_PROP w c GBMS_PROP_CHARGING_ENABLED 0) as [r1 w1].
    cbn in K. assert (K' : forall d, online w1 d -> online w d).
    { intros d. unfold online. rewrite K by discriminate. auto. }
    destruct (Z.eqb_spec r1 0) as [-> | Hr1].
    + pose proof (GPSY_SET_PROP_offline w1 c) as O.
      pose proof (GPSY_SET_PROP_props w1 c POWER_SUPPLY_PROP_ONLINE 0) as P2.
      destruct (GPSY_SET_PROP w1 c POWER_SUPPLY_PROP_ONLINE 0) as [r2 w2].
      destruct O as [O1 O2].
      destruct (Z.eqb_spec r2 0) as [-> | Hr2].
      * assert (N : none_online w2).
        { intros d.
          destruct (Z.eq_dec (props w2 d POWER_SUPPLY_PROP_ONLINE) 0) as [E | E];
            [exact E | exfalso].
          pose proof (Inv d (K' d (O1 d E))) as Hc.
          rewrite A in Hc. injection Hc as <-. exact (O2 eq_refl E). }
        split; [| split; [| split; [| split]]];
          [| auto | lia | reflexivity | reflexivity].
        intros d Hd. destruct (Hd (N d)).
      * split; [| split; [| split; [| split]]];
          [| contradiction | | reflexivity | reflexivity].
        -- intros d Hd. apply Inv. apply K'. apply O1. exact Hd.
        -- destruct P2 as [[? _] | [? _]]; lia.
    + cbn. apply Z.eqb_neq in Hr1 as Hr1'. rewrite Hr1'.
      split; [| split; [| split; [| split]]];
        [| contradiction | | reflexivity | reflexivity].
      * intros d Hd. apply Inv. apply K'. exact Hd.
      * destruct P1 as [[? _] | [? _]]; lia.
  - split; [| split; [| split; [| split]]];
      [exact Inv | | lia | reflexivity | reflexivity].
    intros _ d.
    destruct (Z.eq_dec (props w d POWER_SUPPLY_PROP_ONLINE) 0) as [E | E];
      [exact E | exfalso].
    apply Inv in E. congruence.
Qed.

Lemma gcpm_chg_set_online_inv g w index :
  only_active_online g w ->
  let '(ret, g1, w1) := gcpm_chg_set_online g w index in
  only_active_online g1 w1.
Proof.
  intros Inv. unfold gcpm_chg_set_online.
  destruct ((index <? 0) || (chg_psy_count g <=? index)) eqn:R; [exact Inv |].
  destruct (index =? chg_psy_active g); [exact Inv |].
  destruct (chg_psy_at g index) as [a |] eqn:A; [| exact Inv].
  pose proof (gcpm_chg_offline_inv g w Inv) as O.
  destruct (gcpm_chg_offline g w) as [[r g1] w1].
  destruct O as (Inv1 & N & Hle & Av & _).
  destruct (Z.ltb_spec r 0) as [Hr | Hr]; [exact Inv1 |].
  assert (r = 0) as -> by lia. specialize (N eq_refl).
  pose proof (GPSY_SET_PROP_props w1 a POWER_SUPPLY_PROP_ONLINE 1) as P.
  destruct (GPSY_SET_PROP w1 a POWER_SUPPLY_PROP_ONLINE 1) as [r2 w2].
  destruct P as [[Hr2 P] | [-> P]].
  - destruct (Z.ltb_spec r2 0); [| lia].
    intros d Hd. unfold online in Hd. rewrite P in Hd. apply Inv1. exact Hd.
  - cbn. intros d Hd. unfold online in Hd. rewrite P in Hd.
    assert (Hda : d = a).
    { destruct (Nat.eq_dec d a) as [E | E]; [exact E |].
      rewrite write_prop_other_psy in Hd by exact E.
      destruct (Hd (N d)). }
    subst d. unfold gcpm_chg_get_active. cbn.
    apply orb_false_iff in R as [R1 _]. apply Z.ltb_ge in R1.
    destruct (Z.eqb_spec index (-1)); [lia |].
    unfold chg_psy_at in *. cbn. rewrite Av. exact A.
Qed.

Lemma gcpm_chg_ping_inv g w index b :
  only_active_online g w ->
  let '(ret, g1, w1) := gcpm_chg_ping g w index b in
  only_active_online g1 w1.
Proof.
  intros Inv. unfold gcpm_chg_ping.
  destruct (chg_psy_at g index) as [c |]; [| exact Inv].
  pose proof (GPSY_SET_PROP_offline w c) as O.
  destruct (GPSY_SET_PROP w c POWER_SUPPLY_PROP_ONLINE 0) as [r w1].
  destruct O as [O _]. intros d Hd. apply Inv. apply O. exact Hd.
Qed.

(** Writes that leave [POWER_SUPPLY_PROP_ONLINE] of every supply alone
    keep the invariant. *)
Lemma only_active_online_frame g w g1 w1 :
  only_active_online g w ->
  (forall d, props w1 d POWER_SUPPLY_PROP_ONLINE
             = props w d POWER_SUPPLY_PROP_ONLINE) ->
  gcpm_chg_get_active g1 = gcpm_chg_get_active g ->
  only_active_online g1 w1.
Proof.
  intros Inv P A d Hd. rewrite A. apply Inv.
  unfold online in *. rewrite <- P. exact Hd.
Qed.

Lemma gcpm_dc_enable_inv g w enabled :
  only_active_online g w ->
  let '(ret, g1, w1) := gcpm_dc_enable g w enabled in
  only_active_online g1 w1.
Proof.
  intros Inv. pose proof (gcpm_dc_enable_props g w enabled) as P.
  destruct (gcpm_dc_enable g w enabled) as [[r g1] w1]. destruct P as [P A].
  apply (only_active_online_frame g w); auto. intros d. rewrite P. reflexivity.
Qed.

Lemma dcen_gpio_set_inv g w v :
  only_active_online g w -> only_active_online g (dcen_gpio_set g w v).
Proof.
  intros Inv. apply (only_active_online_frame g w); auto.
  intros d. rewrite dcen_gpio_set_props. reflexivity.
Qed.

Lemma set_dc_state_inv g w v :
  only_active_online g w -> only_active_online (set_dc_state g v) w.
Proof. intros Inv. exact Inv. Qed.

Lemma gcpm_dc_stop_default_online_inv g w final_state :
  only_active_online g w ->
  let '(ret, g1, w1) := gcpm_dc_stop_default_online g w final_state in
  only_active_online g1 w1.
Proof.
  intros Inv. unfold gcpm_dc_stop_default_online.
  pose proof (gcpm_chg_set_online_inv g w 0 Inv) as S.
  destruct (gcpm_chg_set_online g w 0) as [[r g1] w1].
  destruct (r <? 0); exact S.
Qed.

Lemma gcpm_dc_stop_inv g w final_state :
  only_active_online g w ->
  let '(ret, g1, w1) := gcpm_dc_stop g w final_state in
  only_active_online g1 w1.
Proof.
  intros Inv. unfold gcpm_dc_stop.
  pose proof (dcen_gpio_set_inv g w 0 Inv) as Inv0.
  destruct ((dc_state g =? DC_RUNNING) || (dc_state g =? DC_PASSTHROUGH)).
  - pose proof (gcpm_dc_enable_inv g _ false Inv0) as E.
    destruct (gcpm_dc_enable g (dcen_gpio_set g w 0) false) as [[r g1] w1].
    destruct (r <? 0); [exact E |].
    apply gcpm_dc_stop_default_online_inv. exact E.
  - destruct ((dc_state g =? DC_ENABLE) || (dc_state g =? DC_ENABLE_PASSTHROUGH)).
    + apply gcpm_dc_stop_default_online_inv. exact Inv0.
    + exact Inv0.
Qed.

Lemma GPSY_SET_PROP_other_key_inv g w d p v :
  p <> POWER_SUPPLY_PROP_ONLINE ->
  only_active_online g w ->
  only_active_online g (snd (GPSY_SET_PROP w d p v)).
Proof.
  intros Hp Inv. apply (only_active_online_frame g w); auto.
  apply GPSY_SET_PROP_other_key. exact Hp.
Qed.

Lemma gcpm_dc_start_inv g w index :
  only_active_online g w ->
  let '(ret, g1, w1) := gcpm_dc_start g w index in
  only_active_online g1 w1.
Proof.
  intros Inv. unfold gcpm_dc_start.
  pose proof (gcpm_chg_set_online_inv g w index Inv) as S.
  destruct (gcpm_chg_set_online g w index) as [[r g1] w1].
  destruct (r <? 0); [exact S |].
  destruct (gcpm_chg_get_active g1) as [dc |] eqn:A; [| exact S].
  pose proof (GPSY_SET_PROP_other_key_inv g1 w1 dc
    POWER_SUPPLY_PROP_CONSTANT_CHARGE_VOLTAGE_MAX (fv_uv g1)
    ltac:(discriminate) S) as S2.
  destruct (GPSY_SET_PROP w1 dc _ (fv_uv g1)) as [r2 w2]; cbn in S2.
  destruct (r2 <? 0); [exact S2 |].
  pose proof (GPSY_SET_PROP_other_key_inv g1 w2 dc
    POWER_SUPPLY_PROP_CONSTANT_CHARGE_CURRENT_MAX (cc_max g1)
    ltac:(discriminate) S2) as S3.
  destruct (GPSY_SET_PROP w2 dc _ (cc_max g1)) as [r3 w3]; cbn in S3.
  destruct (r3 <? 0); [exact S3 |].
  pose proof (GPSY_SET_PROP_other_key_inv g1 w3 dc
    POWER_SUPPLY_PROP_CURRENT_MAX (out_ua g1) ltac:(discriminate) S3) as S4.
  destruct (GPSY_SET_PROP w3 dc _ (out_ua g1)) as [r4 w4]; cbn in S4.
  destruct (r4 <? 0); [exact S4 |].
  pose proof (gcpm_dc_enable_inv g1 _ true (dcen_gpio_set_inv g1 w4 1 S4)) as E.
  destruct (gcpm_dc_enable g1 (dcen_gpio_set g1 w4 1) true) as [[r5 g2] w5].
  destruct (r5 <? 0); exact E.
Qed.

Lemma run_op_inv op g w :
  only_active_online g w ->
  only_active_online (fst (run_op op g w)) (snd (run_op op g w)).
Proof.
  intros Inv. destruct op as [index | | index | final_state | index]; cbn.
  - pose proof (gcpm_chg_set_online_inv g w index Inv) as H.
    destruct (gcpm_chg_set_online g w index) as [[r g1] w1]. exact H.
  - pose proof (gcpm_chg_offline_inv g w Inv) as H.
    destruct (gcpm_chg_offline g w) as [[r g1] w1]. apply H.
  - pose proof (gcpm_dc_start_inv g w index Inv) as H.
    destruct (gcpm_dc_start g w index) as [[r g1] w1]. exact H.
  - pose proof (gcpm_dc_stop_inv g w final_state Inv) as H.
    destruct (gcpm_dc_stop g w final_state) as [[r g1] w1]. exact H.
  - pose proof (gcpm_chg_ping_inv g w index false Inv) as H.
    destruct (gcpm_chg_ping g w index false) as [[r g1] w1]. exact H.
Qed.

Lemma run_ops_inv ops : forall g w,
  only_active_online g w ->
  only_active_online (fst (run_ops ops g w)) (snd (run_ops ops g w)).
Proof.
  induction ops as [| op rest IH]; intros g w Inv; cbn; [exact Inv |].
  pose proof (run_op_inv op g w Inv) as H.
  destruct (run_op op g w) as [g1 w1]. apply IH. exact H.
Qed.

Lemma only_active_online_unique g w :
  only_active_online g w -> at_most_one_online w.
Proof.
  intros Inv d1 d2 H1 H2. apply Inv in H1. apply Inv in H2. congruence.
Qed.

Lemma none_online_only_active g w : none_online w -> only_active_online g w.
Proof. intros N d Hd. destruct (Hd (N d)). Qed.

(** ** The history of calls *)

Lemma next_answer_trace w : trace (snd (next_answer w)) = trace w.
Proof. unfold next_answer. destruct (script w); reflexivity. Qed.

Lemma next_answer_props w : props (snd (next_answer w)) = props w.
Proof. unfold next_answer. destruct (script w); reflexivity. Qed.

(** What a property write does to the store, the return value and the
    trace. *)
Lemma GPSY_SET_PROP_trace w d p v :
  let (ret, w1) := GPSY_SET_PROP w d p v in
  exists rc,
    trace w1 = EvSetProp d p v rc :: trace w
    /\ ((rc < 0 /\ ret = rc /\ props w1 = props w)
        \/ (0 <= rc /\ ret = 0 /\ props w1 = write_prop (props w) d p v)).
Proof.
  unfold GPSY_SET_PROP, power_supply_set_property.
  pose proof (next_answer_trace w) as T. pose proof (next_answer_props w) as P.
  destruct (next_answer w) as [rc w1]; cbn in T, P. exists rc.
  destruct (Z.ltb_spec rc 0); cbn; rewrite T, ?P; split; auto.
Qed.

Lemma history_ok_other_event w w1 e :
  trace w1 = e :: trace w ->
  (forall d, props w1 d POWER_SUPPLY_PROP_ONLINE
             = props w d POWER_SUPPLY_PROP_ONLINE) ->
  match e with
  | EvSetProp _ POWER_SUPPLY_PROP_ONLINE _ _ => False
  | _ => True
  end ->
  history_ok w -> history_ok w1.
Proof.
  intros T P He [H1 H2]. split.
  - intros d. rewrite P, T, H1.
    destruct e as [d' p v rc | | | | | | |]; try reflexivity. cbn.
    destruct (psp_eq_dec p POWER_SUPPLY_PROP_ONLINE) as [-> | ];
      [contradiction | reflexivity].
  - rewrite T. split; [| exact H2].
    destruct e as [d' p v rc | | | | | | |]; cbn; auto.
    destruct p; auto. contradiction.
Qed.

Lemma GPSY_SET_PROP_other_key_history w d p v :
  p <> POWER_SUPPLY_PROP_ONLINE ->
  history_ok w -> history_ok (snd (GPSY_SET_PROP w d p v)).
Proof.
  intros Hp H. pose proof (GPSY_SET_PROP_trace w d p v) as T.
  pose proof (GPSY_SET_PROP_other_key w d p v Hp) as K.
  destruct (GPSY_SET_PROP w d p v) as [ret w1]; cbn in *.
  destruct T as (rc & T & _).
  apply (history_ok_other_event w w1 _ T K); [| exact H].
  destruct p; auto.
Qed.

(** Marking a supply online or offline keeps the history in order when
    every other supply is offline, or when the value written is 0. *)
Lemma GPSY_SET_PROP_online_history w d v :
  (v = 0 \/ forall d', d' <> d -> props w d' POWER_SUPPLY_PROP_ONLINE = 0) ->
  history_ok w ->
  history_ok (snd (GPSY_SET_PROP w d POWER_SUPPLY_PROP_ONLINE v)).
Proof.
  intros Hv [H1 H2].
  pose proof (GPSY_SET_PROP_trace w d POWER_SUPPLY_PROP_ONLINE v) as T.
  destruct (GPSY_SET_PROP w d POWER_SUPPLY_PROP_ONLINE v) as [ret w1]; cbn.
  destruct T as (rc & T & C). split.
  - intros d'. rewrite T. cbn.
    destruct C as [(Hrc & _ & P) | (Hrc & _ & P)]; rewrite P.
    + destruct (Z.ltb_spec rc 0); [apply H1 | lia].
    + destruct (Z.ltb_spec rc 0); [lia |].
      destruct (Nat.eqb_spec d' d) as [-> | Hne].
      * apply write_prop_same.
      * rewrite write_prop_other_psy by exact Hne. apply H1.
  - rewrite T. split; [| exact H2]. cbn. intros Hrc Hv0 d' Hd'.
    destruct Hv as [-> | Hv]; [contradiction |].
    rewrite <- H1. apply Hv. exact Hd'.
Qed.

Lemma gvotable_cast_vote_history w enabled :
  history_ok w -> history_ok (snd (gvotable_cast_vote w enabled)).
Proof.
  intros H. pose proof (gvotable_cast_vote_props w enabled) as P.
  apply (history_ok_other_event w _ (EvVote enabled (fst (next_answer w))));
    [| intros d; rewrite P; reflexivity | exact I | exact H].
  unfold gvotable_cast_vote. pose proof (next_answer_trace w) as T.
  destruct (next_answer w) as [rc w1]; cbn in *.
  destruct (rc <? 0); cbn; rewrite T; reflexivity.
Qed.

Lemma gcpm_dc_enable_history g w enabled :
  history_ok w ->
  let '(ret, g1, w1) := gcpm_dc_enable g w enabled in history_ok w1.
Proof.
  intros H. unfold gcpm_dc_enable. destruct (gbms_mode g).
  - pose proof (gvotable_cast_vote_history w enabled H) as V.
    destruct (gvotable_cast_vote w enabled); exact V.
  - unfold gvotable_election_get_handle.
    pose proof (next_answer_trace w) as T. pose proof (next_answer_props w) as P.
    destruct (next_answer w) as [rc w1]; cbn in T, P.
    assert (H1 : history_ok (record (EvGetHandle rc) w1)).
    { apply (history_ok_other_event w _ (EvGetHandle rc)); auto.
      - cbn. rewrite T. reflexivity.
      - intros d. cbn. rewrite P. reflexivity. }
    destruct (rc <? 0); [exact H1 |].
    pose proof (gvotable_cast_vote_history _ enabled H1) as V.
    destruct (gvotable_cast_vote _ enabled); exact V.
Qed.

Lemma dcen_gpio_set_history g w v :
  history_ok w -> history_ok (dcen_gpio_set g w v).
Proof.
  intros H. unfold dcen_gpio_set.
  destruct ((0 <=? dcen_gpio g) && (dcen_gpio_default g =? 0)); [| exact H].
  apply (history_ok_other_event w _ (EvGpio (dcen_gpio g) v)); auto.
Qed.

Lemma gcpm_chg_offline_history g w :
  history_ok w ->
  let '(ret, g1, w1) := gcpm_chg_offline g w in history_ok w1.
Proof.
  intros H. unfold gcpm_chg_offline.
  destruct (gcpm_chg_get_active g) as [c |]; [| exact H].
  pose proof (GPSY_SET_PROP_other_key_history w c GBMS_PROP_CHARGING_ENABLED 0
                ltac:(discriminate) H) as H1.
  destruct (GPSY_SET_PROP w c GBMS_PROP_CHARGING_ENABLED 0) as [r1 w1].
  cbn in H1. destruct (r1 =? 0); [| cbn; destruct (r1 =? 0); exact H1].
  pose proof (GPSY_SET_PROP_online_history w1 c 0 (or_introl eq_refl) H1) as H2.
  destruct (GPSY_SET_PROP w1 c POWER_SUPPLY_PROP_ONLINE 0) as [r2 w2].
  exact H2.
Qed.

Lemma gcpm_chg_set_online_history g w index :
  only_active_online g w -> history_ok w ->
  let '(ret, g1, w1) := gcpm_chg_set_online g w index in history_ok w1.
Proof.
  intros Inv H. unfold gcpm_chg_set_online.
  destruct ((index <? 0) || (chg_psy_count g <=? index)); [exact H |].
  destruct (index =? chg_psy_active g); [exact H |].
  destruct (chg_psy_at g index) as [a |]; [| exact H].
  pose proof (gcpm_chg_offline_inv g w Inv) as O.
  pose proof (gcpm_chg_offline_history g w H) as H1.
  destruct (gcpm_chg_offline g w) as [[r g1] w1].
  destruct O as (_ & N & Hle & _).
  destruct (Z.ltb_spec r 0) as [Hr | Hr]; [exact H1 |].
  assert (r = 0) as -> by lia. specialize (N eq_refl).
  pose proof (GPSY_SET_PROP_online_history w1 a 1
                (or_intror (fun d' _ => N d')) H1) as H2.
  destruct (GPSY_SET_PROP w1 a POWER_SUPPLY_PROP_ONLINE 1) as [r2 w2].
  destruct (r2 <? 0); exact H2.
Qed.

Lemma gcpm_chg_ping_history g w index b :
  history_ok w ->
  let '(ret, g1, w1) := gcpm_chg_ping g w index b in history_ok w1.
Proof.
  intros H. unfold gcpm_chg_ping.
  destruct (chg_psy_at g index) as [c |]; [| exact H].
  pose proof (GPSY_SET_PROP_online_history w c 0 (or_introl eq_refl) H) as H1.
  destruct (GPSY_SET_PROP w c POWER_SUPPLY_PROP_ONLINE 0). exact H1.
Qed.

Lemma gcpm_dc_stop_default_online_history g w final_state :
  only_active_online g w -> history_ok w ->
  let '(ret, g1, w1) := gcpm_dc_stop_default_online g w final_state in
  history_ok w1.
Proof.
  intros Inv H. unfold gcpm_dc_stop_default_online.
  pose proof (gcpm_chg_set_online_history g w 0 Inv H) as S.
  destruct (gcpm_chg_set_online g w 0) as [[r g1] w1].
  destruct (r <? 0); exact S.
Qed.

Lemma gcpm_dc_stop_history g w final_state :
  only_active_online g w -> history_ok w ->
  let '(ret, g1, w1) := gcpm_dc_stop g w final_state in history_ok w1.
Proof.
  intros Inv H. unfold gcpm_dc_stop.
  pose proof (dcen_gpio_set_inv g w 0 Inv) as Inv0.
  pose proof (dcen_gpio_set_history g w 0 H) as H0.
  destruct ((dc_state g =? DC_RUNNING) || (dc_state g =? DC_PASSTHROUGH)).
  - pose proof (gcpm_dc_enable_inv g _ false Inv0) as E.
    pose proof (gcpm_dc_enable_history g _ false H0) as HE.
    destruct (gcpm_dc_enable g (dcen_gpio_set g w 0) false) as [[r g1] w1].
    destruct (r <? 0); [exact HE |].
    apply gcpm_dc_stop_default_online_history; assumption.
  - destruct ((dc_state g =? DC_ENABLE) || (dc_state g =? DC_ENABLE_PASSTHROUGH)).
    + apply gcpm_dc_stop_default_online_history; assumption.
    + exact H0.
Qed.

Lemma gcpm_dc_start_history g w index :
  only_active_online g w -> history_ok w ->
  let '(ret, g1, w1) := gcpm_dc_start g w index in history_ok w1.
Proof.
  intros Inv H. unfold gcpm_dc_start.
  pose proof (gcpm_chg_set_online_history g w index Inv H) as S.
  destruct (gcpm_chg_set_online g w index) as [[r g1] w1].
  destruct (r <? 0); [exact S |].
  destruct (gcpm_chg_get_active g1) as [dc |]; [| exact S].
  pose proof (GPSY_SET_PROP_other_key_history w1 dc
    POWER_SUPPLY_PROP_CONSTANT_CHARGE_VOLTAGE_MAX (fv_uv g1)
    ltac:(discriminate) S) as S2.
  destruct (GPSY_SET_PROP w1 dc _ (fv_uv g1)) as [r2 w2]; cbn in S2.
  destruct (r2 <? 0); [exact S2 |].
  pose proof (GPSY_SET_PROP_other_key_history w2 dc
    POWER_SUPPLY_PROP_CONSTANT_CHARGE_CURRENT_MAX (cc_max g1)
    ltac:(discriminate) S2) as S3.
  destruct (GPSY_SET_PROP w2 dc _ (cc_max g1)) as [r3 w3]; cbn in S3.
  destruct (r3 <? 0); [exact S3 |].
  pose proof (GPSY_SET_PROP_other_key_history w3 dc
    POWER_SUPPLY_PROP_CURRENT_MAX (out_ua g1) ltac:(discriminate) S3) as S4.
  destruct (GPSY_SET_PROP w3 dc _ (out_ua g1)) as [r4 w4]; cbn in S4.
  destruct (r4 <? 0); [exact S4 |].
  pose proof (gcpm_dc_enable_history g1 _ true
                (dcen_gpio_set_history g1 w4 1 S4)) as E.
  destruct (gcpm_dc_enable g1 (dcen_gpio_set g1 w4 1) true) as [[r5 g2] w5].
  destruct (r5 <? 0); exact E.
Qed.

Lemma run_op_history op g w :
  only_active_online g w -> history_ok w ->
  history_ok (snd (run_op op g w)).
Proof.
  intros Inv H. destruct op as [index | | index | final_state | index]; cbn.
  - pose proof (gcpm_chg_set_online_history g w index Inv H) as K.
    destruct (gcpm_chg_set_online g w index) as [[r g1] w1]. exact K.
  - pose proof (gcpm_chg_offline_history g w H) as K.
    destruct (gcpm_chg_offline g w) as [[r g1] w1]. exact K.
  - pose proof (gcpm_dc_start_history g w index Inv H) as K.
    destruct (gcpm_dc_start g w index) as [[r g1] w1]. exact K.
  - pose proof (gcpm_dc_stop_history g w final_state Inv H) as K.
    destruct (gcpm_dc_stop g w final_state) as [[r g1] w1]. exact K.
  - pose proof (gcpm_chg_ping_history g w index false H) as K.
    destruct (gcpm_chg_ping g w index false) as [[r g1] w1]. exact K.
Qed.

Lemma run_ops_history ops : forall g w,
  only_active_online g w -> history_ok w ->
  history_ok (snd (run_ops ops g w)).
Proof.
  induction ops as [| op rest IH]; intros g w Inv H; cbn; [exact H |].
  pose proof (run_op_inv op g w Inv) as I1.
  pose proof (run_op_history op g w Inv H) as H1.
  destruct (run_op op g w) as [g1 w1]. apply IH; assumption.
Qed.

(** ** C2: at most one source online *)

(** C2. From a state in which no source is online and no call has been
    made yet, every sequence of [set_online], [offline], [dc_start],
    [dc_stop] and [ping] operations, whatever the collaborators answer,
    ends in a state in which at most one source is online (the one the
    registry calls active), and every call that marked a source online
    was made at a moment when all the other sources were offline: the
    previous source had been marked not-online before, inside the same
    operation at the latest. *)
Theorem at_most_one_source_online :
  forall (ops : list arbiter_op) (g : gcpm_drv) (w : world),
    none_online w ->
    trace w = [] ->
    at_most_one_online (snd (run_ops ops g w))
    /\ only_active_online (fst (run_ops ops g w)) (snd (run_ops ops g w))
    /\ exclusive_switches (trace (snd (run_ops ops g w))).
Proof.
  intros ops g w N T.
  assert (Inv : only_active_online g w) by (apply none_online_only_active; exact N).
  assert (H : history_ok w).
  { split; rewrite T; [intros d; apply N | exact I]. }
  pose proof (run_ops_inv ops g w Inv) as I1.
  pose proof (run_ops_history ops g w Inv H) as [_ H1].
  split; [| split]; [| exact I1 | exact H1].
  apply (only_active_online_unique _ _ I1).
Qed.

Lemma at_most_one_source_online_witness :
  let ops := [OP_dc_start 1; OP_ping 0; OP_dc_stop DC_IDLE; OP_offline;
              OP_set_online 1] in
  let w := world0 [0; 0; 0; -5; 0; 0; -11] [] in
  none_online w /\ trace w = []
  /\ at_most_one_online (snd (run_ops ops gcpm_ready w))
  /\ only_active_online (fst (run_ops ops gcpm_ready w))
                        (snd (run_ops ops gcpm_ready w))
  /\ exclusive_switches (trace (snd (run_ops ops gcpm_ready w))).
Proof.
  intros ops w.
  assert (N : none_online w) by (intros d; reflexivity).
  assert (T : trace w = []) by reflexivity.
  split; [exact N | split; [exact T |]].
  exact (at_most_one_source_online ops gcpm_ready w N T).
Defined.

(** ** C6: errors of [set_online] *)

(** C6. On a registry whose active designation is none or a registered
    source, as it is at every call, [gcpm_chg_set_online] returns
    [-ERANGE] for an index below 0 or not below the registry size, and
    [-EINVAL] for an index in range that has no registered device; in
    both cases the driver state and the world (so the active designation
    and the online state of every source) are unchanged.  When the old
    source goes offline and marking the new one online fails, the call
    fails, the registry has no active source and no source is online. *)
Theorem gcpm_chg_set_online_errors :
  forall (g : gcpm_drv) (w : world) (index : Z),
    active_registered g ->
    ((index < 0 \/ chg_psy_count g <= index) ->
     gcpm_chg_set_online g w index = (- ERANGE, g, w))
    /\ (0 <= index < chg_psy_count g ->
        chg_psy_at g index = None ->
        gcpm_chg_set_online g w index = (- EINVAL, g, w))
    /\ (forall a g1 w1,
        0 <= index < chg_psy_count g ->
        index <> chg_psy_active g ->
        chg_psy_at g index = Some a ->
        only_active_online g w ->
        gcpm_chg_offline g w = (0, g1, w1) ->
        fst (GPSY_SET_PROP w1 a POWER_SUPPLY_PROP_ONLINE 1) < 0 ->
        let '(ret, g2, w2) := gcpm_chg_set_online g w index in
        ret < 0
        /\ gcpm_chg_get_active g2 = None
        /\ (gcpm_chg_get_active g <> None -> chg_psy_active g2 = -1)
        /\ none_online w2).
Proof.
  intros g w index Reg. split; [| split].
  - intros H. unfold gcpm_chg_set_online.
    destruct (Z.ltb_spec index 0); [reflexivity |].
    destruct (Z.leb_spec (chg_psy_count g) index); [reflexivity | lia].
  - intros H A.
    assert (Hne : index <> chg_psy_active g).
    { intros E. destruct Reg as [R | R]; [lia |].
      apply R. rewrite <- E. exact A. }
    unfold gcpm_chg_set_online.
    destruct (Z.ltb_spec index 0); [lia |].
    destruct (Z.leb_spec (chg_psy_count g) index); [lia |]. cbn.
    destruct (Z.eqb_spec index (chg_psy_active g)); [contradiction |].
    rewrite A. reflexivity.
  - intros a g1 w1 H Hne A Inv O F. unfold gcpm_chg_set_online.
    destruct (Z.ltb_spec index 0); [lia |].
    destruct (Z.leb_spec (chg_psy_count g) index); [lia |]. cbn.
    destruct (Z.eqb_spec index (chg_psy_active g)); [contradiction |].
    rewrite A. pose proof (gcpm_chg_offline_inv g w Inv) as OI.
    rewrite O in *. cbn. destruct OI as (_ & N & _). specialize (N eq_refl).
    pose proof (GPSY_SET_PROP_props w1 a POWER_SUPPLY_PROP_ONLINE 1) as P.
    destruct (GPSY_SET_PROP w1 a POWER_SUPPLY_PROP_ONLINE 1) as [r w2].
    cbn in F. destruct (Z.ltb_spec r 0); [| lia].
    destruct P as [[_ P] | [? _]]; [| lia].
    split; [exact F |].
    unfold gcpm_chg_offline in O.
    destruct (gcpm_chg_get_active g) as [c |] eqn:Act.
    + destruct (GPSY_SET_PROP w c GBMS_PROP_CHARGING_ENABLED 0) as [r1 w1'].
      destruct (r1 =? 0) eqn:E1.
      * destruct (GPSY_SET_PROP w1' c POWER_SUPPLY_PROP_ONLINE 0) as [r2 w2'].
        destruct (r2 =? 0) eqn:E2.
        -- injection O as _ <- _. cbn.
           split; [reflexivity | split; [reflexivity |]].
           intros d. rewrite P. apply N.
        -- injection O as -> _ _. discriminate.
      * cbn in O. rewrite E1 in O. injection O as -> _ _. discriminate.
    + injection O as <- <-. split; [exact Act | split; [congruence |]].
      intros d. rewrite P. apply N.
Qed.

Lemma gcpm_chg_set_online_errors_witness :
  gcpm_chg_set_online gcpm_ready (world0 [] []) 5
  = (- ERANGE, gcpm_ready, world0 [] [])
  /\ gcpm_chg_set_online gcpm_default_only (world0 [] []) 1
     = (- EINVAL, gcpm_default_only, world0 [] [])
  /\ (let '(ret, g2, w2) :=
        gcpm_chg_set_online gcpm_ready (world0 [0; 0; -5] []) 1 in
      ret < 0
      /\ gcpm_chg_get_active g2 = None
      /\ (gcpm_chg_get_active gcpm_ready <> None -> chg_psy_active g2 = -1)
      /\ none_online w2).
Proof.
  assert (R : active_registered gcpm_ready) by (right; discriminate).
  assert (R1 : active_registered gcpm_default_only) by (right; discriminate).
  split; [| split].
  - apply (proj1 (gcpm_chg_set_online_errors gcpm_ready (world0 [] []) 5 R)).
    right. cbn. lia.
  - apply (proj1 (proj2 (gcpm_chg_set_online_errors gcpm_default_only
                           (world0 [] []) 1 R1))).
    + cbn. lia.
    + reflexivity.
  - apply (proj2 (proj2 (gcpm_chg_set_online_errors gcpm_ready
                           (world0 [0; 0; -5] []) 1 R))
             1%nat
             (snd (fst (gcpm_chg_offline gcpm_ready (world0 [0; 0; -5] []))))
             (snd (gcpm_chg_offline gcpm_ready (world0 [0; 0; -5] [])))).
    + cbn. lia.
    + cbn. lia.
    + reflexivity.
    + apply none_online_only_active. intros d. reflexivity.
    + reflexivity.
    + cbn. lia.
Defined.

(** Right after the probe the registry is not yet in such a state: the
    active designation is 0 and no source is registered.  There
    [gcpm_chg_set_online] would answer 0 for the index 0, before looking
    for the device; no caller reaches it then, since every caller runs
    behind [init_complete]. *)
Example gcpm_chg_set_online_before_init :
  ~ active_registered gcpm_probed
  /\ init_complete gcpm_probed = false
  /\ gcpm_chg_set_online gcpm_probed (world0 [] []) 0
     = (0, gcpm_probed, world0 [] []).
Proof.
  split; [| split; reflexivity].
  intros [H | H]; [discriminate H | apply H; reflexivity].
Qed.

(** ** C3, C5: the voltage rules of the selection policy *)

Lemma GPSY_GET_PROP_reads w d p vbatt :
  hd_error (script w) = Some vbatt -> fst (GPSY_GET_PROP w d p) = vbatt.
Proof.
  unfold GPSY_GET_PROP, next_answer. destruct (script w) as [| r rest]; cbn.
  - discriminate.
  - intros [= ->]. reflexivity.
Qed.

(** Past the override and the demand test, with a voltage threshold
    configured, the selection is decided by the voltage rules. *)
Lemma gcpm_chg_select_reads g w vbatt :
  select_reads_vbatt g w vbatt ->
  vbatt_max g <> 0 \/ vbatt_min g <> 0 ->
  fst (gcpm_chg_select g w)
  = if negb (vbatt_low g =? 0) && (vbatt <? vbatt_low g) then - EAGAIN
    else gcpm_chg_select_bound g
           (gcpm_chg_select_limits g vbatt (demand_index g)).
Proof.
  intros (F & Cc & Fv & D & S & V) T. unfold gcpm_chg_select.
  destruct (Z.leb_spec 0 (force_active g)); [lia |].
  destruct (Z.leb_spec (cc_max g) 0); [lia |].
  destruct (Z.leb_spec (fv_uv g) 0); [lia |]. cbn [orb].
  destruct (gcpm_chg_get_default g) as [chg_psy |]; [| congruence].
  assert (T' : negb (vbatt_max g =? 0) || negb (vbatt_min g =? 0) = true).
  { apply orb_true_iff. destruct T as [T | T]; [left | right];
      apply negb_true_iff, Z.eqb_neq; exact T. }
  rewrite T'.
  pose proof (GPSY_GET_PROP_reads w chg_psy POWER_SUPPLY_PROP_VOLTAGE_NOW
                vbatt S) as R.
  destruct (GPSY_GET_PROP w chg_psy POWER_SUPPLY_PROP_VOLTAGE_NOW) as [v w1].
  cbn in R. subst v.
  destruct (Z.ltb_spec vbatt 0); [lia |].
  destruct (negb (vbatt_low g =? 0) && (vbatt <? vbatt_low g)); reflexivity.
Qed.

(** C5. Once the selection reads the battery voltage [vbatt], with
    [vbatt_low < vbatt_min] and a registry that is not empty: below
    [vbatt_low] it answers [-EAGAIN] (retry later); in
    [[vbatt_low, vbatt_min)] it answers the previous index when that was a
    DC index (of a registered source) and [-EAGAIN] when that was the
    default index. *)
Theorem gcpm_chg_select_floor :
  forall (g : gcpm_drv) (w : world) (vbatt : Z),
    select_reads_vbatt g w vbatt ->
    0 < chg_psy_count g ->
    vbatt_low g < vbatt_min g ->
    (vbatt < vbatt_low g -> fst (gcpm_chg_select g w) = - EAGAIN)
    /\ (vbatt_low g <= vbatt < vbatt_min g ->
        (0 < dc_index g < chg_psy_count g ->
         fst (gcpm_chg_select g w) = dc_index g)
        /\ (dc_index g = GCPM_DEFAULT_CHARGER ->
            fst (gcpm_chg_select g w) = - EAGAIN)).
Proof.
  intros g w vbatt Ctx Cnt Lm.
  assert (V : 0 <= vbatt) by apply Ctx.
  split.
  - intros Hlow. rewrite (gcpm_chg_select_reads g w vbatt Ctx) by lia.
    destruct (Z.eqb_spec (vbatt_low g) 0); [lia |].
    destruct (Z.ltb_spec vbatt (vbatt_low g)); [reflexivity | lia].
  - intros Hmid. rewrite (gcpm_chg_select_reads g w vbatt Ctx) by lia.
    assert (E : negb (vbatt_low g =? 0) && (vbatt <? vbatt_low g) = false).
    { destruct (Z.ltb_spec vbatt (vbatt_low g)); [lia |].
      apply andb_false_r. }
    rewrite E. unfold gcpm_chg_select_limits, gcpm_chg_select_bound.
    destruct (Z.eqb_spec (vbatt_min g) 0); [lia |].
    destruct (Z.ltb_spec vbatt (vbatt_min g)); [| lia]. cbn [negb andb].
    unfold GCPM_DEFAULT_CHARGER, EAGAIN. split.
    + intros Hdc. destruct (Z.eqb_spec (dc_index g) 0); [lia |].
      destruct (Z.leb_spec (chg_psy_count g) (dc_index g)); [lia | reflexivity].
    + intros ->. cbn.
      destruct (Z.leb_spec (chg_psy_count g) (-11)); [lia | reflexivity].
Qed.

Lemma gcpm_chg_select_floor_witness :
  let g := set_dc_index gcpm_ready 1 in
  fst (gcpm_chg_select g (world0 [3550000] [])) = dc_index g
  /\ fst (gcpm_chg_select gcpm_ready (world0 [3550000] [])) = - EAGAIN
  /\ fst (gcpm_chg_select g (world0 [3300000] [])) = - EAGAIN.
Proof.
  intros g.
  assert (C1 : select_reads_vbatt g (world0 [3550000] []) 3550000).
  { unfold select_reads_vbatt. cbn.
    repeat split; try lia; try reflexivity; congruence. }
  assert (C2 : select_reads_vbatt gcpm_ready (world0 [3550000] []) 3550000).
  { unfold select_reads_vbatt. cbn.
    repeat split; try lia; try reflexivity; congruence. }
  assert (C3 : select_reads_vbatt g (world0 [3300000] []) 3300000).
  { unfold select_reads_vbatt. cbn.
    repeat split; try lia; try reflexivity; congruence. }
  assert (N : 0 < chg_psy_count g) by (cbn; lia).
  assert (L : vbatt_low g < vbatt_min g) by closed_arith.
  split; [| split].
  - apply (proj2 (gcpm_chg_select_floor g _ 3550000 C1 N L)).
    + closed_arith.
    + closed_arith.
  - apply (proj2 (gcpm_chg_select_floor gcpm_ready _ 3550000 C2 N L)).
    + closed_arith.
    + reflexivity.
  - apply (proj1 (gcpm_chg_select_floor g _ 3300000 C3 N L)).
    closed_arith.
Defined.

(** C3 (amended). Once the selection reads the battery voltage [vbatt],
    with thresholds [vbatt_low <= vbatt_min <= vbatt_high < vbatt_max]
    and [vbatt_min] configured: above [vbatt_high] and up to [vbatt_max]
    a previous DC selection is kept; above [vbatt_high] a previous
    default selection is kept as well, so that direct charge does not
    start there; from above [vbatt_min] up to [vbatt_high] the DC index is
    returned when the DC source is registered. *)
Theorem gcpm_chg_select_ceiling :
  forall (g : gcpm_drv) (w : world) (vbatt : Z),
    select_reads_vbatt g w vbatt ->
    0 < vbatt_min g ->
    vbatt_low g <= vbatt_min g <= vbatt_high g ->
    vbatt_high g < vbatt_max g ->
    (vbatt_high g < vbatt <= vbatt_max g ->
     0 < dc_index g < chg_psy_count g ->
     fst (gcpm_chg_select g w) = dc_index g)
    /\ (vbatt_high g < vbatt ->
        dc_index g = GCPM_DEFAULT_CHARGER ->
        fst (gcpm_chg_select g w) = GCPM_DEFAULT_CHARGER)
    /\ (vbatt_min g < vbatt <= vbatt_high g ->
        GCPM_INDEX_DC_ENABLE < chg_psy_count g ->
        fst (gcpm_chg_select g w) = GCPM_INDEX_DC_ENABLE).
Proof.
  intros g w vbatt Ctx Min Ord Hm.
  assert (E : forall v, vbatt_min g <= v ->
              negb (vbatt_low g =? 0) && (v <? vbatt_low g) = false).
  { intros v Hv. destruct (Z.ltb_spec v (vbatt_low g)); [lia |].
    apply andb_false_r. }
  rewrite (gcpm_chg_select_reads g w vbatt Ctx) by lia.
  unfold gcpm_chg_select_limits, gcpm_chg_select_bound,
    GCPM_DEFAULT_CHARGER, GCPM_INDEX_DC_ENABLE.
  destruct (Z.eqb_spec (vbatt_min g) 0); [lia |].
  destruct (Z.eqb_spec (vbatt_high g) 0); [lia |]. cbn [negb andb].
  split; [| split].
  - intros Hv Hdc. rewrite E by lia.
    destruct (Z.ltb_spec vbatt (vbatt_min g)); [lia |].
    destruct (Z.ltb_spec (vbatt_high g) vbatt); [| lia].
    destruct (Z.leb_spec (chg_psy_count g) (dc_index g)); [lia | reflexivity].
  - intros Hv ->. rewrite E by lia.
    destruct (Z.ltb_spec vbatt (vbatt_min g)); [lia |].
    destruct (Z.ltb_spec (vbatt_high g) vbatt); [| lia].
    destruct (chg_psy_count g <=? 0); reflexivity.
  - intros Hv Hc. rewrite E by lia.
    destruct (Z.ltb_spec vbatt (vbatt_min g)); [lia |].
    destruct (Z.ltb_spec (vbatt_high g) vbatt); [lia |].
    destruct (Z.eqb_spec (vbatt_max g) 0).
    + cbn [negb andb].
      destruct (Z.ltb_spec (vbatt_min g) vbatt); [| lia].
      destruct (Z.leb_spec (chg_psy_count g) 1); [lia | reflexivity].
    + cbn [negb andb].
      destruct (Z.ltb_spec (vbatt_max g) vbatt); [lia |].
      destruct (Z.ltb_spec (vbatt_min g) vbatt); [| lia].
      destruct (Z.leb_spec (chg_psy_count g) 1); [lia | reflexivity].
Qed.

Lemma gcpm_chg_select_ceiling_witness :
  let g := set_dc_index gcpm_ready 1 in
  fst (gcpm_chg_select g (world0 [4380000] [])) = dc_index g
  /\ fst (gcpm_chg_select gcpm_ready (world0 [4420000] []))
     = GCPM_DEFAULT_CHARGER
  /\ fst (gcpm_chg_select gcpm_ready (world0 [4000000] []))
     = GCPM_INDEX_DC_ENABLE.
Proof.
  intros g.
  assert (C1 : select_reads_vbatt g (world0 [4380000] []) 4380000).
  { unfold select_reads_vbatt. cbn.
    repeat split; try lia; try reflexivity; congruence. }
  assert (C2 : select_reads_vbatt gcpm_ready (world0 [4420000] []) 4420000).
  { unfold select_reads_vbatt. cbn.
    repeat split; try lia; try reflexivity; congruence. }
  assert (C3 : select_reads_vbatt gcpm_ready (world0 [4000000] []) 4000000).
  { unfold select_reads_vbatt. cbn.
    repeat split; try lia; try reflexivity; congruence. }
  assert (M : 0 < vbatt_min g) by closed_arith.
  assert (O : vbatt_low g <= vbatt_min g <= vbatt_high g) by closed_arith.
  assert (H : vbatt_high g < vbatt_max g) by closed_arith.
  split; [| split].
  - apply (proj1 (gcpm_chg_select_ceiling g _ 4380000 C1 M O H));
      closed_arith.
  - apply (proj1 (proj2 (gcpm_chg_select_ceiling gcpm_ready _ 4420000
                           C2 M O H))); closed_arith.
  - apply (proj2 (proj2 (gcpm_chg_select_ceiling gcpm_ready _ 4000000
                           C3 M O H))); closed_arith.
Defined.

(** C3 as worded fails at 4.38 V, between [vbatt_high] = 4.35 V and
    [vbatt_max] = 4.40 V, after a default selection: the driver keeps the
    default index, it does not return the DC index. *)
Lemma select_ceiling_counterexample :
  ~ select_ceiling_as_stated gcpm_ready (world0 [4380000] []) 4380000.
Proof.
  unfold select_ceiling_as_stated. intros H.
  assert (C : select_reads_vbatt gcpm_ready (world0 [4380000] []) 4380000).
  { unfold select_reads_vbatt. cbn.
    repeat split; try lia; try reflexivity; congruence. }
  destruct (H C ltac:(closed_arith) ltac:(closed_arith)) as (_ & _ & H3).
  assert (R : vbatt_min gcpm_ready < 4380000 <= vbatt_max gcpm_ready)
    by closed_arith.
  specialize (H3 R). vm_compute in H3.
  assert (K : 0 = 1) by (apply H3; intros [_ K]; discriminate K).
  discriminate K.
Qed.

(** Above [vbatt_max] a previous DC selection is kept too: the test of
    [vbatt_high] comes first and the one of [vbatt_max] is never reached
    while [vbatt_high] is configured. *)
Example select_above_max_keeps_dc :
  fst (gcpm_chg_select (set_dc_index gcpm_ready 1) (world0 [4420000] []))
  = GCPM_INDEX_DC_ENABLE.
Proof. reflexivity. Qed.

(** ** C4: both PPS sources not supported *)

Lemma gcpm_chg_select_wq_pps g w :
  wq_pps (snd (gcpm_chg_select g w)) = wq_pps w.
Proof.
  unfold gcpm_chg_select.
  repeat (destr; try reflexivity);
    unfold GPSY_GET_PROP in *;
    pose proof (next_answer_frame w) as F;
    destruct (next_answer w) as [v w'];
    match goal with E : (_, _) = (_, _) |- _ => injection E as <- <- end;
    cbn; apply F.
Qed.

(** C4 (amended). With both PPS sessions not supported, the selection task
    leaves a controller that is in [Idle] exactly as it is: the state
    stays [Idle] (it becomes neither [Disabled] nor [EnablePassthrough]),
    no session is reset, [dc_index] is not assigned, and the negotiation
    task is not scheduled. *)
Theorem gcpm_chg_select_work_both_notsupp :
  forall (g : gcpm_drv) (w : world),
    stage (tcpm_pps_data g) = PPS_NOTSUPP ->
    stage (wlc_pps_data g) = PPS_NOTSUPP ->
    dc_state g = DC_IDLE ->
    fst (gcpm_chg_select_work g w) = g
    /\ wq_pps (snd (gcpm_chg_select_work g w)) = wq_pps w.
Proof.
  intros g w T W St. unfold gcpm_chg_select_work.
  pose proof (gcpm_chg_select_wq_pps g w) as Q.
  destruct (gcpm_chg_select g w) as [index w1]; cbn in Q.
  destruct (negb (taper_control g) && (index <? 0)).
  - split; [reflexivity |]. cbn. unfold schedule_delayed_work. cbn.
    destruct (wq_select w1); exact Q.
  - assert (D : forall i, gcpm_chg_dc_check_source g i = false).
    { intros i. unfold gcpm_chg_dc_check_source. rewrite T, W.
      destruct (taper_control g); reflexivity. }
    rewrite D. cbn [negb]. rewrite St. cbn. split; [reflexivity | exact Q].
Qed.

Lemma gcpm_chg_select_work_both_notsupp_witness :
  fst (gcpm_chg_select_work gcpm_no_pps (world0 [4000000] [])) = gcpm_no_pps
  /\ wq_pps (snd (gcpm_chg_select_work gcpm_no_pps (world0 [4000000] [])))
     = wq_pps (world0 [4000000] []).
Proof.
  apply (gcpm_chg_select_work_both_notsupp gcpm_no_pps
           (world0 [4000000] [])); reflexivity.
Defined.

(** C4 as worded fails: from [Idle] the selection task does not move the
    controller to [Disabled]. *)
Lemma select_work_notsupp_counterexample :
  ~ select_work_notsupp_as_stated gcpm_no_pps (world0 [4000000] []).
Proof.
  unfold select_work_notsupp_as_stated. intros H.
  specialize (H eq_refl eq_refl eq_refl). vm_compute in H.
  destruct H as [H _]. discriminate H.
Qed.

(** ** C8: property calls before start-up completes *)

Lemma pm_runtime_get_put w : pm_runtime_put_sync (pm_runtime_get_sync w) = w.
Proof.
  destruct w. unfold pm_runtime_put_sync, pm_runtime_get_sync, set_pm_usage.
  cbn. f_equal. lia.
Qed.

(** C8. Until both [init_complete] and [resume_complete] are set, setting
    or getting any property returns [-EAGAIN] and leaves the driver state,
    the caller's value and the world as they were: no demand is stored, no
    work is queued and no supply is called. *)
Theorem gcpm_psy_property_not_ready :
  forall (taper_off : Z) (g : gcpm_drv) (w : world) (prop : psp)
         (intval pval : Z),
    init_complete g = false \/ resume_complete g = false ->
    gcpm_psy_set_property taper_off g w prop intval = (- EAGAIN, g, w)
    /\ gcpm_psy_get_property g w prop pval = (- EAGAIN, pval, g, w).
Proof.
  intros taper_off g w prop intval pval H.
  assert (E : negb (init_complete g) || negb (resume_complete g) = true).
  { destruct H as [-> | ->]; [reflexivity | apply orb_true_r]. }
  unfold gcpm_psy_set_property, gcpm_psy_get_property.
  rewrite E, pm_runtime_get_put. split; reflexivity.
Qed.

Lemma gcpm_psy_property_not_ready_witness :
  gcpm_psy_set_property 0 gcpm_probed (world0 [] [])
    POWER_SUPPLY_PROP_CONSTANT_CHARGE_CURRENT_MAX 3000000
  = (- EAGAIN, gcpm_probed, world0 [] [])
  /\ gcpm_psy_get_property gcpm_probed (world0 [] [])
       POWER_SUPPLY_PROP_CONSTANT_CHARGE_CURRENT_MAX 7
     = (- EAGAIN, 7, gcpm_probed, world0 [] []).
Proof.
  apply (gcpm_psy_property_not_ready 0 gcpm_probed (world0 [] [])).
  left. reflexivity.
Defined.

(** ** C10: tag and size errors of the scratch space *)

(** C10. Reading or writing the scratch space by a tag outside RS32, RSBM,
    RSBR and SUFG returns [-ENOENT]; with one of these tags and a size
    above its capacity (32, 4, 4 and 1 bytes) it returns [-EINVAL].  In
    both cases the register map (contents, pending answers and trace of
    accesses) and the buffer are returned as they were: no register is
    read or written. *)
Theorem max77779_sp_tag_errors :
  forall (page_ctrl : Z) (tag : gbms_tag_t) (buff : list Z) (size : Z)
         (m : regmap) (addr : Z),
    (tag_capacity tag = None ->
     max77779_sp_read page_ctrl tag buff size m addr = (- ENOENT, buff, m)
     /\ max77779_sp_write page_ctrl tag buff size m addr = (- ENOENT, m))
    /\ (forall cap, tag_capacity tag = Some cap -> cap < size ->
        max77779_sp_read page_ctrl tag buff size m addr = (- EINVAL, buff, m)
        /\ max77779_sp_write page_ctrl tag buff size m addr = (- EINVAL, m)).
Proof.
  intros page_ctrl tag buff size m addr. split.
  - destruct tag; cbn; try discriminate. intros _. split; reflexivity.
  - intros cap Hc Hs. unfold max77779_sp_read, max77779_sp_write.
    destruct tag; cbn in Hc; try discriminate; injection Hc as <-;
      unfold max77779_sp_info, OPCODE_USER_SPACE_R_RES_LEN, RS_TAG_LENGTH,
        SU_TAG_LENGTH;
      (destruct (Z.eqb_spec size 0); [lia |]);
      match goal with
      | |- context [?c <? size] =>
          destruct (Z.ltb_spec c size); [| lia]
      end; cbn; split; reflexivity.
Qed.

Lemma max77779_sp_tag_errors_witness :
  (max77779_sp_read 0 (GBMS_TAG_other 1111770190) [1; 2] 2 (regmap0 []) 0
   = (- ENOENT, [1; 2], regmap0 [])
   /\ max77779_sp_write 0 (GBMS_TAG_other 1111770190) [1; 2] 2 (regmap0 []) 0
      = (- ENOENT, regmap0 []))
  /\ (max77779_sp_read 0 GBMS_TAG_SUFG [1; 2] 2 (regmap0 []) 0
      = (- EINVAL, [1; 2], regmap0 [])
      /\ max77779_sp_write 0 GBMS_TAG_SUFG [1; 2] 2 (regmap0 []) 0
         = (- EINVAL, regmap0 [])).
Proof.
  split.
  - apply (proj1 (max77779_sp_tag_errors 0 (GBMS_TAG_other 1111770190)
                    [1; 2] 2 (regmap0 []) 0)).
    reflexivity.
  - apply (proj2 (max77779_sp_tag_errors 0 GBMS_TAG_SUFG
                    [1; 2] 2 (regmap0 []) 0) 1).
    + reflexivity.
    + lia.
Defined.

(** Within capacity the tags reach the registers: SUFG reads its byte at
    address 8 of page 0. *)
Example max77779_sp_read_sufg :
  max77779_sp_read 0 GBMS_TAG_SUFG [0] 1
    {| regs := fun r => if r =? 136 then 4660 else 0;
       reg_script := []; reg_trace := [] |} 0
  = (0, [52],
     {| regs := fun r => if r =? 0 then 0 mod 2 ^ 16
                         else if r =? 136 then 4660 else 0;
        reg_script := [];
        reg_trace := [RegRead 136 0; RegWrite 0 0 0] |}).
Proof. reflexivity. Qed.

(** ** C1: the handover from EnablePassthrough to Passthrough *)
















Lemma pps_call_step_spec c g w s :
  let '(r, g1, w1) := pps_call_step c g w s in
  exists a,
    r = pa_ret a
    /\ trace w1 = EvPps c s a :: trace w
    /\ props w1 = props w /\ wq_pps w1 = wq_pps w /\ script w1 = script w
    /\ g1 = set_pps_data g s
              {| stage := pa_stage a; pd_online := pa_online a;
                 pps_psy := pps_psy (get_pps_data g s) |}.
Proof.
  unfold pps_call_step, next_pps_answer.
  destruct (pps_script w) as [| a rest]; eexists; repeat split; reflexivity.
Qed.



(** *** The work queue is only touched by the scheduling calls *)











Lemma schedule_delayed_work_pps w ms :
  trace (schedule_delayed_work w pps_work_item ms) = trace w
  /\ props (schedule_delayed_work w pps_work_item ms) = props w
  /\ wq_pps (schedule_delayed_work w pps_work_item ms)
     = match wq_pps w with Some old => Some old | None => Some ms end.
Proof.
  unfold schedule_delayed_work. cbn.
  destruct (wq_pps w) eqn:E; cbn; rewrite ?E; auto.
Qed.

(** *** The handover stops only where a call is refused *)











(** What is left in place at that point: the default charger is offline,
    the DC charger is online and active, the state is unchanged and the
    task runs again in a second. *)
Example handover_voltage_failure_state :
  let r := gcpm_pps_wlc_dc_work gcpm_negotiating
             (world0 [0; 0; 0; -5] tcpm_turns_active) in
  dc_state (fst r) = DC_ENABLE_PASSTHROUGH
  /\ chg_psy_active (fst r) = GCPM_INDEX_DC_ENABLE
  /\ props (snd r) 0%nat POWER_SUPPLY_PROP_ONLINE = 0
  /\ props (snd r) 1%nat POWER_SUPPLY_PROP_ONLINE = 1
  /\ dc_vote (snd r) = false
  /\ wq_pps (snd r) = Some DC_ERROR_RETRY_MS
  /\ steps_of (firstn 4 (trace (snd r)))
     = [STEP_stop_charging 0%nat; STEP_offline 0%nat; STEP_online 1%nat].
Proof. vm_compute. repeat split; reflexivity. Qed.

(** When every call is accepted the handover goes through: all the
    steps, in order, then [Passthrough], and the task runs again after
    [DC_ENABLE_DELAY_MS]. *)
Example handover_success_state :
  let r := gcpm_pps_wlc_dc_work gcpm_negotiating
             (world0 [] tcpm_turns_active) in
  dc_state (fst r) = DC_PASSTHROUGH
  /\ chg_psy_active (fst r) = GCPM_INDEX_DC_ENABLE
  /\ props (snd r) 0%nat POWER_SUPPLY_PROP_ONLINE = 0
  /\ props (snd r) 1%nat POWER_SUPPLY_PROP_ONLINE = 1
  /\ dc_vote (snd r) = true
  /\ wq_pps (snd r) = Some DC_ENABLE_DELAY_MS
  /\ steps_of (firstn 8 (trace (snd r)))
     = handover_steps gcpm_negotiating
  /\ handover_steps gcpm_negotiating
     = [STEP_stop_charging 0%nat; STEP_offline 0%nat; STEP_online 1%nat;
        STEP_voltage 1%nat 4400000; STEP_current 1%nat 3000000;
        STEP_input_limit 1%nat (-1); STEP_vote_dc true].
Proof. vm_compute. repeat split; reflexivity. Qed.

(** ** C7: tear-down twice *)

Lemma next_answer_succeed w :
  collaborators_succeed w ->
  0 <= fst (next_answer w) /\ collaborators_succeed (snd (next_answer w)).
Proof.
  unfold collaborators_succeed, next_answer. intros H.
  destruct (script w) as [| r rest] eqn:E; cbn.
  - split; [lia | rewrite E; exact H].
  - inversion H; subst. split; assumption.
Qed.

Lemma GPSY_SET_PROP_succeed w d p v :
  collaborators_succeed w ->
  fst (GPSY_SET_PROP w d p v) = 0
  /\ collaborators_succeed (snd (GPSY_SET_PROP w d p v)).
Proof.
  intros H. unfold GPSY_SET_PROP, power_supply_set_property.
  destruct (next_answer_succeed w H) as [H1 H2].
  destruct (next_answer w) as [rc w1]; cbn in H1, H2.
  destruct (Z.ltb_spec rc 0); [lia |]. cbn. split; [reflexivity | exact H2].
Qed.

Lemma gvotable_cast_vote_succeed w enabled :
  collaborators_succeed w ->
  0 <= fst (gvotable_cast_vote w enabled)
  /\ collaborators_succeed (snd (gvotable_cast_vote w enabled)).
Proof.
  intros H. unfold gvotable_cast_vote.
  destruct (next_answer_succeed w H) as [H1 H2].
  destruct (next_answer w) as [rc w1]; cbn in H1, H2.
  destruct (Z.ltb_spec rc 0); [lia |]. cbn. split; [exact H1 | exact H2].
Qed.

Lemma gcpm_dc_enable_succeed g w enabled :
  collaborators_succeed w ->
  let '(r, g1, w1) := gcpm_dc_enable g w enabled in
  0 <= r /\ collaborators_succeed w1
  /\ (g1 = g \/ g1 = set_gbms_mode g true).
Proof.
  intros H. unfold gcpm_dc_enable. destruct (gbms_mode g).
  - destruct (gvotable_cast_vote_succeed w enabled H) as [V1 V2].
    destruct (gvotable_cast_vote w enabled); cbn in *. auto.
  - unfold gvotable_election_get_handle.
    destruct (next_answer_succeed w H) as [H1 H2].
    destruct (next_answer w) as [rc w1]; cbn in H1, H2.
    destruct (Z.ltb_spec rc 0); [lia |].
    destruct (gvotable_cast_vote_succeed (record (EvGetHandle rc) w1)
                enabled H2) as [V1 V2].
    destruct (gvotable_cast_vote _ enabled); cbn in *. auto.
Qed.

Lemma dcen_gpio_set_succeed g w v :
  collaborators_succeed w -> collaborators_succeed (dcen_gpio_set g w v).
Proof.
  unfold dcen_gpio_set.
  destruct ((0 <=? dcen_gpio g) && (dcen_gpio_default g =? 0)); auto.
Qed.

Lemma gcpm_chg_offline_succeed g w :
  collaborators_succeed w ->
  let '(r, g1, w1) := gcpm_chg_offline g w in
  r = 0 /\ collaborators_succeed w1
  /\ (g1 = g \/ g1 = set_chg_psy_active g (-1)).
Proof.
  intros H. unfold gcpm_chg_offline.
  destruct (gcpm_chg_get_active g) as [c |]; [| auto].
  destruct (GPSY_SET_PROP_succeed w c GBMS_PROP_CHARGING_ENABLED 0 H)
    as [R1 H1].
  destruct (GPSY_SET_PROP w c GBMS_PROP_CHARGING_ENABLED 0) as [r1 w1].
  cbn in R1, H1. subst r1. cbn [Z.eqb].
  destruct (GPSY_SET_PROP_succeed w1 c POWER_SUPPLY_PROP_ONLINE 0 H1)
    as [R2 H2].
  destruct (GPSY_SET_PROP w1 c POWER_SUPPLY_PROP_ONLINE 0) as [r2 w2].
  cbn in R2, H2. subst r2. cbn [Z.eqb]. auto.
Qed.

Lemma gcpm_chg_set_online_succeed g w index :
  collaborators_succeed w ->
  let '(r, g1, w1) := gcpm_chg_set_online g w index in
  collaborators_succeed w1
  /\ ((0 <= r /\ (g1 = g \/ g1 = set_chg_psy_active g index))
      \/ (r < 0 /\ g1 = g /\ set_online_refuses g index)).
Proof.
  intros H. unfold gcpm_chg_set_online, set_online_refuses.
  destruct (Z.ltb_spec index 0) as [L0 | L0].
  { cbn. split; [exact H | right]. unfold ERANGE. auto with zarith. }
  destruct (Z.leb_spec (chg_psy_count g) index) as [L1 | L1].
  { cbn. split; [exact H | right]. unfold ERANGE. auto with zarith. }
  cbn [orb]. destruct (Z.eqb_spec index (chg_psy_active g)) as [L2 | L2].
  { split; [exact H | left]. split; [lia | auto]. }
  destruct (chg_psy_at g index) as [a |] eqn:A.
  2:{ split; [exact H | right]. unfold EINVAL. auto with zarith. }
  pose proof (gcpm_chg_offline_succeed g w H) as O.
  destruct (gcpm_chg_offline g w) as [[r1 g1] w1].
  destruct O as (-> & H1 & G1). cbn [Z.ltb Z.compare].
  destruct (GPSY_SET_PROP_succeed w1 a POWER_SUPPLY_PROP_ONLINE 1 H1)
    as [R2 H2].
  destruct (GPSY_SET_PROP w1 a POWER_SUPPLY_PROP_ONLINE 1) as [r2 w2].
  cbn in R2, H2. subst r2. cbn [Z.ltb Z.compare].
  split; [exact H2 | left]. split; [lia | right].
  destruct G1 as [-> | ->]; reflexivity.
Qed.

(** A refusal does not depend on the world and changes nothing. *)
Lemma gcpm_chg_set_online_refused g w index :
  set_online_refuses g index ->
  exists r, r < 0 /\ gcpm_chg_set_online g w index = (r, g, w).
Proof.
  unfold set_online_refuses, gcpm_chg_set_online. intros [R | [N A]].
  - exists (- ERANGE). split; [unfold ERANGE; lia |].
    destruct (Z.ltb_spec index 0); [reflexivity |].
    destruct (Z.leb_spec (chg_psy_count g) index); [reflexivity | lia].
  - destruct ((index <? 0) || (chg_psy_count g <=? index)).
    + exists (- ERANGE). split; [unfold ERANGE; lia | reflexivity].
    + exists (- EINVAL). split; [unfold EINVAL; lia |].
      destruct (Z.eqb_spec index (chg_psy_active g)); [contradiction |].
      rewrite A. reflexivity.
Qed.

Lemma gcpm_dc_stop_default_online_succeed g w final_state :
  collaborators_succeed w ->
  let '(r, g1, w1) := gcpm_dc_stop_default_online g w final_state in
  collaborators_succeed w1
  /\ init_complete g1 = init_complete g
  /\ resume_complete g1 = resume_complete g
  /\ dc_index g1 = dc_index g
  /\ ((r = 0 /\ dc_state g1 = final_state)
      \/ (r < 0 /\ g1 = g /\ set_online_refuses g 0)).
Proof.
  intros H. unfold gcpm_dc_stop_default_online.
  pose proof (gcpm_chg_set_online_succeed g w 0 H) as S.
  destruct (gcpm_chg_set_online g w 0) as [[r g1] w1].
  destruct S as (H1 & [(Hr & G) | (Hr & -> & R)]).
  - destruct (Z.ltb_spec r 0) as [Lt0 | Lt0]; [lia |].
    split; [exact H1 |].
    destruct G as [-> | ->]; cbn; repeat split; left; split; reflexivity.
  - destruct (Z.ltb_spec r 0) as [Lt0 | Lt0]; [| lia].
    repeat split; try assumption. right. auto.
Qed.

Lemma gcpm_dc_stop_succeed g w final_state :
  collaborators_succeed w ->
  let '(r, g1, w1) := gcpm_dc_stop g w final_state in
  collaborators_succeed w1
  /\ init_complete g1 = init_complete g
  /\ resume_complete g1 = resume_complete g
  /\ dc_index g1 = dc_index g
  /\ ((r = 0 /\ dc_state g1 = final_state)
      \/ (r < 0 /\ set_online_refuses g1 0
          /\ (dc_state g1 = DC_ENABLE \/ dc_state g1 = DC_ENABLE_PASSTHROUGH))).
Proof.
  intros H. unfold gcpm_dc_stop.
  pose proof (dcen_gpio_set_succeed g w 0 H) as H0.
  destruct ((dc_state g =? DC_RUNNING) || (dc_state g =? DC_PASSTHROUGH)).
  - pose proof (gcpm_dc_enable_succeed g _ false H0) as E.
    destruct (gcpm_dc_enable g (dcen_gpio_set g w 0) false) as [[r g1] w1].
    destruct E as (Hr & H1 & G1).
    destruct (Z.ltb_spec r 0) as [Lt0 | Lt0]; [lia |].
    pose proof (gcpm_dc_stop_default_online_succeed
                  (set_dc_state g1 DC_ENABLE) w1 final_state H1) as D.
    destruct (gcpm_dc_stop_default_online _ w1 final_state)
      as [[r2 g2] w2].
    destruct D as (H2 & I2 & R2 & X2 & C).
    split; [exact H2 |].
    assert (F : init_complete (set_dc_state g1 DC_ENABLE) = init_complete g
                /\ resume_complete (set_dc_state g1 DC_ENABLE)
                   = resume_complete g
                /\ dc_index (set_dc_state g1 DC_ENABLE) = dc_index g)
      by (destruct G1 as [-> | ->]; auto).
    destruct F as (F1 & F2 & F3).
    split; [congruence | split; [congruence | split; [congruence |]]].
    destruct C as [C | (Hr2 & -> & R)]; [left; exact C | right].
    split; [exact Hr2 | split; [exact R | left; reflexivity]].
  - destruct ((dc_state g =? DC_ENABLE) || (dc_state g =? DC_ENABLE_PASSTHROUGH))
      eqn:E.
    + pose proof (gcpm_dc_stop_default_online_succeed g _ final_state H0) as D.
      destruct (gcpm_dc_stop_default_online g (dcen_gpio_set g w 0)
                  final_state) as [[r2 g2] w2].
      destruct D as (H2 & I2 & R2 & X2 & C).
      split; [exact H2 | split; [exact I2 | split; [exact R2 |
        split; [exact X2 |]]]].
      destruct C as [C | (Hr2 & -> & R)]; [left; exact C | right].
      split; [exact Hr2 | split; [exact R |]].
      apply orb_true_iff in E as [E | E]; apply Z.eqb_eq in E; auto.
    + split; [exact H0 |]. cbn. repeat split. left. split; reflexivity.
Qed.

Lemma gcpm_dc_stop_refused g w final_state :
  set_online_refuses g 0 ->
  dc_state g = DC_ENABLE \/ dc_state g = DC_ENABLE_PASSTHROUGH ->
  exists r w1, r < 0 /\ gcpm_dc_stop g w final_state = (r, g, w1).
Proof.
  intros R St. unfold gcpm_dc_stop, gcpm_dc_stop_default_online.
  destruct (gcpm_chg_set_online_refused g (dcen_gpio_set g w 0) 0 R)
    as (r & Hr & E).
  exists r, (dcen_gpio_set g w 0). split; [exact Hr |].
  destruct St as [-> | ->]; cbn; rewrite E;
    (destruct (Z.ltb_spec r 0) as [Lt0 | Lt0]; [reflexivity | lia]).
Qed.

Lemma gcpm_pps_offline_frame g w :
  let '(r, g1, w1) := gcpm_pps_offline g w in
  r = 0 /\ dc_state g1 = dc_state g /\ dc_index g1 = dc_index g
  /\ init_complete g1 = init_complete g
  /\ resume_complete g1 = resume_complete g.
Proof.
  unfold gcpm_pps_offline, gcpm_pps_offline_source, pps_prog_offline.
  destruct (pps_psy (get_pps_data g TCPM)).
  - pose proof (pps_call_step_spec CALL_pps_prog_offline g w TCPM) as S1.
    destruct (pps_call_step CALL_pps_prog_offline g w TCPM) as [[r1 g1] w1].
    destruct S1 as (a1 & _ & _ & _ & _ & _ & ->).
    destruct (pps_psy (get_pps_data _ WLC)).
    + pose proof (pps_call_step_spec CALL_pps_prog_offline
                    (set_pps_data g TCPM
                       {| stage := pa_stage a1; pd_online := pa_online a1;
                          pps_psy := pps_psy (get_pps_data g TCPM) |})
                    w1 WLC) as S2.
      destruct (pps_call_step CALL_pps_prog_offline _ w1 WLC)
        as [[r2 g2] w2].
      destruct S2 as (a2 & _ & _ & _ & _ & _ & ->). cbn. auto.
    + cbn. auto.
  - destruct (pps_psy (get_pps_data g WLC)).
    + pose proof (pps_call_step_spec CALL_pps_prog_offline g w WLC) as S2.
      destruct (pps_call_step CALL_pps_prog_offline g w WLC)
        as [[r2 g2] w2].
      destruct S2 as (a2 & _ & _ & _ & _ & _ & ->). cbn. auto.
    + cbn. auto.
Qed.

(** A run of the task that finds [dc_index <= 0] and the state at or below
    [Idle] does nothing. *)
Lemma gcpm_pps_wlc_dc_work_idle g w :
  dc_index g <= 0 -> dc_state g <= DC_IDLE ->
  gcpm_pps_wlc_dc_work g w = (g, w).
Proof.
  intros Hi Hs. unfold gcpm_pps_wlc_dc_work, gcpm_pps_wlc_dc_work_stop.
  destruct (negb (resume_complete g) || negb (init_complete g));
    [reflexivity |].
  destruct (Z.leb_spec (dc_index g) 0); [| lia].
  destruct (Z.leb_spec (dc_state g) DC_IDLE); [reflexivity | lia].
Qed.

(** C7 (amended). When the calls into the chargers and the election
    succeed, tearing down twice leaves the driver state (so the DC state,
    the active source and the stage of both PPS sessions) as tearing down
    once does; the tear-down is the run of the negotiation task with
    [dc_index <= 0]. *)
Theorem teardown_twice :
  forall (g : gcpm_drv) (w : world),
    dc_index g <= 0 ->
    collaborators_succeed w ->
    let once := gcpm_pps_wlc_dc_work g w in
    fst (gcpm_pps_wlc_dc_work (fst once) (snd once)) = fst once.
Proof.
  intros g w Hi H. cbv zeta. unfold gcpm_pps_wlc_dc_work at 2 3 4.
  destruct (negb (resume_complete g) || negb (init_complete g)) eqn:Fl.
  { cbn [fst snd]. unfold gcpm_pps_wlc_dc_work. rewrite Fl. reflexivity. }
  destruct (Z.leb_spec (dc_index g) 0); [| lia].
  unfold gcpm_pps_wlc_dc_work_stop.
  destruct (Z.leb_spec (dc_state g) DC_IDLE) as [Hs | Hs].
  { cbn [pps_dc_reschedule fst snd].
    rewrite gcpm_pps_wlc_dc_work_idle by assumption. reflexivity. }
  pose proof (gcpm_dc_stop_succeed g w DC_DISABLED H) as D.
  destruct (gcpm_dc_stop g w DC_DISABLED) as [[r g1] w1].
  destruct D as (H1 & I1 & R1 & X1 & [(-> & St) | (Hr & Rf & St)]).
  - (* the default charger is back online *)
    cbn [Z.ltb Z.compare].
    pose proof (gcpm_pps_offline_frame g1 w1) as O.
    destruct (gcpm_pps_offline g1 w1) as [[r2 g2] w2].
    destruct O as (-> & S2 & X2 & I2 & R2). cbn [Z.ltb Z.compare].
    cbn [pps_dc_reschedule fst snd].
    rewrite gcpm_pps_wlc_dc_work_idle; [reflexivity | |].
    + destruct (dc_index g2 =? GCPM_DEFAULT_CHARGER); cbn; lia.
    + destruct (dc_index g2 =? GCPM_DEFAULT_CHARGER); cbn;
        unfold DC_IDLE, DC_DISABLED in *; lia.
  - (* the registry turned the default index down: so it does again *)
    destruct (Z.ltb_spec r 0) as [Lt0 | Lt0]; [| lia].
    assert (E : forall w', fst (gcpm_pps_wlc_dc_work g1 w') = g1).
    { intros w'. unfold gcpm_pps_wlc_dc_work, gcpm_pps_wlc_dc_work_stop.
      rewrite I1, R1, Fl.
      destruct (Z.leb_spec (dc_index g1) 0); [| lia].
      destruct (Z.leb_spec (dc_state g1) DC_IDLE) as [Hs1 | Hs1].
      { reflexivity. }
      destruct (gcpm_dc_stop_refused g1 w' DC_DISABLED Rf St)
        as (r' & w'' & Hr' & ->).
      destruct (Z.ltb_spec r' 0) as [Lt1 | Lt1]; [| lia].
      cbn [pps_dc_reschedule]. destruct (DC_ERROR_RETRY_MS <=? 0); reflexivity. }
    cbn [pps_dc_reschedule].
    destruct (DC_ERROR_RETRY_MS <=? 0); cbn [fst snd]; apply E.
Qed.

Lemma teardown_twice_witness :
  let w := world0 [0; 0; 0; 0; 0] [] in
  let once := gcpm_pps_wlc_dc_work gcpm_leaving_dc w in
  fst (gcpm_pps_wlc_dc_work (fst once) (snd once)) = fst once.
Proof.
  intros w.
  assert (I : dc_index gcpm_leaving_dc <= 0) by closed_arith.
  assert (S : collaborators_succeed w).
  { unfold collaborators_succeed. cbn. repeat constructor; lia. }
  exact (teardown_twice gcpm_leaving_dc w I S).
Defined.

(** C7 as worded fails when a call of the first tear-down is refused: the
    vote against direct charge fails, the state stays [Passthrough] and
    the task is queued again; the second tear-down then goes through and
    ends in [Idle] with the default charger active. *)
Lemma teardown_idempotent_counterexample :
  ~ teardown_idempotent_as_stated gcpm_leaving_dc (world0 [0; -5] []).
Proof.
  unfold teardown_idempotent_as_stated. intros H.
  destruct (H ltac:(closed_arith)) as [K _]. vm_compute in K. discriminate K.
Qed.

(** Where a tear-down that goes through ends: [Idle], the default charger
    online and active, direct charge voted off, no PPS source selected. *)
Example teardown_result :
  let r := gcpm_pps_wlc_dc_work gcpm_leaving_dc (world0 [] []) in
  dc_state (fst r) = DC_IDLE
  /\ chg_psy_active (fst r) = GCPM_DEFAULT_CHARGER
  /\ props (snd r) 0%nat POWER_SUPPLY_PROP_ONLINE = 1
  /\ props (snd r) 1%nat POWER_SUPPLY_PROP_ONLINE = 0
  /\ dc_vote (snd r) = false
  /\ pps_index (fst r) = 0.
Proof. vm_compute. repeat split; reflexivity. Qed.

(** ** C9: the negotiation step over the two sessions *)

Lemma pps_stage_eqb_eq a b : pps_stage_eqb a b = true <-> a = b.
Proof. destruct a, b; cbn; split; intros H; try reflexivity; discriminate. Qed.

(** One block of [gcpm_pps_work]: a session that is not supported is
    counted and left alone; any other is stepped, and is recorded as
    selected only if the step leaves it active. *)
Lemma gcpm_pps_work_source_spec g w s i p n :
  let '(p1, n1, g1, w1) := gcpm_pps_work_source g w s i p n in
  (stage (get_pps_data g s) = PPS_NOTSUPP ->
   p1 = p /\ n1 = n + 1 /\ g1 = g /\ w1 = w)
  /\ (stage (get_pps_data g s) <> PPS_NOTSUPP ->
      n1 = n
      /\ (p1 = p \/ (p1 = i /\ stage (get_pps_data g1 s) = PPS_ACTIVE))
      /\ exists x, g1 = set_pps_data g s x).
Proof.
  unfold gcpm_pps_work_source, pps_work.
  destruct (pps_stage_eqb (stage (get_pps_data g s)) PPS_NOTSUPP) eqn:E.
  - apply pps_stage_eqb_eq in E. cbn.
    split; [auto | intros K; contradiction].
  - assert (N : stage (get_pps_data g s) <> PPS_NOTSUPP).
    { intros K. apply pps_stage_eqb_eq in K. congruence. }
    cbn [negb].
    pose proof (pps_call_step_spec CALL_pps_work g w s) as S.
    destruct (pps_call_step CALL_pps_work g w s) as [[r g1] w1].
    destruct S as (a & _ & _ & _ & _ & _ & ->).
    split; [intros K; contradiction | intros _].
    split; [reflexivity |]. split; [| eauto].
    destruct ((0 <=? r) && pps_stage_eqb _ PPS_ACTIVE) eqn:A; [| auto].
    right. split; [reflexivity |].
    apply andb_true_iff in A as [_ A]. apply pps_stage_eqb_eq in A. exact A.
Qed.

(** The return value and the recorded index of [gcpm_pps_work]: with
    both sessions not supported on entry it returns [-ENODEV] and changes
    nothing; otherwise it returns [-ENODEV] exactly when a source was
    selected and none is now, and 0 in all other cases, and a session it
    records as selected is active. *)
Lemma gcpm_pps_work_abandon g w :
  let '(ret, g1, w1) := gcpm_pps_work g w in
  (stage (tcpm_pps_data g) = PPS_NOTSUPP
   /\ stage (wlc_pps_data g) = PPS_NOTSUPP ->
   ret = - ENODEV /\ g1 = g /\ w1 = w)
  /\ (~ (stage (tcpm_pps_data g) = PPS_NOTSUPP
         /\ stage (wlc_pps_data g) = PPS_NOTSUPP) ->
      (ret < 0 <-> pps_index g <> 0 /\ pps_index g1 = 0)
      /\ (ret = 0 \/ ret = - ENODEV)
      /\ (pps_index g1 = 0
          \/ (pps_index g1 = PPS_INDEX_TCPM
              /\ stage (tcpm_pps_data g1) = PPS_ACTIVE)
          \/ (pps_index g1 = PPS_INDEX_WLC
              /\ stage (wlc_pps_data g1) = PPS_ACTIVE))).
Proof.
  unfold gcpm_pps_work.
  pose proof (gcpm_pps_work_source_spec g w TCPM PPS_INDEX_TCPM 0 0) as S1.
  destruct (gcpm_pps_work_source g w TCPM PPS_INDEX_TCPM 0 0)
    as [[[p1 n1] g1] w1].
  pose proof (gcpm_pps_work_source_spec g1 w1 WLC PPS_INDEX_WLC p1 n1) as S2.
  destruct (gcpm_pps_work_source g1 w1 WLC PPS_INDEX_WLC p1 n1)
    as [[[p2 n2] g2] w2].
  destruct S1 as [S1n S1s]. destruct S2 as [S2n S2s]. cbn [get_pps_data] in *.
  unfold PPS_INDEX_MAX, PPS_INDEX_TCPM, PPS_INDEX_WLC, ENODEV in *.
  destruct (pps_stage_eq_dec (stage (tcpm_pps_data g)) PPS_NOTSUPP) as [T | T].
  - destruct (S1n T) as (-> & -> & -> & ->).
    destruct (pps_stage_eq_dec (stage (wlc_pps_data g)) PPS_NOTSUPP)
      as [W | W].
    + destruct (S2n W) as (-> & -> & -> & ->). cbn.
      split; [auto | intros NS; destruct NS; auto].
    + destruct (S2s W) as (-> & P2 & x & ->). cbn.
      split; [intros [_ K]; contradiction | intros _].
      destruct (Z.eqb_spec (pps_index g) 0) as [E | E];
        destruct P2 as [-> | [-> A]]; cbn;
        (split; [split; [intros ?; lia | intros [? ?]; lia] |]);
        (split; [auto |]); auto.
  - destruct (S1s T) as (-> & P1 & x1 & ->).
    assert (NS : ~ (stage (tcpm_pps_data g) = PPS_NOTSUPP
                    /\ stage (wlc_pps_data g) = PPS_NOTSUPP))
      by (intros [K _]; contradiction).
    cbn [wlc_pps_data set_pps_data set_tcpm_pps_data] in *.
    destruct (pps_stage_eq_dec (stage (wlc_pps_data g)) PPS_NOTSUPP)
      as [W | W].
    + destruct (S2n W) as (-> & -> & -> & ->). cbn.
      split; [intros [K _]; contradiction | intros _].
      destruct (Z.eqb_spec (pps_index g) 0) as [E | E];
        destruct P1 as [-> | [-> A]]; cbn;
        (split; [split; [intros ?; lia | intros [? ?]; lia] |]);
        (split; [auto |]); auto.
    + destruct (S2s W) as (-> & P2 & x2 & ->). cbn.
      split; [intros [K _]; contradiction | intros _].
      destruct (Z.eqb_spec (pps_index g) 0) as [E | E];
        destruct P2 as [-> | [-> A2]]; destruct P1 as [-> | [-> A1]]; cbn;
        (split; [split; [intros ?; lia | intros [? ?]; lia] |]);
        (split; [auto |]); auto.
Qed.


(** C9. The first session to turn active is to be the selected one, as
    the comment above [gcpm_pps_work] has it (pick the first PPS source
    that transitions to active).  The driver does not keep it: with the
    wired session active and selected since an earlier run, a run in
    which the wireless session turns active as well returns 0 and records
    the wireless session. *)
Theorem gcpm_pps_work_later_session_replaces_first :
  let g := gcpm_wired_selected in
  let w := world0 [] [pps_answers 0 PPS_ACTIVE; pps_answers 0 PPS_ACTIVE] in
  let r := gcpm_pps_work g w in
  pps_index g = PPS_INDEX_TCPM
  /\ stage (tcpm_pps_data g) = PPS_ACTIVE
  /\ stage (wlc_pps_data g) = PPS_AVAILABLE
  /\ fst (fst r) = 0
  /\ stage (tcpm_pps_data (snd (fst r))) = PPS_ACTIVE
  /\ stage (wlc_pps_data (snd (fst r))) = PPS_ACTIVE
  /\ pps_index (snd (fst r)) = PPS_INDEX_WLC.
Proof. vm_compute. repeat split; reflexivity. Qed.

(** * Proofs on the further code *)

(** ** Scratch space: sizes, failures and round trips *)

Lemma reg_next_spec m :
  let (rc, m1) := reg_next m in
  regs m1 = regs m /\ reg_trace m1 = reg_trace m
  /\ (regmap_succeeds m -> 0 <= rc /\ regmap_succeeds m1)
  /\ (forall r, hd_error (reg_script m) = Some r -> rc = r).
Proof.
  unfold reg_next, regmap_succeeds.
  destruct (reg_script m) as [| r rest] eqn:E; cbn.
  - repeat split; try lia; try (rewrite E; assumption). discriminate.
  - repeat split; try (inversion H; subst; assumption).
    intros r0 [= ->]. reflexivity.
Qed.

Lemma regmap_write_spec m reg val :
  let (rc, m1) := regmap_write m reg val in
  reg_trace m1 = RegWrite reg val rc :: reg_trace m
  /\ (rc < 0 -> regs m1 = regs m)
  /\ (0 <= rc ->
      regs m1 reg = val mod 2 ^ 16
      /\ forall r, r <> reg -> regs m1 r = regs m r)
  /\ (regmap_succeeds m -> 0 <= rc /\ regmap_succeeds m1)
  /\ (forall r, hd_error (reg_script m) = Some r -> rc = r).
Proof.
  unfold regmap_write. pose proof (reg_next_spec m) as N.
  destruct (reg_next m) as [rc m1]. destruct N as (R & T & S & H).
  destruct (Z.ltb_spec rc 0) as [L | L]; cbn.
  - repeat split; try lia; try congruence; try (apply S; assumption).
    exact H.
  - rewrite T. split; [reflexivity |]. split; [lia |]. split.
    + intros _. rewrite Z.eqb_refl. split; [reflexivity |].
      intros r Hr. destruct (Z.eqb_spec r reg); [contradiction |].
      rewrite R. reflexivity.
    + split; [| exact H]. intros Hs. apply S in Hs. exact Hs.
Qed.

Lemma regmap_read_spec m reg val :
  let '(rc, v, m1) := regmap_read m reg val in
  reg_trace m1 = RegRead reg rc :: reg_trace m
  /\ regs m1 = regs m
  /\ (0 <= rc -> v = regs m reg)
  /\ (regmap_succeeds m -> 0 <= rc /\ regmap_succeeds m1).
Proof.
  unfold regmap_read. pose proof (reg_next_spec m) as N.
  destruct (reg_next m) as [rc m1]. destruct N as (R & T & S & H). cbn.
  rewrite T, R. repeat split; try (apply S; assumption).
  intros L. destruct (Z.ltb_spec rc 0); [lia | reflexivity].
Qed.

Lemma odd_land_1 z : Z.odd z = true -> Z.land z 1 = 1.
Proof.
  intros H. change 1 with (Z.ones 1) at 1. rewrite Z.land_ones by lia.
  change (2 ^ 1) with 2. rewrite Zmod_odd, H. reflexivity.
Qed.

Lemma tag_capacity_info tag cap size addr :
  tag_capacity tag = Some cap -> 0 <= size <= cap ->
  max77779_sp_info tag addr size = (0, tag_addr tag)
  /\ (tag_addr tag = 0 \/ tag_addr tag = 4 \/ tag_addr tag = 8)
  /\ cap <= 32.
Proof.
  intros C S.
  destruct tag; cbn in C; try discriminate; injection C as <-;
    unfold max77779_sp_info, tag_addr, OPCODE_USER_SPACE_R_RES_LEN,
      RS_TAG_LENGTH, SU_TAG_LENGTH;
    match goal with
    | |- context [?c <? size] => destruct (Z.ltb_spec c size); [lia |]
    end; rewrite andb_false_r; cbn; repeat split; auto; lia.
Qed.

(** X1. An odd size of three bytes or more is refused with [-ERANGE] even
    when the tag has room for it, before any register is accessed: the
    register map and the buffer are returned as they were. *)
Theorem max77779_sp_odd_size_refused :
  forall (page_ctrl : Z) (tag : gbms_tag_t) (cap : Z) (buff : list Z)
         (size : Z) (m : regmap) (addr : Z),
    tag_capacity tag = Some cap ->
    2 < size <= cap ->
    Z.odd size = true ->
    max77779_sp_read page_ctrl tag buff size m addr = (- ERANGE, buff, m)
    /\ max77779_sp_write page_ctrl tag buff size m addr = (- ERANGE, m).
Proof.
  intros page_ctrl tag cap buff size m addr C S O.
  destruct (tag_capacity_info tag cap size addr C ltac:(lia)) as (I & A & _).
  unfold max77779_sp_read, max77779_sp_write. rewrite I. cbn [Z.ltb Z.compare].
  unfold max77779_sp_rd, max77779_sp_wr, sp_out_of_range.
  rewrite (odd_land_1 size O).
  destruct (Z.ltb_spec 2 size); [| lia]. cbn. split; reflexivity.
Qed.

Lemma max77779_sp_odd_size_refused_witness :
  max77779_sp_read 0 GBMS_TAG_RS32 [1; 2; 3] 3 (regmap0 []) 0
  = (- ERANGE, [1; 2; 3], regmap0 [])
  /\ max77779_sp_write 0 GBMS_TAG_RS32 [1; 2; 3] 3 (regmap0 []) 0
     = (- ERANGE, regmap0 []).
Proof.
  apply (max77779_sp_odd_size_refused 0 GBMS_TAG_RS32 32 [1; 2; 3] 3
           (regmap0 []) 0).
  - reflexivity.
  - lia.
  - reflexivity.
Defined.

Lemma land_lnot_1 a : Z.land a (Z.lnot 1) = 2 * (a / 2).
Proof.
  rewrite <- Z.ldiff_land. change 1 with (Z.ones 1).
  rewrite Z.ldiff_ones_r by lia.
  rewrite Z.shiftl_mul_pow2, Z.shiftr_div_pow2 by lia.
  change (2 ^ 1) with 2. lia.
Qed.

Lemma sp_base_range addr :
  0 <= addr ->
  0 <= Z.rem addr 256 < 256
  /\ MAX77779_SP_DATA <= sp_base addr <= MAX77779_SP_DATA + Z.rem addr 256
  /\ (Z.rem addr 256 <= 127 -> sp_base addr < MAX77779_SP_DATA + 127).
Proof.
  intros H. unfold sp_base, MAX77779_SP_DATA. rewrite land_lnot_1.
  rewrite Z.rem_mod_nonneg by lia.
  pose proof (Z.mod_pos_bound addr 256 ltac:(lia)) as B.
  pose proof (Z.div_mod (addr mod 256) 2 ltac:(lia)) as D.
  pose proof (Z.mod_pos_bound (addr mod 256) 2 ltac:(lia)) as B2.
  lia.
Qed.

Lemma sp_out_of_range_false offset count :
  0 <= offset < 256 -> 0 <= count < 2 ^ 32 ->
  sp_out_of_range offset count = false ->
  offset + count <= 127 /\ (2 < count -> Z.odd count = false).
Proof.
  intros Ho Hc. unfold sp_out_of_range, to_size_t. intros H.
  apply orb_false_iff in H as [H1 H2].
  rewrite Z.mod_small in H2 by lia.
  apply Z.ltb_ge in H2. split; [exact H2 |].
  intros L. destruct (Z.ltb_spec 2 count); [| lia]. cbn in H1.
  apply negb_false_iff, Z.eqb_eq in H1.
  destruct (Z.odd count) eqn:O; [| reflexivity].
  rewrite (odd_land_1 count O) in H1. discriminate.
Qed.

Lemma bulk_regs_within page_ctrl base count :
  MAX77779_SP_DATA <= base -> base + count <= MAX77779_SP_DATA + 127 ->
  Forall (fun r => r = page_ctrl
                   \/ MAX77779_SP_DATA <= r < MAX77779_SP_DATA + 127)
         (map (fun i => base + Z.of_nat i) (seq 0 (Z.to_nat count))).
Proof.
  intros B C. apply Forall_forall. intros r Hr.
  apply in_map_iff in Hr as (i & <- & Hi). apply in_seq in Hi. lia.
Qed.

Lemma max77779_sp_rd_accesses page_ctrl buff addr count m :
  0 <= addr -> 0 <= count < 2 ^ 32 ->
  exists evs,
    reg_trace (snd (max77779_sp_rd page_ctrl buff addr count m))
    = evs ++ reg_trace m
    /\ sp_accesses_within page_ctrl evs.
Proof.
  intros Ha Hc. unfold max77779_sp_rd.
  destruct (sp_base_range addr Ha) as (Ho & Hb & Hb'). fold (sp_base addr).
  destruct (sp_out_of_range (Z.rem addr 256) count) eqn:R.
  { exists []. split; [reflexivity | constructor]. }
  destruct (sp_out_of_range_false _ _ Ho Hc R) as [Hs _].
  pose proof (regmap_write_spec m page_ctrl (Z.quot addr 256)) as W.
  destruct (regmap_write m page_ctrl (Z.quot addr 256)) as [rc m1].
  destruct W as (T1 & _).
  assert (P : Forall (fun r => r = page_ctrl
                   \/ MAX77779_SP_DATA <= r < MAX77779_SP_DATA + 127)
                (reg_event_regs (RegWrite page_ctrl (Z.quot addr 256) rc))).
  { repeat constructor. }
  destruct (rc <? 0).
  { exists [RegWrite page_ctrl (Z.quot addr 256) rc]. split; [exact T1 |].
    repeat constructor. }
  destruct (Z.ltb_spec 2 count).
  { unfold regmap_bulk_read. pose proof (reg_next_spec m1) as N.
    destruct (reg_next m1) as [rc2 m2]. destruct N as (_ & T2 & _). cbn.
    exists [RegBulkRead (sp_base addr) count rc2;
            RegWrite page_ctrl (Z.quot addr 256) rc].
    split; [rewrite T2, T1; reflexivity |].
    constructor; [| constructor; [exact P | constructor]].
    apply bulk_regs_within; lia. }
  destruct (Z.eqb_spec count 0).
  { exists [RegWrite page_ctrl (Z.quot addr 256) rc]. split; [exact T1 |].
    repeat constructor. }
  cbn [negb].
  pose proof (regmap_read_spec m1 (sp_base addr) 0) as Rd.
  destruct (regmap_read m1 (sp_base addr) 0) as [[rc2 tmp] m2].
  destruct Rd as (T2 & _).
  assert (E : exists evs, reg_trace m2 = evs ++ reg_trace m
                          /\ sp_accesses_within page_ctrl evs).
  { exists [RegRead (sp_base addr) rc2;
            RegWrite page_ctrl (Z.quot addr 256) rc].
    split; [rewrite T2, T1; reflexivity |].
    constructor; [| constructor; [exact P | constructor]].
    constructor; [right; lia | constructor]. }
  destruct (rc2 <? 0); [exact E |].
  destruct (count =? 1); [destruct (negb _) |]; exact E.
Qed.

Lemma max77779_sp_wr_accesses page_ctrl buff addr count m :
  0 <= addr -> 0 <= count < 2 ^ 32 ->
  exists evs,
    reg_trace (snd (max77779_sp_wr page_ctrl buff addr count m))
    = evs ++ reg_trace m
    /\ sp_accesses_within page_ctrl evs.
Proof.
  intros Ha Hc. unfold max77779_sp_wr.
  destruct (sp_base_range addr Ha) as (Ho & Hb & Hb'). fold (sp_base addr).
  destruct (sp_out_of_range (Z.rem addr 256) count) eqn:R.
  { exists []. split; [reflexivity | constructor]. }
  destruct (sp_out_of_range_false _ _ Ho Hc R) as [Hs _].
  pose proof (regmap_write_spec m page_ctrl (Z.quot addr 256)) as W.
  destruct (regmap_write m page_ctrl (Z.quot addr 256)) as [rc m1].
  destruct W as (T1 & _).
  assert (P : Forall (fun r => r = page_ctrl
                   \/ MAX77779_SP_DATA <= r < MAX77779_SP_DATA + 127)
                (reg_event_regs (RegWrite page_ctrl (Z.quot addr 256) rc))).
  { repeat constructor. }
  assert (D : Forall (fun r => r = page_ctrl
                   \/ MAX77779_SP_DATA <= r < MAX77779_SP_DATA + 127)
                [sp_base addr]).
  { constructor; [right; lia | constructor]. }
  destruct (rc <? 0).
  { exists [RegWrite page_ctrl (Z.quot addr 256) rc]. split; [exact T1 |].
    repeat constructor. }
  destruct (Z.ltb_spec 2 count).
  { unfold regmap_bulk_write. pose proof (reg_next_spec m1) as N.
    destruct (reg_next m1) as [rc2 m2]. destruct N as (_ & T2 & _). cbn.
    exists [RegBulkWrite (sp_base addr) count rc2;
            RegWrite page_ctrl (Z.quot addr 256) rc].
    split.
    - assert (K : forall n mm reg i,
                 reg_trace (bulk_write_regs mm reg buff i n) = reg_trace mm).
      { induction n as [| n IH]; intros mm reg i; cbn; [reflexivity |].
        rewrite IH. reflexivity. }
      destruct (rc2 <? 0); cbn; rewrite ?K, T2, T1; reflexivity.
    - constructor; [| constructor; [exact P | constructor]].
      apply bulk_regs_within; lia. }
  destruct (count =? 1).
  - pose proof (regmap_read_spec m1 (sp_base addr) 0) as Rd.
    destruct (regmap_read m1 (sp_base addr) 0) as [[rc2 tmp] m2].
    destruct Rd as (T2 & _).
    destruct (rc2 <? 0).
    + exists [RegRead (sp_base addr) rc2;
              RegWrite page_ctrl (Z.quot addr 256) rc].
      split; [cbn; rewrite T2, T1; reflexivity |].
      constructor; [exact D | constructor; [exact P | constructor]].
    + match goal with
      | |- context [regmap_write m2 ?b ?v] =>
          pose proof (regmap_write_spec m2 b v) as W3;
          destruct (regmap_write m2 b v) as [rc3 m3]
      end.
      destruct W3 as (T3 & _).
      eexists [_; _; _]. split; [cbn; rewrite T3, T2, T1; reflexivity |].
      constructor; [exact D |].
      constructor; [exact D | constructor; [exact P | constructor]].
  - match goal with
    | |- context [regmap_write m1 ?b ?v] =>
        pose proof (regmap_write_spec m1 b v) as W3;
        destruct (regmap_write m1 b v) as [rc3 m3]
    end.
    destruct W3 as (T3 & _).
    eexists [_; _]. split; [cbn; rewrite T3, T1; reflexivity |].
    constructor; [exact D | constructor; [exact P | constructor]].
Qed.

Lemma sp_accesses_within_declared page_ctrl evs :
  sp_accesses_within page_ctrl evs ->
  Forall (fun e =>
            Forall (fun r => max77779_sp_is_reg page_ctrl r = true)
                   (reg_event_regs e)) evs.
Proof.
  unfold sp_accesses_within. intros H.
  eapply Forall_impl; [| exact H]. intros e He.
  eapply Forall_impl; [| exact He]. intros r Hr. unfold max77779_sp_is_reg.
  apply orb_true_iff. destruct Hr as [-> | Hr].
  - left. apply Z.eqb_refl.
  - right. unfold MAX77779_SP_DATA, MAX77779_SP_SIZE in *.
    apply andb_true_iff. split; [apply Z.leb_le | apply Z.ltb_lt]; lia.
Qed.

Lemma max77779_sp_info_passes tag addr size :
  0 <= size ->
  fst (max77779_sp_info tag addr size) < 0
  \/ (max77779_sp_info tag addr size = (0, tag_addr tag)
      /\ size <= 32
      /\ (tag_addr tag = 0 \/ tag_addr tag = 4 \/ tag_addr tag = 8)).
Proof.
  intros S.
  destruct tag; unfold max77779_sp_info, tag_addr,
    OPCODE_USER_SPACE_R_RES_LEN, RS_TAG_LENGTH, SU_TAG_LENGTH;
    try (left; cbn; unfold ENOENT; lia);
    match goal with
    | |- context [?c <? size] => destruct (Z.ltb_spec c size)
    end;
    (destruct (Z.eqb_spec size 0); cbn;
     [right; repeat split; auto; lia
     | first [left; unfold EINVAL; lia | right; repeat split; auto; lia]]).
Qed.

(** X2. Whatever the tag, the size and the answers of the device, reading
    or writing the scratch space only touches registers that
    [max77779_sp_is_reg] declares to the register map: the page-control
    register and data registers. *)
Theorem max77779_sp_accesses_declared :
  forall (page_ctrl : Z) (tag : gbms_tag_t) (buff : list Z) (size : Z)
         (m : regmap) (addr : Z),
    0 <= size ->
    (exists evs,
        reg_trace (snd (max77779_sp_read page_ctrl tag buff size m addr))
        = evs ++ reg_trace m
        /\ Forall (fun e =>
                     Forall (fun r => max77779_sp_is_reg page_ctrl r = true)
                            (reg_event_regs e)) evs)
    /\ (exists evs,
           reg_trace (snd (max77779_sp_write page_ctrl tag buff size m addr))
           = evs ++ reg_trace m
           /\ Forall (fun e =>
                        Forall (fun r => max77779_sp_is_reg page_ctrl r = true)
                               (reg_event_regs e)) evs).
Proof.
  intros page_ctrl tag buff size m addr S.
  unfold max77779_sp_read, max77779_sp_write.
  destruct (max77779_sp_info_passes tag addr size S) as [F | (I & B & A)].
  - destruct (max77779_sp_info tag addr size) as [ret a]. cbn in F.
    destruct (Z.ltb_spec ret 0); [| lia].
    split; exists []; split; try reflexivity; constructor.
  - rewrite I. cbn [Z.ltb Z.compare].
    assert (T : to_int (tag_addr tag) = tag_addr tag /\ 0 <= tag_addr tag).
    { destruct A as [-> | [-> | ->]]; split; (reflexivity || lia). }
    destruct T as [-> T]. split.
    + destruct (max77779_sp_rd_accesses page_ctrl buff (tag_addr tag) size m T
                  ltac:(lia)) as (evs & E & W).
      exists evs. split; [exact E |].
      apply sp_accesses_within_declared. exact W.
    + destruct (max77779_sp_wr_accesses page_ctrl buff (tag_addr tag) size m T
                  ltac:(lia)) as (evs & E & W).
      exists evs. split; [exact E |].
      apply sp_accesses_within_declared. exact W.
Qed.

Lemma max77779_sp_accesses_declared_witness :
  (exists evs,
      reg_trace (snd (max77779_sp_read 0 GBMS_TAG_RS32 [0; 0; 0; 0] 4
                        (regmap0 []) 0))
      = evs ++ reg_trace (regmap0 [])
      /\ Forall (fun e =>
                   Forall (fun r => max77779_sp_is_reg 0 r = true)
                          (reg_event_regs e)) evs)
  /\ (exists evs,
         reg_trace (snd (max77779_sp_write 0 GBMS_TAG_RS32 [0; 0; 0; 0] 4
                           (regmap0 []) 0))
         = evs ++ reg_trace (regmap0 [])
         /\ Forall (fun e =>
                      Forall (fun r => max77779_sp_is_reg 0 r = true)
                             (reg_event_regs e)) evs).
Proof.
  apply (max77779_sp_accesses_declared 0 GBMS_TAG_RS32 [0; 0; 0; 0] 4
           (regmap0 []) 0).
  lia.
Defined.

(** *** Bytes and 16-bit words *)

Lemma land_mod_2_16_low x : Z.land (x mod 2 ^ 16) 255 = Z.land x 255.
Proof.
  rewrite <- (Z.land_ones x 16) by lia. rewrite <- Z.land_assoc.
  reflexivity.
Qed.

Lemma land_mod_2_16_high x :
  Z.land (Z.shiftr (x mod 2 ^ 16) 8) 255 = Z.land (Z.shiftr x 8) 255.
Proof.
  rewrite <- (Z.land_ones x 16) by lia. rewrite Z.shiftr_land.
  rewrite <- Z.land_assoc. reflexivity.
Qed.

Lemma is_byte_land b : is_byte b -> Z.land b 255 = b.
Proof.
  intros H. change 255 with (Z.ones 8). rewrite Z.land_ones by lia.
  apply Z.mod_small. exact H.
Qed.

Lemma is_byte_shiftr b : is_byte b -> Z.shiftr b 8 = 0.
Proof.
  intros H. rewrite Z.shiftr_div_pow2 by lia. apply Z.div_small. exact H.
Qed.

Lemma shiftl_8_land b : Z.land (Z.shiftl b 8) 255 = 0.
Proof.
  change 255 with (Z.ones 8). rewrite Z.land_ones by lia.
  rewrite Z.shiftl_mul_pow2 by lia. apply Z.mod_mul. lia.
Qed.

Lemma shiftl_8_shiftr b : Z.shiftr (Z.shiftl b 8) 8 = b.
Proof. rewrite Z.shiftr_shiftl_l by lia. apply Z.shiftl_0_r. Qed.

Lemma word_low b0 b1 :
  is_byte b0 -> Z.land (Z.lor b0 (Z.shiftl b1 8)) 255 = b0.
Proof.
  intros H0. rewrite Z.land_lor_distr_l, shiftl_8_land, Z.lor_0_r.
  apply is_byte_land. exact H0.
Qed.

Lemma word_high b0 b1 :
  is_byte b0 -> is_byte b1 ->
  Z.land (Z.shiftr (Z.lor b0 (Z.shiftl b1 8)) 8) 255 = b1.
Proof.
  intros H0 H1. rewrite Z.shiftr_lor, shiftl_8_shiftr, (is_byte_shiftr b0 H0).
  rewrite Z.lor_0_l. apply is_byte_land. exact H1.
Qed.

(** The read-modify-write of one byte of a 16-bit word, as
    [max77779_sp_wr] does it: the byte at the position is the new one,
    the other byte is the old one. *)
Lemma byte_in_word_low tmp b :
  is_byte b ->
  let t := Z.lor (Z.land tmp (to_u32 (Z.lnot (Z.shiftl 255 0))))
                 (Z.shiftl b 0) in
  Z.land t 255 = b /\ Z.land (Z.shiftr t 8) 255 = Z.land (Z.shiftr tmp 8) 255.
Proof.
  intros H. cbv zeta. rewrite !Z.shiftl_0_r.
  change (to_u32 (Z.lnot 255)) with 4294967040. split.
  - rewrite Z.land_lor_distr_l, <- Z.land_assoc.
    change (Z.land 4294967040 255) with 0. rewrite Z.land_0_r, Z.lor_0_l.
    apply is_byte_land. exact H.
  - rewrite Z.shiftr_lor, (is_byte_shiftr b H), Z.lor_0_r.
    rewrite Z.shiftr_land, <- Z.land_assoc. reflexivity.
Qed.

Lemma byte_in_word_high tmp b :
  is_byte b ->
  let t := Z.lor (Z.land tmp (to_u32 (Z.lnot (Z.shiftl 255 8))))
                 (Z.shiftl b 8) in
  Z.land (Z.shiftr t 8) 255 = b /\ Z.land t 255 = Z.land tmp 255.
Proof.
  intros H. cbv zeta.
  change (to_u32 (Z.lnot (Z.shiftl 255 8))) with 4294902015. split.
  - rewrite Z.shiftr_lor, shiftl_8_shiftr, Z.shiftr_land.
    rewrite Z.land_lor_distr_l, <- Z.land_assoc.
    change (Z.land (Z.shiftr 4294902015 8) 255) with 0.
    rewrite Z.land_0_r, Z.lor_0_l. apply is_byte_land. exact H.
  - rewrite Z.land_lor_distr_l, shiftl_8_land, Z.lor_0_r, <- Z.land_assoc.
    reflexivity.
Qed.

Lemma sp_shift_cases addr :
  0 <= addr ->
  (Z.land (Z.rem addr 256) 1 = 0 /\ sp_shift addr = 0)
  \/ (Z.land (Z.rem addr 256) 1 = 1 /\ sp_shift addr = 8).
Proof.
  intros H. unfold sp_shift. change 1 with (Z.ones 1).
  rewrite Z.land_ones by lia. change (2 ^ 1) with 2.
  pose proof (Z.mod_pos_bound (Z.rem addr 256) 2 ltac:(lia)) as B.
  assert (C : Z.rem addr 256 mod 2 = 0 \/ Z.rem addr 256 mod 2 = 1) by lia.
  destruct C as [-> | ->]; [left | right]; split; reflexivity.
Qed.

Lemma sp_in_range addr count :
  0 <= addr -> 0 <= count -> Z.rem addr 256 + count <= 127 ->
  count <= 2 ->
  sp_out_of_range (Z.rem addr 256) count = false.
Proof.
  intros Ha Hc Hs H2. unfold sp_out_of_range, to_size_t.
  destruct (Z.ltb_spec 2 count); [lia |]. cbn [andb orb].
  pose proof (sp_base_range addr Ha) as (Ho & _).
  rewrite Z.mod_small by lia. apply Z.ltb_ge. exact Hs.
Qed.

(** *** Writes and reads of one and two bytes that succeed *)

Lemma max77779_sp_wr_small page_ctrl buff addr count m :
  0 <= addr -> Z.rem addr 256 + count <= 127 ->
  count = 1 \/ count = 2 ->
  page_ctrl <> sp_base addr ->
  regmap_succeeds m ->
  let (r, m1) := max77779_sp_wr page_ctrl buff addr count m in
  0 <= r /\ regmap_succeeds m1
  /\ (forall reg, reg <> page_ctrl -> reg <> sp_base addr ->
      regs m1 reg = regs m reg)
  /\ regs m1 (sp_base addr)
     = (if count =? 1
        then Z.lor (Z.land (regs m (sp_base addr))
                      (to_u32 (Z.lnot (Z.shiftl 255 (sp_shift addr)))))
                   (Z.shiftl (buf_get buff 0) (sp_shift addr))
        else buf_get16 buff 0) mod 2 ^ 16.
Proof.
  intros Ha Hs Hc Hp S. unfold max77779_sp_wr.
  fold (sp_base addr). fold (sp_shift addr).
  rewrite sp_in_range by lia.
  pose proof (regmap_write_spec m page_ctrl (Z.quot addr 256)) as W.
  destruct (regmap_write m page_ctrl (Z.quot addr 256)) as [rc m1].
  destruct W as (_ & _ & W1 & W2 & _). destruct (W2 S) as [R1 S1].
  destruct (W1 R1) as [_ F1].
  destruct (Z.ltb_spec rc 0); [lia |].
  destruct (Z.ltb_spec 2 count); [lia |].
  destruct Hc as [-> | ->]; cbn [Z.eqb Pos.eqb].
  - pose proof (regmap_read_spec m1 (sp_base addr) 0) as Rd.
    destruct (regmap_read m1 (sp_base addr) 0) as [[rc2 tmp] m2].
    destruct Rd as (_ & G2 & V2 & S2). destruct (S2 S1) as [R2 S2'].
    destruct (Z.ltb_spec rc2 0); [lia |].
    rewrite (V2 R2), F1 by congruence.
    match goal with
    | |- context [regmap_write m2 ?b ?v] =>
        pose proof (regmap_write_spec m2 b v) as W3;
        destruct (regmap_write m2 b v) as [rc3 m3]
    end.
    destruct W3 as (_ & _ & W31 & W32 & _). destruct (W32 S2') as [R3 S3].
    destruct (W31 R3) as [V3 F3].
    split; [exact R3 |]. split; [exact S3 |]. split; [| exact V3].
    intros reg N1 N2. rewrite F3, G2, F1 by assumption. reflexivity.
  - match goal with
    | |- context [regmap_write m1 ?b ?v] =>
        pose proof (regmap_write_spec m1 b v) as W3;
        destruct (regmap_write m1 b v) as [rc3 m3]
    end.
    destruct W3 as (_ & _ & W31 & W32 & _). destruct (W32 S1) as [R3 S3].
    destruct (W31 R3) as [V3 F3].
    split; [exact R3 |]. split; [exact S3 |]. split; [| exact V3].
    intros reg N1 N2. rewrite F3, F1 by assumption. reflexivity.
Qed.

Lemma max77779_sp_rd_small page_ctrl buff addr count m :
  0 <= addr -> Z.rem addr 256 + count <= 127 ->
  count = 1 \/ count = 2 ->
  page_ctrl <> sp_base addr ->
  regmap_succeeds m ->
  let '(r, buff1, m1) := max77779_sp_rd page_ctrl buff addr count m in
  0 <= r
  /\ buff1
     = (if count =? 1
        then buf_set buff 0
               (Z.land (Z.shiftr (regs m (sp_base addr)) (sp_shift addr)) 255)
        else buf_set16 buff 0 (Z.land 65535 (regs m (sp_base addr)))).
Proof.
  intros Ha Hs Hc Hp S. unfold max77779_sp_rd.
  fold (sp_base addr).
  rewrite sp_in_range by lia.
  pose proof (regmap_write_spec m page_ctrl (Z.quot addr 256)) as W.
  destruct (regmap_write m page_ctrl (Z.quot addr 256)) as [rc m1].
  destruct W as (_ & _ & W1 & W2 & _). destruct (W2 S) as [R1 S1].
  destruct (W1 R1) as [_ F1].
  destruct (Z.ltb_spec rc 0); [lia |].
  destruct (Z.ltb_spec 2 count); [lia |].
  destruct (Z.eqb_spec count 0); [lia |]. cbn [negb].
  pose proof (regmap_read_spec m1 (sp_base addr) 0) as Rd.
  destruct (regmap_read m1 (sp_base addr) 0) as [[rc2 tmp] m2].
  destruct Rd as (_ & G2 & V2 & S2). destruct (S2 S1) as [R2 S2'].
  destruct (Z.ltb_spec rc2 0); [lia |].
  rewrite (V2 R2), F1 by congruence.
  destruct Hc as [-> | ->]; cbn [Z.eqb Pos.eqb].
  - destruct (sp_shift_cases addr Ha) as [[E1 E2] | [E1 E2]];
      rewrite E1, E2; cbn [Z.eqb negb].
    + split; [exact R2 |]. rewrite Z.shiftr_0_r, Z.land_comm. reflexivity.
    + split; [exact R2 | reflexivity].
  - split; [exact R2 | reflexivity].
Qed.

(** X3. Two bytes written at an address of the scratch space are the two
    bytes read back from it, when the accesses succeed and the address
    and the next one lie below [0x7f]; the rest of the reader's buffer
    is untouched. *)
Theorem max77779_sp_word_round_trip :
  forall (page_ctrl addr b0 b1 : Z) (rest out : list Z) (m : regmap),
    0 <= addr -> Z.rem addr 256 <= 125 ->
    page_ctrl <> sp_base addr ->
    is_byte b0 -> is_byte b1 ->
    (2 <= length out)%nat ->
    regmap_succeeds m ->
    let '(r1, m1) := max77779_sp_wr page_ctrl (b0 :: b1 :: rest) addr 2 m in
    let '(r2, out1, m2) := max77779_sp_rd page_ctrl out addr 2 m1 in
    0 <= r1 /\ 0 <= r2 /\ out1 = b0 :: b1 :: skipn 2 out.
Proof.
  intros page_ctrl addr b0 b1 rest out m Ha Ho Hp H0 H1 Hl S.
  pose proof (max77779_sp_wr_small page_ctrl (b0 :: b1 :: rest) addr 2 m
                Ha ltac:(lia) ltac:(auto) Hp S) as W.
  destruct (max77779_sp_wr page_ctrl (b0 :: b1 :: rest) addr 2 m) as [r1 m1].
  destruct W as (R1 & S1 & _ & V).
  pose proof (max77779_sp_rd_small page_ctrl out addr 2 m1
                Ha ltac:(lia) ltac:(auto) Hp S1) as Rd.
  destruct (max77779_sp_rd page_ctrl out addr 2 m1) as [[r2 out1] m2].
  destruct Rd as (R2 & ->). split; [exact R1 |]. split; [exact R2 |].
  rewrite V. cbn [Z.eqb Pos.eqb].
  destruct out as [| o0 [| o1 ot]]; cbn in Hl; try lia.
  unfold buf_set16, buf_get16, buf_get. cbn [Nat.mul Nat.add nth buf_set skipn].
  change 65535 with (Z.ones 16).
  rewrite (Z.land_comm (Z.ones 16)), Z.land_ones, Z.mod_mod by lia.
  rewrite land_mod_2_16_low, land_mod_2_16_high.
  rewrite word_low, word_high by assumption.
  rewrite !Z.mod_small by assumption. reflexivity.
Qed.

Lemma max77779_sp_word_round_trip_witness :
  let '(r1, m1) := max77779_sp_wr 0 [52; 18] 4 2 (regmap0 []) in
  let '(r2, out1, m2) := max77779_sp_rd 0 [0; 0; 7] 4 2 m1 in
  0 <= r1 /\ 0 <= r2 /\ out1 = 52 :: 18 :: skipn 2 [0; 0; 7].
Proof.
  apply (max77779_sp_word_round_trip 0 4 52 18 [] [0; 0; 7] (regmap0 []));
    try (vm_compute; intuition discriminate).
  - cbn. lia.
  - constructor.
Defined.

(** X4. One byte written at an address of the scratch space is the byte
    read back from it, whether the address is even or odd, and the write
    leaves the other byte of the 16-bit register as it was (the accesses
    succeed, the address lies below [0x7f]). *)
Theorem max77779_sp_byte_round_trip :
  forall (page_ctrl addr b : Z) (rest out : list Z) (m : regmap),
    0 <= addr -> Z.rem addr 256 <= 126 ->
    page_ctrl <> sp_base addr ->
    is_byte b ->
    out <> [] ->
    regmap_succeeds m ->
    let '(r1, m1) := max77779_sp_wr page_ctrl (b :: rest) addr 1 m in
    let '(r2, out1, m2) := max77779_sp_rd page_ctrl out addr 1 m1 in
    0 <= r1 /\ 0 <= r2 /\ out1 = b :: tl out
    /\ Z.land (Z.shiftr (regs m1 (sp_base addr)) (8 - sp_shift addr)) 255
       = Z.land (Z.shiftr (regs m (sp_base addr)) (8 - sp_shift addr)) 255.
Proof.
  intros page_ctrl addr b rest out m Ha Ho Hp Hb Hn S.
  pose proof (max77779_sp_wr_small page_ctrl (b :: rest) addr 1 m
                Ha ltac:(lia) ltac:(auto) Hp S) as W.
  destruct (max77779_sp_wr page_ctrl (b :: rest) addr 1 m) as [r1 m1].
  destruct W as (R1 & S1 & _ & V).
  pose proof (max77779_sp_rd_small page_ctrl out addr 1 m1
                Ha ltac:(lia) ltac:(auto) Hp S1) as Rd.
  destruct (max77779_sp_rd page_ctrl out addr 1 m1) as [[r2 out1] m2].
  destruct Rd as (R2 & ->). split; [exact R1 |]. split; [exact R2 |].
  rewrite V. cbn [Z.eqb Pos.eqb]. unfold buf_get. cbn [nth].
  destruct out as [| o0 ot]; [contradiction |]. cbn [buf_set tl].
  destruct (sp_shift_cases addr Ha) as [[_ ->] | [_ ->]].
  - destruct (byte_in_word_low (regs m (sp_base addr)) b Hb) as [L H].
    change (8 - 0) with 8. rewrite Z.shiftr_0_r.
    rewrite land_mod_2_16_low, land_mod_2_16_high, L, H.
    rewrite Z.mod_small by exact Hb. split; reflexivity.
  - destruct (byte_in_word_high (regs m (sp_base addr)) b Hb) as [H L].
    change (8 - 8) with 0. rewrite !Z.shiftr_0_r.
    rewrite land_mod_2_16_low, land_mod_2_16_high, L, H.
    rewrite Z.mod_small by exact Hb. split; reflexivity.
Qed.

Lemma max77779_sp_byte_round_trip_witness :
  let m := {| regs := fun _ => 43981; reg_script := []; reg_trace := [] |} in
  let '(r1, m1) := max77779_sp_wr 0 [52] 9 1 m in
  let '(r2, out1, m2) := max77779_sp_rd 0 [0; 7] 9 1 m1 in
  0 <= r1 /\ 0 <= r2 /\ out1 = 52 :: tl [0; 7]
  /\ Z.land (Z.shiftr (regs m1 (sp_base 9)) (8 - sp_shift 9)) 255
     = Z.land (Z.shiftr (regs m (sp_base 9)) (8 - sp_shift 9)) 255.
Proof.
  apply (max77779_sp_byte_round_trip 0 9 52 [] [0; 7]
           {| regs := fun _ => 43981; reg_script := []; reg_trace := [] |});
    try (vm_compute; intuition discriminate).
  constructor.
Defined.

Lemma tag_addr_page tag cap :
  tag_capacity tag = Some cap ->
  to_int (tag_addr tag) = tag_addr tag
  /\ Z.quot (tag_addr tag) 256 = 0
  /\ 0 <= tag_addr tag /\ Z.rem (tag_addr tag) 256 = tag_addr tag
  /\ tag_addr tag <= 8.
Proof.
  intros C. destruct tag; cbn in C; try discriminate;
    vm_compute; repeat split; congruence.
Qed.

(** X5. A size of zero is not turned down and is no no-op: a read selects
    the page and returns without touching the buffer, but a write still
    stores a 16-bit word, taken from the first two bytes of the buffer,
    in the data register of the tag. *)
Theorem max77779_sp_zero_size :
  forall (page_ctrl : Z) (tag : gbms_tag_t) (cap : Z) (buff : list Z)
         (m : regmap) (addr : Z),
    tag_capacity tag = Some cap ->
    regmap_succeeds m ->
    let '(r, buff1, m1) := max77779_sp_read page_ctrl tag buff 0 m addr in
    let '(r', m2) := max77779_sp_write page_ctrl tag buff 0 m addr in
    (0 <= r /\ buff1 = buff
     /\ reg_trace m1 = RegWrite page_ctrl 0 r :: reg_trace m)
    /\ (0 <= r'
        /\ reg_trace m2
           = RegWrite (sp_base (tag_addr tag)) (buf_get16 buff 0) r'
               :: RegWrite page_ctrl 0 r :: reg_trace m
        /\ regs m2 (sp_base (tag_addr tag)) = buf_get16 buff 0 mod 2 ^ 16).
Proof.
  intros page_ctrl tag cap buff m addr C S.
  destruct (tag_capacity_info tag cap 0 addr C) as (I & _ & _).
  { destruct tag; cbn in C; try discriminate; injection C as <-; lia. }
  destruct (tag_addr_page tag cap C) as (A1 & A2 & A3 & A4 & A5).
  unfold max77779_sp_read, max77779_sp_write. rewrite I, A1.
  cbn [Z.ltb Z.compare]. unfold max77779_sp_rd, max77779_sp_wr.
  fold (sp_base (tag_addr tag)). rewrite A2, A4.
  assert (R : sp_out_of_range (tag_addr tag) 0 = false).
  { rewrite <- A4. apply sp_in_range; lia. }
  rewrite R.
  pose proof (regmap_write_spec m page_ctrl 0) as W.
  destruct (regmap_write m page_ctrl 0) as [rc m1].
  destruct W as (T1 & _ & _ & W2 & _). destruct (W2 S) as [R1 S1].
  destruct (Z.ltb_spec rc 0); [lia |]. cbn [Z.ltb Z.eqb negb].
  match goal with
  | |- context [regmap_write m1 ?b ?v] =>
      pose proof (regmap_write_spec m1 b v) as W3;
      destruct (regmap_write m1 b v) as [rc3 m3]
  end.
  destruct W3 as (T3 & _ & W31 & W32 & _). destruct (W32 S1) as [R3 S3].
  destruct (W31 R3) as [V3 _].
  split; [auto |]. split; [exact R3 |]. split; [| exact V3].
  rewrite T3, T1. reflexivity.
Qed.

Lemma max77779_sp_zero_size_witness :
  let '(r, buff1, m1) :=
    max77779_sp_read 0 GBMS_TAG_RSBR [17; 34] 0 (regmap0 []) 0 in
  let '(r', m2) :=
    max77779_sp_write 0 GBMS_TAG_RSBR [17; 34] 0 (regmap0 []) 0 in
  (0 <= r /\ buff1 = [17; 34]
   /\ reg_trace m1 = RegWrite 0 0 r :: reg_trace (regmap0 []))
  /\ (0 <= r'
      /\ reg_trace m2
         = RegWrite (sp_base (tag_addr GBMS_TAG_RSBR))
             (buf_get16 [17; 34] 0) r'
             :: RegWrite 0 0 r :: reg_trace (regmap0 [])
      /\ regs m2 (sp_base (tag_addr GBMS_TAG_RSBR))
         = buf_get16 [17; 34] 0 mod 2 ^ 16).
Proof.
  apply (max77779_sp_zero_size 0 GBMS_TAG_RSBR 4 [17; 34] (regmap0 []) 0).
  - reflexivity.
  - constructor.
Defined.

(** X6. When the device refuses the selection of the page, reading and
    writing by tag return the code of that refusal at once: no data
    register is read or written, and the buffer is left as it was. *)
Theorem max77779_sp_page_select_failure :
  forall (page_ctrl : Z) (tag : gbms_tag_t) (cap : Z) (buff : list Z)
         (size : Z) (m : regmap) (addr rc : Z),
    tag_capacity tag = Some cap ->
    0 <= size <= cap ->
    size <= 2 \/ Z.odd size = false ->
    hd_error (reg_script m) = Some rc ->
    rc < 0 ->
    exists m1,
      max77779_sp_read page_ctrl tag buff size m addr = (rc, buff, m1)
      /\ max77779_sp_write page_ctrl tag buff size m addr = (rc, m1)
      /\ regs m1 = regs m
      /\ reg_trace m1 = RegWrite page_ctrl 0 rc :: reg_trace m.
Proof.
  intros page_ctrl tag cap buff size m addr rc C Sz Ev Hd Neg.
  destruct (tag_capacity_info tag cap size addr C Sz) as (I & _ & Cap).
  destruct (tag_addr_page tag cap C) as (A1 & A2 & A3 & A4 & A5).
  unfold max77779_sp_read, max77779_sp_write. rewrite I, A1.
  cbn [Z.ltb Z.compare]. unfold max77779_sp_rd, max77779_sp_wr.
  rewrite A2, A4.
  assert (R : sp_out_of_range (tag_addr tag) size = false).
  { unfold sp_out_of_range, to_size_t. rewrite Z.mod_small by lia.
    apply orb_false_iff. split; [| apply Z.ltb_ge; lia].
    destruct (Z.ltb_spec 2 size); [| reflexivity].
    destruct Ev as [Ev | Ev]; [lia |]. cbn [andb].
    apply negb_false_iff, Z.eqb_eq.
    change 1 with (Z.ones 1). rewrite Z.land_ones by lia.
    change (2 ^ 1) with 2. rewrite Zmod_odd, Ev. reflexivity. }
  rewrite R.
  pose proof (regmap_write_spec m page_ctrl 0) as W.
  destruct (regmap_write m page_ctrl 0) as [rc1 m1].
  destruct W as (T1 & F1 & _ & _ & H1). rewrite (H1 rc Hd) in *.
  destruct (Z.ltb_spec rc 0); [| lia].
  exists m1. repeat split; auto.
Qed.

Lemma max77779_sp_page_select_failure_witness :
  exists m1,
    max77779_sp_read 0 GBMS_TAG_RS32 [1; 2; 3; 4] 4 (regmap0 [-5]) 0
    = (-5, [1; 2; 3; 4], m1)
    /\ max77779_sp_write 0 GBMS_TAG_RS32 [1; 2; 3; 4] 4 (regmap0 [-5]) 0
       = (-5, m1)
    /\ regs m1 = regs (regmap0 [-5])
    /\ reg_trace m1 = RegWrite 0 0 (-5) :: reg_trace (regmap0 [-5]).
Proof.
  apply (max77779_sp_page_select_failure 0 GBMS_TAG_RS32 32 [1; 2; 3; 4] 4
           (regmap0 [-5]) 0 (-5)).
  - reflexivity.
  - lia.
  - right. reflexivity.
  - reflexivity.
  - lia.
Defined.

(** ** The selection: range of its answers *)

Lemma GPSY_GET_PROP_spec w d p :
  let (v, w1) := GPSY_GET_PROP w d p in
  trace w1 = EvGetProp d p v :: trace w
  /\ props w1 = props w /\ dc_vote w1 = dc_vote w /\ gpio w1 = gpio w
  /\ wq_select w1 = wq_select w /\ wq_pps w1 = wq_pps w.
Proof.
  unfold GPSY_GET_PROP. pose proof (next_answer_frame w) as F.
  destruct (next_answer w) as [v w1].
  destruct F as (P & T & V & G & Ws & Wp & _). cbn.
  rewrite T. repeat split; assumption.
Qed.

Lemma gcpm_chg_select_bound_range g index :
  gcpm_chg_select_bound g index = index
  \/ gcpm_chg_select_bound g index = GCPM_DEFAULT_CHARGER.
Proof.
  unfold gcpm_chg_select_bound. destruct (chg_psy_count g <=? index); auto.
Qed.

(** X7. Without an override, the selection answers [-EAGAIN], the index
    of the previous selection, the default index, or the DC index and
    then only if the registry has a slot for it.  It never writes to a
    charger: the property store, the election and the enable line are
    left alone, and the only call it can make is one read of the battery
    voltage from the default charger. *)
Theorem gcpm_chg_select_range :
  forall (g : gcpm_drv) (w : world),
    let (index, w1) := gcpm_chg_select g w in
    ((0 <= force_active g /\ index = force_active g)
     \/ (force_active g < 0
         /\ (index = - EAGAIN \/ index = dc_index g
             \/ index = GCPM_DEFAULT_CHARGER
             \/ (index = GCPM_INDEX_DC_ENABLE
                 /\ GCPM_INDEX_DC_ENABLE < chg_psy_count g))))
    /\ props w1 = props w /\ dc_vote w1 = dc_vote w /\ gpio w1 = gpio w
    /\ (trace w1 = trace w
        \/ exists d v,
             gcpm_chg_get_default g = Some d
             /\ trace w1 = EvGetProp d POWER_SUPPLY_PROP_VOLTAGE_NOW v
                             :: trace w).
Proof.
  intros g w. unfold gcpm_chg_select.
  destruct (Z.leb_spec 0 (force_active g)) as [F | F].
  { split; [left; auto | auto]. }
  assert (B : forall index,
             index = GCPM_DEFAULT_CHARGER \/ index = GCPM_INDEX_DC_ENABLE
             \/ index = - EAGAIN \/ index = dc_index g ->
             let r := gcpm_chg_select_bound g index in
             r = - EAGAIN \/ r = dc_index g \/ r = GCPM_DEFAULT_CHARGER
             \/ (r = GCPM_INDEX_DC_ENABLE
                 /\ GCPM_INDEX_DC_ENABLE < chg_psy_count g)).
  { intros index H. cbv zeta. unfold gcpm_chg_select_bound.
    destruct (Z.leb_spec (chg_psy_count g) index); [auto |].
    destruct H as [-> | [-> | [-> | ->]]]; auto. }
  destruct ((cc_max g <=? 0) || (fv_uv g <=? 0)).
  { split; [right; split; [exact F | auto] | auto]. }
  match goal with
  | |- context [if ?b then GCPM_INDEX_DC_ENABLE else GCPM_DEFAULT_CHARGER] =>
      assert (D : (if b then GCPM_INDEX_DC_ENABLE else GCPM_DEFAULT_CHARGER)
                  = GCPM_DEFAULT_CHARGER
                  \/ (if b then GCPM_INDEX_DC_ENABLE
                      else GCPM_DEFAULT_CHARGER) = GCPM_INDEX_DC_ENABLE)
        by (destruct b; auto);
      generalize dependent
        (if b then GCPM_INDEX_DC_ENABLE else GCPM_DEFAULT_CHARGER)
  end.
  intros di D.
  destruct (gcpm_chg_get_default g) as [chg_psy |] eqn:Df.
  2:{ split; [right; split; [exact F |] | auto].
      apply B. destruct D as [-> | ->]; auto. }
  destruct (negb (vbatt_max g =? 0) || negb (vbatt_min g =? 0)).
  2:{ split; [right; split; [exact F |] | auto].
      apply B. destruct D as [-> | ->]; auto. }
  pose proof (GPSY_GET_PROP_spec w chg_psy POWER_SUPPLY_PROP_VOLTAGE_NOW) as G.
  destruct (GPSY_GET_PROP w chg_psy POWER_SUPPLY_PROP_VOLTAGE_NOW)
    as [vbatt w1].
  destruct G as (T & P & V & Gp & _).
  assert (Tr : trace w1 = trace w
               \/ exists d v,
                    Some chg_psy = Some d
                    /\ trace w1 = EvGetProp d POWER_SUPPLY_PROP_VOLTAGE_NOW v
                                    :: trace w) by (right; eauto).
  destruct (vbatt <? 0).
  { split; [right; split; [exact F | auto] | auto]. }
  destruct (negb (vbatt_low g =? 0) && (vbatt <? vbatt_low g)).
  { split; [right; split; [exact F | auto] | auto]. }
  split; [right; split; [exact F |] | auto].
  apply B. unfold gcpm_chg_select_limits.
  repeat destr; auto. destruct D as [-> | ->]; auto.
Qed.

(** ** What the registry, the election and the negotiator leave alone *)

Lemma next_answer_world w :
  let (r, w1) := next_answer w in
  props w1 = props w /\ trace w1 = trace w /\ dc_vote w1 = dc_vote w
  /\ gpio w1 = gpio w /\ wq_select w1 = wq_select w /\ wq_pps w1 = wq_pps w
  /\ now w1 = now w.
Proof.
  pose proof (next_answer_frame w) as F. destruct (next_answer w) as [r w1].
  destruct F as (A & B & C & D & E & G & _ & H & _). auto 10.
Qed.

Lemma power_supply_set_property_spec w d p v :
  let (rc, w1) := power_supply_set_property w d p v in
  trace w1 = EvSetProp d p v rc :: trace w
  /\ dc_vote w1 = dc_vote w /\ gpio w1 = gpio w
  /\ wq_select w1 = wq_select w /\ wq_pps w1 = wq_pps w /\ now w1 = now w
  /\ (forall d' p', d' <> d -> props w1 d' p' = props w d' p')
  /\ (0 <= rc -> props w1 d p = v)
  /\ (rc < 0 -> props w1 = props w)
  /\ (forall r, hd_error (script w) = Some r -> rc = r).
Proof.
  unfold power_supply_set_property. pose proof (next_answer_world w) as F.
  assert (H : forall r, hd_error (script w) = Some r -> fst (next_answer w) = r).
  { unfold next_answer. destruct (script w); cbn; [discriminate |].
    intros r [= ->]. reflexivity. }
  destruct (next_answer w) as [rc w1]. cbn [fst] in H.
  destruct F as (P & T & V & G & Ws & Wp & N).
  destruct (Z.ltb_spec rc 0); cbn; rewrite T.
  - repeat split; try assumption; try lia.
    + intros d' p' Hd. rewrite P. reflexivity.
    + intros _. exact P.
  - split; [reflexivity |]. repeat (split; [assumption |]).
    split; [| split; [| split; [lia | exact H]]].
    + intros d' p' Hd. unfold write_prop.
      destruct (Nat.eqb_spec d' d); [contradiction |]. rewrite P. reflexivity.
    + intros _. apply write_prop_same.
Qed.

Lemma GPSY_SET_PROP_world w d p v :
  let (rc, w1) := GPSY_SET_PROP w d p v in
  dc_vote w1 = dc_vote w /\ gpio w1 = gpio w
  /\ wq_select w1 = wq_select w /\ wq_pps w1 = wq_pps w /\ now w1 = now w.
Proof.
  unfold GPSY_SET_PROP. pose proof (power_supply_set_property_spec w d p v) as S.
  destruct (power_supply_set_property w d p v) as [rc w1].
  destruct S as (_ & A & B & C & D & E & _). auto.
Qed.

Lemma gcpm_chg_offline_forget g w :
  let '(r, g1, w1) := gcpm_chg_offline g w in
  forget_registry g1 = forget_registry g
  /\ (chg_psy_active g1 = chg_psy_active g \/ chg_psy_active g1 = -1)
  /\ dc_vote w1 = dc_vote w /\ wq_select w1 = wq_select w
  /\ now w1 = now w.
Proof.
  unfold gcpm_chg_offline. destruct (gcpm_chg_get_active g) as [c |];
    [| auto 10].
  pose proof (GPSY_SET_PROP_world w c GBMS_PROP_CHARGING_ENABLED 0) as S1.
  destruct (GPSY_SET_PROP w c GBMS_PROP_CHARGING_ENABLED 0) as [r1 w1].
  destruct S1 as (V1 & _ & Ws1 & _ & N1).
  destruct (r1 =? 0).
  - pose proof (GPSY_SET_PROP_world w1 c POWER_SUPPLY_PROP_ONLINE 0) as S2.
    destruct (GPSY_SET_PROP w1 c POWER_SUPPLY_PROP_ONLINE 0) as [r2 w2].
    destruct S2 as (V2 & _ & Ws2 & _ & N2).
    destruct (r2 =? 0); cbn; repeat split; auto; congruence.
  - destruct (r1 =? 0); cbn; repeat split; auto.
Qed.

Lemma gcpm_chg_set_online_forget g w index :
  let '(r, g1, w1) := gcpm_chg_set_online g w index in
  forget_registry g1 = forget_registry g
  /\ (chg_psy_active g1 = chg_psy_active g \/ chg_psy_active g1 = -1
      \/ chg_psy_active g1 = index)
  /\ (0 <= r -> chg_psy_active g1 = index)
  /\ dc_vote w1 = dc_vote w /\ wq_select w1 = wq_select w
  /\ now w1 = now w.
Proof.
  unfold gcpm_chg_set_online, ERANGE, EINVAL, EIO.
  destruct ((index <? 0) || (chg_psy_count g <=? index));
    [repeat split; auto; lia |].
  destruct (Z.eqb_spec index (chg_psy_active g));
    [repeat split; auto; lia |].
  destruct (chg_psy_at g index) as [a |]; [| repeat split; auto; lia].
  pose proof (gcpm_chg_offline_forget g w) as O.
  destruct (gcpm_chg_offline g w) as [[r1 g1] w1].
  destruct O as (F1 & A1 & V1 & Ws1 & N1).
  destruct (r1 <? 0); [repeat split; auto; try lia; intuition auto |].
  pose proof (GPSY_SET_PROP_world w1 a POWER_SUPPLY_PROP_ONLINE 1) as S2.
  destruct (GPSY_SET_PROP w1 a POWER_SUPPLY_PROP_ONLINE 1) as [r2 w2].
  destruct S2 as (V2 & _ & Ws2 & _ & N2).
  destruct (Z.ltb_spec r2 0); cbn; repeat split; try congruence; try lia;
    intuition auto.
Qed.

Lemma gcpm_chg_ping_forget g w index b :
  let '(r, g1, w1) := gcpm_chg_ping g w index b in
  g1 = g /\ dc_vote w1 = dc_vote w /\ wq_select w1 = wq_select w
  /\ now w1 = now w.
Proof.
  unfold gcpm_chg_ping. destruct (chg_psy_at g index) as [c |]; [| auto].
  pose proof (GPSY_SET_PROP_world w c POWER_SUPPLY_PROP_ONLINE 0) as S.
  destruct (GPSY_SET_PROP w c POWER_SUPPLY_PROP_ONLINE 0) as [r w1].
  destruct S as (V & _ & Ws & _ & N). auto.
Qed.

Lemma gcpm_dc_enable_forget g w enabled :
  let '(r, g1, w1) := gcpm_dc_enable g w enabled in
  forget_registry g1 = forget_registry g
  /\ chg_psy_active g1 = chg_psy_active g
  /\ wq_select w1 = wq_select w /\ now w1 = now w.
Proof.
  assert (V : forall w0, wq_select (snd (gvotable_cast_vote w0 enabled))
                         = wq_select w0
                         /\ now (snd (gvotable_cast_vote w0 enabled)) = now w0).
  { intros w0. unfold gvotable_cast_vote.
    pose proof (next_answer_world w0) as F.
    destruct (next_answer w0) as [rc w1].
    destruct F as (_ & _ & _ & _ & Ws & _ & N).
    destruct (rc <? 0); cbn; auto. }
  unfold gcpm_dc_enable. destruct (gbms_mode g).
  - destruct (V w) as [V1 V2]. destruct (gvotable_cast_vote w enabled); auto.
  - unfold gvotable_election_get_handle.
    pose proof (next_answer_world w) as F.
    destruct (next_answer w) as [rc w1].
    destruct F as (_ & _ & _ & _ & Ws & _ & N).
    destruct (rc <? 0); [cbn; auto |].
    destruct (V (record (EvGetHandle rc) w1)) as [V1 V2].
    destruct (gvotable_cast_vote _ enabled). cbn in *.
    repeat split; congruence.
Qed.

Lemma dcen_gpio_set_world g w v :
  dc_vote (dcen_gpio_set g w v) = dc_vote w
  /\ wq_select (dcen_gpio_set g w v) = wq_select w
  /\ now (dcen_gpio_set g w v) = now w
  /\ script (dcen_gpio_set g w v) = script w.
Proof.
  unfold dcen_gpio_set.
  destruct ((0 <=? dcen_gpio g) && (dcen_gpio_default g =? 0)); cbn; auto.
Qed.

Lemma forget_registry_fields g g1 :
  forget_registry g1 = forget_registry g ->
  chg_psy_avail g1 = chg_psy_avail g /\ chg_psy_count g1 = chg_psy_count g
  /\ force_active g1 = force_active g
  /\ tcpm_pps_data g1 = tcpm_pps_data g /\ wlc_pps_data g1 = wlc_pps_data g
  /\ pps_index g1 = pps_index g /\ dc_index g1 = dc_index g
  /\ dc_state g1 = dc_state g /\ dc_start_time g1 = dc_start_time g
  /\ taper_control g1 = taper_control g /\ new_dc_limit g1 = new_dc_limit g
  /\ cc_max g1 = cc_max g /\ fv_uv g1 = fv_uv g
  /\ dc_init_complete g1 = dc_init_complete g
  /\ init_complete g1 = init_complete g
  /\ resume_complete g1 = resume_complete g.
Proof.
  intros H. unfold forget_registry in H.
  repeat split;
    match goal with
    | |- ?f g1 = ?f g => exact (f_equal f H)
    end.
Qed.

Lemma forget_pps_fields g g1 :
  forget_pps g1 = forget_pps g ->
  chg_psy_avail g1 = chg_psy_avail g /\ chg_psy_count g1 = chg_psy_count g
  /\ chg_psy_active g1 = chg_psy_active g
  /\ force_active g1 = force_active g
  /\ dc_index g1 = dc_index g
  /\ dc_state g1 = dc_state g /\ dc_start_time g1 = dc_start_time g
  /\ taper_control g1 = taper_control g /\ new_dc_limit g1 = new_dc_limit g
  /\ cc_max g1 = cc_max g /\ fv_uv g1 = fv_uv g
  /\ dc_init_complete g1 = dc_init_complete g
  /\ init_complete g1 = init_complete g
  /\ resume_complete g1 = resume_complete g
  /\ gbms_mode g1 = gbms_mode g.
Proof.
  intros H. unfold forget_pps in H.
  repeat split;
    match goal with
    | |- ?f g1 = ?f g => exact (f_equal f H)
    end.
Qed.

Lemma gcpm_dc_stop_default_online_forget g w final_state :
  let '(r, g1, w1) := gcpm_dc_stop_default_online g w final_state in
  ((r < 0 /\ forget_registry g1 = forget_registry g)
   \/ (r = 0
       /\ forget_registry g1 = forget_registry (set_dc_state g final_state)
       /\ chg_psy_active g1 = 0))
  /\ wq_select w1 = wq_select w /\ now w1 = now w.
Proof.
  unfold gcpm_dc_stop_default_online.
  pose proof (gcpm_chg_set_online_forget g w 0) as S.
  destruct (gcpm_chg_set_online g w 0) as [[r g1] w1].
  destruct S as (F & _ & A & _ & Ws & N).
  destruct (Z.ltb_spec r 0).
  - split; [left; auto | auto].
  - split; [right | auto].
    split; [reflexivity |]. split; [| apply A; lia].
    unfold forget_registry in *.
    change (set_dc_state
              (set_gbms_mode (set_chg_psy_active g1 0) false) final_state
            = set_dc_state
                (set_gbms_mode (set_chg_psy_active g 0) false) final_state).
    rewrite F. reflexivity.
Qed.

Lemma gcpm_dc_stop_forget g w final_state :
  let '(r, g1, w1) := gcpm_dc_stop g w final_state in
  ((r < 0
    /\ (forget_registry g1 = forget_registry g
        \/ forget_registry g1 = forget_registry (set_dc_state g DC_ENABLE))
    /\ DC_IDLE < dc_state g <= DC_PASSTHROUGH)
   \/ (r = 0
       /\ forget_registry g1 = forget_registry (set_dc_state g final_state)
       /\ (DC_IDLE < dc_state g <= DC_PASSTHROUGH -> chg_psy_active g1 = 0)))
  /\ wq_select w1 = wq_select w /\ now w1 = now w.
Proof.
  unfold gcpm_dc_stop.
  destruct (dcen_gpio_set_world g w 0) as (_ & Ws0 & N0 & _).
  unfold DC_RUNNING, DC_PASSTHROUGH, DC_ENABLE, DC_ENABLE_PASSTHROUGH, DC_IDLE.
  destruct (Z.eqb_spec (dc_state g) 2) as [E2 | E2];
    [| destruct (Z.eqb_spec (dc_state g) 4) as [E4 | E4]]; cbn [orb].
  1,2: pose proof (gcpm_dc_enable_forget g (dcen_gpio_set g w 0) false) as En;
    destruct (gcpm_dc_enable g (dcen_gpio_set g w 0) false) as [[r g1] w1];
    destruct En as (F1 & A1 & Ws1 & N1);
    destruct (Z.ltb_spec r 0);
    [ split; [left; split; [assumption | split; [auto | lia]]
             | split; congruence]
    | pose proof (gcpm_dc_stop_default_online_forget (set_dc_state g1 1) w1
                    final_state) as D;
      destruct (gcpm_dc_stop_default_online (set_dc_state g1 1) w1
                  final_state) as [[r2 g2] w2];
      destruct D as (D & Ws2 & N2);
      split; [| split; congruence];
      destruct D as [(Hr & F2) | (Hr & F2 & A2)];
      [ left; split; [exact Hr | split; [right | lia]];
        rewrite F2; unfold forget_registry in *;
        change (set_dc_state
                  (set_gbms_mode (set_chg_psy_active g1 0) false) 1
                = set_dc_state
                    (set_gbms_mode (set_chg_psy_active g 0) false) 1);
        rewrite F1; reflexivity
      | right; split; [exact Hr | split; [| auto]];
        rewrite F2; unfold forget_registry in *;
        change (set_dc_state
                  (set_gbms_mode (set_chg_psy_active g1 0) false) final_state
                = set_dc_state
                    (set_gbms_mode (set_chg_psy_active g 0) false)
                    final_state);
        rewrite F1; reflexivity ] ].
  destruct (Z.eqb_spec (dc_state g) 1) as [E1 | E1];
    [| destruct (Z.eqb_spec (dc_state g) 3) as [E3 | E3]]; cbn [orb].
  1,2: pose proof (gcpm_dc_stop_default_online_forget g (dcen_gpio_set g w 0)
                    final_state) as D;
    destruct (gcpm_dc_stop_default_online g (dcen_gpio_set g w 0)
                final_state) as [[r2 g2] w2];
    destruct D as (D & Ws2 & N2);
    (split; [| split; congruence]);
    (destruct D as [(Hr & F2) | (Hr & F2 & A2)];
     [ left; split; [exact Hr | split; [left; exact F2 | lia]]
     | right; split; [exact Hr | split; [exact F2 | auto]] ]).
  split; [right | auto]. split; [reflexivity |]. split; [reflexivity |].
  intros H. lia.
Qed.

Lemma gcpm_dc_start_forget g w index :
  let '(r, g1, w1) := gcpm_dc_start g w index in
  forget_registry g1 = forget_registry g
  /\ wq_select w1 = wq_select w /\ now w1 = now w.
Proof.
  unfold gcpm_dc_start.
  pose proof (gcpm_chg_set_online_forget g w index) as S.
  destruct (gcpm_chg_set_online g w index) as [[r g1] w1].
  destruct S as (F & _ & _ & _ & Ws & N).
  destruct (r <? 0); [auto |].
  destruct (gcpm_chg_get_active g1) as [dc |]; [| auto].
  pose proof (GPSY_SET_PROP_world w1 dc
                POWER_SUPPLY_PROP_CONSTANT_CHARGE_VOLTAGE_MAX (fv_uv g1)) as S2.
  destruct (GPSY_SET_PROP w1 dc _ (fv_uv g1)) as [r2 w2].
  destruct S2 as (_ & _ & Ws2 & _ & N2).
  destruct (r2 <? 0); [split; [auto | split; congruence] |].
  pose proof (GPSY_SET_PROP_world w2 dc
                POWER_SUPPLY_PROP_CONSTANT_CHARGE_CURRENT_MAX (cc_max g1)) as S3.
  destruct (GPSY_SET_PROP w2 dc _ (cc_max g1)) as [r3 w3].
  destruct S3 as (_ & _ & Ws3 & _ & N3).
  destruct (r3 <? 0); [split; [auto | split; congruence] |].
  pose proof (GPSY_SET_PROP_world w3 dc
                POWER_SUPPLY_PROP_CURRENT_MAX (out_ua g1)) as S4.
  destruct (GPSY_SET_PROP w3 dc _ (out_ua g1)) as [r4 w4].
  destruct S4 as (_ & _ & Ws4 & _ & N4).
  destruct (r4 <? 0); [split; [auto | split; congruence] |].
  destruct (dcen_gpio_set_world g1 w4 1) as (_ & Ws5 & N5 & _).
  pose proof (gcpm_dc_enable_forget g1 (dcen_gpio_set g1 w4 1) true) as En.
  destruct (gcpm_dc_enable g1 (dcen_gpio_set g1 w4 1) true) as [[r6 g6] w6].
  destruct En as (F6 & _ & Ws6 & N6).
  destruct (r6 <? 0); (split; [congruence | split; congruence]).
Qed.

Lemma forget_pps_set_pps_data g s x :
  forget_pps (set_pps_data g s x) = forget_pps g.
Proof. destruct s; reflexivity. Qed.

Lemma pps_call_step_forget c g w s :
  let '(r, g1, w1) := pps_call_step c g w s in
  forget_pps g1 = forget_pps g /\ pps_index g1 = pps_index g
  /\ pps_psy (get_pps_data g1 TCPM) = pps_psy (get_pps_data g TCPM)
  /\ pps_psy (get_pps_data g1 WLC) = pps_psy (get_pps_data g WLC)
  /\ dc_vote w1 = dc_vote w /\ props w1 = props w
  /\ wq_select w1 = wq_select w /\ now w1 = now w /\ script w1 = script w.
Proof.
  unfold pps_call_step, next_pps_answer.
  destruct (pps_script w) as [| a rest]; destruct s; cbn; auto 10.
Qed.

Lemma gcpm_pps_work_source_forget g w s i p n :
  let '(p1, n1, g1, w1) := gcpm_pps_work_source g w s i p n in
  forget_pps g1 = forget_pps g /\ pps_index g1 = pps_index g
  /\ dc_vote w1 = dc_vote w /\ props w1 = props w
  /\ wq_select w1 = wq_select w /\ now w1 = now w /\ script w1 = script w.
Proof.
  unfold gcpm_pps_work_source, pps_work.
  destruct (negb (pps_stage_eqb (stage (get_pps_data g s)) PPS_NOTSUPP));
    [| auto 10].
  pose proof (pps_call_step_forget CALL_pps_work g w s) as S.
  destruct (pps_call_step CALL_pps_work g w s) as [[r g1] w1].
  destruct S as (F & I & _ & _ & R). auto.
Qed.

Lemma gcpm_pps_work_forget g w :
  let '(r, g1, w1) := gcpm_pps_work g w in
  forget_pps g1 = forget_pps g
  /\ dc_vote w1 = dc_vote w /\ props w1 = props w
  /\ wq_select w1 = wq_select w /\ now w1 = now w /\ script w1 = script w.
Proof.
  unfold gcpm_pps_work.
  pose proof (gcpm_pps_work_source_forget g w TCPM PPS_INDEX_TCPM 0 0) as S1.
  destruct (gcpm_pps_work_source g w TCPM PPS_INDEX_TCPM 0 0)
    as [[[p1 n1] g1] w1].
  destruct S1 as (F1 & _ & V1 & P1 & Ws1 & N1 & Sc1).
  pose proof (gcpm_pps_work_source_forget g1 w1 WLC PPS_INDEX_WLC p1 n1) as S2.
  destruct (gcpm_pps_work_source g1 w1 WLC PPS_INDEX_WLC p1 n1)
    as [[[p2 n2] g2] w2].
  destruct S2 as (F2 & _ & V2 & P2 & Ws2 & N2 & Sc2).
  destruct (n2 =? PPS_INDEX_MAX); repeat split; try congruence.
  change (forget_pps g2 = forget_pps g). congruence.
Qed.

Lemma gcpm_pps_offline_forget g w :
  let '(r, g1, w1) := gcpm_pps_offline g w in
  r = 0 /\ forget_pps g1 = forget_pps g /\ pps_index g1 = 0
  /\ dc_vote w1 = dc_vote w /\ props w1 = props w
  /\ wq_select w1 = wq_select w /\ now w1 = now w /\ script w1 = script w.
Proof.
  assert (S : forall g0 w0 s,
             let (g1, w1) := gcpm_pps_offline_source g0 w0 s in
             forget_pps g1 = forget_pps g0
             /\ dc_vote w1 = dc_vote w0 /\ props w1 = props w0
             /\ wq_select w1 = wq_select w0 /\ now w1 = now w0
             /\ script w1 = script w0).
  { intros g0 w0 s. unfold gcpm_pps_offline_source, pps_prog_offline.
    destruct (pps_psy (get_pps_data g0 s)); [| auto 10].
    pose proof (pps_call_step_forget CALL_pps_prog_offline g0 w0 s) as S.
    destruct (pps_call_step CALL_pps_prog_offline g0 w0 s) as [[r g1] w1].
    destruct S as (F & _ & _ & _ & R). auto. }
  unfold gcpm_pps_offline.
  pose proof (S g w TCPM) as S1.
  destruct (gcpm_pps_offline_source g w TCPM) as [g1 w1].
  destruct S1 as (F1 & V1 & P1 & Ws1 & N1 & Sc1).
  pose proof (S g1 w1 WLC) as S2.
  destruct (gcpm_pps_offline_source g1 w1 WLC) as [g2 w2].
  destruct S2 as (F2 & V2 & P2 & Ws2 & N2 & Sc2).
  repeat split; try congruence.
  change (forget_pps g2 = forget_pps g). congruence.
Qed.

Lemma gcpm_pps_online_forget g :
  forget_pps (gcpm_pps_online g)
  = forget_pps (set_out_uv (set_out_ua g (-1)) (-1))
  /\ pps_index (gcpm_pps_online g) = 0.
Proof. split; reflexivity. Qed.

Lemma gcpm_chg_select_world g w :
  let (index, w1) := gcpm_chg_select g w in
  props w1 = props w /\ dc_vote w1 = dc_vote w /\ gpio w1 = gpio w
  /\ wq_select w1 = wq_select w /\ wq_pps w1 = wq_pps w /\ now w1 = now w
  /\ (trace w1 = trace w
      \/ exists d v,
           gcpm_chg_get_default g = Some d
           /\ trace w1 = EvGetProp d POWER_SUPPLY_PROP_VOLTAGE_NOW v
                           :: trace w).
Proof.
  unfold gcpm_chg_select.
  destruct (0 <=? force_active g); [auto 10 |].
  destruct ((cc_max g <=? 0) || (fv_uv g <=? 0)); [auto 10 |].
  destruct (gcpm_chg_get_default g) as [chg_psy |]; [| auto 10].
  destruct (negb (vbatt_max g =? 0) || negb (vbatt_min g =? 0)); [| auto 10].
  unfold GPSY_GET_PROP. pose proof (next_answer_world w) as F.
  destruct (next_answer w) as [vbatt w1].
  destruct F as (P & T & V & G & Ws & Wp & N).
  assert (R : forall x : Z,
             let (index, w2) :=
               (x, record (EvGetProp chg_psy POWER_SUPPLY_PROP_VOLTAGE_NOW
                             vbatt) w1) in
             props w2 = props w /\ dc_vote w2 = dc_vote w /\ gpio w2 = gpio w
             /\ wq_select w2 = wq_select w /\ wq_pps w2 = wq_pps w
             /\ now w2 = now w
             /\ (trace w2 = trace w
                 \/ exists d v,
                      Some chg_psy = Some d
                      /\ trace w2
                         = EvGetProp d POWER_SUPPLY_PROP_VOLTAGE_NOW v
                             :: trace w)).
  { intros x. cbn. repeat split; try assumption. right.
    exists chg_psy, vbatt. rewrite T. auto. }
  destruct (vbatt <? 0); [exact (R 0) |].
  destruct (negb (vbatt_low g =? 0) && (vbatt <? vbatt_low g));
    exact (R 0).
Qed.

(** ** The DC state under the calls into the driver *)

Lemma schedule_delayed_work_world w k ms :
  dc_vote (schedule_delayed_work w k ms) = dc_vote w
  /\ props (schedule_delayed_work w k ms) = props w
  /\ trace (schedule_delayed_work w k ms) = trace w
  /\ now (schedule_delayed_work w k ms) = now w
  /\ script (schedule_delayed_work w k ms) = script w.
Proof.
  unfold schedule_delayed_work. destruct (pending w k); destruct k; cbn; auto.
Qed.

Lemma pps_dc_reschedule_world r g w :
  fst (pps_dc_reschedule (r, g, w)) = g
  /\ dc_vote (snd (pps_dc_reschedule (r, g, w))) = dc_vote w
  /\ props (snd (pps_dc_reschedule (r, g, w))) = props w
  /\ trace (snd (pps_dc_reschedule (r, g, w))) = trace w
  /\ now (snd (pps_dc_reschedule (r, g, w))) = now w
  /\ script (snd (pps_dc_reschedule (r, g, w))) = script w.
Proof.
  unfold pps_dc_reschedule. destruct r as [ui |]; [| cbn; auto 10].
  destruct (ui <=? 0); cbn [fst snd]; [auto 10 |].
  split; [reflexivity |]. apply schedule_delayed_work_world.
Qed.

Lemma gcpm_chg_select_work_dc_state g w :
  let (g1, w1) := gcpm_chg_select_work g w in
  (dc_state g1 = dc_state g
   \/ (dc_state g = DC_IDLE /\ dc_state g1 = DC_ENABLE_PASSTHROUGH))
  /\ chg_psy_active g1 = chg_psy_active g /\ dc_vote w1 = dc_vote w.
Proof.
  unfold gcpm_chg_select_work.
  pose proof (gcpm_chg_select_world g w) as S.
  destruct (gcpm_chg_select g w) as [index w1].
  destruct S as (_ & V & _).
  destruct (negb (taper_control g) && (index <? 0)).
  { destruct (schedule_delayed_work_world w1 select_work (5 * 1000))
      as (V2 & _). split; [auto | split; [reflexivity | congruence]]. }
  assert (M : forall (b : bool) ms,
             dc_vote (if b then mod_delayed_work w1 pps_work_item ms else w1)
             = dc_vote w).
  { intros [|] ms; cbn; exact V. }
  destruct (negb (gcpm_chg_dc_check_source g _)).
  - destruct ((DC_IDLE <? dc_state g) && (0 <? dc_index g)); cbn [fst snd];
      (split; [left; reflexivity | split; [reflexivity | apply M]]).
  - destruct (dc_state g =? DC_DISABLED);
      [split; [auto | split; [reflexivity | apply M]] |].
    destruct (Z.eqb_spec (dc_state g) DC_IDLE);
      (split; [auto | split; [reflexivity | apply M]]).
Qed.

Lemma gcpm_pps_wlc_dc_work_stop_dc_state g w :
  let '(ui, g1, w1) := gcpm_pps_wlc_dc_work_stop g w in
  (g1 = g /\ dc_vote w1 = dc_vote w /\ dc_state g <= DC_IDLE)
  \/ (DC_IDLE < dc_state g
      /\ (dc_state g1 = dc_state g \/ dc_state g1 = DC_DISABLED
          \/ dc_state g1 = DC_IDLE \/ dc_state g1 = DC_ENABLE)).
Proof.
  unfold gcpm_pps_wlc_dc_work_stop.
  destruct (Z.leb_spec (dc_state g) DC_IDLE) as [L | L]; [left; auto |].
  pose proof (gcpm_dc_stop_forget g w DC_DISABLED) as D.
  destruct (gcpm_dc_stop g w DC_DISABLED) as [[r g1] w1].
  destruct D as ([(Hr & F & _) | (Hr & F & _)] & _).
  - destruct (Z.ltb_spec r 0); [| lia]. right. split; [exact L |].
    destruct F as [F | F]; apply forget_registry_fields in F;
      destruct F as (_ & _ & _ & _ & _ & _ & _ & F & _); auto.
  - subst r. cbn [Z.ltb Z.compare].
    apply forget_registry_fields in F.
    destruct F as (_ & _ & _ & _ & _ & _ & _ & F & _). cbn in F.
    pose proof (gcpm_pps_offline_forget g1 w1) as O.
    destruct (gcpm_pps_offline g1 w1) as [[r2 g2] w2].
    destruct O as (-> & F2 & _). cbn [Z.ltb Z.compare].
    apply forget_pps_fields in F2.
    destruct F2 as (_ & _ & _ & _ & _ & F2 & _).
    right. split; [exact L |].
    destruct (dc_index g2 =? GCPM_DEFAULT_CHARGER); cbn; [auto |].
    right; left. congruence.
Qed.

Lemma pps_check_online_world g w s :
  dc_vote (snd (pps_check_online g w s)) = dc_vote w
  /\ wq_select (snd (pps_check_online g w s)) = wq_select w
  /\ now (snd (pps_check_online g w s)) = now w.
Proof.
  unfold pps_check_online. pose proof (next_answer_world w) as F.
  destruct (next_answer w) as [v w1]. cbn. tauto.
Qed.

Lemma gcpm_pps_wlc_dc_work_passthrough_dc_state g w :
  let '(ui, g1, w1) := gcpm_pps_wlc_dc_work_passthrough g w in
  dc_state g1 = dc_state g.
Proof.
  unfold gcpm_pps_wlc_dc_work_passthrough.
  destruct (match gcpm_pps_data g with
            | Some s => pps_check_online g w s
            | None => (false, w)
            end) as [prog_online w1].
  destruct (negb prog_online); [reflexivity |].
  destruct (gcpm_chg_get_active g) as [dc |]; [| reflexivity].
  destruct (gcpm_chg_select g w1) as [index w2].
  destruct (GPSY_SET_PROP _ dc GBMS_PROP_CHARGING_ENABLED (pps_index g))
    as [ret w4].
  destruct (ret =? 0).
  - pose proof (gcpm_chg_ping_forget g w4 GCPM_DEFAULT_CHARGER false) as P.
    destruct (gcpm_chg_ping g w4 GCPM_DEFAULT_CHARGER false) as [[r g1] w5].
    destruct P as (-> & _). reflexivity.
  - destruct ((ret =? - EBUSY) || (ret =? - EAGAIN)); [reflexivity |].
    pose proof (gcpm_chg_set_online_forget g w4 GCPM_DEFAULT_CHARGER) as S.
    destruct (gcpm_chg_set_online g w4 GCPM_DEFAULT_CHARGER) as [[r g1] w5].
    destruct S as (F & _). apply forget_registry_fields in F.
    destruct F as (_ & _ & _ & _ & _ & _ & _ & F & _).
    destruct (r <? 0); exact F.
Qed.

Lemma gcpm_pps_wlc_dc_work_enable_passthrough_dc_state g w s :
  let '(ui, g1, w1) := gcpm_pps_wlc_dc_work_enable_passthrough g w s in
  dc_state g1 = dc_state g \/ dc_state g1 = DC_PASSTHROUGH.
Proof.
  unfold gcpm_pps_wlc_dc_work_enable_passthrough, pps_update_adapter.
  pose proof (pps_call_step_forget CALL_pps_update_adapter g w s) as S.
  destruct (pps_call_step CALL_pps_update_adapter g w s) as [[ui g1] w1].
  destruct S as (F1 & _). apply forget_pps_fields in F1.
  destruct F1 as (_ & _ & _ & _ & _ & F1 & _).
  pose proof (gcpm_chg_offline_forget g1 w1) as O.
  destruct (gcpm_chg_offline g1 w1) as [[r2 g2] w2].
  destruct O as (F2 & _). apply forget_registry_fields in F2.
  destruct F2 as (_ & _ & _ & _ & _ & _ & _ & F2 & _).
  destruct (r2 =? 0) eqn:E.
  - pose proof (gcpm_dc_start_forget g2 w2 (dc_index g2)) as D.
    destruct (gcpm_dc_start g2 w2 (dc_index g2)) as [[r3 g3] w3].
    destruct D as (F3 & _). apply forget_registry_fields in F3.
    destruct F3 as (_ & _ & _ & _ & _ & _ & _ & F3 & _).
    destruct (r3 =? 0); [right; reflexivity |].
    destruct (DC_ERROR_RETRY_MS <? _); left; congruence.
  - cbv beta iota zeta. rewrite E.
    destruct (DC_ERROR_RETRY_MS <? _); left; congruence.
Qed.

(** Below [DC_ENABLE_PASSTHROUGH] the detection only steps the PPS
    sessions. *)
Lemma gcpm_pps_wlc_dc_work_detect_dc_state g w elap :
  let '(ui, g1, w1) := gcpm_pps_wlc_dc_work_detect g w elap in
  (dc_state g1 = dc_state g
   \/ (dc_state g = DC_ENABLE_PASSTHROUGH /\ dc_state g1 = DC_PASSTHROUGH))
  /\ (dc_state g <> DC_ENABLE_PASSTHROUGH ->
      chg_psy_active g1 = chg_psy_active g /\ dc_vote w1 = dc_vote w).
Proof.
  unfold gcpm_pps_wlc_dc_work_detect.
  pose proof (gcpm_pps_work_forget g w) as P.
  destruct (gcpm_pps_work g w) as [[r g1] w1].
  destruct P as (F1 & V1 & _). apply forget_pps_fields in F1.
  destruct F1 as (_ & _ & A1 & _ & _ & F1 & _).
  destruct (r <? 0).
  { destruct (elap <? PPS_PROG_TIMEOUT_S); cbn; auto. }
  destruct (gcpm_pps_data g1) as [s |].
  2:{ destruct (elap <? PPS_ACTIVE_TIMEOUT_S); cbn; auto. }
  destruct (Z.eqb_spec (dc_state g1) DC_ENABLE_PASSTHROUGH) as [E | E].
  - pose proof (gcpm_pps_wlc_dc_work_enable_passthrough_dc_state g1 w1 s) as H.
    destruct (gcpm_pps_wlc_dc_work_enable_passthrough g1 w1 s)
      as [[ui g2] w2].
    split; [| intros N; congruence].
    destruct H as [H | H]; [left | right; split]; congruence.
  - unfold gcpm_pps_wlc_dc_work_steady, pps_update_adapter.
    pose proof (pps_call_step_forget CALL_pps_update_adapter g1 w1 s) as S.
    destruct (pps_call_step CALL_pps_update_adapter g1 w1 s) as [[ui g2] w2].
    destruct S as (F2 & _ & _ & _ & V2 & _). apply forget_pps_fields in F2.
    destruct F2 as (_ & _ & A2 & _ & _ & F2 & _).
    split; [left; congruence | intros _; split; congruence].
Qed.

Lemma gcpm_pps_wlc_dc_work_dc_state g w :
  let (g1, w1) := gcpm_pps_wlc_dc_work g w in
  (dc_state g1 = dc_state g
   \/ (DC_IDLE < dc_state g
       /\ (dc_state g1 = DC_DISABLED \/ dc_state g1 = DC_IDLE
           \/ dc_state g1 = DC_ENABLE))
   \/ (dc_state g = DC_ENABLE_PASSTHROUGH /\ dc_state g1 = DC_PASSTHROUGH))
  /\ (dc_state g <= DC_IDLE ->
      chg_psy_active g1 = chg_psy_active g /\ dc_vote w1 = dc_vote w).
Proof.
  unfold gcpm_pps_wlc_dc_work.
  destruct (negb (resume_complete g) || negb (init_complete g)); [auto |].
  destruct (dc_index g <=? 0).
  { pose proof (gcpm_pps_wlc_dc_work_stop_dc_state g w) as S.
    destruct (gcpm_pps_wlc_dc_work_stop g w) as [[ui g1] w1].
    destruct (pps_dc_reschedule_world ui g1 w1) as (G & V & _).
    destruct (pps_dc_reschedule (ui, g1, w1)) as [g2 w2]. cbn in G, V.
    subst g2.
    destruct S as [(-> & V1 & L) | (L & S)].
    - split; [auto | intros _; split; congruence].
    - split; [| unfold DC_IDLE in *; lia]. intuition auto. }
  destruct (Z.eqb_spec (dc_state g) DC_PASSTHROUGH) as [E | E].
  { pose proof (gcpm_pps_wlc_dc_work_passthrough_dc_state g w) as S.
    destruct (gcpm_pps_wlc_dc_work_passthrough g w) as [[ui g1] w1].
    destruct (pps_dc_reschedule_world ui g1 w1) as (G & V & _).
    destruct (pps_dc_reschedule (ui, g1, w1)) as [g2 w2]. cbn in G, V.
    subst g2. split; [auto |].
    unfold DC_IDLE, DC_PASSTHROUGH in *. lia. }
  pose proof (gcpm_pps_wlc_dc_work_detect_dc_state g w
                (get_boot_sec w - dc_start_time g)) as S.
  destruct (gcpm_pps_wlc_dc_work_detect g w _) as [[ui g1] w1].
  destruct (pps_dc_reschedule_world ui g1 w1) as (G & V & _).
  destruct (pps_dc_reschedule (ui, g1, w1)) as [g2 w2]. cbn in G, V.
  subst g2. destruct S as (S & K). split; [tauto |].
  intros L. destruct K as [K1 K2].
  - unfold DC_IDLE, DC_ENABLE_PASSTHROUGH in *. lia.
  - split; congruence.
Qed.

Lemma power_supply_get_property_world w d p pval :
  let '(rc, v, w1) := power_supply_get_property w d p pval in
  dc_vote w1 = dc_vote w /\ props w1 = props w
  /\ wq_select w1 = wq_select w /\ wq_pps w1 = wq_pps w /\ now w1 = now w
  /\ (rc < 0 -> v = pval)
  /\ (forall r, hd_error (script w) = Some r -> rc = r)
  /\ exists x, trace w1 = EvGetProp d p x :: trace w.
Proof.
  unfold power_supply_get_property. pose proof (next_answer_world w) as F.
  assert (H : forall r, hd_error (script w) = Some r -> fst (next_answer w) = r).
  { unfold next_answer. destruct (script w); cbn; [discriminate |].
    intros r [= ->]. reflexivity. }
  destruct (next_answer w) as [rc w1]. cbn [fst] in H.
  destruct F as (P & T & V & G & Ws & Wp & N).
  destruct (Z.ltb_spec rc 0).
  - cbn. rewrite T. repeat split; eauto.
  - pose proof (next_answer_world w1) as F2.
    destruct (next_answer w1) as [v w2].
    destruct F2 as (P2 & T2 & V2 & G2 & Ws2 & Wp2 & N2). cbn.
    rewrite T2, T. repeat split; try congruence; try lia; eauto.
Qed.

Lemma gcpm_get_charger_state_world g w d :
  let (v, w1) := gcpm_get_charger_state g w d in
  dc_vote w1 = dc_vote w /\ props w1 = props w
  /\ wq_select w1 = wq_select w /\ wq_pps w1 = wq_pps w /\ now w1 = now w.
Proof.
  unfold gcpm_get_charger_state. pose proof (next_answer_world w) as F.
  destruct (next_answer w) as [rc w1].
  destruct F as (P & T & V & G & Ws & Wp & N).
  destruct (rc <? 0); [cbn; auto |].
  pose proof (next_answer_world w1) as F2.
  destruct (next_answer w1) as [v w2].
  destruct F2 as (P2 & T2 & V2 & G2 & Ws2 & Wp2 & N2). cbn.
  repeat split; congruence.
Qed.

(** The members a property write can change. *)
Lemma gcpm_psy_set_property_switch_fields taper_off g prop intval :
  let '(g1, ta_check, route, prop1) :=
    gcpm_psy_set_property_switch taper_off g prop intval in
  dc_state g1 = dc_state g /\ chg_psy_active g1 = chg_psy_active g
  /\ dc_index g1 = dc_index g /\ chg_psy_avail g1 = chg_psy_avail g
  /\ new_dc_limit g1 = new_dc_limit g
  /\ dc_init_complete g1 = dc_init_complete g
  /\ prop1 = routed_key prop
  /\ (route = false <-> prop = GBMS_PROP_TAPER_CONTROL).
Proof.
  destruct prop; cbn; repeat split; try reflexivity; try discriminate;
    intros; discriminate.
Qed.

Lemma gcpm_psy_set_property_dc_state taper_off g w prop intval :
  let '(r, g1, w1) := gcpm_psy_set_property taper_off g w prop intval in
  dc_state g1 = dc_state g /\ chg_psy_active g1 = chg_psy_active g
  /\ dc_vote w1 = dc_vote w.
Proof.
  unfold gcpm_psy_set_property. rewrite pm_runtime_get_put.
  destruct (negb (init_complete g) || negb (resume_complete g)); [auto |].
  pose proof (gcpm_psy_set_property_switch_fields taper_off g prop intval) as S.
  destruct (gcpm_psy_set_property_switch taper_off g prop intval)
    as [[[g1 ta_check] route] prop1].
  destruct S as (D & A & _).
  assert (M : forall (b : bool),
             dc_vote (if b then mod_delayed_work w select_work 0 else w)
             = dc_vote w) by (intros [|]; reflexivity).
  destruct (new_dc_limit g1); cbn [fst snd];
    (destruct (negb route); [repeat split; auto |]);
    match goal with
    | |- context [gcpm_chg_get_active ?x] =>
        destruct (gcpm_chg_get_active x) as [c |]; [| repeat split; auto]
    end;
    match goal with
    | |- context [power_supply_set_property ?x ?y prop1 intval] =>
        pose proof (power_supply_set_property_spec x y prop1 intval) as P;
        destruct (power_supply_set_property x y prop1 intval) as [ret w3]
    end;
    destruct P as (_ & V & _); repeat split; auto; rewrite V; apply M.
Qed.

Lemma gcpm_psy_get_property_dc_state g w prop pval :
  let '(r, v, g1, w1) := gcpm_psy_get_property g w prop pval in
  g1 = g /\ dc_vote w1 = dc_vote w.
Proof.
  unfold gcpm_psy_get_property. rewrite pm_runtime_get_put.
  destruct (negb (init_complete g) || negb (resume_complete g)); [auto |].
  destruct (gcpm_chg_get_active g) as [c |]; [| auto].
  assert (R : let '(ret, v, w2) := power_supply_get_property w c prop pval in
              dc_vote w2 = dc_vote w).
  { pose proof (power_supply_get_property_world w c prop pval) as P.
    destruct (power_supply_get_property w c prop pval) as [[ret v] w2].
    apply P. }
  destruct (power_supply_get_property w c prop pval) as [[ret v] w2].
  pose proof (gcpm_get_charger_state_world g w c) as C.
  destruct (gcpm_get_charger_state g w c) as [v' w3].
  destruct C as (V & _).
  destruct prop; auto.
Qed.

Lemma run_call_dc_state taper_off usb_type_key usb_type_unknown c g w :
  let (g1, w1) := run_call taper_off usb_type_key usb_type_unknown c g w in
  (dc_state g1 = dc_state g
   \/ (dc_state g = DC_IDLE /\ dc_state g1 = DC_ENABLE_PASSTHROUGH)
   \/ (DC_IDLE < dc_state g
       /\ (dc_state g1 = DC_DISABLED \/ dc_state g1 = DC_IDLE
           \/ dc_state g1 = DC_ENABLE))
   \/ (dc_state g = DC_ENABLE_PASSTHROUGH /\ dc_state g1 = DC_PASSTHROUGH)
   \/ (writes_dc_state c /\ DC_DISABLED <= dc_state g1 <= DC_PASSTHROUGH))
  /\ (dc_state g <= DC_IDLE -> ~ writes_dc_state c ->
      chg_psy_active g1 = chg_psy_active g /\ dc_vote w1 = dc_vote w).
Proof.
  destruct c; cbn [run_call writes_dc_state].
  - pose proof (gcpm_chg_select_work_dc_state g w) as S.
    destruct (gcpm_chg_select_work g w) as [g1 w1]. intuition auto.
  - pose proof (gcpm_pps_wlc_dc_work_dc_state g w) as S.
    destruct (gcpm_pps_wlc_dc_work g w) as [g1 w1]. intuition auto.
  - pose proof (gcpm_psy_set_property_dc_state taper_off g w prop intval) as S.
    destruct (gcpm_psy_set_property taper_off g w prop intval)
      as [[r g1] w1]. intuition auto.
  - pose proof (gcpm_psy_get_property_dc_state g w prop 0) as S.
    destruct (gcpm_psy_get_property g w prop 0) as [[[r v] g1] w1].
    destruct S as (-> & V). auto.
  - unfold gcpm_pps_psy_set_property.
    destruct (gcpm_pps_psy_target g) as [d |]; [| auto].
    pose proof (power_supply_set_property_spec w d prop intval) as P.
    destruct (power_supply_set_property w d prop intval) as [ret w1].
    destruct P as (_ & V & _). auto.
  - unfold gcpm_pps_psy_get_property.
    destruct (gcpm_pps_psy_target g) as [d |].
    + pose proof (power_supply_get_property_world w d prop 0) as P.
      destruct (power_supply_get_property w d prop 0) as [[rc v] w1].
      destruct P as (V & _). auto.
    + destruct prop; try (cbn; auto; fail).
      destruct (key =? usb_type_key); cbn; auto.
  - unfold gcpm_debug_set_active.
    destruct (negb (to_int val =? -1) && _); [auto |].
    destruct (negb (to_int val =? -1) && _); auto.
  - unfold gcpm_debug_dc_limit_demand_set.
    destruct (negb _); auto.
  - unfold gcpm_debug_dc_state_set.
    destruct (Z.ltb_spec (to_int val) DC_DISABLED); [cbn; tauto |].
    destruct (Z.ltb_spec DC_PASSTHROUGH (to_int val)); [cbn; tauto |].
    cbn. split; [| tauto]. right; right; right; right. split; [exact I | lia].
  - auto.
Qed.

(** X8. The tasks, the property interface, the combined PPS supply and
    the debug files [active] and [dc_limit_demand] never take the DC
    session controller to [DC_RUNNING]: from a state other than
    [DC_RUNNING], such as the [DC_IDLE] the probe leaves, every sequence
    of calls ends in [DC_DISABLED], [DC_IDLE], [DC_ENABLE],
    [DC_ENABLE_PASSTHROUGH] or [DC_PASSTHROUGH], whatever the
    collaborators answer. *)
Theorem dc_running_is_never_entered :
  forall (taper_off usb_type_key usb_type_unknown : Z) (cs : list gcpm_call)
         (g : gcpm_drv) (w : world),
    Forall (fun c => ~ writes_dc_state c) cs ->
    DC_DISABLED <= dc_state g <= DC_PASSTHROUGH ->
    dc_state g <> DC_RUNNING ->
    let g1 :=
      fst (run_calls taper_off usb_type_key usb_type_unknown cs g w) in
    DC_DISABLED <= dc_state g1 <= DC_PASSTHROUGH /\ dc_state g1 <> DC_RUNNING.
Proof.
  intros taper_off usb_type_key usb_type_unknown cs.
  induction cs as [| c cs IH]; intros g w Hc Hv Hr.
  { cbn. auto. }
  inversion Hc as [| ? ? Hc1 Hc2]; subst. cbn [run_calls].
  pose proof (run_call_dc_state taper_off usb_type_key usb_type_unknown
                c g w) as S.
  destruct (run_call taper_off usb_type_key usb_type_unknown c g w)
    as [g1 w1]. destruct S as (S & _).
  apply IH; [exact Hc2 | |];
    unfold DC_DISABLED, DC_IDLE, DC_ENABLE, DC_RUNNING, DC_ENABLE_PASSTHROUGH,
      DC_PASSTHROUGH in *; intuition lia.
Qed.

(** A session from the demand to its end: the demand is written, the
    selection opens the session ([DC_ENABLE_PASSTHROUGH]), the wired
    source becomes active and the handover takes the controller to
    [DC_PASSTHROUGH], where the monitor keeps it; taper control then
    ends the session in [DC_DISABLED]. *)
Lemma dc_running_is_never_entered_witness :
  let cs1 := [RUN_set_property POWER_SUPPLY_PROP_CONSTANT_CHARGE_CURRENT_MAX
                3000000;
              RUN_select_work; RUN_elapse 6; RUN_pps_work] in
  let cs2 := [RUN_pps_get_property POWER_SUPPLY_PROP_ONLINE; RUN_pps_work] in
  let cs3 := [RUN_set_property GBMS_PROP_TAPER_CONTROL 1;
              RUN_select_work; RUN_pps_work] in
  let w := world0 [0; 4000000; 0; 0; 0; 0; 0; 0; 0; 0; 0; 0; 1]
             tcpm_turns_active in
  let state_after cs := dc_state (fst (run_calls 0 0 0 cs gcpm_ready w)) in
  (state_after [] = DC_IDLE
   /\ state_after (firstn 2 cs1) = DC_ENABLE_PASSTHROUGH
   /\ state_after cs1 = DC_PASSTHROUGH
   /\ state_after (cs1 ++ cs2) = DC_PASSTHROUGH
   /\ state_after (cs1 ++ cs2 ++ cs3) = DC_DISABLED)
  /\ DC_DISABLED <= state_after (cs1 ++ cs2 ++ cs3) <= DC_PASSTHROUGH
  /\ state_after (cs1 ++ cs2 ++ cs3) <> DC_RUNNING.
Proof.
  intros cs1 cs2 cs3 w state_after. split.
  - vm_compute. repeat split; reflexivity.
  - apply (dc_running_is_never_entered 0 0 0 (cs1 ++ cs2 ++ cs3)
             gcpm_ready w).
    + repeat constructor; intros H; exact H.
    + vm_compute. split; discriminate.
    + vm_compute. discriminate.
Defined.

(** X9. [DC_DISABLED] is final: once the controller is there, no run of
    the tasks, no property call and no write to a debug file other than
    [dc_state] takes it out again, no source is switched and the vote
    for direct charge is not cast, whatever the collaborators answer and
    however much time passes. *)
Theorem dc_disabled_is_final :
  forall (taper_off usb_type_key usb_type_unknown : Z) (cs : list gcpm_call)
         (g : gcpm_drv) (w : world),
    Forall (fun c => ~ writes_dc_state c) cs ->
    dc_state g = DC_DISABLED ->
    let (g1, w1) :=
      run_calls taper_off usb_type_key usb_type_unknown cs g w in
    dc_state g1 = DC_DISABLED
    /\ chg_psy_active g1 = chg_psy_active g
    /\ dc_vote w1 = dc_vote w.
Proof.
  intros taper_off usb_type_key usb_type_unknown cs.
  induction cs as [| c cs IH]; intros g w Hc Hd.
  { cbn. auto. }
  inversion Hc as [| ? ? Hc1 Hc2]; subst. cbn [run_calls].
  pose proof (run_call_dc_state taper_off usb_type_key usb_type_unknown
                c g w) as S.
  destruct (run_call taper_off usb_type_key usb_type_unknown c g w)
    as [g1 w1]. destruct S as (S & K).
  destruct K as [A V]; [unfold DC_IDLE, DC_DISABLED in *; lia | exact Hc1 |].
  assert (D : dc_state g1 = DC_DISABLED).
  { unfold DC_DISABLED, DC_IDLE, DC_ENABLE, DC_RUNNING,
      DC_ENABLE_PASSTHROUGH, DC_PASSTHROUGH in *. intuition lia. }
  specialize (IH g1 w1 Hc2 D).
  destruct (run_calls taper_off usb_type_key usb_type_unknown cs g1 w1)
    as [g2 w2].
  destruct IH as (I1 & I2 & I3). repeat split; congruence.
Qed.

Lemma dc_disabled_is_final_witness :
  let cs := [RUN_set_property POWER_SUPPLY_PROP_CONSTANT_CHARGE_CURRENT_MAX
               3000000;
             RUN_select_work; RUN_elapse 6; RUN_pps_work;
             RUN_debug_set_active 1; RUN_select_work; RUN_pps_work] in
  let g := set_dc_state gcpm_ready DC_DISABLED in
  let (g1, w1) :=
    run_calls 0 0 0 cs g (world0 [4000000] tcpm_turns_active) in
  dc_state g1 = DC_DISABLED
  /\ chg_psy_active g1 = chg_psy_active g
  /\ dc_vote w1 = dc_vote (world0 [4000000] tcpm_turns_active).
Proof.
  intros cs g.
  apply (dc_disabled_is_final 0 0 0 cs g
           (world0 [4000000] tcpm_turns_active)).
  - repeat constructor; intros H; exact H.
  - reflexivity.
Defined.

(** ** Tear-down of a DC session *)

Lemma collaborators_succeed_script w w1 :
  script w1 = script w -> collaborators_succeed w -> collaborators_succeed w1.
Proof. unfold collaborators_succeed. intros ->. auto. Qed.

Lemma gcpm_chg_select_succeed g w :
  collaborators_succeed w -> collaborators_succeed (snd (gcpm_chg_select g w)).
Proof.
  intros H. unfold gcpm_chg_select.
  destruct (0 <=? force_active g); [exact H |].
  destruct ((cc_max g <=? 0) || (fv_uv g <=? 0)); [exact H |].
  destruct (gcpm_chg_get_default g) as [c |]; [| exact H].
  destruct (negb (vbatt_max g =? 0) || negb (vbatt_min g =? 0)); [| exact H].
  unfold GPSY_GET_PROP. destruct (next_answer_succeed w H) as [_ H1].
  destruct (next_answer w) as [v w1]. cbn in H1.
  destruct (v <? 0); [exact H1 |].
  destruct (negb (vbatt_low g =? 0) && (v <? vbatt_low g)); exact H1.
Qed.

Lemma gcpm_dc_enable_vote g w enabled :
  let '(r, g1, w1) := gcpm_dc_enable g w enabled in
  0 <= r -> dc_vote w1 = enabled.
Proof.
  assert (V : forall w0, 0 <= fst (gvotable_cast_vote w0 enabled) ->
                         dc_vote (snd (gvotable_cast_vote w0 enabled))
                         = enabled).
  { intros w0. unfold gvotable_cast_vote. destruct (next_answer w0) as [rc w1].
    destruct (Z.ltb_spec rc 0); cbn; [lia | reflexivity]. }
  unfold gcpm_dc_enable. destruct (gbms_mode g).
  - specialize (V w). destruct (gvotable_cast_vote w enabled). exact V.
  - destruct (gvotable_election_get_handle w) as [v w1].
    destruct (v <? 0); [unfold ENODEV; lia |].
    specialize (V w1). destruct (gvotable_cast_vote w1 enabled). exact V.
Qed.

Lemma gcpm_dc_stop_vote g w final_state :
  dc_state g = DC_RUNNING \/ dc_state g = DC_PASSTHROUGH ->
  let '(r, g1, w1) := gcpm_dc_stop g w final_state in
  r = 0 -> dc_vote w1 = false.
Proof.
  intros St. unfold gcpm_dc_stop.
  assert (E : (dc_state g =? DC_RUNNING) || (dc_state g =? DC_PASSTHROUGH)
              = true).
  { destruct St as [-> | ->]; reflexivity. }
  rewrite E.
  pose proof (gcpm_dc_enable_vote g (dcen_gpio_set g w 0) false) as V.
  destruct (gcpm_dc_enable g (dcen_gpio_set g w 0) false) as [[r g1] w1].
  destruct (Z.ltb_spec r 0); [lia |].
  unfold gcpm_dc_stop_default_online.
  pose proof (gcpm_chg_set_online_forget (set_dc_state g1 DC_ENABLE) w1 0) as S.
  destruct (gcpm_chg_set_online (set_dc_state g1 DC_ENABLE) w1 0)
    as [[r2 g2] w2].
  destruct S as (_ & _ & _ & V2 & _).
  destruct (r2 <? 0); intros _; rewrite V2; apply V; lia.
Qed.

(** A run of the negotiation task with [dc_index <= 0] on a session that
    is under way, when the collaborators do as asked and the default
    charger is registered. *)
Lemma gcpm_pps_wlc_dc_work_teardown g w :
  gcpm_is_ready g -> default_registered g ->
  dc_index g <= 0 -> DC_IDLE < dc_state g <= DC_PASSTHROUGH ->
  collaborators_succeed w ->
  let (g1, w1) := gcpm_pps_wlc_dc_work g w in
  dc_state g1 = (if dc_index g =? 0 then DC_IDLE else DC_DISABLED)
  /\ dc_index g1 = dc_index g
  /\ chg_psy_active g1 = GCPM_DEFAULT_CHARGER
  /\ pps_index g1 = 0
  /\ taper_control g1 = taper_control g
  /\ (dc_state g = DC_RUNNING \/ dc_state g = DC_PASSTHROUGH ->
      dc_vote w1 = false).
Proof.
  intros [I R] [Cn Df] Hi Hs H. unfold gcpm_pps_wlc_dc_work.
  rewrite I, R. cbn [negb orb].
  destruct (Z.leb_spec (dc_index g) 0); [| lia].
  unfold gcpm_pps_wlc_dc_work_stop.
  destruct (Z.leb_spec (dc_state g) DC_IDLE); [lia |].
  pose proof (gcpm_dc_stop_succeed g w DC_DISABLED H) as D.
  pose proof (gcpm_dc_stop_forget g w DC_DISABLED) as F.
  pose proof (gcpm_dc_stop_vote g w DC_DISABLED) as V.
  destruct (gcpm_dc_stop g w DC_DISABLED) as [[r g1] w1].
  destruct D as (Hw1 & _ & _ & _ & D). destruct F as (F & _).
  assert (Rg : forget_registry g1 = forget_registry g
               \/ forget_registry g1 = forget_registry (set_dc_state g DC_ENABLE)
               \/ forget_registry g1
                  = forget_registry (set_dc_state g DC_DISABLED))
    by (destruct F as [(_ & [F | F] & _) | (_ & F & _)]; auto).
  assert (Av : chg_psy_avail g1 = chg_psy_avail g
               /\ chg_psy_count g1 = chg_psy_count g).
  { destruct Rg as [Rg | [Rg | Rg]]; apply forget_registry_fields in Rg;
      split; apply Rg. }
  destruct D as [(-> & St) | (Hr & Rf & _)].
  2:{ exfalso. destruct Rf as [Rf | [_ Rf]]; [lia |].
      apply Df. unfold gcpm_chg_get_default. unfold chg_psy_at in *.
      cbn in *. destruct Av as [<- _]. exact Rf. }
  destruct F as [(Hr & _) | (_ & F & A)]; [lia |].
  cbn [Z.ltb Z.compare].
  apply forget_registry_fields in F.
  destruct F as (_ & _ & _ & _ & _ & _ & F1 & _ & _ & F2 & _).
  pose proof (gcpm_pps_offline_forget g1 w1) as O.
  destruct (gcpm_pps_offline g1 w1) as [[r2 g2] w2].
  destruct O as (-> & F3 & P3 & V3 & _). cbn [Z.ltb Z.compare].
  apply forget_pps_fields in F3.
  destruct F3 as (_ & _ & A3 & _ & X3 & S3 & _ & T3 & _).
  cbn [pps_dc_reschedule fst snd]. cbn in F1, F2.
  rewrite X3, F1. unfold GCPM_DEFAULT_CHARGER in *.
  destruct (dc_index g =? 0) eqn:E; cbn;
    (split; [congruence || reflexivity |]);
    (split; [congruence |]);
    (split; [rewrite A3; apply A; assumption |]);
    (split; [exact P3 |]);
    (split; [congruence |]);
    intros K; rewrite V3; apply V; auto.
Qed.

(** X10. Taper control ends a DC session for good.  On a driver that has
    completed start-up with a session under way, a write of
    [GBMS_PROP_TAPER_CONTROL] with a value other than off is not passed
    to any charger and queues the selection task at once; that run
    sets [dc_index] to -1 and queues the negotiation task at once; and
    that run, when the collaborators do as asked, leaves the controller
    in [DC_DISABLED] with the default charger active, no PPS source
    selected and, coming from [DC_PASSTHROUGH], the vote for direct
    charge withdrawn. *)
Theorem taper_control_ends_direct_charge :
  forall (taper_off : Z) (g : gcpm_drv) (w : world) (intval : Z),
    gcpm_is_ready g -> dc_init_complete g = true ->
    default_registered g ->
    taper_control g = false -> intval <> taper_off ->
    DC_IDLE < dc_state g <= DC_PASSTHROUGH -> 0 < dc_index g ->
    collaborators_succeed w ->
    let '(r, g1, w1) :=
      gcpm_psy_set_property taper_off g w GBMS_PROP_TAPER_CONTROL intval in
    let (g2, w2) := gcpm_chg_select_work g1 w1 in
    let (g3, w3) := gcpm_pps_wlc_dc_work g2 w2 in
    r = 0 /\ trace w1 = trace w /\ wq_select w1 = Some 0
    /\ dc_index g2 = -1 /\ wq_pps w2 = Some 0
    /\ dc_state g3 = DC_DISABLED
    /\ chg_psy_active g3 = GCPM_DEFAULT_CHARGER
    /\ pps_index g3 = 0
    /\ (dc_state g = DC_PASSTHROUGH -> dc_vote w3 = false).
Proof.
  intros taper_off g w intval [I R] Di [Cn Df] Tc Iv Hs Hx H.
  unfold gcpm_psy_set_property. rewrite pm_runtime_get_put, I, R.
  cbn [negb orb gcpm_psy_set_property_switch].
  destruct (Z.eqb_spec intval taper_off) as [K | _]; [contradiction |].
  rewrite Tc. cbn [negb Bool.eqb].
  assert (E : forall b : bool,
             (let (g2, ta_check) :=
                if b
                then (set_new_dc_limit (set_taper_control g true) false, true)
                else (set_taper_control g true, true) in
              let w2 :=
                if dc_init_complete g2 && ta_check
                then mod_delayed_work w select_work 0 else w in
              (0, g2, w2))
             = (0, if b then set_new_dc_limit (set_taper_control g true) false
                   else set_taper_control g true,
                mod_delayed_work w select_work 0)).
  { intros [|]; cbn; rewrite Di; reflexivity. }
  rewrite E. clear E.
  set (g1 := if new_dc_limit (set_taper_control g true)
             then set_new_dc_limit (set_taper_control g true) false
             else set_taper_control g true).
  assert (G1 : taper_control g1 = true /\ dc_state g1 = dc_state g
               /\ dc_index g1 = dc_index g
               /\ init_complete g1 = true /\ resume_complete g1 = true
               /\ chg_psy_count g1 = chg_psy_count g
               /\ gcpm_chg_get_default g1 = gcpm_chg_get_default g).
  { unfold g1. destruct (new_dc_limit _); cbn; auto 10. }
  destruct G1 as (T1 & S1 & X1 & I1 & R1 & C1 & D1).
  set (w1 := mod_delayed_work w select_work 0).
  assert (H1 : collaborators_succeed w1) by exact H.
  unfold gcpm_chg_select_work.
  pose proof (gcpm_chg_select_succeed g1 w1 H1) as H2.
  destruct (gcpm_chg_select g1 w1) as [index w2]. cbn [snd] in H2.
  unfold gcpm_chg_dc_check_source. rewrite T1. cbn [negb andb].
  destruct (Z.ltb_spec DC_IDLE (dc_state g1)); [| lia].
  destruct (Z.ltb_spec 0 (dc_index g1)); [| lia]. cbn [andb Z.leb Z.compare].
  pose proof (gcpm_pps_wlc_dc_work_teardown (set_dc_index g1 (-1))
                (mod_delayed_work w2 pps_work_item 0)) as Td.
  destruct (gcpm_pps_wlc_dc_work (set_dc_index g1 (-1))
              (mod_delayed_work w2 pps_work_item 0)) as [g3 w3].
  destruct Td as (Sd & _ & Ad & Pd & _ & Vd).
  - split; assumption.
  - split; [change (0 < chg_psy_count g1); lia
           | change (gcpm_chg_get_default g1 <> None); congruence].
  - cbn. lia.
  - cbn. lia.
  - exact H2.
  - cbn in Sd, Vd. repeat split; auto. intros K. apply Vd. right. congruence.
Qed.

Lemma taper_control_ends_direct_charge_witness :
  let '(r, g1, w1) :=
    gcpm_psy_set_property 0
      (set_dc_index gcpm_leaving_dc GCPM_INDEX_DC_ENABLE)
      (world0 [4000000] []) GBMS_PROP_TAPER_CONTROL 1 in
  let (g2, w2) := gcpm_chg_select_work g1 w1 in
  let (g3, w3) := gcpm_pps_wlc_dc_work g2 w2 in
  r = 0 /\ trace w1 = trace (world0 [4000000] []) /\ wq_select w1 = Some 0
  /\ dc_index g2 = -1 /\ wq_pps w2 = Some 0
  /\ dc_state g3 = DC_DISABLED
  /\ chg_psy_active g3 = GCPM_DEFAULT_CHARGER
  /\ pps_index g3 = 0
  /\ (dc_state (set_dc_index gcpm_leaving_dc GCPM_INDEX_DC_ENABLE)
      = DC_PASSTHROUGH -> dc_vote w3 = false).
Proof.
  apply (taper_control_ends_direct_charge 0
           (set_dc_index gcpm_leaving_dc GCPM_INDEX_DC_ENABLE)
           (world0 [4000000] []) 1).
  - split; reflexivity.
  - reflexivity.
  - split; [reflexivity | discriminate].
  - reflexivity.
  - discriminate.
  - vm_compute. split; [reflexivity | discriminate].
  - reflexivity.
  - repeat constructor. discriminate.
Defined.

(** ** Detection deadlines *)

Lemma pps_dc_reschedule_queued ui g w :
  0 < ui -> wq_pps (snd (pps_dc_reschedule (Some ui, g, w))) <> None.
Proof.
  intros H. unfold pps_dc_reschedule.
  destruct (Z.leb_spec ui 0); [lia |]. cbn [snd].
  destruct (schedule_delayed_work_pps w ui) as (_ & _ & ->).
  destruct (wq_pps w); discriminate.
Qed.

(** A run of the negotiation task during detection in which no session
    is or becomes active. *)
Lemma gcpm_pps_wlc_dc_work_no_session g w :
  gcpm_is_ready g -> 0 < dc_index g -> dc_state g <> DC_PASSTHROUGH ->
  let '(ret, gp, wp) := gcpm_pps_work g w in
  ret < 0 \/ gcpm_pps_data gp = None ->
  let (g1, w1) := gcpm_pps_wlc_dc_work g w in
  dc_state g1 = dc_state g /\ chg_psy_active g1 = chg_psy_active g
  /\ init_complete g1 = true /\ resume_complete g1 = true
  /\ chg_psy_avail g1 = chg_psy_avail g /\ chg_psy_count g1 = chg_psy_count g
  /\ dc_index g1
     = (if now w - dc_start_time g
           <? (if ret <? 0 then PPS_PROG_TIMEOUT_S else PPS_ACTIVE_TIMEOUT_S)
        then dc_index g else 0)
  /\ script w1 = script w /\ wq_pps w1 <> None.
Proof.
  intros [I R] Hx Hs. unfold gcpm_pps_wlc_dc_work.
  rewrite I, R. cbn [negb orb].
  destruct (Z.leb_spec (dc_index g) 0); [lia |].
  destruct (Z.eqb_spec (dc_state g) DC_PASSTHROUGH); [contradiction |].
  unfold gcpm_pps_wlc_dc_work_detect, get_boot_sec.
  pose proof (gcpm_pps_work_forget g w) as P.
  destruct (gcpm_pps_work g w) as [[ret gp] wp].
  destruct P as (F & _ & _ & _ & _ & Sc). apply forget_pps_fields in F.
  destruct F as (Fa & Fc & Fx & _ & Fi & Fs & _ & _ & _ & _ & _ & _ & Fn & Fr & _).
  intros K.
  assert (Q : forall ui gq,
             0 < ui ->
             let (g1, w1) := pps_dc_reschedule (Some ui, gq, wp) in
             g1 = gq /\ script w1 = script w /\ wq_pps w1 <> None).
  { intros ui gq Hu.
    pose proof (pps_dc_reschedule_queued ui gq wp Hu) as Qd.
    destruct (pps_dc_reschedule_world (Some ui) gq wp)
      as (G & _ & _ & _ & _ & S).
    destruct (pps_dc_reschedule (Some ui, gq, wp)) as [g1 w1].
    cbn in *. repeat split; congruence. }
  destruct (Z.ltb_spec ret 0) as [L | L].
  - destruct (now w - dc_start_time g <? PPS_PROG_TIMEOUT_S).
    + pose proof (Q PPS_PROG_RETRY_MS (gcpm_pps_online gp) ltac:(reflexivity))
        as Q1.
      destruct (pps_dc_reschedule _) as [g1 w1]. destruct Q1 as (-> & S & W).
      cbn. repeat split; congruence.
    + pose proof (Q PPS_ERROR_RETRY_MS (set_dc_index gp 0) ltac:(reflexivity))
        as Q1.
      destruct (pps_dc_reschedule _) as [g1 w1]. destruct Q1 as (-> & S & W).
      cbn. repeat split; congruence.
  - destruct K as [K | K]; [lia |]. rewrite K.
    destruct (now w - dc_start_time g <? PPS_ACTIVE_TIMEOUT_S).
    + pose proof (Q PPS_ACTIVE_RETRY_MS gp ltac:(reflexivity)) as Q1.
      destruct (pps_dc_reschedule _) as [g1 w1]. destruct Q1 as (-> & S & W).
      repeat split; congruence.
    + pose proof (Q PPS_ERROR_RETRY_MS (set_dc_index gp 0) ltac:(reflexivity))
        as Q1.
      destruct (pps_dc_reschedule _) as [g1 w1]. destruct Q1 as (-> & S & W).
      cbn. repeat split; congruence.
Qed.

(** X11. Detection has a deadline.  While the controller waits in
    [DC_ENABLE_PASSTHROUGH] and a run of the negotiation task finds no
    active PPS session, the session is kept and the task queued again as
    long as less than [PPS_PROG_TIMEOUT_S] (negotiation failed) or
    [PPS_ACTIVE_TIMEOUT_S] (no source active yet) seconds have passed
    since it started; from the deadline on the run gives the session up
    by clearing [dc_index], and the next run, when the collaborators do
    as asked, returns the controller to [DC_IDLE] with the default
    charger active and no PPS source selected. *)
Theorem pps_detection_deadline :
  forall (g : gcpm_drv) (w : world),
    gcpm_is_ready g -> default_registered g ->
    dc_state g = DC_ENABLE_PASSTHROUGH -> 0 < dc_index g ->
    collaborators_succeed w ->
    no_session_after_step g w ->
    let elap := now w - dc_start_time g in
    let (g1, w1) := gcpm_pps_wlc_dc_work g w in
    let (g2, w2) := gcpm_pps_wlc_dc_work g1 w1 in
    dc_state g1 = DC_ENABLE_PASSTHROUGH
    /\ chg_psy_active g1 = chg_psy_active g
    /\ wq_pps w1 <> None
    /\ (elap < detection_deadline g w -> dc_index g1 = dc_index g)
    /\ (detection_deadline g w <= elap ->
        dc_index g1 = 0 /\ dc_state g2 = DC_IDLE
        /\ chg_psy_active g2 = GCPM_DEFAULT_CHARGER /\ pps_index g2 = 0).
Proof.
  intros g w Rd [Cn Df] Hs Hx H K. cbv zeta.
  unfold no_session_after_step, detection_deadline in *.
  pose proof (gcpm_pps_wlc_dc_work_no_session g w Rd Hx) as N.
  destruct (gcpm_pps_work g w) as [[ret gp] wp]. cbn [fst].
  specialize (N ltac:(rewrite Hs; discriminate) K).
  destruct (gcpm_pps_wlc_dc_work g w) as [g1 w1].
  destruct N as (S1 & A1 & I1 & R1 & Av1 & C1 & X1 & Sc1 & W1).
  pose proof (gcpm_pps_wlc_dc_work_teardown g1 w1) as Td.
  destruct (gcpm_pps_wlc_dc_work g1 w1) as [g2 w2].
  split; [congruence |]. split; [exact A1 |]. split; [exact W1 |].
  destruct (Z.ltb_spec (now w - dc_start_time g)
              (if ret <? 0 then PPS_PROG_TIMEOUT_S else PPS_ACTIVE_TIMEOUT_S))
    as [L | L].
  - split; [intros _; exact X1 | intros G; lia].
  - split; [intros G; lia | intros _].
    destruct Td as (Sd & _ & Ad & Pd & _).
    + split; assumption.
    + split; [congruence |]. unfold gcpm_chg_get_default, chg_psy_at in *.
      cbn in *. rewrite Av1. exact Df.
    + lia.
    + rewrite S1, Hs. vm_compute. split; [reflexivity | discriminate].
    + eapply collaborators_succeed_script; eassumption.
    + rewrite X1 in Sd. cbn in Sd. auto.
Qed.

Lemma pps_detection_deadline_witness :
  let g := set_dc_start_time gcpm_negotiating 100 in
  let w := set_now (world0 [] [pps_answers 0 PPS_NONE; pps_answers 0 PPS_NONE])
                   125 in
  let elap := now w - dc_start_time g in
  let (g1, w1) := gcpm_pps_wlc_dc_work g w in
  let (g2, w2) := gcpm_pps_wlc_dc_work g1 w1 in
  dc_state g1 = DC_ENABLE_PASSTHROUGH
  /\ chg_psy_active g1 = chg_psy_active g
  /\ wq_pps w1 <> None
  /\ (elap < detection_deadline g w -> dc_index g1 = dc_index g)
  /\ (detection_deadline g w <= elap ->
      dc_index g1 = 0 /\ dc_state g2 = DC_IDLE
      /\ chg_psy_active g2 = GCPM_DEFAULT_CHARGER /\ pps_index g2 = 0).
Proof.
  intros g w.
  apply (pps_detection_deadline g w).
  - split; reflexivity.
  - split; [reflexivity | discriminate].
  - reflexivity.
  - reflexivity.
  - constructor.
  - right. reflexivity.
Defined.

(** ** The selection task *)

(** X12. The selection task opens a DC session, taking the controller from
    a state other than [DC_ENABLE_PASSTHROUGH] into it, exactly when the
    controller is in [DC_IDLE], taper control is off, the selection
    answers the DC index and at least one PPS session is not marked as
    not supported.  It then records the DC index, deselects the PPS
    source, resets the requested output, stamps the start of the session
    with the current time and queues the negotiation task in 5000 ms,
    replacing a pending run; the active charger is not switched. *)
Theorem gcpm_chg_select_work_opens_session :
  forall (g : gcpm_drv) (w : world),
    let (index, ws) := gcpm_chg_select g w in
    let (g1, w1) := gcpm_chg_select_work g w in
    ((dc_state g <> DC_ENABLE_PASSTHROUGH
      /\ dc_state g1 = DC_ENABLE_PASSTHROUGH)
     <-> (dc_state g = DC_IDLE /\ taper_control g = false
          /\ index = GCPM_INDEX_DC_ENABLE
          /\ ~ (stage (tcpm_pps_data g) = PPS_NOTSUPP
                /\ stage (wlc_pps_data g) = PPS_NOTSUPP)))
    /\ (dc_state g <> DC_ENABLE_PASSTHROUGH ->
        dc_state g1 = DC_ENABLE_PASSTHROUGH ->
        dc_index g1 = GCPM_INDEX_DC_ENABLE /\ pps_index g1 = 0
        /\ out_ua g1 = -1 /\ out_uv g1 = -1
        /\ dc_start_time g1 = now w
        /\ wq_pps w1 = Some 5000
        /\ chg_psy_active g1 = chg_psy_active g).
Proof.
  intros g w. unfold gcpm_chg_select_work.
  pose proof (gcpm_chg_select_world g w) as S.
  destruct (gcpm_chg_select g w) as [index ws].
  destruct S as (_ & _ & _ & _ & _ & N & _).
  unfold gcpm_chg_dc_check_source, get_boot_sec.
  unfold DC_ENABLE_PASSTHROUGH, DC_IDLE, DC_DISABLED, GCPM_INDEX_DC_ENABLE,
    GCPM_DEFAULT_CHARGER.
  destruct (taper_control g) eqn:T; cbn [negb andb].
  { destruct ((0 <? dc_state g) && (0 <? dc_index g)); cbn;
      (split; [split; [intros [A B]; contradiction
                      | intros (_ & K & _); discriminate]
              | intros A B; contradiction]). }
  destruct (Z.ltb_spec index 0) as [L | L].
  { cbn. split; [split; [intros [A B]; contradiction | intros (_ & _ & K & _); lia]
                | intros A B; contradiction]. }
  destruct (pps_stage_eqb (stage (tcpm_pps_data g)) PPS_NOTSUPP
            && pps_stage_eqb (stage (wlc_pps_data g)) PPS_NOTSUPP) eqn:Ns.
  { apply andb_true_iff in Ns as [N1 N2].
    apply pps_stage_eqb_eq in N1, N2. cbn [negb].
    destruct ((0 <? dc_state g) && (0 <? dc_index g)); cbn;
      (split; [split; [intros [A B]; contradiction
                      | intros (_ & _ & _ & K); exfalso; apply K; auto]
              | intros A B; contradiction]). }
  assert (Ns' : ~ (stage (tcpm_pps_data g) = PPS_NOTSUPP
                   /\ stage (wlc_pps_data g) = PPS_NOTSUPP)).
  { intros [N1 N2]. rewrite N1, N2 in Ns. discriminate. }
  destruct (Z.eqb_spec index 1) as [E | E]; cbn [negb].
  2:{ destruct ((0 <? dc_state g) && (0 <? dc_index g)); cbn;
        (split; [split; [intros [A B]; contradiction
                        | intros (_ & _ & K & _); contradiction]
                | intros A B; contradiction]). }
  destruct (Z.eqb_spec (dc_state g) (-1)) as [D | D].
  { cbn. split; [split; [intros [A B]; contradiction | intros (K & _); lia]
                | intros A B; contradiction]. }
  destruct (Z.eqb_spec (dc_state g) 0) as [I | I].
  - cbn. rewrite N. split; [split; [auto | intros _; split; [lia | reflexivity]]
                           | intros _ _; subst index; auto 10].
  - cbn. split; [split; [intros [A B]; contradiction | intros (K & _); lia]
                | intros A B; contradiction].
Qed.

(** X13. A negative answer of the selection defers the decision: with
    taper control off the selection task leaves the driver state as it
    is, queues itself again in 5 s unless a run is already pending, and
    neither writes to a charger nor touches the negotiation task. *)
Theorem gcpm_chg_select_work_defers :
  forall (g : gcpm_drv) (w : world),
    taper_control g = false ->
    fst (gcpm_chg_select g w) < 0 ->
    let (g1, w1) := gcpm_chg_select_work g w in
    g1 = g
    /\ wq_select w1
       = match wq_select w with Some ms => Some ms | None => Some 5000 end
    /\ wq_pps w1 = wq_pps w
    /\ props w1 = props w /\ dc_vote w1 = dc_vote w.
Proof.
  intros g w T L. unfold gcpm_chg_select_work.
  pose proof (gcpm_chg_select_world g w) as S.
  destruct (gcpm_chg_select g w) as [index ws]. cbn [fst] in L.
  destruct S as (P & V & _ & Ws & Wp & _).
  rewrite T. destruct (Z.ltb_spec index 0); [| lia]. cbn [negb andb].
  split; [reflexivity |].
  unfold schedule_delayed_work. cbn [pending]. rewrite Ws.
  destruct (wq_select w) eqn:E; cbn; rewrite ?Ws, ?E; auto.
Qed.

Lemma gcpm_chg_select_work_defers_witness :
  let (g1, w1) := gcpm_chg_select_work gcpm_ready (world0 [3300000] []) in
  g1 = gcpm_ready
  /\ wq_select w1
     = match wq_select (world0 [3300000] []) with
       | Some ms => Some ms
       | None => Some 5000
       end
  /\ wq_pps w1 = wq_pps (world0 [3300000] [])
  /\ props w1 = props (world0 [3300000] [])
  /\ dc_vote w1 = dc_vote (world0 [3300000] []).
Proof.
  apply (gcpm_chg_select_work_defers gcpm_ready (world0 [3300000] [])).
  - reflexivity.
  - vm_compute. reflexivity.
Defined.

(** ** The property interface on a driver that is ready *)

Lemma gcpm_psy_set_property_ready taper_off g w prop intval :
  gcpm_is_ready g ->
  gcpm_psy_set_property taper_off g w prop intval
  = let '(g1, ta_check, route, prop1) :=
      gcpm_psy_set_property_switch taper_off g prop intval in
    let g2 := set_new_dc_limit g1 false in
    let w2 :=
      if dc_init_complete g1 && (ta_check || new_dc_limit g1)
      then mod_delayed_work w select_work 0 else w in
    if negb route then (0, (if new_dc_limit g1 then g2 else g1), w2)
    else
      match gcpm_chg_get_active g with
      | Some chg_psy =>
          let (ret, w3) := power_supply_set_property w2 chg_psy prop1 intval in
          (ret, (if new_dc_limit g1 then g2 else g1), w3)
      | None => (0, (if new_dc_limit g1 then g2 else g1), w2)
      end.
Proof.
  intros [I R]. unfold gcpm_psy_set_property.
  rewrite pm_runtime_get_put, I, R. cbn [negb orb].
  destruct prop; cbn [gcpm_psy_set_property_switch];
    match goal with
    | |- context [new_dc_limit ?x] => destruct (new_dc_limit x) eqn:N
    end; cbn [fst snd negb]; rewrite ?orb_true_r, ?orb_false_r;
    try reflexivity.
Qed.

(** X14. On a driver that is ready and has an active charger, a write of
    any key other than taper control is passed on to the active charger,
    once and with the value as given, [POWER_SUPPLY_PROP_VOLTAGE_MAX]
    under the key [POWER_SUPPLY_PROP_CONSTANT_CHARGE_VOLTAGE_MAX]; the
    answer of the charger is the return value, and no other supply is
    written. *)
Theorem gcpm_psy_set_property_routes :
  forall (taper_off : Z) (g : gcpm_drv) (w : world) (prop : psp)
         (intval : Z) (c : psy),
    gcpm_is_ready g ->
    gcpm_chg_get_active g = Some c ->
    prop <> GBMS_PROP_TAPER_CONTROL ->
    let '(r, g1, w1) := gcpm_psy_set_property taper_off g w prop intval in
    trace w1 = EvSetProp c (routed_key prop) intval r :: trace w
    /\ (0 <= r -> props w1 c (routed_key prop) = intval)
    /\ (r < 0 -> props w1 = props w)
    /\ (forall d p, d <> c -> props w1 d p = props w d p)
    /\ (forall rc, hd_error (script w) = Some rc -> r = rc).
Proof.
  intros taper_off g w prop intval c Rd A Np.
  rewrite (gcpm_psy_set_property_ready taper_off g w prop intval Rd).
  pose proof (gcpm_psy_set_property_switch_fields taper_off g prop intval) as S.
  destruct (gcpm_psy_set_property_switch taper_off g prop intval)
    as [[[g1 ta_check] route] prop1].
  destruct S as (_ & _ & _ & _ & _ & _ & -> & Rt). cbv zeta. rewrite A.
  assert (M : forall (b : bool),
             props (if b then mod_delayed_work w select_work 0 else w)
             = props w
             /\ trace (if b then mod_delayed_work w select_work 0 else w)
                = trace w
             /\ script (if b then mod_delayed_work w select_work 0 else w)
                = script w) by (intros [|]; auto).
  destruct route; [| exfalso; apply Np, Rt; reflexivity].
  cbn [negb].
  match goal with
  | |- context [power_supply_set_property ?x c ?k intval] =>
      pose proof (power_supply_set_property_spec x c k intval) as P;
      destruct (power_supply_set_property x c k intval) as [ret w3];
      destruct (M (dc_init_complete g1 && (ta_check || new_dc_limit g1)))
        as (Mp & Mt & Ms)
  end.
  destruct P as (T & _ & _ & _ & _ & _ & Po & Pw & Pf & Ph).
  rewrite T, Mt. split; [reflexivity |].
  split; [exact Pw |]. split; [intros L; rewrite Pf, Mp; auto |].
  split; [intros d p Hd; rewrite Po, Mp; auto |].
  intros rc Hrc. apply Ph. rewrite Ms. exact Hrc.
Qed.

Lemma gcpm_psy_set_property_routes_witness :
  let '(r, g1, w1) :=
    gcpm_psy_set_property 0 gcpm_ready (world0 [-5] [])
      POWER_SUPPLY_PROP_VOLTAGE_MAX 4450000 in
  trace w1 = EvSetProp 0%nat (routed_key POWER_SUPPLY_PROP_VOLTAGE_MAX)
               4450000 r :: trace (world0 [-5] [])
  /\ (0 <= r ->
      props w1 0%nat (routed_key POWER_SUPPLY_PROP_VOLTAGE_MAX) = 4450000)
  /\ (r < 0 -> props w1 = props (world0 [-5] []))
  /\ (forall d p, d <> 0%nat -> props w1 d p = props (world0 [-5] []) d p)
  /\ (forall rc, hd_error (script (world0 [-5] [])) = Some rc -> r = rc).
Proof.
  apply (gcpm_psy_set_property_routes 0 gcpm_ready (world0 [-5] [])
           POWER_SUPPLY_PROP_VOLTAGE_MAX 4450000 0%nat).
  - split; reflexivity.
  - reflexivity.
  - discriminate.
Defined.

(** X15. With no active charger a ready driver treats the two directions
    differently: a write returns 0 without calling any supply, and still
    records the demand it carries, while a read returns [-ENODEV] and
    leaves the caller's value alone. *)
Theorem gcpm_psy_property_no_active_charger :
  forall (taper_off : Z) (g : gcpm_drv) (w : world) (prop : psp)
         (intval pval : Z),
    gcpm_is_ready g ->
    gcpm_chg_get_active g = None ->
    let '(r, g1, w1) := gcpm_psy_set_property taper_off g w prop intval in
    r = 0 /\ trace w1 = trace w /\ props w1 = props w
    /\ (prop = POWER_SUPPLY_PROP_CONSTANT_CHARGE_CURRENT_MAX ->
        cc_max g1 = intval)
    /\ (routed_key prop = POWER_SUPPLY_PROP_CONSTANT_CHARGE_VOLTAGE_MAX ->
        fv_uv g1 = intval)
    /\ gcpm_psy_get_property g w prop pval = (- ENODEV, pval, g, w).
Proof.
  intros taper_off g w prop intval pval Rd A.
  rewrite (gcpm_psy_set_property_ready taper_off g w prop intval Rd).
  assert (G : gcpm_psy_get_property g w prop pval = (- ENODEV, pval, g, w)).
  { destruct Rd as [I R]. unfold gcpm_psy_get_property.
    rewrite pm_runtime_get_put, I, R, A. reflexivity. }
  rewrite A.
  assert (M : forall (b : bool),
             props (if b then mod_delayed_work w select_work 0 else w)
             = props w
             /\ trace (if b then mod_delayed_work w select_work 0 else w)
                = trace w) by (intros [|]; auto).
  destruct prop; cbn [gcpm_psy_set_property_switch negb routed_key];
    match goal with
    | |- context [if ?b then mod_delayed_work w select_work 0 else w] =>
        destruct (M b) as [Mp Mt]
    end;
    (split; [reflexivity |]); (split; [exact Mt |]); (split; [exact Mp |]);
    (split; [intros E; try discriminate E;
             match goal with
             | |- context [new_dc_limit ?x] => destruct (new_dc_limit x)
             end; reflexivity |]);
    (split; [intros E; try discriminate E;
             match goal with
             | |- context [new_dc_limit ?x] => destruct (new_dc_limit x)
             end; reflexivity |]);
    exact G.
Qed.

Lemma gcpm_psy_property_no_active_charger_witness :
  let g := set_chg_psy_active gcpm_ready (-1) in
  let '(r, g1, w1) :=
    gcpm_psy_set_property 0 g (world0 [] [])
      POWER_SUPPLY_PROP_CONSTANT_CHARGE_CURRENT_MAX 2000000 in
  r = 0 /\ trace w1 = trace (world0 [] []) /\ props w1 = props (world0 [] [])
  /\ (POWER_SUPPLY_PROP_CONSTANT_CHARGE_CURRENT_MAX
      = POWER_SUPPLY_PROP_CONSTANT_CHARGE_CURRENT_MAX ->
      cc_max g1 = 2000000)
  /\ (routed_key POWER_SUPPLY_PROP_CONSTANT_CHARGE_CURRENT_MAX
      = POWER_SUPPLY_PROP_CONSTANT_CHARGE_VOLTAGE_MAX ->
      fv_uv g1 = 2000000)
  /\ gcpm_psy_get_property g (world0 [] [])
       POWER_SUPPLY_PROP_CONSTANT_CHARGE_CURRENT_MAX 7
     = (- ENODEV, 7, g, world0 [] []).
Proof.
  intros g.
  apply (gcpm_psy_property_no_active_charger 0 g (world0 [] [])
           POWER_SUPPLY_PROP_CONSTANT_CHARGE_CURRENT_MAX 2000000 7).
  - split; reflexivity.
  - reflexivity.
Defined.

Lemma power_supply_set_property_wq w d p v :
  wq_select (snd (power_supply_set_property w d p v)) = wq_select w
  /\ wq_pps (snd (power_supply_set_property w d p v)) = wq_pps w.
Proof.
  pose proof (power_supply_set_property_spec w d p v) as S.
  destruct (power_supply_set_property w d p v) as [rc w1].
  destruct S as (_ & _ & _ & A & B & _). auto.
Qed.

Lemma gcpm_drv_eta g :
  set_cc_max g (cc_max g) = g /\ set_fv_uv g (fv_uv g) = g
  /\ set_taper_control g (taper_control g) = g
  /\ set_new_dc_limit g (new_dc_limit g) = g.
Proof. destruct g; repeat split; reflexivity. Qed.

(** What a property write leaves in the driver state and in the queue of
    the selection task. *)
Lemma gcpm_psy_set_property_state taper_off g w prop intval :
  gcpm_is_ready g ->
  let '(r, g1, w1) := gcpm_psy_set_property taper_off g w prop intval in
  let '(gs, ta_check, route, prop1) :=
    gcpm_psy_set_property_switch taper_off g prop intval in
  g1 = set_new_dc_limit gs (new_dc_limit gs && false)
  /\ wq_pps w1 = wq_pps w
  /\ wq_select w1
     = (if dc_init_complete g && (ta_check || new_dc_limit g)
        then Some 0 else wq_select w).
Proof.
  intros Rd.
  rewrite (gcpm_psy_set_property_ready taper_off g w prop intval Rd).
  pose proof (gcpm_psy_set_property_switch_fields taper_off g prop intval) as S.
  destruct (gcpm_psy_set_property_switch taper_off g prop intval)
    as [[[gs ta_check] route] prop1].
  destruct S as (_ & _ & _ & _ & Nd & Di & _). cbv zeta.
  rewrite Nd, Di.
  assert (G : (if new_dc_limit g then set_new_dc_limit gs false else gs)
              = set_new_dc_limit gs (new_dc_limit g && false)).
  { rewrite andb_false_r. destruct (new_dc_limit g) eqn:N; [reflexivity |].
    pose proof (gcpm_drv_eta gs) as (_ & _ & _ & E).
    rewrite Nd in E. symmetry. exact E. }
  assert (M : forall (b : bool),
             wq_pps (if b then mod_delayed_work w select_work 0 else w)
             = wq_pps w
             /\ wq_select (if b then mod_delayed_work w select_work 0 else w)
                = (if b then Some 0 else wq_select w))
    by (intros [|]; auto).
  destruct (M (dc_init_complete g && (ta_check || new_dc_limit g)))
    as [Mp Ms].
  destruct (negb route); [rewrite G; auto |].
  destruct (gcpm_chg_get_active g) as [c |]; [| rewrite G; auto].
  match goal with
  | |- context [power_supply_set_property ?x c prop1 intval] =>
      destruct (power_supply_set_property_wq x c prop1 intval) as [Q1 Q2];
      destruct (power_supply_set_property x c prop1 intval) as [ret w3]
  end.
  cbn [snd] in Q1, Q2. rewrite G, Q1, Q2. auto.
Qed.

(** X16. Repeating a property write does not disturb the driver: after a
    write of any key other than [POWER_SUPPLY_PROP_ONLINE] and
    [GBMS_PROP_CHARGE_DISABLE], the same write again leaves the driver
    state as the first one left it and queues neither task (the value
    is still passed on to the active charger). *)
Theorem gcpm_psy_set_property_repeated :
  forall (taper_off : Z) (g : gcpm_drv) (w : world) (prop : psp)
         (intval : Z),
    gcpm_is_ready g ->
    prop <> POWER_SUPPLY_PROP_ONLINE ->
    prop <> GBMS_PROP_CHARGE_DISABLE ->
    let '(r1, g1, w1) := gcpm_psy_set_property taper_off g w prop intval in
    let '(r2, g2, w2) := gcpm_psy_set_property taper_off g1 w1 prop intval in
    g2 = g1 /\ wq_select w2 = wq_select w1 /\ wq_pps w2 = wq_pps w1.
Proof.
  intros taper_off g w prop intval Rd N1 N2.
  pose proof (gcpm_psy_set_property_state taper_off g w prop intval Rd) as S1.
  destruct (gcpm_psy_set_property taper_off g w prop intval) as [[r1 g1] w1].
  assert (Rd1 : gcpm_is_ready g1 /\ new_dc_limit g1 = false).
  { destruct Rd as [I R]. unfold gcpm_is_ready.
    destruct prop; cbn in S1; destruct S1 as (-> & _);
      rewrite andb_false_r; cbn; auto. }
  destruct Rd1 as [Rd1 Nl].
  pose proof (gcpm_psy_set_property_state taper_off g1 w1 prop intval Rd1)
    as S2.
  destruct (gcpm_psy_set_property taper_off g1 w1 prop intval)
    as [[r2 g2] w2].
  destruct (gcpm_drv_eta g1) as (Ec & Ef & Et & Nn). rewrite Nl in Nn.
  destruct prop; try contradiction;
    cbn [gcpm_psy_set_property_switch] in S1, S2;
    destruct S2 as (G2 & P2 & W2); destruct S1 as (G1 & _);
    rewrite Nl, ?andb_false_r, ?orb_false_r in *; cbn [andb] in *;
    rewrite W2, G2, ?andb_false_r;
    try (split; [| split]; (reflexivity || assumption)).
  - (* [POWER_SUPPLY_PROP_VOLTAGE_MAX] *)
    assert (K : fv_uv g1 = intval) by (rewrite G1; reflexivity).
    rewrite <- K. rewrite Ef, Nn, Z.eqb_refl, andb_false_r. auto.
  - (* [POWER_SUPPLY_PROP_CONSTANT_CHARGE_CURRENT_MAX] *)
    assert (K : cc_max g1 = intval) by (rewrite G1; reflexivity).
    rewrite <- K. rewrite Ec, Nn, Z.eqb_refl, andb_false_r. auto.
  - (* [POWER_SUPPLY_PROP_CONSTANT_CHARGE_VOLTAGE_MAX] *)
    assert (K : fv_uv g1 = intval) by (rewrite G1; reflexivity).
    rewrite <- K. rewrite Ef, Nn, Z.eqb_refl, andb_false_r. auto.
  - (* [GBMS_PROP_TAPER_CONTROL] *)
    assert (K : taper_control g1 = negb (intval =? taper_off))
      by (rewrite G1; reflexivity).
    rewrite <- K. rewrite Et, Nn.
    destruct (taper_control g1); cbn; rewrite ?andb_false_r; auto.
Qed.

Lemma gcpm_psy_set_property_repeated_witness :
  let '(r1, g1, w1) :=
    gcpm_psy_set_property 0 gcpm_ready (world0 [] [])
      POWER_SUPPLY_PROP_CONSTANT_CHARGE_CURRENT_MAX 2000000 in
  let '(r2, g2, w2) :=
    gcpm_psy_set_property 0 g1 w1
      POWER_SUPPLY_PROP_CONSTANT_CHARGE_CURRENT_MAX 2000000 in
  g2 = g1 /\ wq_select w2 = wq_select w1 /\ wq_pps w2 = wq_pps w1.
Proof.
  apply (gcpm_psy_set_property_repeated 0 gcpm_ready (world0 [] [])
           POWER_SUPPLY_PROP_CONSTANT_CHARGE_CURRENT_MAX 2000000).
  - split; reflexivity.
  - discriminate.
  - discriminate.
Defined.

(** X17. A property write changes the demand and the taper flag of the
    driver only under a key that [gcpm_psy_is_writeable] declares
    writeable. *)
Theorem gcpm_psy_set_property_respects_writeable :
  forall (taper_off : Z) (g : gcpm_drv) (w : world) (prop : psp)
         (intval : Z),
    gcpm_psy_is_writeable prop = 0 ->
    let '(r, g1, w1) := gcpm_psy_set_property taper_off g w prop intval in
    cc_max g1 = cc_max g /\ fv_uv g1 = fv_uv g
    /\ taper_control g1 = taper_control g.
Proof.
  intros taper_off g w prop intval Wr. unfold gcpm_psy_set_property.
  rewrite pm_runtime_get_put.
  destruct (negb (init_complete g) || negb (resume_complete g)); [auto |].
  destruct prop; try discriminate Wr; cbn [gcpm_psy_set_property_switch];
    destruct (new_dc_limit g); cbn [fst snd negb];
    destruct (gcpm_chg_get_active _);
    try destruct (power_supply_set_property _ _ _ _); auto.
Qed.

Lemma gcpm_psy_set_property_respects_writeable_witness :
  let '(r, g1, w1) :=
    gcpm_psy_set_property 0 gcpm_ready (world0 [] [])
      POWER_SUPPLY_PROP_ONLINE 1 in
  cc_max g1 = cc_max gcpm_ready /\ fv_uv g1 = fv_uv gcpm_ready
  /\ taper_control g1 = taper_control gcpm_ready.
Proof.
  apply (gcpm_psy_set_property_respects_writeable 0 gcpm_ready (world0 [] [])
           POWER_SUPPLY_PROP_ONLINE 1).
  reflexivity.
Defined.

(** ** Debug files *)

Lemma to_u32_to_int z : to_u32 (to_int z) = to_u32 z.
Proof.
  unfold to_u32, to_int.
  rewrite Zminus_mod_idemp_l.
  replace (z + 2 ^ 31 - 2 ^ 31) with z by lia. reflexivity.
Qed.

(** X18. The debug file [dc_limit_demand] reads back what was written,
    cut to 32 bits, and a write that changes the limit raises
    [new_dc_limit]; the next property write on a driver that is ready
    and has completed the detection of its supplies then queues the
    selection task at once, whatever the key, and lowers the flag. *)
Theorem gcpm_debug_dc_limit_demand_forces_selection :
  forall (taper_off : Z) (g : gcpm_drv) (w : world) (val : Z) (prop : psp)
         (intval : Z),
    gcpm_is_ready g -> dc_init_complete g = true ->
    dc_limit_demand g <> to_u32 val ->
    let (r, g1) := gcpm_debug_dc_limit_demand_set g val in
    let '(r2, g2, w2) := gcpm_psy_set_property taper_off g1 w prop intval in
    r = 0 /\ gcpm_debug_dc_limit_demand_show g1 = (0, to_u32 val)
    /\ new_dc_limit g1 = true
    /\ new_dc_limit g2 = false /\ wq_select w2 = Some 0
    /\ dc_limit_demand g2 = to_u32 val.
Proof.
  intros taper_off g w val prop intval [I R] Di Ch.
  unfold gcpm_debug_dc_limit_demand_set. rewrite to_u32_to_int.
  destruct (Z.eqb_spec (dc_limit_demand g) (to_u32 val)); [contradiction |].
  cbn [negb].
  set (g1 := set_new_dc_limit (set_dc_limit_demand g (to_u32 val)) true).
  assert (Rd1 : gcpm_is_ready g1) by (split; assumption).
  pose proof (gcpm_psy_set_property_state taper_off g1 w prop intval Rd1) as S.
  destruct (gcpm_psy_set_property taper_off g1 w prop intval) as [[r2 g2] w2].
  pose proof (gcpm_psy_set_property_switch_fields taper_off g1 prop intval)
    as F.
  assert (Dl : let '(gs, _, _, _) :=
                 gcpm_psy_set_property_switch taper_off g1 prop intval in
               dc_limit_demand (set_new_dc_limit gs (new_dc_limit gs && false))
               = to_u32 val) by (destruct prop; reflexivity).
  destruct (gcpm_psy_set_property_switch taper_off g1 prop intval)
    as [[[gs ta_check] route] prop1].
  destruct S as (-> & _ & Ws). destruct F as (_ & _ & _ & _ & Nd & _).
  split; [reflexivity |]. split; [reflexivity |]. split; [reflexivity |].
  split; [cbn; apply andb_false_r |].
  split.
  - rewrite Ws. change (dc_init_complete g1) with (dc_init_complete g).
    change (new_dc_limit g1) with true. rewrite Di, orb_true_r. reflexivity.
  - exact Dl.
Qed.

Lemma gcpm_debug_dc_limit_demand_forces_selection_witness :
  let (r, g1) := gcpm_debug_dc_limit_demand_set gcpm_ready 12000 in
  let '(r2, g2, w2) :=
    gcpm_psy_set_property 0 g1 (world0 [] []) POWER_SUPPLY_PROP_CURRENT_MAX
      500000 in
  r = 0 /\ gcpm_debug_dc_limit_demand_show g1 = (0, to_u32 12000)
  /\ new_dc_limit g1 = true
  /\ new_dc_limit g2 = false /\ wq_select w2 = Some 0
  /\ dc_limit_demand g2 = to_u32 12000.
Proof.
  apply (gcpm_debug_dc_limit_demand_forces_selection 0 gcpm_ready
           (world0 [] []) 12000 POWER_SUPPLY_PROP_CURRENT_MAX 500000).
  - split; reflexivity.
  - reflexivity.
  - discriminate.
Defined.

(** X19. The debug file [active] sets the override of the selection.  A
    value whose low 32 bits are neither -1 nor the index of a registered
    charger is refused with [-ERANGE] (no such slot) or [-EINVAL] (slot
    without supply) and changes nothing.  An accepted index queues the
    selection task at once and is from then on what the selection
    answers, without any call to a charger; -1 lifts the override.
    Reading the file back does not show the override: it reports
    [dc_index], which the write leaves alone. *)
Theorem gcpm_debug_set_active_override :
  forall (g : gcpm_drv) (w : world) (val : Z),
    let '(r, g1, w1) := gcpm_debug_set_active g w val in
    (r = 0
     \/ (r = - ERANGE /\ g1 = g /\ w1 = w
         /\ (to_int val < -1 \/ chg_psy_count g <= to_int val))
     \/ (r = - EINVAL /\ g1 = g /\ w1 = w
         /\ chg_psy_at g (to_int val) = None))
    /\ (r = 0 ->
        force_active g1 = to_int val
        /\ wq_select w1 = Some 0
        /\ gcpm_debug_get_active g1 = gcpm_debug_get_active g
        /\ (to_int val = -1
            \/ (0 <= to_int val < chg_psy_count g
                /\ chg_psy_at g1 (to_int val) <> None
                /\ forall w', gcpm_chg_select g1 w' = (to_int val, w')))).
Proof.
  intros g w val. unfold gcpm_debug_set_active, ERANGE, EINVAL.
  destruct (Z.eqb_spec (to_int val) (-1)) as [E | E]; cbn [negb andb].
  { split; [left; reflexivity | intros _]. repeat split; auto. }
  destruct (Z.ltb_spec (to_int val) 0) as [L | L]; cbn [orb].
  { split; [right; left; repeat split; auto; lia | intros K; lia]. }
  destruct (Z.leb_spec (chg_psy_count g) (to_int val)) as [C | C].
  { split; [right; left; repeat split; auto; lia | intros K; lia]. }
  destruct (chg_psy_at g (to_int val)) as [d |] eqn:A.
  - split; [left; reflexivity | intros _].
    split; [reflexivity |]. split; [reflexivity |]. split; [reflexivity |].
    right. split; [lia |]. split.
    + change (chg_psy_at g (to_int val) <> None). congruence.
    + intros w'. unfold gcpm_chg_select. cbn [force_active set_force_active].
      destruct (Z.leb_spec 0 (to_int val)); [reflexivity | lia].
  - split; [right; right; auto | intros K; lia].
Qed.

(** X20. The debug file [dc_state] takes the values of the enumeration
    only: a value whose low 32 bits, read as a signed number, lie
    outside [DC_DISABLED .. DC_PASSTHROUGH] is refused with [-EINVAL]
    and changes nothing; an accepted one becomes the state, queues the
    selection task at once, and is what the file reads back, sign
    extended to 64 bits. *)
Theorem gcpm_debug_dc_state_round_trip :
  forall (g : gcpm_drv) (w : world) (val : Z),
    let '(r, g1, w1) := gcpm_debug_dc_state_set g w val in
    (DC_DISABLED <= to_int val <= DC_PASSTHROUGH ->
     r = 0 /\ dc_state g1 = to_int val /\ wq_select w1 = Some 0
     /\ gcpm_debug_dc_state_get g1 = (0, to_u64 (to_int val))
     /\ (0 <= val <= DC_PASSTHROUGH -> gcpm_debug_dc_state_get g1 = (0, val)))
    /\ (~ (DC_DISABLED <= to_int val <= DC_PASSTHROUGH) ->
        r = - EINVAL /\ g1 = g /\ w1 = w).
Proof.
  intros g w val. unfold gcpm_debug_dc_state_set.
  destruct (Z.ltb_spec (to_int val) DC_DISABLED) as [L | L]; cbn [orb].
  { split; [intros K; lia | auto]. }
  destruct (Z.ltb_spec DC_PASSTHROUGH (to_int val)) as [H | H].
  { split; [intros K; lia | auto]. }
  split; [intros _ | intros K; lia].
  repeat split. intros B. unfold gcpm_debug_dc_state_get. cbn [dc_state set_dc_state].
  unfold DC_PASSTHROUGH in B.
  assert (E : to_int val = val).
  { unfold to_int. rewrite Z.mod_small by lia. lia. }
  rewrite E. unfold to_u64. rewrite Z.mod_small by lia. reflexivity.
Qed.

(** ** The combined PPS supply *)

(** X21. The combined PPS supply passes a property call on to the supply
    of the selected PPS session and to no other.  While no session is
    selected, or the selected one has no supply, a write is refused with
    [-EAGAIN] and a read answers 0 with the value 0
    ([POWER_SUPPLY_USB_TYPE_UNKNOWN] for the USB type), in both cases
    without calling any supply; this is so once the sessions have been
    taken offline. *)
Theorem gcpm_pps_psy_property_routes :
  forall (usb_type_key usb_type_unknown : Z) (g : gcpm_drv) (w : world)
         (prop : psp) (intval pval : Z),
    (forall d, gcpm_pps_psy_target g = Some d ->
       gcpm_pps_psy_set_property g w prop intval
       = power_supply_set_property w d prop intval
       /\ gcpm_pps_psy_get_property usb_type_key usb_type_unknown g w prop pval
          = power_supply_get_property w d prop pval
       /\ exists s, gcpm_pps_data g = Some s
                    /\ pps_psy (get_pps_data g s) = Some d)
    /\ (gcpm_pps_psy_target g = None ->
        gcpm_pps_psy_set_property g w prop intval = (- EAGAIN, w)
        /\ exists v,
             gcpm_pps_psy_get_property usb_type_key usb_type_unknown g w prop
               pval = (0, v, w)
             /\ (v = 0
                 \/ (v = usb_type_unknown
                     /\ prop = POWER_SUPPLY_PROP_other usb_type_key)))
    /\ (forall w', gcpm_pps_psy_target (snd (fst (gcpm_pps_offline g w')))
                   = None).
Proof.
  intros usb_type_key usb_type_unknown g w prop intval pval.
  unfold gcpm_pps_psy_set_property, gcpm_pps_psy_get_property.
  split; [| split].
  - intros d T. rewrite T. split; [reflexivity |]. split; [reflexivity |].
    unfold gcpm_pps_psy_target in T.
    destruct (gcpm_pps_data g) as [s |]; [eauto | discriminate].
  - intros T. rewrite T. split; [reflexivity |].
    destruct prop; try (exists 0; split; [reflexivity | auto]).
    destruct (Z.eqb_spec key usb_type_key) as [-> | N].
    + exists usb_type_unknown. split; [reflexivity | auto].
    + exists 0. split; [reflexivity | auto].
  - intros w'. pose proof (gcpm_pps_offline_forget g w') as O.
    destruct (gcpm_pps_offline g w') as [[r g1] w1].
    destruct O as (_ & _ & P & _). cbn [fst snd].
    unfold gcpm_pps_psy_target, gcpm_pps_data. rewrite P. reflexivity.
Qed.

(** ** The registry: repeated switches, and a session from start to stop *)

(** X22. Switching the registry is idempotent: after [set_online (index)]
    has succeeded the same call again returns 0 without calling any
    charger, and so does a second [offline] after one that succeeded. *)
Theorem registry_switch_is_idempotent :
  forall (g : gcpm_drv) (w : world) (index : Z),
    (let '(r, g1, w1) := gcpm_chg_set_online g w index in
     0 <= r -> forall w', gcpm_chg_set_online g1 w' index = (0, g1, w'))
    /\ (let '(r, g1, w1) := gcpm_chg_offline g w in
        r = 0 -> forall w', gcpm_chg_offline g1 w' = (0, g1, w')).
Proof.
  intros g w index. split.
  - pose proof (gcpm_chg_set_online_forget g w index) as F.
    assert (Rg : 0 <= fst (fst (gcpm_chg_set_online g w index)) ->
                 (index <? 0) || (chg_psy_count g <=? index) = false).
    { unfold gcpm_chg_set_online.
      destruct ((index <? 0) || (chg_psy_count g <=? index)); [| auto].
      cbn. unfold ERANGE. lia. }
    destruct (gcpm_chg_set_online g w index) as [[r g1] w1]. cbn in Rg.
    destruct F as (F & _ & A & _). intros Hr w'.
    apply forget_registry_fields in F. destruct F as (_ & C & _).
    unfold gcpm_chg_set_online. rewrite C, (Rg Hr), (A Hr), Z.eqb_refl.
    reflexivity.
  - assert (N : fst (fst (gcpm_chg_offline g w)) = 0 ->
                gcpm_chg_get_active (snd (fst (gcpm_chg_offline g w))) = None).
    { unfold gcpm_chg_offline.
      destruct (gcpm_chg_get_active g) as [c |] eqn:A; [| auto].
      destruct (GPSY_SET_PROP w c GBMS_PROP_CHARGING_ENABLED 0) as [r1 w1].
      destruct (r1 =? 0) eqn:E1.
      - destruct (GPSY_SET_PROP w1 c POWER_SUPPLY_PROP_ONLINE 0) as [r2 w2].
        destruct (Z.eqb_spec r2 0); cbn; [reflexivity | congruence].
      - rewrite E1. cbn. intros K. rewrite K in E1. discriminate. }
    destruct (gcpm_chg_offline g w) as [[r g1] w1]. cbn in N.
    intros Hr w'. unfold gcpm_chg_offline. rewrite (N Hr). reflexivity.
Qed.

Lemma GPSY_SET_PROP_done w d p v :
  collaborators_succeed w ->
  exists w1,
    GPSY_SET_PROP w d p v = (0, w1)
    /\ props w1 = write_prop (props w) d p v
    /\ dc_vote w1 = dc_vote w /\ collaborators_succeed w1.
Proof.
  intros H. unfold GPSY_SET_PROP, power_supply_set_property.
  pose proof (next_answer_world w) as F.
  destruct (next_answer_succeed w H) as [R S].
  destruct (next_answer w) as [rc w1]. cbn in R, S.
  destruct F as (P & _ & V & _).
  destruct (Z.ltb_spec rc 0); [lia |]. eexists. split; [reflexivity |].
  cbn. rewrite P. auto.
Qed.

Lemma gcpm_chg_offline_done g w c :
  gcpm_chg_get_active g = Some c -> collaborators_succeed w ->
  exists w1,
    gcpm_chg_offline g w = (0, set_chg_psy_active g (-1), w1)
    /\ props w1
       = write_prop (write_prop (props w) c GBMS_PROP_CHARGING_ENABLED 0)
                    c POWER_SUPPLY_PROP_ONLINE 0
    /\ dc_vote w1 = dc_vote w /\ collaborators_succeed w1.
Proof.
  intros A H. unfold gcpm_chg_offline. rewrite A.
  destruct (GPSY_SET_PROP_done w c GBMS_PROP_CHARGING_ENABLED 0 H)
    as (w1 & -> & P1 & V1 & H1). cbn [Z.eqb].
  destruct (GPSY_SET_PROP_done w1 c POWER_SUPPLY_PROP_ONLINE 0 H1)
    as (w2 & -> & P2 & V2 & H2). cbn [Z.eqb].
  exists w2. rewrite P2, P1. repeat split; congruence.
Qed.

Lemma gcpm_chg_set_online_done g w index old a :
  0 <= index < chg_psy_count g -> index <> chg_psy_active g ->
  gcpm_chg_get_active g = Some old -> chg_psy_at g index = Some a ->
  collaborators_succeed w ->
  exists w1,
    gcpm_chg_set_online g w index = (0, set_chg_psy_active g index, w1)
    /\ props w1
       = write_prop
           (write_prop (write_prop (props w) old GBMS_PROP_CHARGING_ENABLED 0)
                       old POWER_SUPPLY_PROP_ONLINE 0)
           a POWER_SUPPLY_PROP_ONLINE 1
    /\ dc_vote w1 = dc_vote w /\ collaborators_succeed w1.
Proof.
  intros Rg Ne Ao At H. unfold gcpm_chg_set_online.
  destruct (Z.ltb_spec index 0) as [L0 | L0]; [lia |].
  destruct (Z.leb_spec (chg_psy_count g) index) as [L1 | L1]; [lia |].
  cbn [orb].
  destruct (Z.eqb_spec index (chg_psy_active g)); [contradiction |].
  rewrite At.
  destruct (gcpm_chg_offline_done g w old Ao H) as (w1 & -> & P1 & V1 & H1).
  cbn [Z.ltb Z.compare].
  destruct (GPSY_SET_PROP_done w1 a POWER_SUPPLY_PROP_ONLINE 1 H1)
    as (w2 & -> & P2 & V2 & H2). cbn [Z.ltb Z.compare].
  exists w2. rewrite P2, P1. repeat split; congruence.
Qed.

Lemma gcpm_dc_enable_done g w enabled :
  collaborators_succeed w ->
  exists r g1 w1,
    gcpm_dc_enable g w enabled = (r, g1, w1) /\ 0 <= r
    /\ forget_registry g1 = forget_registry g
    /\ chg_psy_active g1 = chg_psy_active g
    /\ props w1 = props w /\ dc_vote w1 = enabled
    /\ collaborators_succeed w1.
Proof.
  intros H.
  pose proof (gcpm_dc_enable_succeed g w enabled H) as S.
  pose proof (gcpm_dc_enable_forget g w enabled) as F.
  pose proof (gcpm_dc_enable_vote g w enabled) as V.
  pose proof (gcpm_dc_enable_props g w enabled) as P.
  destruct (gcpm_dc_enable g w enabled) as [[r g1] w1].
  destruct S as (R & H1 & _). destruct F as (F & A & _).
  destruct P as (P & _).
  exists r, g1, w1. repeat split; auto.
Qed.

(** Reading a property back from a store after a series of writes. *)
Ltac read_props :=
  repeat first
    [ rewrite write_prop_same
    | rewrite write_prop_other_psy by congruence
    | rewrite write_prop_other_key by discriminate ].

Lemma gcpm_dc_start_done g w def dc :
  chg_psy_active g = GCPM_DEFAULT_CHARGER ->
  chg_psy_at g GCPM_DEFAULT_CHARGER = Some def ->
  chg_psy_at g GCPM_INDEX_DC_ENABLE = Some dc ->
  GCPM_INDEX_DC_ENABLE < chg_psy_count g ->
  collaborators_succeed w ->
  exists g1 w1 st,
    gcpm_dc_start g w GCPM_INDEX_DC_ENABLE = (0, g1, w1)
    /\ forget_registry g1 = forget_registry g
    /\ chg_psy_active g1 = GCPM_INDEX_DC_ENABLE
    /\ dc_vote w1 = true /\ collaborators_succeed w1
    /\ props w1
       = write_prop
           (write_prop
              (write_prop
                 (write_prop st dc POWER_SUPPLY_PROP_ONLINE 1)
                 dc POWER_SUPPLY_PROP_CONSTANT_CHARGE_VOLTAGE_MAX (fv_uv g))
              dc POWER_SUPPLY_PROP_CONSTANT_CHARGE_CURRENT_MAX (cc_max g))
           dc POWER_SUPPLY_PROP_CURRENT_MAX (out_ua g)
    /\ st = write_prop
              (write_prop (props w) def GBMS_PROP_CHARGING_ENABLED 0)
              def POWER_SUPPLY_PROP_ONLINE 0.
Proof.
  intros A Ad Ac C H. unfold gcpm_dc_start.
  assert (Ao : gcpm_chg_get_active g = Some def).
  { unfold gcpm_chg_get_active. rewrite A. exact Ad. }
  destruct (gcpm_chg_set_online_done g w GCPM_INDEX_DC_ENABLE def dc)
    as (w1 & -> & P1 & V1 & H1); try assumption.
  { unfold GCPM_INDEX_DC_ENABLE in *. lia. }
  { rewrite A. discriminate. }
  cbn [Z.ltb Z.compare].
  assert (Ag : gcpm_chg_get_active (set_chg_psy_active g GCPM_INDEX_DC_ENABLE)
               = Some dc) by exact Ac.
  rewrite Ag.
  destruct (GPSY_SET_PROP_done w1 dc
              POWER_SUPPLY_PROP_CONSTANT_CHARGE_VOLTAGE_MAX
              (fv_uv (set_chg_psy_active g GCPM_INDEX_DC_ENABLE)) H1)
    as (w2 & -> & P2 & V2 & H2). cbn [Z.ltb Z.compare].
  destruct (GPSY_SET_PROP_done w2 dc
              POWER_SUPPLY_PROP_CONSTANT_CHARGE_CURRENT_MAX
              (cc_max (set_chg_psy_active g GCPM_INDEX_DC_ENABLE)) H2)
    as (w3 & -> & P3 & V3 & H3). cbn [Z.ltb Z.compare].
  destruct (GPSY_SET_PROP_done w3 dc POWER_SUPPLY_PROP_CURRENT_MAX
              (out_ua (set_chg_psy_active g GCPM_INDEX_DC_ENABLE)) H3)
    as (w4 & -> & P4 & V4 & H4). cbn [Z.ltb Z.compare].
  set (g1 := set_chg_psy_active g GCPM_INDEX_DC_ENABLE).
  pose proof (dcen_gpio_set_succeed g1 w4 1 H4) as H5.
  pose proof (dcen_gpio_set_props g1 w4 1) as P5.
  destruct (gcpm_dc_enable_done g1 (dcen_gpio_set g1 w4 1) true H5)
    as (r & g2 & w6 & -> & R & F & A6 & P6 & V6 & H6).
  destruct (Z.ltb_spec r 0); [lia |].
  exists g2, w6, (write_prop
                    (write_prop (props w) def GBMS_PROP_CHARGING_ENABLED 0)
                    def POWER_SUPPLY_PROP_ONLINE 0).
  split; [reflexivity |]. split; [rewrite F; reflexivity |].
  split; [rewrite A6; reflexivity |]. split; [exact V6 |].
  split; [exact H6 |]. split; [| reflexivity].
  rewrite P6, P5, P4, P3, P2, P1. reflexivity.
Qed.

(** X23. A DC session from start to stop.  With the default charger
    active and the charger and election calls succeeding,
    [gcpm_dc_start] takes the default charger offline, marks the DC
    charger online, programs it with the demand and the input limit of
    the driver and votes for direct charge; the [gcpm_dc_stop] that
    ends the session withdraws the vote, takes the DC charger offline
    and has the default charger online and active again, with the
    requested final state.  Charging on the default charger, stopped
    when it was taken offline, is not enabled again by the driver. *)
Theorem gcpm_dc_start_stop_round_trip :
  forall (g : gcpm_drv) (w : world) (def dc : psy) (final_state : Z),
    chg_psy_active g = GCPM_DEFAULT_CHARGER ->
    chg_psy_at g GCPM_DEFAULT_CHARGER = Some def ->
    chg_psy_at g GCPM_INDEX_DC_ENABLE = Some dc ->
    def <> dc ->
    GCPM_INDEX_DC_ENABLE < chg_psy_count g ->
    collaborators_succeed w ->
    let '(r1, g1, w1) := gcpm_dc_start g w GCPM_INDEX_DC_ENABLE in
    let '(r2, g2, w2) :=
      gcpm_dc_stop (set_dc_state g1 DC_PASSTHROUGH) w1 final_state in
    (r1 = 0 /\ chg_psy_active g1 = GCPM_INDEX_DC_ENABLE
     /\ dc_vote w1 = true
     /\ props w1 dc POWER_SUPPLY_PROP_ONLINE = 1
     /\ props w1 def POWER_SUPPLY_PROP_ONLINE = 0
     /\ props w1 dc POWER_SUPPLY_PROP_CONSTANT_CHARGE_VOLTAGE_MAX = fv_uv g
     /\ props w1 dc POWER_SUPPLY_PROP_CONSTANT_CHARGE_CURRENT_MAX = cc_max g
     /\ props w1 dc POWER_SUPPLY_PROP_CURRENT_MAX = out_ua g)
    /\ (r2 = 0 /\ dc_state g2 = final_state
        /\ chg_psy_active g2 = GCPM_DEFAULT_CHARGER
        /\ dc_vote w2 = false
        /\ props w2 def POWER_SUPPLY_PROP_ONLINE = 1
        /\ props w2 dc POWER_SUPPLY_PROP_ONLINE = 0
        /\ props w2 def GBMS_PROP_CHARGING_ENABLED = 0).
Proof.
  intros g w def dc final_state A Ad Ac Ne C H.
  destruct (gcpm_dc_start_done g w def dc A Ad Ac C H)
    as (g1 & w1 & st & -> & F1 & A1 & V1 & H1 & P1 & St).
  apply forget_registry_fields in F1.
  destruct F1 as (Av & Cn & _ & _ & _ & _ & _ & _ & _ & _ & _ & Cc & Fv & _).
  assert (S1 : 0 = 0 /\ chg_psy_active g1 = GCPM_INDEX_DC_ENABLE
               /\ dc_vote w1 = true
               /\ props w1 dc POWER_SUPPLY_PROP_ONLINE = 1
               /\ props w1 def POWER_SUPPLY_PROP_ONLINE = 0
               /\ props w1 dc POWER_SUPPLY_PROP_CONSTANT_CHARGE_VOLTAGE_MAX
                  = fv_uv g
               /\ props w1 dc POWER_SUPPLY_PROP_CONSTANT_CHARGE_CURRENT_MAX
                  = cc_max g
               /\ props w1 dc POWER_SUPPLY_PROP_CURRENT_MAX = out_ua g).
  { rewrite P1, St. repeat split; auto; read_props; reflexivity. }
  unfold gcpm_dc_stop. cbn [dc_state set_dc_state].
  change ((DC_PASSTHROUGH =? DC_RUNNING) || (DC_PASSTHROUGH =? DC_PASSTHROUGH))
    with true. cbv iota.
  set (gp := set_dc_state g1 DC_PASSTHROUGH).
  pose proof (dcen_gpio_set_succeed gp w1 0 H1) as H2.
  pose proof (dcen_gpio_set_props gp w1 0) as P2.
  destruct (gcpm_dc_enable_done gp (dcen_gpio_set gp w1 0) false H2)
    as (r & g3 & w3 & -> & R & F3 & A3 & P3 & V3 & H3).
  destruct (Z.ltb_spec r 0); [lia |].
  apply forget_registry_fields in F3.
  destruct F3 as (Av3 & Cn3 & _).
  unfold gcpm_dc_stop_default_online.
  destruct (gcpm_chg_set_online_done (set_dc_state g3 DC_ENABLE) w3
              0 dc def) as (w4 & -> & P4 & V4 & H4).
  - cbn. rewrite Cn3. cbn. rewrite Cn. unfold GCPM_DEFAULT_CHARGER,
      GCPM_INDEX_DC_ENABLE in *. lia.
  - cbn. rewrite A3. cbn. rewrite A1. discriminate.
  - unfold gcpm_chg_get_active. cbn. rewrite A3. cbn. rewrite A1.
    unfold chg_psy_at in *. cbn in *. rewrite Av3. cbn. rewrite Av. exact Ac.
  - unfold chg_psy_at in *. cbn in *. rewrite Av3. cbn. rewrite Av. exact Ad.
  - exact H3.
  - cbn [Z.ltb Z.compare]. cbn [dc_state set_dc_state chg_psy_active
      set_chg_psy_active].
    split; [exact S1 |].
    split; [reflexivity |]. split; [reflexivity |]. split; [reflexivity |].
    split; [congruence |].
    rewrite P4, P3, P2, P1, St.
    repeat split; read_props; reflexivity.
Qed.

Lemma gcpm_dc_start_stop_round_trip_witness :
  let '(r1, g1, w1) :=
    gcpm_dc_start gcpm_ready (world0 [] []) GCPM_INDEX_DC_ENABLE in
  let '(r2, g2, w2) :=
    gcpm_dc_stop (set_dc_state g1 DC_PASSTHROUGH) w1 DC_IDLE in
  (r1 = 0 /\ chg_psy_active g1 = GCPM_INDEX_DC_ENABLE
   /\ dc_vote w1 = true
   /\ props w1 1%nat POWER_SUPPLY_PROP_ONLINE = 1
   /\ props w1 0%nat POWER_SUPPLY_PROP_ONLINE = 0
   /\ props w1 1%nat POWER_SUPPLY_PROP_CONSTANT_CHARGE_VOLTAGE_MAX
      = fv_uv gcpm_ready
   /\ props w1 1%nat POWER_SUPPLY_PROP_CONSTANT_CHARGE_CURRENT_MAX
      = cc_max gcpm_ready
   /\ props w1 1%nat POWER_SUPPLY_PROP_CURRENT_MAX = out_ua gcpm_ready)
  /\ (r2 = 0 /\ dc_state g2 = DC_IDLE
      /\ chg_psy_active g2 = GCPM_DEFAULT_CHARGER
      /\ dc_vote w2 = false
      /\ props w2 0%nat POWER_SUPPLY_PROP_ONLINE = 1
      /\ props w2 1%nat POWER_SUPPLY_PROP_ONLINE = 0
      /\ props w2 0%nat GBMS_PROP_CHARGING_ENABLED = 0).
Proof.
  apply (gcpm_dc_start_stop_round_trip gcpm_ready (world0 [] []) 0%nat 1%nat
           DC_IDLE).
  - reflexivity.
  - reflexivity.
  - reflexivity.
  - discriminate.
  - reflexivity.
  - constructor.
Defined.

(** ** Start-up *)

Lemma gcpm_init_work_tcpm_spec (s : gcpm_startup) (a : init_answers) :
  let s1 := gcpm_init_work_tcpm s a in
  init_work s1 = init_work s /\
  chg_psy_retries s1 = chg_psy_retries s /\
  wlc_dc_name s1 = wlc_dc_name s /\
  wlc_dc_psy s1 = wlc_dc_psy s /\
  (0 <= log_psy_ratelimit s ->
   0 <= log_psy_ratelimit s1 <= log_psy_ratelimit s /\
   (tcpm_not_done s1 = true ->
    log_psy_ratelimit s1 < log_psy_ratelimit s)).
Proof.
  unfold gcpm_init_work_tcpm, tcpm_not_done.
  destruct (tcpm_phandle s =? 0) eqn:P; cbn [negb andb];
    [|destruct (tcpm_psy s) eqn:T; cbn [is_null];
      [|destruct (ia_tcpm_psy a) as [[d|]|]; cbn [orb];
        [| |destruct (log_psy_ratelimit s =? 0) eqn:L;
            [|apply Z.eqb_neq in L]]]];
    cbn; rewrite ?P, ?T; cbn; repeat split; intros;
    try discriminate; lia.
Qed.

Lemma gcpm_init_work_wlc_spec (s : gcpm_startup) (a : init_answers) :
  let s1 := gcpm_init_work_wlc s a in
  init_work s1 = init_work s /\
  chg_psy_retries s1 = chg_psy_retries s /\
  tcpm_phandle s1 = tcpm_phandle s /\
  tcpm_psy s1 = tcpm_psy s /\
  chg_psy_avail (drv s1) = chg_psy_avail (drv s) /\
  chg_psy_count (drv s1) = chg_psy_count (drv s) /\
  (0 <= log_psy_ratelimit s ->
   0 <= log_psy_ratelimit s1 <= log_psy_ratelimit s /\
   (wlc_not_done s1 = true ->
    log_psy_ratelimit s1 < log_psy_ratelimit s)).
Proof.
  unfold gcpm_init_work_wlc, wlc_not_done.
  destruct (wlc_dc_name s) eqn:P; cbn [andb];
    [destruct (wlc_dc_psy s) eqn:T; cbn [is_null];
      [|destruct (ia_wlc_dc_psy a) as [d|];
        [|destruct (log_psy_ratelimit s =? 0) eqn:L;
          [|apply Z.eqb_neq in L]]]|];
    cbn; rewrite ?P, ?T; cbn; repeat split; intros;
    try discriminate; lia.
Qed.

(** One run: the two counters stay non-negative, and a run that queues
    the next one has used up a retry or a log slot. *)
Lemma gcpm_init_work_measure (s : gcpm_startup) (a : init_answers) :
  0 <= chg_psy_retries s -> 0 <= log_psy_ratelimit s ->
  let s1 := gcpm_init_work (set_init_work s None) a in
  0 <= chg_psy_retries s1 /\ 0 <= log_psy_ratelimit s1 /\
  match init_work s1 with
  | Some _ =>
      chg_psy_retries s1 + log_psy_ratelimit s1
      < chg_psy_retries s + log_psy_ratelimit s
  | None => dc_init_complete (drv s1) = true
  end.
Proof.
  intros R L. unfold gcpm_init_work.
  pose proof (gcpm_init_work_tcpm_spec (set_init_work s None) a) as T.
  set (s1 := gcpm_init_work_tcpm (set_init_work s None) a) in *.
  pose proof (gcpm_init_work_wlc_spec s1 a) as W.
  set (s2 := gcpm_init_work_wlc s1 a) in *.
  cbv zeta in T, W. cbn [set_init_work init_work chg_psy_retries
    log_psy_ratelimit wlc_dc_name wlc_dc_psy] in T.
  destruct T as (T1 & T2 & T3 & T4 & T5). specialize (T5 L).
  destruct T5 as (T5 & T6).
  destruct W as (W1 & W2 & W3 & W4 & _ & _ & W5).
  assert (L1 : 0 <= log_psy_ratelimit s1) by lia.
  specialize (W5 L1). destruct W5 as (W5 & W6).
  assert (Tn : tcpm_not_done s2 = tcpm_not_done s1)
    by (unfold tcpm_not_done; rewrite W3, W4; reflexivity).
  destruct (gcpm_init_work_chargers _ _ _ _) as [avail found].
  match goal with
  | |- context [set_chg_psy_retries s2 ?r] => set (retries := r)
  end.
  set (g2 := match chg_psy_at _ 0 with Some _ => _ | None => _ end).
  assert (Rr : 0 <= retries <= chg_psy_retries s /\
               (retries <> 0 -> retries < chg_psy_retries s)).
  { subst retries. destruct (found =? _).
    - lia.
    - destruct (chg_psy_retries s2 =? 0) eqn:Z; cbn [negb];
        [apply Z.eqb_eq in Z | apply Z.eqb_neq in Z]; lia. }
  change (negb (tcpm_phandle (set_chg_psy_retries s2 retries) =? 0)
          && is_null (tcpm_psy (set_chg_psy_retries s2 retries)))
    with (tcpm_not_done s2).
  change (wlc_dc_name (set_chg_psy_retries s2 retries)
          && is_null (wlc_dc_psy (set_chg_psy_retries s2 retries)))
    with (wlc_not_done s2).
  destruct (negb (retries =? 0) || (tcpm_not_done s2 || wlc_not_done s2))
    eqn:Q.
  - cbn [set_init_work set_drv set_chg_psy_retries init_work
      chg_psy_retries log_psy_ratelimit].
    assert (I : init_work s2 = None) by congruence. rewrite I.
    repeat split; try lia.
    apply orb_true_iff in Q. destruct Q as [Q | Q].
    + apply negb_true_iff, Z.eqb_neq in Q. lia.
    + apply orb_true_iff in Q. destruct Q as [Q | Q].
      * rewrite Tn in Q. specialize (T6 Q). lia.
      * specialize (W6 Q).
        destruct (Z.eq_dec retries 0); lia.
  - cbn [set_init_work set_drv set_chg_psy_retries init_work
      chg_psy_retries log_psy_ratelimit drv].
    assert (I : init_work s2 = None) by congruence. rewrite I.
    repeat split; try lia.
Qed.

(** The detection ends: from non-negative counters, more runs than
    their sum leave the work off the queue, and a detection that was
    queued is complete. *)
Lemma gcpm_init_runs_terminate (answers : list init_answers) :
  forall s : gcpm_startup,
    0 <= chg_psy_retries s -> 0 <= log_psy_ratelimit s ->
    chg_psy_retries s + log_psy_ratelimit s < Z.of_nat (length answers) ->
    init_work (gcpm_init_runs s answers) = None /\
    (init_work s <> None ->
     dc_init_complete (drv (gcpm_init_runs s answers)) = true).
Proof.
  induction answers as [|a rest IH]; intros s R L B.
  - cbn [length] in B. lia.
  - cbn [gcpm_init_runs]. destruct (init_work s) eqn:I.
    + pose proof (gcpm_init_work_measure s a R L) as M. cbv zeta in M.
      destruct M as (R1 & L1 & M).
      set (s1 := gcpm_init_work (set_init_work s None) a) in *.
      destruct (init_work s1) eqn:I1.
      * assert (B1 : chg_psy_retries s1 + log_psy_ratelimit s1
                     < Z.of_nat (length rest))
          by (cbn [length] in B; lia).
        destruct (IH s1 R1 L1 B1) as (F1 & F2). split; [exact F1|].
        intros _. apply F2. congruence.
      * destruct rest as [|b rest1]; cbn [gcpm_init_runs];
          [|rewrite I1]; (split; [exact I1 | intros _; exact M]).
    + split; [exact I | congruence].
Qed.

(** The two blocks on the PPS sources leave the registry and the
    readiness as they are. *)
Lemma gcpm_init_work_sources_drv (s : gcpm_startup) (a : init_answers) :
  let g := drv (gcpm_init_work_wlc (gcpm_init_work_tcpm s a) a) in
  chg_psy_avail g = chg_psy_avail (drv s) /\
  chg_psy_count g = chg_psy_count (drv s) /\
  init_complete g = init_complete (drv s) /\
  resume_complete g = resume_complete (drv s).
Proof.
  unfold gcpm_init_work_wlc, gcpm_init_work_tcpm.
  destruct (negb (tcpm_phandle s =? 0) && is_null (tcpm_psy s));
    [destruct (ia_tcpm_psy a) as [[d|]|]; cbn [orb];
      [| |destruct (log_psy_ratelimit s =? 0)]|];
    match goal with
    | |- context [wlc_dc_name ?x && is_null (wlc_dc_psy ?x)] =>
        destruct (wlc_dc_name x && is_null (wlc_dc_psy x));
          [destruct (ia_wlc_dc_psy a);
            [|destruct (log_psy_ratelimit x =? 0)]|]
    end; cbn; auto.
Qed.

(** The loop over the chargers fills the missing entries below [n] from
    the lookup and keeps every other entry. *)
Lemma gcpm_init_work_chargers_nth (lookup : Z -> option psy) :
  forall (n : nat) (avail : list (option psy)) (i : Z) (k : nat),
    nth k (fst (gcpm_init_work_chargers lookup avail i n)) None
    = if (k <? n)%nat && (k <? length avail)%nat
      then match nth k avail None with
           | Some d => Some d
           | None => lookup (i + Z.of_nat k)
           end
      else nth k avail None.
Proof.
  induction n as [|n IH]; intros avail i k.
  - destruct avail; reflexivity.
  - destruct avail as [|e rest].
    + cbn [gcpm_init_work_chargers fst length].
      rewrite andb_false_r. reflexivity.
    + cbn [gcpm_init_work_chargers]. specialize (IH rest (i + 1)).
      destruct (gcpm_init_work_chargers lookup rest (i + 1) n)
        as [rest1 found] eqn:C.
      cbn [fst] in *. destruct k as [|k].
      * cbn [nth length]. cbn. rewrite Z.add_0_r.
        destruct e; reflexivity.
      * cbn [nth length]. rewrite IH.
        change (S k <? S n)%nat with (k <? n)%nat.
        change (S k <? S (length rest))%nat with (k <? length rest)%nat.
        replace (i + 1 + Z.of_nat k) with (i + Z.of_nat (S k)) by lia.
        reflexivity.
Qed.

(** The driver state after one run of [gcpm_init_work]. *)
Lemma gcpm_init_work_drv (s : gcpm_startup) (a : init_answers) :
  let g := drv (gcpm_init_work s a) in
  let avail :=
    fst (gcpm_init_work_chargers (ia_chg_psy a) (chg_psy_avail (drv s)) 0
           (Z.to_nat (chg_psy_count (drv s)))) in
  chg_psy_avail g = avail /\
  chg_psy_count g = chg_psy_count (drv s) /\
  init_complete g = init_complete (drv s) || negb (is_null (nth 0 avail None)) /\
  resume_complete g
  = resume_complete (drv s) || negb (is_null (nth 0 avail None)).
Proof.
  cbv zeta. unfold gcpm_init_work.
  destruct (gcpm_init_work_sources_drv s a) as (A & C & I & R).
  set (s2 := gcpm_init_work_wlc (gcpm_init_work_tcpm s a) a) in *.
  rewrite A, C.
  destruct (gcpm_init_work_chargers _ _ _ _) as [avail found].
  cbn [fst].
  assert (E : chg_psy_at (set_chg_psy_avail (drv s2) avail) 0
              = nth 0 avail None) by reflexivity.
  rewrite E.
  match goal with
  | |- context [if ?b then set_init_work _ _ else _] => destruct b
  end; destruct (nth 0 avail None); cbn; rewrite ?I, ?R, ?C, ?orb_true_r,
    ?orb_false_r; auto.
Qed.

(** X24. One run of [gcpm_init_work] on a registry of
    [GCPM_MAX_CHARGERS] entries looks up by name exactly the chargers
    below [chg_psy_count] that are still missing: a charger found
    earlier is kept, an entry at or above the count is not touched. *)
Theorem gcpm_init_work_registry (s : gcpm_startup) (a : init_answers)
  (i : Z) :
  Z.of_nat (length (chg_psy_avail (drv s))) = GCPM_MAX_CHARGERS ->
  chg_psy_count (drv s) <= GCPM_MAX_CHARGERS ->
  chg_psy_at (drv (gcpm_init_work s a)) i
  = chg_psy_looked_up (ia_chg_psy a) (drv s) i.
Proof.
  intros Len Cnt.
  destruct (gcpm_init_work_drv s a) as (A & C & _).
  unfold chg_psy_looked_up, chg_psy_at. rewrite A.
  destruct (i <? 0) eqn:N.
  - apply Z.ltb_lt in N.
    replace (0 <=? i) with false by (symmetry; apply Z.leb_gt; lia).
    reflexivity.
  - apply Z.ltb_ge in N.
    replace (0 <=? i) with true by (symmetry; apply Z.leb_le; lia).
    rewrite gcpm_init_work_chargers_nth. cbn [andb].
    rewrite Z2Nat.id by lia. rewrite Z.add_0_l.
    destruct (i <? chg_psy_count (drv s)) eqn:B.
    + apply Z.ltb_lt in B.
      replace (Z.to_nat i <? Z.to_nat (chg_psy_count (drv s)))%nat
        with true by (symmetry; apply Nat.ltb_lt; lia).
      replace (Z.to_nat i <? length (chg_psy_avail (drv s)))%nat
        with true by (symmetry; apply Nat.ltb_lt; lia).
      reflexivity.
    + apply Z.ltb_ge in B.
      replace (Z.to_nat i <? Z.to_nat (chg_psy_count (drv s)))%nat
        with false by (symmetry; apply Nat.ltb_ge; lia).
      reflexivity.
Qed.

Lemma gcpm_init_work_registry_witness :
  chg_psy_at (drv (gcpm_init_work startup_probed init_default_only)) 0
  = chg_psy_looked_up (ia_chg_psy init_default_only) (drv startup_probed) 0.
Proof.
  apply (gcpm_init_work_registry startup_probed init_default_only 0);
    vm_compute; [reflexivity | discriminate].
Defined.

(** X25. A run of [gcpm_init_work] makes the driver ready exactly when
    the default charger, index 0, is there at its end; whether the
    other chargers and the PPS sources are found has no part in it, and
    a run never takes the readiness back. *)
Theorem gcpm_init_work_ready (s : gcpm_startup) (a : init_answers) :
  0 < chg_psy_count (drv s) <= GCPM_MAX_CHARGERS ->
  Z.of_nat (length (chg_psy_avail (drv s))) = GCPM_MAX_CHARGERS ->
  let g := drv (gcpm_init_work s a) in
  let found :=
    negb (is_null (gcpm_chg_get_default (drv s)))
    || negb (is_null (ia_chg_psy a GCPM_DEFAULT_CHARGER)) in
  negb (is_null (gcpm_chg_get_default g)) = found /\
  init_complete g = init_complete (drv s) || found /\
  resume_complete g = resume_complete (drv s) || found.
Proof.
  intros Cnt Len. cbv zeta.
  destruct (gcpm_init_work_drv s a) as (A & C & I & R).
  rewrite I, R. unfold gcpm_chg_get_default, chg_psy_at, GCPM_DEFAULT_CHARGER.
  cbn [Z.ltb Z.compare Z.to_nat]. rewrite A.
  rewrite gcpm_init_work_chargers_nth.
  replace (0 <? Z.to_nat (chg_psy_count (drv s)))%nat
    with true by (symmetry; apply Nat.ltb_lt; lia).
  replace (0 <? length (chg_psy_avail (drv s)))%nat
    with true by (symmetry; apply Nat.ltb_lt;
                  unfold GCPM_MAX_CHARGERS in Len; lia).
  cbn [andb Z.of_nat Z.add].
  destruct (nth 0 (chg_psy_avail (drv s)) None); cbn [is_null negb orb];
    auto.
Qed.

Lemma gcpm_init_work_ready_witness :
  let g := drv (gcpm_init_work startup_probed init_default_only) in
  negb (is_null (gcpm_chg_get_default g)) = true /\
  init_complete g = true /\ resume_complete g = true.
Proof.
  apply (gcpm_init_work_ready startup_probed init_default_only);
    vm_compute; [split; [reflexivity | discriminate] | reflexivity].
Defined.

(** What a probe that hands out driver data has set. *)
Lemma google_cpm_probe_ok (zeroed : pd_pps_data) (dt : device_tree)
  (w w1 : world) (ret : Z) (s : gcpm_startup) :
  google_cpm_probe zeroed dt w = (ret, Some s, w1) ->
  ret = 0 /\
  init_work s = Some INIT_DELAY_MS /\
  chg_psy_retries s = 10 /\
  log_psy_ratelimit s = LOG_PSY_RATELIMIT_CNT /\
  chg_psy_count (drv s) = dt_chg_count dt /\
  0 < dt_chg_count dt <= GCPM_MAX_CHARGERS /\
  chg_psy_avail (drv s) = [None; None; None; None] /\
  (init_complete (drv s) = false /\ resume_complete (drv s) = false /\
   dc_init_complete (drv s) = false) /\
  google_cpm_probe_limits dt
  = (dc_limit_demand (drv s), dc_limit_vbatt_min (drv s),
     dc_limit_vbatt_low (drv s), dc_limit_vbatt_max (drv s),
     dc_limit_vbatt_high (drv s)).
Proof.
  unfold google_cpm_probe.
  destruct (negb (dt_alloc dt)); [discriminate|].
  destruct (match dt_psy_name dt with Some false => true | _ => false end);
    [discriminate|].
  destruct (gcpm_probe_psy_names dt true <=? 0) eqn:C; [discriminate|].
  destruct (match dt_wlc_dc_name dt with Some false => true | _ => false end);
    [discriminate|].
  destruct (google_cpm_probe_limits dt) as [[[[demand vmin] vlow] vmax] vhigh].
  destruct (dt_register dt <? 0); [discriminate|].
  destruct (dt_register_pps dt <? 0); [discriminate|].
  intros E. injection E as <- <- <-. cbn.
  apply Z.leb_gt in C. revert C. unfold gcpm_probe_psy_names.
  cbn [negb]. unfold ERANGE, GCPM_MAX_CHARGERS.
  destruct (dt_chg_count dt <=? 0) eqn:A; cbn [orb]; [lia|].
  destruct (4 <? dt_chg_count dt) eqn:B; [lia|].
  destruct (negb (dt_chg_read dt =? dt_chg_count dt)); [lia|].
  apply Z.leb_gt in A. apply Z.ltb_ge in B. intros _.
  repeat split; auto; lia.
Qed.

Lemma to_u32_range (z : Z) : 0 <= to_u32 z < 2 ^ 32.
Proof. unfold to_u32. apply Z.mod_pos_bound. lia. Qed.

(** A threshold derived from another one by subtracting a margin, in
    32 bits without sign, and then capped at that other one. *)
Lemma probe_margin (v delta : Z) :
  0 <= v < 2 ^ 32 -> 0 <= delta < 2 ^ 32 ->
  (if v <? to_u32 (v - delta) then v else to_u32 (v - delta))
  = if v <? delta then v else v - delta.
Proof.
  intros V D. unfold to_u32.
  destruct (v <? delta) eqn:L.
  - apply Z.ltb_lt in L.
    replace ((v - delta) mod 2 ^ 32) with (v - delta + 2 ^ 32)
      by (apply Z.mod_unique with (q := -1); lia).
    replace (v <? v - delta + 2 ^ 32) with true
      by (symmetry; apply Z.ltb_lt; lia).
    reflexivity.
  - apply Z.ltb_ge in L. rewrite Z.mod_small by lia.
    replace (v <? v - delta) with false by (symmetry; apply Z.ltb_ge; lia).
    reflexivity.
Qed.

(** X26. The thresholds a successful [google_cpm_probe] leaves are
    ordered, [vbatt_low] at most [vbatt_min] and [vbatt_high] at most
    [vbatt_max], whatever the device tree gives.  A [vbatt_low] that the
    device tree leaves out is [vbatt_min] less 200 mV, and [vbatt_min]
    itself when that is below 200 mV; likewise [vbatt_high] is
    [vbatt_max] less 50 mV, and [vbatt_max] itself below 50 mV. *)
Theorem google_cpm_probe_thresholds (zeroed : pd_pps_data)
  (dt : device_tree) (w w1 : world) (s : gcpm_startup) :
  google_cpm_probe zeroed dt w = (0, Some s, w1) ->
  let g := drv s in
  dc_limit_vbatt_low g <= dc_limit_vbatt_min g /\
  dc_limit_vbatt_high g <= dc_limit_vbatt_max g /\
  (dt_dc_limit_vbatt_low dt = None ->
   dc_limit_vbatt_low g
   = if dc_limit_vbatt_min g <? GCPM_DEFAULT_DC_LIMIT_DELTA_LOW
     then dc_limit_vbatt_min g
     else dc_limit_vbatt_min g - GCPM_DEFAULT_DC_LIMIT_DELTA_LOW) /\
  (dt_dc_limit_vbatt_high dt = None ->
   dc_limit_vbatt_high g
   = if dc_limit_vbatt_max g <? GCPM_DEFAULT_DC_LIMIT_DELTA_HIGH
     then dc_limit_vbatt_max g
     else dc_limit_vbatt_max g - GCPM_DEFAULT_DC_LIMIT_DELTA_HIGH).
Proof.
  intros P. apply google_cpm_probe_ok in P.
  destruct P as (_ & _ & _ & _ & _ & _ & _ & _ & L). cbv zeta.
  unfold google_cpm_probe_limits in L.
  injection L as _ Emin Elow Emax Ehigh.
  assert (Rmin : 0 <= dc_limit_vbatt_min (drv s) < 2 ^ 32).
  { rewrite <- Emin. destruct (dt_dc_limit_vbatt_min dt);
      [apply to_u32_range | unfold GCPM_DEFAULT_DC_LIMIT_VBATT_MIN; lia]. }
  assert (Rmax : 0 <= dc_limit_vbatt_max (drv s) < 2 ^ 32).
  { rewrite <- Emax. destruct (dt_dc_limit_vbatt_max dt);
      [apply to_u32_range | unfold GCPM_DEFAULT_DC_LIMIT_VBATT_MAX; lia]. }
  rewrite Emin in Elow. rewrite Emax in Ehigh.
  assert (Dl : 0 <= GCPM_DEFAULT_DC_LIMIT_DELTA_LOW < 2 ^ 32)
    by (unfold GCPM_DEFAULT_DC_LIMIT_DELTA_LOW; lia).
  assert (Dh : 0 <= GCPM_DEFAULT_DC_LIMIT_DELTA_HIGH < 2 ^ 32)
    by (unfold GCPM_DEFAULT_DC_LIMIT_DELTA_HIGH; lia).
  repeat split.
  - rewrite <- Elow.
    match goal with
    | |- (if ?a <? ?b then _ else _) <= _ =>
        destruct (a <? b) eqn:Q;
          [|apply Z.ltb_ge in Q]; lia
    end.
  - rewrite <- Ehigh.
    match goal with
    | |- (if ?a <? ?b then _ else _) <= _ =>
        destruct (a <? b) eqn:Q;
          [|apply Z.ltb_ge in Q]; lia
    end.
  - intros N. rewrite N in Elow. rewrite <- Elow.
    apply probe_margin; assumption.
  - intros N. rewrite N in Ehigh. rewrite <- Ehigh.
    apply probe_margin; assumption.
Qed.

Lemma google_cpm_probe_thresholds_witness :
  let g := gcpm_probed in
  dc_limit_vbatt_low g <= dc_limit_vbatt_min g /\
  dc_limit_vbatt_high g <= dc_limit_vbatt_max g /\
  (@None Z = None ->
   dc_limit_vbatt_low g
   = if dc_limit_vbatt_min g <? GCPM_DEFAULT_DC_LIMIT_DELTA_LOW
     then dc_limit_vbatt_min g
     else dc_limit_vbatt_min g - GCPM_DEFAULT_DC_LIMIT_DELTA_LOW) /\
  (@None Z = None ->
   dc_limit_vbatt_high g
   = if dc_limit_vbatt_max g <? GCPM_DEFAULT_DC_LIMIT_DELTA_HIGH
     then dc_limit_vbatt_max g
     else dc_limit_vbatt_max g - GCPM_DEFAULT_DC_LIMIT_DELTA_HIGH).
Proof.
  apply (google_cpm_probe_thresholds (pps_session PPS_DISABLED None)
           device_tree0 (world0 [] []) (world0 [] []) startup_probed).
  vm_compute. reflexivity.
Defined.

(** X27. [google_cpm_probe] answers 0 and hands out driver data
    exactly when the allocations succeed, the list of chargers has
    between 1 and [GCPM_MAX_CHARGERS] names that are all read, and both
    supplies are registered.  Otherwise it hands out none, and the
    first of these failures decides the code: -ENOMEM for the driver
    data or the copy of the name, -ENODEV for a list of chargers that is
    missing, too long or not read in full, -ENOMEM for the copy of the
    name of the wireless supply, and for a supply that is not
    registered -EPROBE_DEFER when that is the code of the registration
    and -ENODEV for every other one.  After a successful probe the count
    of chargers is that of the device tree, no charger is registered,
    the driver is not ready and the first detection run is queued
    [INIT_DELAY_MS] later. *)
Theorem google_cpm_probe_result (zeroed : pd_pps_data) (dt : device_tree)
  (w : world) :
  let '(ret, drvdata, _) := google_cpm_probe zeroed dt w in
  match drvdata with
  | Some s =>
      ret = 0
      /\ (probe_alloc_ok dt /\ probe_names_ok dt /\ probe_wlc_ok dt
          /\ 0 <= dt_register dt /\ 0 <= dt_register_pps dt)
      /\ chg_psy_count (drv s) = dt_chg_count dt
      /\ (forall i : Z, chg_psy_at (drv s) i = None)
      /\ init_complete (drv s) = false
      /\ dc_init_complete (drv s) = false
      /\ init_work s = Some INIT_DELAY_MS
  | None =>
      (~ probe_alloc_ok dt /\ ret = - ENOMEM)
      \/ (probe_alloc_ok dt /\ ~ probe_names_ok dt /\ ret = - ENODEV)
      \/ (probe_alloc_ok dt /\ probe_names_ok dt /\ ~ probe_wlc_ok dt
          /\ ret = - ENOMEM)
      \/ (probe_alloc_ok dt /\ probe_names_ok dt /\ probe_wlc_ok dt
          /\ probe_not_registered (dt_register dt) ret)
      \/ (probe_alloc_ok dt /\ probe_names_ok dt /\ probe_wlc_ok dt
          /\ 0 <= dt_register dt
          /\ probe_not_registered (dt_register_pps dt) ret)
  end.
Proof.
  unfold probe_alloc_ok, probe_names_ok, probe_wlc_ok, probe_not_registered.
  assert (Names : (gcpm_probe_psy_names dt true <=? 0) = false
                  <-> (0 < dt_chg_count dt <= GCPM_MAX_CHARGERS
                       /\ dt_chg_read dt = dt_chg_count dt)).
  { unfold gcpm_probe_psy_names, GCPM_MAX_CHARGERS, ERANGE. cbn [negb].
    destruct (Z.leb_spec (dt_chg_count dt) 0); cbn [orb];
      [split; [discriminate | lia] |].
    destruct (Z.ltb_spec 4 (dt_chg_count dt));
      [split; [discriminate | lia] |].
    destruct (Z.eqb_spec (dt_chg_read dt) (dt_chg_count dt)); cbn [negb];
      [| split; [discriminate | lia]].
    split; [lia |]. intros _. apply Z.leb_gt. lia. }
  assert (Reg : forall rc,
             rc < 0 ->
             (rc = - EPROBE_DEFER /\ probe_register_error rc = - EPROBE_DEFER)
             \/ (rc <> - EPROBE_DEFER /\ probe_register_error rc = - ENODEV)).
  { intros rc _. unfold probe_register_error.
    destruct (Z.eqb_spec rc (- EPROBE_DEFER)); auto. }
  destruct (google_cpm_probe zeroed dt w) as [[ret drvdata] w1] eqn:P.
  revert P. unfold google_cpm_probe.
  destruct (dt_alloc dt) eqn:Al; cbn [negb].
  2:{ intros E. injection E as <- <- _. left.
      split; [intros [K _]; discriminate K | reflexivity]. }
  assert (Pn : dt_psy_name dt = Some false \/ dt_psy_name dt <> Some false).
  { destruct (dt_psy_name dt) as [[|] |]; [right | left | right];
      (reflexivity || discriminate). }
  destruct Pn as [Pn | Pn].
  { rewrite Pn. intros E. injection E as <- <- _. left.
    split; [intros [_ K]; exact (K eq_refl) | reflexivity]. }
  replace (match dt_psy_name dt with Some false => true | _ => false end)
    with false
    by (destruct (dt_psy_name dt) as [[|] |]; [| destruct (Pn eq_refl) |];
        reflexivity).
  destruct (gcpm_probe_psy_names dt true <=? 0) eqn:C.
  { intros E. injection E as <- <- _. right; left.
    split; [auto |]. split; [| reflexivity].
    intros K. apply Names in K. congruence. }
  pose proof (proj1 Names eq_refl) as Nm.
  assert (Wn : dt_wlc_dc_name dt = Some false
               \/ dt_wlc_dc_name dt <> Some false).
  { destruct (dt_wlc_dc_name dt) as [[|] |]; [right | left | right];
      (reflexivity || discriminate). }
  destruct Wn as [Wn | Wn].
  { rewrite Wn. intros E. injection E as <- <- _. right; right; left.
    split; [auto |]. split; [exact Nm |]. split; [| reflexivity].
    intros K. exact (K eq_refl). }
  replace (match dt_wlc_dc_name dt with Some false => true | _ => false end)
    with false
    by (destruct (dt_wlc_dc_name dt) as [[|] |]; [| destruct (Wn eq_refl) |];
        reflexivity).
  destruct (google_cpm_probe_limits dt) as [[[[demand vmin] vlow] vmax] vhigh].
  destruct (Z.ltb_spec (dt_register dt) 0) as [R1 | R1].
  { intros E. injection E as <- <- _. right; right; right; left.
    split; [auto |]. split; [exact Nm |]. split; [exact Wn |].
    split; [exact R1 | exact (Reg _ R1)]. }
  destruct (Z.ltb_spec (dt_register_pps dt) 0) as [R2 | R2].
  { intros E. injection E as <- <- _. right; right; right; right.
    split; [auto |]. split; [exact Nm |]. split; [exact Wn |].
    split; [exact R1 |]. split; [exact R2 | exact (Reg _ R2)]. }
  intros E. injection E as <- <- _.
  split; [reflexivity |].
  split; [split; [auto | split; [exact Nm | split; [exact Wn | lia]]] |].
  cbn [drv chg_psy_count init_complete dc_init_complete init_work].
  split.
  { unfold gcpm_probe_psy_names. cbn [negb].
    destruct Nm as [Nm1 Nm2]. unfold GCPM_MAX_CHARGERS in Nm1.
    replace ((dt_chg_count dt <=? 0) || (GCPM_MAX_CHARGERS <? dt_chg_count dt))
      with false
      by (symmetry; apply orb_false_iff; unfold GCPM_MAX_CHARGERS; split;
          [apply Z.leb_gt | apply Z.ltb_ge]; lia).
    rewrite Nm2, Z.eqb_refl. reflexivity. }
  split; [| repeat split; reflexivity].
  intros i. unfold chg_psy_at. cbn [chg_psy_avail].
  destruct (i <? 0); [reflexivity |].
  destruct (Z.to_nat i) as [| [| [| [| [| k]]]]]; reflexivity.
Qed.

(** X28. The detection of the supplies ends: after a successful
    [google_cpm_probe], whatever the kernel answers to the lookups, at
    most 211 runs of [gcpm_init_work] take place; after them the work is
    no longer queued and [dc_init_complete] is set. *)
Theorem gcpm_init_work_ends (zeroed : pd_pps_data) (dt : device_tree)
  (w w1 : world) (s : gcpm_startup) (answers : list init_answers) :
  google_cpm_probe zeroed dt w = (0, Some s, w1) ->
  (211 <= length answers)%nat ->
  init_work (gcpm_init_runs s answers) = None /\
  dc_init_complete (drv (gcpm_init_runs s answers)) = true.
Proof.
  intros P N. apply google_cpm_probe_ok in P.
  destruct P as (_ & I & R & L & _).
  destruct (gcpm_init_runs_terminate answers s) as (F1 & F2).
  - lia.
  - rewrite L. unfold LOG_PSY_RATELIMIT_CNT. lia.
  - rewrite R, L. unfold LOG_PSY_RATELIMIT_CNT. lia.
  - split; [exact F1 | apply F2; congruence].
Qed.

Lemma gcpm_init_work_ends_witness :
  init_work (gcpm_init_runs startup_probed (repeat init_nothing 211)) = None /\
  dc_init_complete
    (drv (gcpm_init_runs startup_probed (repeat init_nothing 211))) = true.
Proof.
  apply (gcpm_init_work_ends (pps_session PPS_DISABLED None)
           device_tree0 (world0 [] []) (world0 [] []) startup_probed
           (repeat init_nothing 211)).
  - vm_compute. reflexivity.
  - rewrite repeat_length. apply le_n.
Defined.

(** ** The registry names a registered source from the probe on *)

Lemma chg_psy_at_avail g g1 index :
  chg_psy_avail g1 = chg_psy_avail g -> chg_psy_at g1 index = chg_psy_at g index.
Proof. unfold chg_psy_at. intros ->. reflexivity. Qed.

(** A step that leaves the array of sources alone and keeps the active
    designation, clears it, or moves it to a registered source. *)
Lemma active_registered_step g g1 index :
  chg_psy_avail g1 = chg_psy_avail g ->
  chg_psy_active g1 = chg_psy_active g \/ chg_psy_active g1 = -1
  \/ (chg_psy_active g1 = index /\ chg_psy_at g index <> None) ->
  active_registered g -> active_registered g1.
Proof.
  unfold active_registered. intros Av [E | [E | [E N]]] R.
  - rewrite E, (chg_psy_at_avail g g1 _ Av). exact R.
  - left. exact E.
  - right. rewrite E, (chg_psy_at_avail g g1 _ Av). exact N.
Qed.

Lemma gcpm_chg_offline_active g w :
  let '(r, g1, w1) := gcpm_chg_offline g w in
  chg_psy_avail g1 = chg_psy_avail g
  /\ init_complete g1 = init_complete g
  /\ (chg_psy_active g1 = chg_psy_active g \/ chg_psy_active g1 = -1).
Proof.
  pose proof (gcpm_chg_offline_forget g w) as F.
  destruct (gcpm_chg_offline g w) as [[r g1] w1].
  destruct F as (F & A & _).
  destruct (forget_registry_fields g g1 F)
    as (Av & _ & _ & _ & _ & _ & _ & _ & _ & _ & _ & _ & _ & _ & I & _).
  auto.
Qed.

Lemma gcpm_chg_set_online_active g w index :
  let '(r, g1, w1) := gcpm_chg_set_online g w index in
  chg_psy_avail g1 = chg_psy_avail g
  /\ init_complete g1 = init_complete g
  /\ (chg_psy_active g1 = chg_psy_active g \/ chg_psy_active g1 = -1
      \/ (chg_psy_active g1 = index /\ chg_psy_at g index <> None)).
Proof.
  unfold gcpm_chg_set_online.
  destruct ((index <? 0) || (chg_psy_count g <=? index)); [auto |].
  destruct (index =? chg_psy_active g); [auto |].
  destruct (chg_psy_at g index) as [a |] eqn:At; [| auto].
  pose proof (gcpm_chg_offline_active g w) as O.
  destruct (gcpm_chg_offline g w) as [[r1 g1] w1].
  destruct O as (Av & I & A).
  destruct (r1 <? 0); [intuition auto |].
  destruct (GPSY_SET_PROP w1 a POWER_SUPPLY_PROP_ONLINE 1) as [r2 w2].
  destruct (r2 <? 0); [intuition auto |].
  cbn. split; [exact Av | split; [exact I |]].
  right; right. split; [reflexivity | discriminate].
Qed.

Lemma gcpm_dc_enable_active g w enabled :
  let '(r, g1, w1) := gcpm_dc_enable g w enabled in
  chg_psy_avail g1 = chg_psy_avail g
  /\ init_complete g1 = init_complete g
  /\ chg_psy_active g1 = chg_psy_active g.
Proof.
  pose proof (gcpm_dc_enable_forget g w enabled) as F.
  destruct (gcpm_dc_enable g w enabled) as [[r g1] w1].
  destruct F as (F & A & _).
  destruct (forget_registry_fields g g1 F)
    as (Av & _ & _ & _ & _ & _ & _ & _ & _ & _ & _ & _ & _ & _ & I & _).
  auto.
Qed.

(** Each operation of the arbiter keeps the registry in such a state,
    and leaves [init_complete] alone. *)
Lemma run_op_registered op g w :
  active_registered g ->
  active_registered (fst (run_op op g w))
  /\ init_complete (fst (run_op op g w)) = init_complete g.
Proof.
  intros R. destruct op as [index | | index | final_state | index];
    cbn [run_op].
  - pose proof (gcpm_chg_set_online_active g w index) as S.
    destruct (gcpm_chg_set_online g w index) as [[r g1] w1].
    destruct S as (Av & I & A). cbn [fst].
    split; [exact (active_registered_step g g1 index Av A R) | exact I].
  - pose proof (gcpm_chg_offline_active g w) as S.
    destruct (gcpm_chg_offline g w) as [[r g1] w1].
    destruct S as (Av & I & A). cbn [fst].
    split; [| exact I].
    apply (active_registered_step g g1 0 Av); [tauto | exact R].
  - unfold gcpm_dc_start.
    pose proof (gcpm_chg_set_online_active g w index) as S.
    destruct (gcpm_chg_set_online g w index) as [[r g1] w1].
    destruct S as (Av & I & A).
    assert (R1 : active_registered g1)
      by exact (active_registered_step g g1 index Av A R).
    destruct (r <? 0); [auto |].
    destruct (gcpm_chg_get_active g1) as [dc |]; [| auto].
    destruct (GPSY_SET_PROP w1 dc _ (fv_uv g1)) as [r2 w2].
    destruct (r2 <? 0); [auto |].
    destruct (GPSY_SET_PROP w2 dc _ (cc_max g1)) as [r3 w3].
    destruct (r3 <? 0); [auto |].
    destruct (GPSY_SET_PROP w3 dc _ (out_ua g1)) as [r4 w4].
    destruct (r4 <? 0); [auto |].
    pose proof (gcpm_dc_enable_active g1 (dcen_gpio_set g1 w4 1) true) as E.
    destruct (gcpm_dc_enable g1 (dcen_gpio_set g1 w4 1) true)
      as [[r5 g5] w5].
    destruct E as (Av5 & I5 & A5).
    assert (R5 : active_registered g5)
      by (apply (active_registered_step g1 g5 0 Av5); [tauto | exact R1]).
    destruct (r5 <? 0); cbn [fst]; split; congruence.
  - assert (D : forall g0 w0,
               active_registered g0 ->
               active_registered
                 (snd (fst (gcpm_dc_stop_default_online g0 w0 final_state)))
               /\ init_complete
                    (snd (fst (gcpm_dc_stop_default_online g0 w0 final_state)))
                  = init_complete g0).
    { intros g0 w0 R0. unfold gcpm_dc_stop_default_online.
      pose proof (gcpm_chg_set_online_active g0 w0 0) as S.
      destruct (gcpm_chg_set_online g0 w0 0) as [[r g1] w1].
      destruct S as (Av & I & A).
      assert (R1 : active_registered g1)
        by exact (active_registered_step g0 g1 0 Av A R0).
      destruct (r <? 0); cbn [fst snd]; auto. }
    unfold gcpm_dc_stop.
    destruct ((dc_state g =? DC_RUNNING) || (dc_state g =? DC_PASSTHROUGH)).
    + pose proof (gcpm_dc_enable_active g (dcen_gpio_set g w 0) false) as E.
      destruct (gcpm_dc_enable g (dcen_gpio_set g w 0) false)
        as [[r1 g1] w1].
      destruct E as (Av1 & I1 & A1).
      assert (R1 : active_registered g1)
        by (apply (active_registered_step g g1 0 Av1); [tauto | exact R]).
      destruct (r1 <? 0); [cbn [fst]; auto |].
      destruct (D (set_dc_state g1 DC_ENABLE) w1 R1) as [D1 D2].
      destruct (gcpm_dc_stop_default_online (set_dc_state g1 DC_ENABLE) w1
                  final_state) as [[r2 g2] w2].
      cbn [fst snd] in *. split; [exact D1 | rewrite D2; exact I1].
    + destruct ((dc_state g =? DC_ENABLE)
                || (dc_state g =? DC_ENABLE_PASSTHROUGH)).
      * destruct (D g (dcen_gpio_set g w 0) R) as [D1 D2].
        destruct (gcpm_dc_stop_default_online g (dcen_gpio_set g w 0)
                    final_state) as [[r2 g2] w2].
        cbn [fst snd] in *. auto.
      * cbn [fst]. auto.
  - pose proof (gcpm_chg_ping_forget g w index false) as P.
    destruct (gcpm_chg_ping g w index false) as [[r g1] w1].
    destruct P as (-> & _). cbn [fst]. auto.
Qed.

Lemma run_ops_registered ops :
  forall g w,
    active_registered g ->
    active_registered (fst (run_ops ops g w))
    /\ init_complete (fst (run_ops ops g w)) = init_complete g.
Proof.
  induction ops as [| op ops IH]; intros g w R; cbn [run_ops].
  - cbn [fst]. auto.
  - destruct (run_op_registered op g w R) as [R1 I1].
    destruct (run_op op g w) as [g1 w1]. cbn [fst] in R1, I1.
    destruct (IH g1 w1 R1) as [R2 I2]. split; congruence.
Qed.

(** The probe leaves the registry as [registry_started] has it. *)
Lemma google_cpm_probe_registry_started (zeroed : pd_pps_data)
  (dt : device_tree) (w w1 : world) (ret : Z) (s : gcpm_startup) :
  google_cpm_probe zeroed dt w = (ret, Some s, w1) ->
  registry_started (drv s).
Proof.
  unfold google_cpm_probe.
  destruct (negb (dt_alloc dt)); [discriminate |].
  destruct (match dt_psy_name dt with Some false => true | _ => false end);
    [discriminate |].
  destruct (gcpm_probe_psy_names dt true <=? 0); [discriminate |].
  destruct (match dt_wlc_dc_name dt with Some false => true | _ => false end);
    [discriminate |].
  destruct (google_cpm_probe_limits dt) as [[[[demand vmin] vlow] vmax] vhigh].
  destruct (dt_register dt <? 0); [discriminate |].
  destruct (dt_register_pps dt <? 0); [discriminate |].
  intros E. injection E as _ <- _. reflexivity.
Qed.

Lemma gcpm_init_work_chg_psy_active (s : gcpm_startup) (a : init_answers) :
  chg_psy_active (drv (gcpm_init_work s a)) = chg_psy_active (drv s).
Proof.
  unfold gcpm_init_work.
  assert (E : chg_psy_active
                (drv (gcpm_init_work_wlc (gcpm_init_work_tcpm s a) a))
              = chg_psy_active (drv s)).
  { unfold gcpm_init_work_wlc, gcpm_init_work_tcpm.
    destruct (negb (tcpm_phandle s =? 0) && is_null (tcpm_psy s));
      [destruct (ia_tcpm_psy a) as [[d |] |]; cbn [orb];
        [| | destruct (log_psy_ratelimit s =? 0)] |];
      match goal with
      | |- context [wlc_dc_name ?x && is_null (wlc_dc_psy ?x)] =>
          destruct (wlc_dc_name x && is_null (wlc_dc_psy x));
            [destruct (ia_wlc_dc_psy a);
              [| destruct (log_psy_ratelimit x =? 0)] |]
      end; reflexivity. }
  set (s2 := gcpm_init_work_wlc (gcpm_init_work_tcpm s a) a) in *.
  destruct (gcpm_init_work_chargers _ _ _ _) as [avail found].
  match goal with
  | |- context [if ?b then set_init_work _ _ else _] => destruct b
  end;
    destruct (chg_psy_at (set_chg_psy_avail (drv s2) avail) 0);
    cbn; exact E.
Qed.

(** A run of [gcpm_init_work] keeps the registry as [registry_started]
    has it: the driver becomes ready with the source of index 0
    registered and the active designation still 0, and a source that is
    registered stays so. *)
Lemma gcpm_init_work_registry_started (s : gcpm_startup) (a : init_answers) :
  0 < chg_psy_count (drv s) <= GCPM_MAX_CHARGERS ->
  Z.of_nat (length (chg_psy_avail (drv s))) = GCPM_MAX_CHARGERS ->
  registry_started (drv s) ->
  registry_started (drv (gcpm_init_work s a)).
Proof.
  intros Cnt Len St.
  destruct (gcpm_init_work_drv s a) as (Av & _ & I & _).
  pose proof (gcpm_init_work_chg_psy_active s a) as Act.
  assert (Mono : forall i, chg_psy_at (drv s) i <> None ->
                           chg_psy_at (drv (gcpm_init_work s a)) i <> None).
  { intros i. unfold chg_psy_at. rewrite Av.
    destruct (i <? 0); [auto |].
    rewrite gcpm_init_work_chargers_nth.
    destruct ((Z.to_nat i <? Z.to_nat (chg_psy_count (drv s)))%nat
              && (Z.to_nat i <? length (chg_psy_avail (drv s)))%nat);
      [| auto].
    destruct (nth (Z.to_nat i) (chg_psy_avail (drv s)) None);
      [discriminate | congruence]. }
  unfold registry_started in *. rewrite I.
  destruct (init_complete (drv s)); cbn [orb].
  - destruct St as [St | St]; [left; congruence | right].
    rewrite Act. apply Mono. exact St.
  - destruct (is_null _) eqn:N; cbn [negb]; [congruence |].
    right. rewrite Act, St. unfold chg_psy_at. cbn [Z.ltb Z.compare Z.to_nat].
    rewrite Av. intros K. rewrite K in N. discriminate.
Qed.

(** From the probe on, through the runs of [gcpm_init_work]: once the
    driver is ready, the only time at which [gcpm_chg_set_online] is
    called, the registry names a registered source or none. *)
Lemma gcpm_init_runs_registry_started (answers : list init_answers) :
  forall s : gcpm_startup,
    0 < chg_psy_count (drv s) <= GCPM_MAX_CHARGERS ->
    Z.of_nat (length (chg_psy_avail (drv s))) = GCPM_MAX_CHARGERS ->
    registry_started (drv s) ->
    init_complete (drv (gcpm_init_runs s answers)) = true ->
    active_registered (drv (gcpm_init_runs s answers)).
Proof.
  induction answers as [| a rest IH]; intros s Cnt Len St Ini.
  - cbn [gcpm_init_runs] in *. unfold registry_started in St.
    rewrite Ini in St. exact St.
  - cbn [gcpm_init_runs] in *. destruct (init_work s).
    + destruct (gcpm_init_work_drv (set_init_work s None) a)
        as (Av & C & _).
      apply IH; [rewrite C; exact Cnt | | | exact Ini].
      * rewrite Av. cbn [set_init_work drv].
        clear - Len. revert Len. generalize (chg_psy_count (drv s)).
        intros c. generalize 0.
        generalize (Z.to_nat c). intros n.
        generalize (chg_psy_avail (drv s)). clear.
        intros l z E.
        assert (L : forall n l z,
                   length (fst (gcpm_init_work_chargers (ia_chg_psy a) l z n))
                   = length l).
        { clear. induction n as [| n IHn]; intros l z.
          - destruct l; reflexivity.
          - destruct l as [| e l]; [reflexivity |].
            cbn [gcpm_init_work_chargers]. specialize (IHn l (z + 1)).
            destruct (gcpm_init_work_chargers (ia_chg_psy a) l (z + 1) n).
            cbn [fst length] in *. congruence. }
        rewrite L. exact E.
      * apply (gcpm_init_work_registry_started (set_init_work s None) a);
          assumption.
    + unfold registry_started in St. rewrite Ini in St. exact St.
Qed.
